(** * Aspeed BMC peripherals: the SMC/FMC flash controller and the I2C controller

    A shallow embedding of [hw/ssi/aspeed_smc.c] and [hw/i2c/aspeed_i2c.c].
    Machine integers are [Z] with the wrap-around of their C type written
    out ([u8], [u32], [u64]); register files and pools are lists indexed
    with stdpp's lookup and insert; collaborators (the I2C bus core, the
    DMA address spaces) are interfaces. *)

From Stdlib Require Import ZArith Lia Bool String.
From stdpp Require Import base list.

Local Open Scope Z_scope.

(** ** Fixed-width integers *)

Definition u8 (x : Z) : Z := x mod 2 ^ 8.
Definition u32 (x : Z) : Z := x mod 2 ^ 32.
Definition u64 (x : Z) : Z := x mod 2 ^ 64.

(** C truth value of an integer expression. *)
Definition nonzero (x : Z) : bool := negb (x =? 0).

(** [~m] on a 32-bit operand. *)
Definition not32 (m : Z) : Z := Z.lxor m 0xFFFFFFFF.

Definition KiB : Z := 1024.
Definition MiB : Z := 1024 * 1024.

(** The channels of [qemu_log_mask]. *)
Inductive log_mask : Type := LOG_GUEST_ERROR | LOG_UNIMP.

(** ** The SMC / FMC flash controller ([hw/ssi/aspeed_smc.c]) *)

Module SMC.

(** *** Register indices and bit fields *)

Definition R_CONF : nat := Eval cbv in Z.to_nat (0x00 / 4).
Definition CONF_ENABLE_W0 : Z := 16.
Definition CONF_FLASH_TYPE2 : Z := 4.
Definition CONF_FLASH_TYPE1 : Z := 2.
Definition CONF_FLASH_TYPE0 : Z := 0.
Definition CONF_FLASH_TYPE_SPI : Z := 0x2.

Definition R_CE_CTRL : nat := Eval cbv in Z.to_nat (0x04 / 4).
Definition CTRL_EXTENDED0 : Z := 0.

Definition R_INTR_CTRL : nat := Eval cbv in Z.to_nat (0x08 / 4).
Definition INTR_CTRL_DMA_STATUS : Z := Z.shiftl 1 11.
Definition INTR_CTRL_DMA_EN : Z := Z.shiftl 1 3.

Definition R_CTRL0 : nat := Eval cbv in Z.to_nat (0x10 / 4).
Definition CTRL_IO_DUAL_ADDR_DATA : Z := Z.shiftl 1 28.
Definition CTRL_CMD_SHIFT : Z := 16.
Definition CTRL_CMD_MASK : Z := 0xff.
Definition CTRL_DUMMY_HIGH_SHIFT : Z := 14.
Definition CTRL_AST2400_SPI_4BYTE : Z := Z.shiftl 1 13.
Definition CE_CTRL_CLOCK_FREQ_SHIFT : Z := 8.
Definition CE_CTRL_CLOCK_FREQ_MASK : Z := 0xf.
Definition CE_CTRL_CLOCK_FREQ (div : Z) : Z :=
  Z.shiftl (Z.land div CE_CTRL_CLOCK_FREQ_MASK) CE_CTRL_CLOCK_FREQ_SHIFT.
Definition CTRL_DUMMY_LOW_SHIFT : Z := 6.
Definition CTRL_CE_STOP_ACTIVE : Z := Z.shiftl 1 2.
Definition CTRL_CMD_MODE_MASK : Z := 0x3.
Definition CTRL_READMODE : Z := 0x0.
Definition CTRL_FREADMODE : Z := 0x1.
Definition CTRL_WRITEMODE : Z := 0x2.
Definition CTRL_USERMODE : Z := 0x3.

Definition R_SEG_ADDR0 : nat := Eval cbv in Z.to_nat (0x30 / 4).
Definition SEG_END_SHIFT : Z := 24.
Definition SEG_END_MASK : Z := 0xff.
Definition SEG_START_SHIFT : Z := 16.
Definition SEG_START_MASK : Z := 0xff.

Definition R_DUMMY_DATA : nat := Eval cbv in Z.to_nat (0x54 / 4).

Definition R_DMA_CTRL : nat := Eval cbv in Z.to_nat (0x80 / 4).
Definition DMA_CTRL_DELAY_MASK : Z := 0xf.
Definition DMA_CTRL_DELAY_SHIFT : Z := 8.
Definition DMA_CTRL_FREQ_MASK : Z := 0xf.
Definition DMA_CTRL_FREQ_SHIFT : Z := 4.
Definition DMA_CTRL_CALIB : Z := Z.shiftl 1 3.
Definition DMA_CTRL_CKSUM : Z := Z.shiftl 1 2.
Definition DMA_CTRL_WRITE : Z := Z.shiftl 1 1.
Definition DMA_CTRL_ENABLE : Z := Z.shiftl 1 0.

Definition R_DMA_FLASH_ADDR : nat := Eval cbv in Z.to_nat (0x84 / 4).
Definition R_DMA_DRAM_ADDR : nat := Eval cbv in Z.to_nat (0x88 / 4).
Definition R_DMA_LEN : nat := Eval cbv in Z.to_nat (0x8C / 4).
Definition R_DMA_CHECKSUM : nat := Eval cbv in Z.to_nat (0x90 / 4).
Definition R_TIMINGS : nat := Eval cbv in Z.to_nat (0x94 / 4).

Definition R_SPI_CONF : nat := Eval cbv in Z.to_nat (0x00 / 4).
Definition SPI_CONF_ENABLE_W0 : Z := 0.
Definition R_SPI_CTRL0 : nat := Eval cbv in Z.to_nat (0x4 / 4).
Definition R_SPI_TIMINGS : nat := Eval cbv in Z.to_nat (0x14 / 4).

Definition ASPEED_SMC_R_SPI_MAX : nat := Eval cbv in Z.to_nat (0x20 / 4).
Definition ASPEED_SMC_R_SMC_MAX : nat := Eval cbv in Z.to_nat (0x20 / 4).

(** Modelled from the spec: [ASPEED_SMC_R_MAX], the length of [regs], is
    declared in [include/hw/ssi/aspeed_smc.h], which is not among the
    sources.  The spec only says that [regs] holds one 32-bit word per
    dword-aligned offset of the register window; the window of the
    full-size controllers is 0x100 bytes. *)
Definition ASPEED_SMC_R_MAX : nat := Eval cbv in Z.to_nat (0x100 / 4).

Definition ASPEED_SOC_SMC_FLASH_BASE : Z := 0x10000000.
Definition ASPEED_SOC_FMC_FLASH_BASE : Z := 0x20000000.
Definition ASPEED_SOC_SPI_FLASH_BASE : Z := 0x30000000.
Definition ASPEED_SOC_SPI2_FLASH_BASE : Z := 0x38000000.
Definition ASPEED26_SOC_FMC_FLASH_BASE : Z := 0x20000000.
Definition ASPEED26_SOC_SPI_FLASH_BASE : Z := 0x30000000.
Definition ASPEED26_SOC_SPI2_FLASH_BASE : Z := 0x50000000.

Definition DMA_LENGTH (val : Z) : Z := Z.land val 0x01FFFFFC.

Definition SPI_OP_READ : Z := 0x03.
Definition SNOOP_OFF : Z := 0xFF.
Definition SNOOP_START : Z := 0x0.

(** *** Segments *)

(** Modelled from the spec: [AspeedSegments] is declared in the absent
    header; a segment is the pair (base, size) of a chip-select's
    sub-window.  [seg_addr] is a [hwaddr] (64 bits) and [seg_size] a
    [uint32_t], the widths the printing and the arithmetic of the source
    are written for. *)
Record AspeedSegments : Type := mkSeg { seg_addr : Z; seg_size : Z }.

(** The default tables; the source tells controllers apart by the address
    of their table, which the model keeps as a tag. *)
Inductive segments_table : Type :=
  | aspeed_segments_legacy
  | aspeed_segments_fmc
  | aspeed_segments_spi
  | aspeed_segments_ast2500_fmc
  | aspeed_segments_ast2500_spi1
  | aspeed_segments_ast2500_spi2
  | aspeed_segments_ast2600_fmc
  | aspeed_segments_ast2600_spi1
  | aspeed_segments_ast2600_spi2.

#[global] Instance segments_table_eq_dec : EqDecision segments_table.
Proof. solve_decision. Defined.

Definition segments_entries (t : segments_table) : list AspeedSegments :=
  match t with
  | aspeed_segments_legacy => [ mkSeg 0x10000000 (32 * 1024 * 1024) ]
  | aspeed_segments_fmc =>
      [ mkSeg 0x20000000 (64 * 1024 * 1024);
        mkSeg 0x24000000 (32 * 1024 * 1024);
        mkSeg 0x26000000 (32 * 1024 * 1024);
        mkSeg 0x28000000 (32 * 1024 * 1024);
        mkSeg 0x2A000000 (32 * 1024 * 1024) ]
  | aspeed_segments_spi => [ mkSeg 0x30000000 (64 * 1024 * 1024) ]
  | aspeed_segments_ast2500_fmc =>
      [ mkSeg 0x20000000 (128 * 1024 * 1024);
        mkSeg 0x28000000 (32 * 1024 * 1024);
        mkSeg 0x2A000000 (32 * 1024 * 1024) ]
  | aspeed_segments_ast2500_spi1 =>
      [ mkSeg 0x30000000 (32 * 1024 * 1024);
        mkSeg 0x32000000 (96 * 1024 * 1024) ]
  | aspeed_segments_ast2500_spi2 =>
      [ mkSeg 0x38000000 (32 * 1024 * 1024);
        mkSeg 0x3A000000 (96 * 1024 * 1024) ]
  | aspeed_segments_ast2600_fmc =>
      [ mkSeg 0x0 (128 * MiB); mkSeg 0x0 0; mkSeg 0x0 0 ]
  | aspeed_segments_ast2600_spi1 =>
      [ mkSeg 0x0 (128 * MiB); mkSeg 0x0 0 ]
  | aspeed_segments_ast2600_spi2 =>
      [ mkSeg 0x0 (128 * MiB); mkSeg 0x0 0; mkSeg 0x0 0 ]
  end.

(** The segment codecs read nothing of the device state but
    [s->ctrl->flash_window_base], which is their first argument here. *)

(** AST2400 / AST2500: absolute addresses in 8MB units. *)
Definition aspeed_smc_segment_to_reg (flash_window_base : Z)
    (seg : AspeedSegments) : Z :=
  let reg := 0 in
  let reg := u32 (Z.lor reg
    (Z.shiftl (Z.land (Z.shiftr (seg_addr seg) 23) SEG_START_MASK)
              SEG_START_SHIFT)) in
  let reg := u32 (Z.lor reg
    (Z.shiftl (Z.land (Z.shiftr (u64 (seg_addr seg + seg_size seg)) 23)
                      SEG_END_MASK)
              SEG_END_SHIFT)) in
  reg.

Definition aspeed_smc_reg_to_segment (flash_window_base : Z) (reg : Z)
    : AspeedSegments :=
  let addr :=
    Z.shiftl (Z.land (Z.shiftr reg SEG_START_SHIFT) SEG_START_MASK) 23 in
  let size :=
    u32 (Z.shiftl (Z.land (Z.shiftr reg SEG_END_SHIFT) SEG_END_MASK) 23
         - addr) in
  mkSeg addr size.

(** AST2600: offsets in the controller window, 1MB units; only bits
    [27:20] are relevant and the end is an upper bound. *)
Definition AST2600_SEG_ADDR_MASK : Z := 0x0ff00000.

Definition aspeed_2600_smc_segment_to_reg (flash_window_base : Z)
    (seg : AspeedSegments) : Z :=
  let reg := 0 in
  if seg_size seg =? 0 then 0
  else
    let reg := u32 (Z.lor reg
      (Z.shiftr (Z.land (seg_addr seg) AST2600_SEG_ADDR_MASK) 16)) in
    let reg := u32 (Z.lor reg
      (Z.land (u64 (seg_addr seg + seg_size seg - 1))
              AST2600_SEG_ADDR_MASK)) in
    reg.

Definition aspeed_2600_smc_reg_to_segment (flash_window_base : Z) (reg : Z)
    : AspeedSegments :=
  let start_offset := Z.land (u32 (Z.shiftl reg 16)) AST2600_SEG_ADDR_MASK in
  let end_offset := Z.land reg AST2600_SEG_ADDR_MASK in
  mkSeg (u64 (flash_window_base + start_offset))
        (u32 (end_offset + MiB - start_offset)).

(** *** Controller descriptors *)

Record AspeedSMCController : Type := mkCtrl {
  name : string;
  r_conf : nat;
  r_ce_ctrl : nat;
  r_ctrl0 : nat;
  r_timings : nat;
  conf_enable_w0 : Z;
  max_slaves : nat;
  segments : segments_table;
  flash_window_base : Z;
  flash_window_size : Z;
  has_dma : bool;
  dma_flash_mask : Z;
  dma_dram_mask : Z;
  nregs : nat;
  segment_to_reg : Z -> AspeedSegments -> Z;
  reg_to_segment : Z -> Z -> AspeedSegments
}.

Definition smc_ast2400 : AspeedSMCController :=
  mkCtrl "aspeed.smc-ast2400" R_CONF R_CE_CTRL R_CTRL0 R_TIMINGS
    CONF_ENABLE_W0 5 aspeed_segments_legacy
    ASPEED_SOC_SMC_FLASH_BASE 0x6000000 false 0 0 ASPEED_SMC_R_SMC_MAX
    aspeed_smc_segment_to_reg aspeed_smc_reg_to_segment.

Definition fmc_ast2400 : AspeedSMCController :=
  mkCtrl "aspeed.fmc-ast2400" R_CONF R_CE_CTRL R_CTRL0 R_TIMINGS
    CONF_ENABLE_W0 5 aspeed_segments_fmc
    ASPEED_SOC_FMC_FLASH_BASE 0x10000000 true 0x0FFFFFFC 0x1FFFFFFC
    ASPEED_SMC_R_MAX
    aspeed_smc_segment_to_reg aspeed_smc_reg_to_segment.

Definition spi1_ast2400 : AspeedSMCController :=
  mkCtrl "aspeed.spi1-ast2400" R_SPI_CONF 0xff%nat R_SPI_CTRL0 R_SPI_TIMINGS
    SPI_CONF_ENABLE_W0 1 aspeed_segments_spi
    ASPEED_SOC_SPI_FLASH_BASE 0x10000000 false 0 0 ASPEED_SMC_R_SPI_MAX
    aspeed_smc_segment_to_reg aspeed_smc_reg_to_segment.

Definition fmc_ast2500 : AspeedSMCController :=
  mkCtrl "aspeed.fmc-ast2500" R_CONF R_CE_CTRL R_CTRL0 R_TIMINGS
    CONF_ENABLE_W0 3 aspeed_segments_ast2500_fmc
    ASPEED_SOC_FMC_FLASH_BASE 0x10000000 true 0x0FFFFFFC 0x3FFFFFFC
    ASPEED_SMC_R_MAX
    aspeed_smc_segment_to_reg aspeed_smc_reg_to_segment.

Definition spi1_ast2500 : AspeedSMCController :=
  mkCtrl "aspeed.spi1-ast2500" R_CONF R_CE_CTRL R_CTRL0 R_TIMINGS
    CONF_ENABLE_W0 2 aspeed_segments_ast2500_spi1
    ASPEED_SOC_SPI_FLASH_BASE 0x8000000 false 0 0 ASPEED_SMC_R_MAX
    aspeed_smc_segment_to_reg aspeed_smc_reg_to_segment.

Definition spi2_ast2500 : AspeedSMCController :=
  mkCtrl "aspeed.spi2-ast2500" R_CONF R_CE_CTRL R_CTRL0 R_TIMINGS
    CONF_ENABLE_W0 2 aspeed_segments_ast2500_spi2
    ASPEED_SOC_SPI2_FLASH_BASE 0x8000000 false 0 0 ASPEED_SMC_R_MAX
    aspeed_smc_segment_to_reg aspeed_smc_reg_to_segment.

Definition fmc_ast2600 : AspeedSMCController :=
  mkCtrl "aspeed.fmc-ast2600" R_CONF R_CE_CTRL R_CTRL0 R_TIMINGS
    CONF_ENABLE_W0 3 aspeed_segments_ast2600_fmc
    ASPEED26_SOC_FMC_FLASH_BASE 0x10000000 true 0 0 ASPEED_SMC_R_MAX
    aspeed_2600_smc_segment_to_reg aspeed_2600_smc_reg_to_segment.

Definition spi1_ast2600 : AspeedSMCController :=
  mkCtrl "aspeed.spi1-ast2600" R_CONF R_CE_CTRL R_CTRL0 R_TIMINGS
    CONF_ENABLE_W0 2 aspeed_segments_ast2600_spi1
    ASPEED26_SOC_SPI_FLASH_BASE 0x10000000 false 0 0 ASPEED_SMC_R_MAX
    aspeed_2600_smc_segment_to_reg aspeed_2600_smc_reg_to_segment.

Definition spi2_ast2600 : AspeedSMCController :=
  mkCtrl "aspeed.spi2-ast2600" R_CONF R_CE_CTRL R_CTRL0 R_TIMINGS
    CONF_ENABLE_W0 3 aspeed_segments_ast2600_spi2
    ASPEED26_SOC_SPI2_FLASH_BASE 0x10000000 false 0 0 ASPEED_SMC_R_MAX
    aspeed_2600_smc_segment_to_reg aspeed_2600_smc_reg_to_segment.

Definition controllers : list AspeedSMCController :=
  [ smc_ast2400; fmc_ast2400; spi1_ast2400; fmc_ast2500; spi1_ast2500;
    spi2_ast2500; fmc_ast2600; spi1_ast2600; spi2_ast2600 ].

(** [s->ctrl->segment_to_reg(s, seg)] and [s->ctrl->reg_to_segment(s, reg, &seg)]. *)
Definition encode (c : AspeedSMCController) (seg : AspeedSegments) : Z :=
  segment_to_reg c (flash_window_base c) seg.
Definition decode (c : AspeedSMCController) (reg : Z) : AspeedSegments :=
  reg_to_segment c (flash_window_base c) reg.

(** The unit of the registers of a controller: 1MB for the AST2600
    encoding, 8MB for the absolute one. *)
Definition uses_offset_encoding (c : AspeedSMCController) : bool :=
  match segments c with
  | aspeed_segments_ast2600_fmc
  | aspeed_segments_ast2600_spi1
  | aspeed_segments_ast2600_spi2 => true
  | _ => false
  end.
Definition segment_unit (c : AspeedSMCController) : Z :=
  if uses_offset_encoding c then MiB else 8 * MiB.

(** *** Collaborators *)

(** The SPI bus: [ssi_transfer(bus, out)] shifts one byte out and returns
    what the selected slave shifted in. *)
Class SSIBus (S : Type) : Type := ssi_transfer : S -> Z -> S * Z.

(** A DMA address space: [address_space_ldl_le] and [address_space_stl_le]
    with [None] standing for a result other than [MEMTX_OK].  This is the
    contract of the memory API the DMA engine is written against.  In
    the device [flash_as] is rooted at the flash window, so a DMA access
    to it is served by [aspeed_smc_flash_read] or [aspeed_smc_flash_write]
    of the chip-select it addresses, which drive the SPI bus, the
    chip-select line and the CE_STOP_ACTIVE bit of its control register
    and may log; this is behind the interface, and what is stated about a
    DMA is stated about the DMA registers, INTR_CTRL, the interrupt line
    and the memories. *)
Class AddressSpace (A : Type) : Type := {
  address_space_ldl_le : A -> Z -> option Z;
  address_space_stl_le : A -> Z -> Z -> option A
}.

(** The messages this file logs. *)
Inductive log_msg : Type :=
  | msg_segment_overlap (cs i : nat)
  | msg_cs0_start_address (addr : Z)
  | msg_end_address (cs : nat) (end_addr : Z)
  | msg_segment_invalid (cs : nat) (addr end_addr : Z)
  | msg_segment_not_aligned (cs : nat) (addr end_addr : Z)
  | msg_default_access (addr : Z)
  | msg_no_command (mode : Z)
  | msg_invalid_address (addr : Z) (cs : nat)
  | msg_invalid_flash_mode (mode : Z)
  | msg_not_writable (addr : Z)
  | msg_not_implemented (addr : Z)
  | msg_invalid_hclk (mask : Z)
  | msg_dma_invalid_direction
  | msg_flash_read_failed (addr : Z)
  | msg_dram_read_failed (addr : Z)
  | msg_flash_write_failed (addr : Z)
  | msg_dram_write_failed (addr : Z)
  | msg_dma_in_progress
  | msg_num_cs (max : nat).

(** The sub-region [fl->mmio] of a chip-select inside the flash window. *)
Record MemoryRegion : Type := mkMR {
  mr_addr : Z;
  mr_size : Z;
  mr_enabled : bool
}.

Section Device.
Context {SPI AS : Type} `{!SSIBus SPI} `{!AddressSpace AS}.

(** [AspeedSMCState].  The register offsets copied into the state by
    [realize] are read from [ctrl].  [irq] is the history of the levels
    driven on the controller (DMA) interrupt line and [log] the history of
    the log records, both most recent first. *)
Record AspeedSMCState : Type := mkState {
  ctrl : AspeedSMCController;
  regs : list Z;
  num_cs : nat;
  snoop_index : Z;
  snoop_dummies : Z;
  inject_failure : bool;
  sdram_base : Z;
  flashes : list MemoryRegion;
  cs_lines : list bool;
  irq : list bool;
  spi : SPI;
  flash_as : AS;
  dram_as : AS;
  log : list (log_mask * log_msg)
}.

Definition set_regs (r : list Z) (s : AspeedSMCState) : AspeedSMCState :=
  mkState (ctrl s) r (num_cs s) (snoop_index s) (snoop_dummies s)
    (inject_failure s) (sdram_base s) (flashes s) (cs_lines s) (irq s)
    (spi s) (flash_as s) (dram_as s) (log s).
Definition set_snoop_index (v : Z) (s : AspeedSMCState) : AspeedSMCState :=
  mkState (ctrl s) (regs s) (num_cs s) v (snoop_dummies s)
    (inject_failure s) (sdram_base s) (flashes s) (cs_lines s) (irq s)
    (spi s) (flash_as s) (dram_as s) (log s).
Definition set_snoop_dummies (v : Z) (s : AspeedSMCState) : AspeedSMCState :=
  mkState (ctrl s) (regs s) (num_cs s) (snoop_index s) v
    (inject_failure s) (sdram_base s) (flashes s) (cs_lines s) (irq s)
    (spi s) (flash_as s) (dram_as s) (log s).
Definition set_flashes (f : list MemoryRegion) (s : AspeedSMCState)
    : AspeedSMCState :=
  mkState (ctrl s) (regs s) (num_cs s) (snoop_index s) (snoop_dummies s)
    (inject_failure s) (sdram_base s) f (cs_lines s) (irq s)
    (spi s) (flash_as s) (dram_as s) (log s).
Definition set_cs_lines (l : list bool) (s : AspeedSMCState)
    : AspeedSMCState :=
  mkState (ctrl s) (regs s) (num_cs s) (snoop_index s) (snoop_dummies s)
    (inject_failure s) (sdram_base s) (flashes s) l (irq s)
    (spi s) (flash_as s) (dram_as s) (log s).
Definition set_irq (l : list bool) (s : AspeedSMCState) : AspeedSMCState :=
  mkState (ctrl s) (regs s) (num_cs s) (snoop_index s) (snoop_dummies s)
    (inject_failure s) (sdram_base s) (flashes s) (cs_lines s) l
    (spi s) (flash_as s) (dram_as s) (log s).
Definition set_spi (b : SPI) (s : AspeedSMCState) : AspeedSMCState :=
  mkState (ctrl s) (regs s) (num_cs s) (snoop_index s) (snoop_dummies s)
    (inject_failure s) (sdram_base s) (flashes s) (cs_lines s) (irq s)
    b (flash_as s) (dram_as s) (log s).
Definition set_flash_as (a : AS) (s : AspeedSMCState) : AspeedSMCState :=
  mkState (ctrl s) (regs s) (num_cs s) (snoop_index s) (snoop_dummies s)
    (inject_failure s) (sdram_base s) (flashes s) (cs_lines s) (irq s)
    (spi s) a (dram_as s) (log s).
Definition set_dram_as (a : AS) (s : AspeedSMCState) : AspeedSMCState :=
  mkState (ctrl s) (regs s) (num_cs s) (snoop_index s) (snoop_dummies s)
    (inject_failure s) (sdram_base s) (flashes s) (cs_lines s) (irq s)
    (spi s) (flash_as s) a (log s).
Definition set_log (l : list (log_mask * log_msg)) (s : AspeedSMCState)
    : AspeedSMCState :=
  mkState (ctrl s) (regs s) (num_cs s) (snoop_index s) (snoop_dummies s)
    (inject_failure s) (sdram_base s) (flashes s) (cs_lines s) (irq s)
    (spi s) (flash_as s) (dram_as s) l.

(** [s->regs[i]] and [s->regs[i] = v]; every index the source uses is
    below [ASPEED_SMC_R_MAX]. *)
Definition reg (s : AspeedSMCState) (i : nat) : Z := regs s !!! i.
Definition set_reg (i : nat) (v : Z) (s : AspeedSMCState) : AspeedSMCState :=
  set_regs (<[i := v]> (regs s)) s.

Definition qemu_log_mask (m : log_mask) (e : log_msg) (s : AspeedSMCState)
    : AspeedSMCState :=
  set_log ((m, e) :: log s) s.

(** [qemu_set_irq(s->cs_lines[cs], level)]; there are [num_cs] lines.
    For [num_cs <= cs] the source indexes [cs_lines] past its end (the
    flash handlers of a chip-select that has no line); the update of the
    list does nothing there, and what is stated about the lines is stated
    for [cs < num_cs]. *)
Definition set_cs_line (cs : nat) (level : bool) (s : AspeedSMCState)
    : AspeedSMCState :=
  set_cs_lines (<[cs := level]> (cs_lines s)) s.

Definition qemu_irq_raise (s : AspeedSMCState) : AspeedSMCState :=
  set_irq (true :: irq s) s.
Definition qemu_irq_lower (s : AspeedSMCState) : AspeedSMCState :=
  set_irq (false :: irq s) s.

(** [ssi_transfer(s->spi, out)], with the byte shifted in. *)
Definition spi_transfer (out : Z) (s : AspeedSMCState) : AspeedSMCState * Z :=
  let '(b, r) := ssi_transfer (spi s) out in (set_spi b s, r).

(** *** Segment registers *)

#[local] Instance AspeedSegments_inhabited : Inhabited AspeedSegments :=
  populate (mkSeg 0 0).

(** [s->ctrl->segments[i]].  An index past the table is an out-of-bounds
    read in C; the total lookup is used only where the source itself
    guards the access ([aspeed_smc_flash_set_segment]), and the
    initialisation paths use the partial one below. *)
Definition segments_at (c : AspeedSMCController) (i : nat) : AspeedSegments :=
  segments_entries (segments c) !!! i.
Definition segments_at_opt (c : AspeedSMCController) (i : nat)
    : option AspeedSegments :=
  segments_entries (segments c) !! i.

Definition seg_end (seg : AspeedSegments) : Z :=
  u64 (seg_addr seg + seg_size seg).

Fixpoint flash_overlap_loop (idx : list nat) (new : AspeedSegments) (cs : nat)
    (s : AspeedSMCState) : AspeedSMCState * bool :=
  match idx with
  | [] => (s, false)
  | i :: rest =>
      if (i =? cs)%nat then flash_overlap_loop rest new cs s
      else
        let seg := decode (ctrl s) (reg s (R_SEG_ADDR0 + i)) in
        if (seg_addr seg <? seg_end new) && (seg_addr new <? seg_end seg)
        then (qemu_log_mask LOG_GUEST_ERROR (msg_segment_overlap cs i) s, true)
        else flash_overlap_loop rest new cs s
  end.

Definition aspeed_smc_flash_overlap (s : AspeedSMCState)
    (new : AspeedSegments) (cs : nat) : AspeedSMCState * bool :=
  flash_overlap_loop (seq 0 (max_slaves (ctrl s))) new cs s.

Definition QEMU_IS_ALIGNED (n m : Z) : bool := n mod m =? 0.

Definition is_ast2500_spi (c : AspeedSMCController) : bool :=
  bool_decide (segments c = aspeed_segments_ast2500_spi1)
  || bool_decide (segments c = aspeed_segments_ast2500_spi2).

(** The window test of [aspeed_smc_flash_set_segment]: true when the
    segment is refused. *)
Definition segment_outside_window (c : AspeedSMCController)
    (seg : AspeedSegments) : bool :=
  (seg_end seg <=? flash_window_base c)
  || (u64 (flash_window_base c + flash_window_size c) <? seg_addr seg).

Definition aspeed_smc_flash_set_segment (s : AspeedSMCState) (cs : nat)
    (new : Z) : AspeedSMCState :=
  let c := ctrl s in
  let seg := decode c (u32 new) in
  (* The start address of CS0 is read-only *)
  let '(s, seg, new) :=
    if (cs =? 0)%nat && negb (seg_addr seg =? flash_window_base c) then
      let s := qemu_log_mask LOG_GUEST_ERROR
                 (msg_cs0_start_address (seg_addr seg)) s in
      let seg := mkSeg (flash_window_base c) (seg_size seg) in
      (s, seg, encode c seg)
    else (s, seg, new) in
  (* The end address of the AST2500 spi controllers is also read-only *)
  let '(s, seg, new) :=
    if is_ast2500_spi c && (cs =? max_slaves c)%nat
       && negb (seg_end seg =? seg_end (segments_at c cs)) then
      let s := qemu_log_mask LOG_GUEST_ERROR
                 (msg_end_address cs (seg_end seg)) s in
      let seg := mkSeg (seg_addr seg)
                   (u32 (seg_end (segments_at c cs) - seg_addr seg)) in
      (s, seg, encode c seg)
    else (s, seg, new) in
  (* Keep the segment in the overall flash window *)
  if segment_outside_window c seg then
    qemu_log_mask LOG_GUEST_ERROR
      (msg_segment_invalid cs (seg_addr seg) (seg_end seg)) s
  else
    (* Check start address vs. alignment *)
    let s :=
      if negb (seg_size seg =? 0)
         && negb (QEMU_IS_ALIGNED (seg_addr seg) (seg_size seg)) then
        qemu_log_mask LOG_GUEST_ERROR
          (msg_segment_not_aligned cs (seg_addr seg) (seg_end seg)) s
      else s in
    (* And segments should not overlap (in the specs) *)
    let s := fst (aspeed_smc_flash_overlap s seg cs) in
    (* All should be fine now to move the region *)
    let s := set_flashes
               (<[cs := mkMR (u64 (seg_addr seg - flash_window_base c))
                             (seg_size seg) true]> (flashes s)) s in
    set_reg (R_SEG_ADDR0 + cs) (u32 new) s.

(** *** Flash window accesses; [id] is [fl->id] *)

Definition aspeed_smc_flash_mode (s : AspeedSMCState) (id : nat) : Z :=
  Z.land (reg s (r_ctrl0 (ctrl s) + id)) CTRL_CMD_MODE_MASK.

Definition aspeed_smc_is_writable (s : AspeedSMCState) (id : nat) : bool :=
  nonzero (Z.land (reg s (r_conf (ctrl s)))
                  (Z.shiftl 1 (conf_enable_w0 (ctrl s) + Z.of_nat id))).

Definition aspeed_smc_flash_cmd (s : AspeedSMCState) (id : nat)
    : AspeedSMCState * Z :=
  let cmd := Z.land (Z.shiftr (reg s (r_ctrl0 (ctrl s) + id)) CTRL_CMD_SHIFT)
                    CTRL_CMD_MASK in
  let cmd := if aspeed_smc_flash_mode s id =? CTRL_READMODE
             then SPI_OP_READ else cmd in
  let s := if cmd =? 0
           then qemu_log_mask LOG_GUEST_ERROR
                  (msg_no_command (aspeed_smc_flash_mode s id)) s
           else s in
  (s, cmd).

Definition aspeed_smc_flash_is_4byte (s : AspeedSMCState) (id : nat) : bool :=
  if bool_decide (segments (ctrl s) = aspeed_segments_spi) then
    nonzero (Z.land (reg s (r_ctrl0 (ctrl s))) CTRL_AST2400_SPI_4BYTE)
  else
    nonzero (Z.land (reg s (r_ce_ctrl (ctrl s)))
                    (Z.shiftl 1 (CTRL_EXTENDED0 + Z.of_nat id))).

Definition aspeed_smc_is_ce_stop_active (s : AspeedSMCState) (id : nat)
    : bool :=
  nonzero (Z.land (reg s (r_ctrl0 (ctrl s) + id)) CTRL_CE_STOP_ACTIVE).

Definition aspeed_smc_flash_select (s : AspeedSMCState) (id : nat)
    : AspeedSMCState :=
  let i := (r_ctrl0 (ctrl s) + id)%nat in
  let s := set_reg i (Z.land (reg s i) (not32 CTRL_CE_STOP_ACTIVE)) s in
  set_cs_line id (aspeed_smc_is_ce_stop_active s id) s.

Definition aspeed_smc_flash_unselect (s : AspeedSMCState) (id : nat)
    : AspeedSMCState :=
  let i := (r_ctrl0 (ctrl s) + id)%nat in
  let s := set_reg i (Z.lor (reg s i) CTRL_CE_STOP_ACTIVE) s in
  set_cs_line id (aspeed_smc_is_ce_stop_active s id) s.

(** [addr % seg.size]: a segment of size 0 has an empty sub-region and
    receives no access; [Z.modulo] by 0 leaves the address as it is. *)
Definition aspeed_smc_check_segment_addr (s : AspeedSMCState) (id : nat)
    (addr : Z) : AspeedSMCState * Z :=
  let seg := decode (ctrl s) (reg s (R_SEG_ADDR0 + id)) in
  if negb (addr mod seg_size seg =? addr) then
    (qemu_log_mask LOG_GUEST_ERROR (msg_invalid_address addr id) s,
     addr mod seg_size seg)
  else (s, addr).

Definition aspeed_smc_flash_dummies (s : AspeedSMCState) (id : nat) : Z :=
  let r_ctrl0 := reg s (r_ctrl0 (ctrl s) + id) in
  let dummy_high := Z.land (Z.shiftr r_ctrl0 CTRL_DUMMY_HIGH_SHIFT) 0x1 in
  let dummy_low := Z.land (Z.shiftr r_ctrl0 CTRL_DUMMY_LOW_SHIFT) 0x3 in
  let dummies := u32 (Z.lor (Z.shiftl dummy_high 2) dummy_low * 8) in
  if nonzero (Z.land r_ctrl0 CTRL_IO_DUAL_ADDR_DATA) then dummies / 2
  else dummies.

(** [n] transfers of the same byte. *)
Fixpoint spi_repeat (n : nat) (out : Z) (s : AspeedSMCState)
    : AspeedSMCState :=
  match n with
  | O => s
  | S n' => spi_repeat n' out (fst (spi_transfer out s))
  end.

Definition aspeed_smc_flash_setup (s : AspeedSMCState) (id : nat) (addr : Z)
    : AspeedSMCState :=
  let '(s, cmd) := aspeed_smc_flash_cmd s id in
  let cmd := u8 cmd in
  (* Flash access can not exceed CS segment *)
  let '(s, addr) := aspeed_smc_check_segment_addr s id (u32 addr) in
  let s := fst (spi_transfer cmd s) in
  let s := if aspeed_smc_flash_is_4byte s id
           then fst (spi_transfer (Z.land (Z.shiftr addr 24) 0xff) s)
           else s in
  let s := fst (spi_transfer (Z.land (Z.shiftr addr 16) 0xff) s) in
  let s := fst (spi_transfer (Z.land (Z.shiftr addr 8) 0xff) s) in
  let s := fst (spi_transfer (Z.land addr 0xff) s) in
  if aspeed_smc_flash_mode s id =? CTRL_FREADMODE then
    spi_repeat (Z.to_nat (aspeed_smc_flash_dummies s id))
      (Z.land (reg s R_DUMMY_DATA) 0xff) s
  else s.

(** [for (i = 0; i < size; i++) ret |= ssi_transfer(s->spi, 0x0) << (8 * i)] *)
Fixpoint flash_read_bytes (n : nat) (i : Z) (ret : Z) (s : AspeedSMCState)
    : AspeedSMCState * Z :=
  match n with
  | O => (s, ret)
  | S n' =>
      let '(s, r) := spi_transfer 0x0 s in
      flash_read_bytes n' (i + 1)
        (Z.lor ret (u32 (Z.shiftl (u32 r) (8 * i)))) s
  end.

(** [for (i = 0; i < size; i++) ssi_transfer(s->spi, (data >> (8 * i)) & 0xff)] *)
Fixpoint flash_write_bytes (n : nat) (i : Z) (data : Z) (s : AspeedSMCState)
    : AspeedSMCState :=
  match n with
  | O => s
  | S n' =>
      flash_write_bytes n' (i + 1) data
        (fst (spi_transfer (Z.land (Z.shiftr data (8 * i)) 0xff) s))
  end.

Definition aspeed_smc_flash_read (s : AspeedSMCState) (id : nat)
    (addr : Z) (size : nat) : AspeedSMCState * Z :=
  let mode := aspeed_smc_flash_mode s id in
  if mode =? CTRL_USERMODE then flash_read_bytes size 0 0 s
  else if (mode =? CTRL_READMODE) || (mode =? CTRL_FREADMODE) then
    let s := aspeed_smc_flash_select s id in
    let s := aspeed_smc_flash_setup s id addr in
    let '(s, ret) := flash_read_bytes size 0 0 s in
    (aspeed_smc_flash_unselect s id, ret)
  else
    (qemu_log_mask LOG_GUEST_ERROR (msg_invalid_flash_mode mode) s, 0).

(** [FlashCMD] *)
Definition READ : Z := 0x3.
Definition READ_4 : Z := 0x13.
Definition FAST_READ : Z := 0xb.
Definition FAST_READ_4 : Z := 0x0c.
Definition DOR : Z := 0x3b.
Definition DOR_4 : Z := 0x3c.
Definition QOR : Z := 0x6b.
Definition QOR_4 : Z := 0x6c.
Definition DIOR : Z := 0xbb.
Definition DIOR_4 : Z := 0xbc.
Definition QIOR : Z := 0xeb.
Definition QIOR_4 : Z := 0xec.
Definition PP : Z := 0x2.
Definition PP_4 : Z := 0x12.
Definition DPP : Z := 0xa2.
Definition QPP : Z := 0x32.
Definition QPP_4 : Z := 0x34.

Definition aspeed_smc_num_dummies (command : Z) : Z :=
  if existsb (Z.eqb command) [READ; PP; DPP; QPP; READ_4; PP_4; QPP_4]
  then 0
  else if existsb (Z.eqb command) [FAST_READ; DOR; QOR; DOR_4; QOR_4]
  then 1
  else if existsb (Z.eqb command) [DIOR; FAST_READ_4; DIOR_4]
  then 2
  else if existsb (Z.eqb command) [QIOR; QIOR_4]
  then 4
  else -1.

(** [for (; s->snoop_dummies; s->snoop_dummies--) ssi_transfer(...)];
    [snoop_dummies] is a [uint8_t], the loop runs that many times. *)
Fixpoint snoop_dummy_loop (n : nat) (s : AspeedSMCState) : AspeedSMCState :=
  match n with
  | O => s
  | S n' =>
      if snoop_dummies s =? 0 then s
      else
        let s := fst (spi_transfer (Z.land (reg s R_DUMMY_DATA) 0xff) s) in
        snoop_dummy_loop n' (set_snoop_dummies (u8 (snoop_dummies s - 1)) s)
  end.

Definition aspeed_smc_do_snoop (s : AspeedSMCState) (id : nat) (data : Z)
    (size : nat) : AspeedSMCState * bool :=
  let addr_width := if aspeed_smc_flash_is_4byte s id then 4 else 3 in
  if snoop_index s =? SNOOP_OFF then (s, false) (* Do nothing *)
  else if snoop_index s =? SNOOP_START then
    let cmd := Z.land data 0xff in
    let ndummies := aspeed_smc_num_dummies cmd in
    (* No dummy cycles are expected with the current command *)
    if ndummies <=? 0 then (set_snoop_index SNOOP_OFF s, false)
    else
      let s := set_snoop_dummies (u8 (ndummies * 8)) s in
      (set_snoop_index (u8 (snoop_index s + Z.of_nat size)) s, false)
  else if addr_width + 1 <=? snoop_index s then
    (* The SPI transfer has reached the dummy cycles sequence *)
    let s := snoop_dummy_loop (Z.to_nat (snoop_dummies s)) s in
    (* If no more dummy cycles are expected, turn off snooping *)
    let s := if snoop_dummies s =? 0 then set_snoop_index SNOOP_OFF s
             else set_snoop_index (u8 (snoop_index s + Z.of_nat size)) s in
    (* Dummy cycles have been faked already. Ignore the current SPI transfer *)
    (s, true)
  else (set_snoop_index (u8 (snoop_index s + Z.of_nat size)) s, false).

Definition aspeed_smc_flash_write (s : AspeedSMCState) (id : nat)
    (addr : Z) (data : Z) (size : nat) : AspeedSMCState :=
  if negb (aspeed_smc_is_writable s id) then
    qemu_log_mask LOG_GUEST_ERROR (msg_not_writable addr) s
  else
    let mode := aspeed_smc_flash_mode s id in
    if mode =? CTRL_USERMODE then
      let '(s, snooped) := aspeed_smc_do_snoop s id data size in
      if snooped then s else flash_write_bytes size 0 data s
    else if mode =? CTRL_WRITEMODE then
      let s := aspeed_smc_flash_select s id in
      let s := aspeed_smc_flash_setup s id addr in
      let s := flash_write_bytes size 0 data s in
      aspeed_smc_flash_unselect s id
    else qemu_log_mask LOG_GUEST_ERROR (msg_invalid_flash_mode mode) s.

(** A run of single-byte guest writes to the window of flash [id], all
    at offset [addr]. *)
Definition flash_write_each (s : AspeedSMCState) (id : nat) (addr : Z)
    (bytes : list Z) : AspeedSMCState :=
  fold_left (fun s d => aspeed_smc_flash_write s id addr d 1) bytes s.

(** A guest write to the window of a flash: offset, data and size in
    bytes of the access. *)
Record FlashAccess : Type := mkAccess {
  acc_addr : Z;
  acc_data : Z;
  acc_size : nat
}.

(** A run of guest writes, of any size and at any offset, to the window
    of flash [id]. *)
Definition flash_write_run (s : AspeedSMCState) (id : nat)
    (ws : list FlashAccess) : AspeedSMCState :=
  fold_left
    (fun s w => aspeed_smc_flash_write s id (acc_addr w) (acc_data w)
                  (acc_size w)) ws s.

(** The bytes [(data >> (8 * i)) & 0xff] for [i] below [size], in the
    order of the loop of [aspeed_smc_flash_write]. *)
Definition data_bytes (data : Z) (size : nat) : list Z :=
  map (fun k => Z.land (Z.shiftr data (8 * Z.of_nat k)) 0xff) (seq 0 size).

Definition aspeed_smc_flash_update_cs (s : AspeedSMCState) (id : nat)
    : AspeedSMCState :=
  let s := set_snoop_index
             (if aspeed_smc_is_ce_stop_active s id then SNOOP_OFF
              else SNOOP_START) s in
  set_cs_line id (aspeed_smc_is_ce_stop_active s id) s.

(** *** Reset *)

(** Unselect all slaves *)
Fixpoint reset_unselect (idx : list nat) (s : AspeedSMCState)
    : AspeedSMCState :=
  match idx with
  | [] => s
  | i :: rest =>
      let r := (r_ctrl0 (ctrl s) + i)%nat in
      let s := set_reg r (Z.lor (reg s r) CTRL_CE_STOP_ACTIVE) s in
      reset_unselect rest (set_cs_line i true s)
  end.

(** setup default segment register values for all; [None] when the loop
    reads past the default table of the controller *)
Fixpoint reset_segments (idx : list nat) (s : AspeedSMCState)
    : option AspeedSMCState :=
  match idx with
  | [] => Some s
  | i :: rest =>
      match segments_at_opt (ctrl s) i with
      | None => None
      | Some seg =>
          reset_segments rest
            (set_reg (R_SEG_ADDR0 + i) (encode (ctrl s) seg) s)
      end
  end.

Definition conf_strap (shift : Z) (s : AspeedSMCState) : AspeedSMCState :=
  let r := r_conf (ctrl s) in
  set_reg r (Z.lor (reg s r) (Z.shiftl CONF_FLASH_TYPE_SPI shift)) s.

Definition aspeed_smc_reset (s : AspeedSMCState) : option AspeedSMCState :=
  let s := set_regs (replicate ASPEED_SMC_R_MAX 0) s in
  let s := reset_unselect (seq 0 (num_cs s)) s in
  match reset_segments (seq 0 (max_slaves (ctrl s))) s with
  | None => None
  | Some s =>
      (* HW strapping flash type for the AST2600 controllers *)
      let s :=
        if bool_decide (segments (ctrl s) = aspeed_segments_ast2600_fmc) then
          conf_strap CONF_FLASH_TYPE2
            (conf_strap CONF_FLASH_TYPE1 (conf_strap CONF_FLASH_TYPE0 s))
        else s in
      (* HW strapping flash type for FMC controllers *)
      let s :=
        if bool_decide (segments (ctrl s) = aspeed_segments_ast2500_fmc) then
          conf_strap CONF_FLASH_TYPE1 (conf_strap CONF_FLASH_TYPE0 s)
        else s in
      (* HW strapping for AST2400 FMC controllers (SCU70) *)
      let s :=
        if bool_decide (segments (ctrl s) = aspeed_segments_fmc) then
          conf_strap CONF_FLASH_TYPE0 s
        else s in
      Some (set_snoop_dummies 0 (set_snoop_index SNOOP_OFF s))
  end.

(** *** Register window *)

Definition smc_readable (s : AspeedSMCState) (addr : nat) : bool :=
  let c := ctrl s in
  (addr =? r_conf c)%nat
  || (addr =? r_timings c)%nat
  || (addr =? r_ce_ctrl c)%nat
  || (addr =? R_INTR_CTRL)%nat
  || (addr =? R_DUMMY_DATA)%nat
  || (has_dma c && (addr =? R_DMA_CTRL)%nat)
  || (has_dma c && (addr =? R_DMA_FLASH_ADDR)%nat)
  || (has_dma c && (addr =? R_DMA_DRAM_ADDR)%nat)
  || (has_dma c && (addr =? R_DMA_LEN)%nat)
  || (has_dma c && (addr =? R_DMA_CHECKSUM)%nat)
  || ((R_SEG_ADDR0 <=? addr)%nat && (addr <? R_SEG_ADDR0 + max_slaves c)%nat)
  || ((r_ctrl0 c <=? addr)%nat && (addr <? r_ctrl0 c + max_slaves c)%nat).

(** The value read is a [uint64_t]; [-1] is all ones. *)
Definition aspeed_smc_read (s : AspeedSMCState) (addr : Z)
    : AspeedSMCState * Z :=
  let addr := Z.to_nat (Z.shiftr addr 2) in
  if smc_readable s addr then (s, reg s addr)
  else (qemu_log_mask LOG_UNIMP (msg_not_implemented (Z.of_nat addr)) s,
        u64 (-1)).

(** *** DMA engine *)

(** HCLK/1 .. HCLK/16 *)
Definition hclk_divisors : list Z :=
  [15; 7; 14; 6; 13; 5; 12; 4; 11; 3; 10; 2; 9; 1; 8; 0].

Fixpoint hclk_divisor_from (i : Z) (tbl : list Z) (hclk_mask : Z) : Z :=
  match tbl with
  | [] => 0
  | d :: rest =>
      if hclk_mask =? d then u8 (i + 1)
      else hclk_divisor_from (i + 1) rest hclk_mask
  end.

Definition aspeed_smc_hclk_divisor (s : AspeedSMCState) (hclk_mask : Z)
    : AspeedSMCState * Z :=
  let d := hclk_divisor_from 0 hclk_divisors hclk_mask in
  if existsb (Z.eqb hclk_mask) hclk_divisors then (s, d)
  else (qemu_log_mask LOG_GUEST_ERROR (msg_invalid_hclk hclk_mask) s, 0).

Definition dma_ctrl_delay (s : AspeedSMCState) : Z :=
  u8 (Z.land (Z.shiftr (reg s R_DMA_CTRL) DMA_CTRL_DELAY_SHIFT)
             DMA_CTRL_DELAY_MASK).
Definition dma_ctrl_hclk_mask (s : AspeedSMCState) : Z :=
  u8 (Z.land (Z.shiftr (reg s R_DMA_CTRL) DMA_CTRL_FREQ_SHIFT)
             DMA_CTRL_FREQ_MASK).

Definition aspeed_smc_dma_calibration (s : AspeedSMCState) : AspeedSMCState :=
  let delay := dma_ctrl_delay s in
  let hclk_mask := dma_ctrl_hclk_mask s in
  let '(s, hclk_div) := aspeed_smc_hclk_divisor s hclk_mask in
  let hclk_shift := u32 (Z.shiftl (hclk_div - 1) 2) in
  (* only HCLK/1 - HCLK/5 can have tunable delays *)
  let s :=
    if nonzero hclk_div && (hclk_div <? 6) then
      let t := r_timings (ctrl s) in
      let s := set_reg t
                 (Z.land (reg s t) (not32 (u32 (Z.shiftl 0xf hclk_shift)))) s in
      set_reg t (Z.lor (reg s t) (u32 (Z.shiftl delay hclk_shift))) s
    else s in
  let cs := 0%nat in
  let r := (r_ctrl0 (ctrl s) + cs)%nat in
  let s := set_reg r
             (Z.land (reg s r)
                (not32 (Z.shiftl CE_CTRL_CLOCK_FREQ_MASK
                                 CE_CTRL_CLOCK_FREQ_SHIFT))) s in
  set_reg r (Z.lor (reg s r) (CE_CTRL_CLOCK_FREQ hclk_div)) s.

(** The [default:] of the switch is [g_assert_not_reached()]: the divisor
    of a 4-bit mask is always in 1..16. *)
Definition aspeed_smc_inject_read_failure (s : AspeedSMCState) : bool :=
  let delay := dma_ctrl_delay s in
  let hclk_mask := dma_ctrl_hclk_mask s in
  let d := snd (aspeed_smc_hclk_divisor s hclk_mask) in
  if (4 <=? d) && (d <=? 16) then false
  else if d =? 3 then Z.land delay 0x7 <? 1
  else if d =? 2 then Z.land delay 0x7 <? 2
  else if d =? 1 then true
  else false.

(** The body of [while (s->regs[R_DMA_LEN])] in [aspeed_smc_dma_checksum];
    the flag tells whether the loop ran to its end ([false]: a failed read
    returned from the function).  [None]: out of fuel. *)
Fixpoint dma_checksum_loop (fuel : nat) (s : AspeedSMCState)
    : option (AspeedSMCState * bool) :=
  if reg s R_DMA_LEN =? 0 then Some (s, true)
  else
    match fuel with
    | O => None
    | S fuel' =>
        match address_space_ldl_le (flash_as s) (reg s R_DMA_FLASH_ADDR) with
        | None =>
            Some (qemu_log_mask LOG_GUEST_ERROR
                    (msg_flash_read_failed (reg s R_DMA_FLASH_ADDR)) s, false)
        | Some data =>
            let s := set_reg R_DMA_CHECKSUM
                       (u32 (reg s R_DMA_CHECKSUM + data)) s in
            let s := set_reg R_DMA_FLASH_ADDR
                       (u32 (reg s R_DMA_FLASH_ADDR + 4)) s in
            let s := set_reg R_DMA_LEN (u32 (reg s R_DMA_LEN - 4)) s in
            dma_checksum_loop fuel' s
        end
    end.

Definition aspeed_smc_dma_checksum (fuel : nat) (s : AspeedSMCState)
    : option AspeedSMCState :=
  if nonzero (Z.land (reg s R_DMA_CTRL) DMA_CTRL_WRITE) then
    Some (qemu_log_mask LOG_GUEST_ERROR msg_dma_invalid_direction s)
  else
    let s := if nonzero (Z.land (reg s R_DMA_CTRL) DMA_CTRL_CALIB)
             then aspeed_smc_dma_calibration s else s in
    match dma_checksum_loop fuel s with
    | None => None
    | Some (s, false) => Some s
    | Some (s, true) =>
        if inject_failure s && aspeed_smc_inject_read_failure s
        then Some (set_reg R_DMA_CHECKSUM 0xbadc0de s)
        else Some s
    end.

(** One word of [aspeed_smc_dma_rw]: the data moved, or the state with the
    error logged. *)
Definition dma_rw_word (s : AspeedSMCState)
    : AspeedSMCState * option Z :=
  let fa := reg s R_DMA_FLASH_ADDR in
  let da := reg s R_DMA_DRAM_ADDR in
  if nonzero (Z.land (reg s R_DMA_CTRL) DMA_CTRL_WRITE) then
    match address_space_ldl_le (dram_as s) da with
    | None => (qemu_log_mask LOG_GUEST_ERROR (msg_dram_read_failed da) s, None)
    | Some data =>
        match address_space_stl_le (flash_as s) fa data with
        | None =>
            (qemu_log_mask LOG_GUEST_ERROR (msg_flash_write_failed fa) s, None)
        | Some a => (set_flash_as a s, Some data)
        end
    end
  else
    match address_space_ldl_le (flash_as s) fa with
    | None => (qemu_log_mask LOG_GUEST_ERROR (msg_flash_read_failed fa) s, None)
    | Some data =>
        match address_space_stl_le (dram_as s) da data with
        | None =>
            (qemu_log_mask LOG_GUEST_ERROR (msg_dram_write_failed da) s, None)
        | Some a => (set_dram_as a s, Some data)
        end
    end.

Fixpoint aspeed_smc_dma_rw (fuel : nat) (s : AspeedSMCState)
    : option AspeedSMCState :=
  if reg s R_DMA_LEN =? 0 then Some s
  else
    match fuel with
    | O => None
    | S fuel' =>
        match dma_rw_word s with
        | (s, None) => Some s
        | (s, Some data) =>
            let s := set_reg R_DMA_FLASH_ADDR
                       (u32 (reg s R_DMA_FLASH_ADDR + 4)) s in
            let s := set_reg R_DMA_DRAM_ADDR
                       (u32 (reg s R_DMA_DRAM_ADDR + 4)) s in
            let s := set_reg R_DMA_LEN (u32 (reg s R_DMA_LEN - 4)) s in
            let s := set_reg R_DMA_CHECKSUM
                       (u32 (reg s R_DMA_CHECKSUM + data)) s in
            aspeed_smc_dma_rw fuel' s
        end
    end.

Definition aspeed_smc_dma_stop (s : AspeedSMCState) : AspeedSMCState :=
  (* INTR_CTRL_DMA_STATUS=0 means the engine is idle *)
  let s := set_reg R_INTR_CTRL
             (Z.land (reg s R_INTR_CTRL) (not32 INTR_CTRL_DMA_STATUS)) s in
  let s := set_reg R_DMA_CHECKSUM 0 s in
  (* Lower the DMA irq in any case *)
  qemu_irq_lower s.

Definition aspeed_smc_dma_in_progress (s : AspeedSMCState) : bool :=
  nonzero (Z.land (reg s R_DMA_CTRL) DMA_CTRL_ENABLE)
  && negb (nonzero (Z.land (reg s R_INTR_CTRL) INTR_CTRL_DMA_STATUS)).

Definition aspeed_smc_dma_done (s : AspeedSMCState) : AspeedSMCState :=
  let s := set_reg R_INTR_CTRL
             (Z.lor (reg s R_INTR_CTRL) INTR_CTRL_DMA_STATUS) s in
  if nonzero (Z.land (reg s R_INTR_CTRL) INTR_CTRL_DMA_EN)
  then qemu_irq_raise s else s.

Definition aspeed_smc_dma_ctrl (fuel : nat) (s : AspeedSMCState)
    (dma_ctrl : Z) : option AspeedSMCState :=
  if negb (nonzero (Z.land dma_ctrl DMA_CTRL_ENABLE)) then
    Some (aspeed_smc_dma_stop (set_reg R_DMA_CTRL (u32 dma_ctrl) s))
  else if aspeed_smc_dma_in_progress s then
    Some (qemu_log_mask LOG_GUEST_ERROR msg_dma_in_progress s)
  else
    let s := set_reg R_DMA_CTRL (u32 dma_ctrl) s in
    let r := if nonzero (Z.land (reg s R_DMA_CTRL) DMA_CTRL_CKSUM)
             then aspeed_smc_dma_checksum fuel s
             else aspeed_smc_dma_rw fuel s in
    match r with
    | None => None
    | Some s => Some (aspeed_smc_dma_done s)
    end.

Definition DMA_DRAM_ADDR (s : AspeedSMCState) (val : Z) : Z :=
  Z.lor (sdram_base s) (Z.land val (dma_dram_mask (ctrl s))).
Definition DMA_FLASH_ADDR (s : AspeedSMCState) (val : Z) : Z :=
  Z.lor (flash_window_base (ctrl s)) (Z.land val (dma_flash_mask (ctrl s))).

(** [aspeed_smc_write(opaque, addr, data, size)]; [fuel] bounds the DMA it
    may start. *)
Definition aspeed_smc_write (fuel : nat) (s : AspeedSMCState) (addr : Z)
    (data : Z) : option AspeedSMCState :=
  let c := ctrl s in
  let value := u32 data in
  let addr := Z.to_nat (Z.shiftr addr 2) in
  if (addr =? r_conf c)%nat || (addr =? r_timings c)%nat
     || (addr =? r_ce_ctrl c)%nat then
    Some (set_reg addr value s)
  else if (r_ctrl0 c <=? addr)%nat && (addr <? r_ctrl0 c + num_cs s)%nat then
    let cs := (addr - r_ctrl0 c)%nat in
    Some (aspeed_smc_flash_update_cs (set_reg addr value s) cs)
  else if (R_SEG_ADDR0 <=? addr)%nat
          && (addr <? R_SEG_ADDR0 + max_slaves c)%nat then
    let cs := (addr - R_SEG_ADDR0)%nat in
    if negb (value =? reg s (R_SEG_ADDR0 + cs))
    then Some (aspeed_smc_flash_set_segment s cs value)
    else Some s
  else if (addr =? R_DUMMY_DATA)%nat then
    Some (set_reg addr (Z.land value 0xff) s)
  else if (addr =? R_INTR_CTRL)%nat then
    Some (set_reg addr value s)
  else if has_dma c && (addr =? R_DMA_CTRL)%nat then
    aspeed_smc_dma_ctrl fuel s value
  else if has_dma c && (addr =? R_DMA_DRAM_ADDR)%nat then
    Some (set_reg addr (u32 (DMA_DRAM_ADDR s value)) s)
  else if has_dma c && (addr =? R_DMA_FLASH_ADDR)%nat then
    Some (set_reg addr (u32 (DMA_FLASH_ADDR s value)) s)
  else if has_dma c && (addr =? R_DMA_LEN)%nat then
    Some (set_reg addr (DMA_LENGTH value) s)
  else
    Some (qemu_log_mask LOG_UNIMP (msg_not_implemented (Z.of_nat addr)) s).

(** *** Realize *)

(** The sub-regions of [aspeed_smc_realize]: one per possible slave, laid
    out back to back with the sizes of the default table.  [None] when the
    loop reads past the table. *)
Fixpoint realize_flashes (c : AspeedSMCController) (idx : list nat)
    (offset : Z) : option (list MemoryRegion) :=
  match idx with
  | [] => Some []
  | i :: rest =>
      match segments_at_opt c i with
      | None => None
      | Some seg =>
          match realize_flashes c rest (u64 (offset + seg_size seg)) with
          | None => None
          | Some l => Some (mkMR offset (seg_size seg) true :: l)
          end
      end
  end.

(** The device after [aspeed_smc_realize], from its properties ([num-cs],
    [inject-failure], [sdram-base]) and its collaborators. *)
Definition aspeed_smc_realize (c : AspeedSMCController) (num_cs : nat)
    (inject_failure : bool) (sdram_base : Z) (bus : SPI)
    (flash dram : AS) : option AspeedSMCState :=
  let '(num_cs, lg) :=
    if (max_slaves c <? num_cs)%nat
    then (max_slaves c, [(LOG_GUEST_ERROR, msg_num_cs (max_slaves c))])
    else (num_cs, []) in
  match realize_flashes c (seq 0 (max_slaves c)) 0 with
  | None => None
  | Some fl =>
      Some (mkState c (replicate ASPEED_SMC_R_MAX 0) num_cs 0 0
              inject_failure sdram_base fl (replicate num_cs false) []
              bus flash dram lg)
  end.

(** *** Guest-visible steps *)

(** An access through the memory API: a register access falls inside the
    register window of [nregs] words, a flash access targets the
    sub-region of a chip-select with 1 to 4 bytes. *)
Inductive smc_step (s : AspeedSMCState) : AspeedSMCState -> Prop :=
  | step_write fuel addr data s' :
      0 <= addr < 4 * Z.of_nat (nregs (ctrl s)) ->
      aspeed_smc_write fuel s addr data = Some s' ->
      smc_step s s'
  | step_read addr :
      0 <= addr < 4 * Z.of_nat (nregs (ctrl s)) ->
      smc_step s (fst (aspeed_smc_read s addr))
  | step_flash_read id addr size :
      (id < max_slaves (ctrl s))%nat -> (1 <= size <= 4)%nat ->
      smc_step s (fst (aspeed_smc_flash_read s id addr size))
  | step_flash_write id addr data size :
      (id < max_slaves (ctrl s))%nat -> (1 <= size <= 4)%nat ->
      smc_step s (aspeed_smc_flash_write s id addr data size)
  | step_reset s' :
      aspeed_smc_reset s = Some s' ->
      smc_step s s'.

(** The states a guest can drive the device into: realize, reset, then
    any accesses.  Realize and reset have no result where the C code
    reads past the table of default segments of the controller, which is
    the case of the legacy smc-ast2400 (five chip-selects, a table of one
    entry): no state of that controller is in this set, and what is
    stated over it is stated of the eight other controllers. *)
Inductive smc_reachable : AspeedSMCState -> Prop :=
  | reach_init c n inj base bus flash dram s0 s :
      In c controllers ->
      aspeed_smc_realize c n inj base bus flash dram = Some s0 ->
      aspeed_smc_reset s0 = Some s ->
      smc_reachable s
  | reach_step s s' :
      smc_reachable s -> smc_step s s' -> smc_reachable s'.

(** *** Vocabulary of the statements *)

(** The invariants of a realized device. *)
Record smc_wf (s : AspeedSMCState) : Prop := {
  wf_regs : length (regs s) = ASPEED_SMC_R_MAX;
  wf_ctrl : In (ctrl s) controllers;
  wf_num_cs : (num_cs s <= max_slaves (ctrl s))%nat
}.

(** What the DMA loops leave alone. *)
Definition same_device (s s' : AspeedSMCState) : Prop :=
  ctrl s' = ctrl s /\ num_cs s' = num_cs s
  /\ inject_failure s' = inject_failure s /\ sdram_base s' = sdram_base s
  /\ length (regs s') = length (regs s).

(** [s'] is [s] up to the registers whose index satisfies [M] (and up to
    what is not a register: lines, buses, log, snoop state). *)
Definition modifies (M : nat -> Prop) (s s' : AspeedSMCState) : Prop :=
  ctrl s' = ctrl s /\ num_cs s' = num_cs s
  /\ inject_failure s' = inject_failure s /\ sdram_base s' = sdram_base s
  /\ length (regs s') = length (regs s)
  /\ forall j, ~ M j -> reg s' j = reg s j.

(** The DMA length register holds a multiple of 4 that [DMA_LENGTH] can
    produce. *)
Definition dma_len_ok (s : AspeedSMCState) : Prop :=
  0 <= reg s R_DMA_LEN <= 0x01FFFFFC /\ reg s R_DMA_LEN mod 4 = 0.

(** The registers the DMA loops update. *)
Definition dma_loop_regs (j : nat) : Prop :=
  j = R_DMA_CHECKSUM \/ j = R_DMA_FLASH_ADDR \/ j = R_DMA_DRAM_ADDR
  \/ j = R_DMA_LEN.

(** The registers a write to DMA_CTRL may update. *)
Definition dma_regs (c : AspeedSMCController) (j : nat) : Prop :=
  dma_loop_regs j \/ j = R_DMA_CTRL \/ j = R_INTR_CTRL
  \/ j = r_timings c \/ j = (r_ctrl0 c + 0)%nat.

(** The registers a write at word offset [a] may update. *)
Definition write_regs (c : AspeedSMCController) (a : nat) (j : nat) : Prop :=
  j = a \/ (has_dma c = true /\ a = R_DMA_CTRL /\ dma_regs c j).

(** The registers reset sets after zeroing the file. *)
Definition reset_regs (c : AspeedSMCController) (n : nat) (j : nat) : Prop :=
  j = r_conf c \/ (r_ctrl0 c <= j < r_ctrl0 c + n)%nat
  \/ (R_SEG_ADDR0 <= j < R_SEG_ADDR0 + max_slaves c)%nat.

(** The candidate of a write of [v] to the segment register of [cs],
    after the start of CS0 is put back on the window base, and the value
    that goes with it. *)
Definition cs0_snap (c : AspeedSMCController) (cs : nat) (v : Z)
    : AspeedSegments * Z :=
  let seg := decode c (u32 v) in
  if (cs =? 0)%nat && negb (seg_addr seg =? flash_window_base c) then
    let seg := mkSeg (flash_window_base c) (seg_size seg) in
    (seg, encode c seg)
  else (seg, v).

(** The sub-region a committed segment is mapped at. *)
Definition segment_region (c : AspeedSMCController) (seg : AspeedSegments)
    : MemoryRegion :=
  mkMR (u64 (seg_addr seg - flash_window_base c)) (seg_size seg) true.

(** A segment that passes the window test of
    [aspeed_smc_flash_set_segment]. *)
Definition touches_window (c : AspeedSMCController) (seg : AspeedSegments)
    : Prop :=
  flash_window_base c < seg_end seg
  /\ seg_addr seg <= u64 (flash_window_base c + flash_window_size c).

(** The segment registers of a device: each decodes to a segment that
    passes the window test, and that of CS0 starts at the window base. *)
Definition segments_ok (s : AspeedSMCState) : Prop :=
  (forall i, (i < max_slaves (ctrl s))%nat ->
     touches_window (ctrl s) (decode (ctrl s) (reg s (R_SEG_ADDR0 + i))))
  /\ seg_addr (decode (ctrl s) (reg s R_SEG_ADDR0))
     = flash_window_base (ctrl s).

(** The flash-type straps reset leaves in CONF: SPI for CE0..CE2 on the
    AST2600 FMC, for CE0 and CE1 on the AST2500 FMC, for CE0 on the
    AST2400 FMC. *)
Definition conf_straps (c : AspeedSMCController) : Z :=
  let strap sh v := Z.lor v (Z.shiftl CONF_FLASH_TYPE_SPI sh) in
  let v := 0 in
  let v := if bool_decide (segments c = aspeed_segments_ast2600_fmc)
           then strap CONF_FLASH_TYPE2
                  (strap CONF_FLASH_TYPE1 (strap CONF_FLASH_TYPE0 v))
           else v in
  let v := if bool_decide (segments c = aspeed_segments_ast2500_fmc)
           then strap CONF_FLASH_TYPE1 (strap CONF_FLASH_TYPE0 v)
           else v in
  if bool_decide (segments c = aspeed_segments_fmc)
  then strap CONF_FLASH_TYPE0 v
  else v.

Definition sumZ (l : list Z) : Z := fold_right Z.add 0 l.

(** The flash window answers the words [F] from address [a] on. *)
Definition flash_words (s : AspeedSMCState) (a : Z) (F : list Z) : Prop :=
  forall (i : nat) (w : Z), F !! i = Some w ->
    address_space_ldl_le (flash_as s) (u32 (a + 4 * Z.of_nat i)) = Some w.

End Device.

End SMC.

(** ** The I2C controller ([hw/i2c/aspeed_i2c.c]) *)

Module I2C.

(** *** Registers *)

Definition I2C_CTRL_STATUS : Z := 0x00.

Definition I2CD_FUN_CTRL_REG : Z := 0x00.
Definition I2CD_POOL_PAGE_SEL (x : Z) : Z := Z.land (Z.shiftr x 20) 0x7.
Definition I2CD_SLAVE_EN : Z := Z.shiftl 0x1 1.
Definition I2CD_MASTER_EN : Z := 0x1.

Definition I2CD_AC_TIMING_REG1 : Z := 0x04.
Definition I2CD_AC_TIMING_REG2 : Z := 0x08.
Definition I2CD_INTR_CTRL_REG : Z := 0x0c.
Definition I2CD_INTR_STS_REG : Z := 0x10.

Definition I2CD_INTR_ABNORMAL : Z := Z.shiftl 0x1 5.
Definition I2CD_INTR_NORMAL_STOP : Z := Z.shiftl 0x1 4.
Definition I2CD_INTR_RX_DONE : Z := Z.shiftl 0x1 2.
Definition I2CD_INTR_TX_NAK : Z := Z.shiftl 0x1 1.
Definition I2CD_INTR_TX_ACK : Z := Z.shiftl 0x1 0.

Definition I2CD_CMD_REG : Z := 0x14.
Definition I2CD_TX_STATE_SHIFT : Z := 19.
Definition I2CD_TX_STATE_MASK : Z := 0xf.
Definition I2CD_IDLE : Z := 0x0.
Definition I2CD_MACTIVE : Z := 0x8.
Definition I2CD_MSTART : Z := 0x9.
Definition I2CD_MSTARTR : Z := 0xa.
Definition I2CD_MSTOP : Z := 0xb.
Definition I2CD_MTXD : Z := 0xc.
Definition I2CD_MRXD : Z := 0xe.

Definition I2CD_RX_BUFF_ENABLE : Z := Z.shiftl 0x1 7.
Definition I2CD_TX_BUFF_ENABLE : Z := Z.shiftl 0x1 6.
Definition I2CD_M_STOP_CMD : Z := Z.shiftl 0x1 5.
Definition I2CD_M_S_RX_CMD_LAST : Z := Z.shiftl 0x1 4.
Definition I2CD_M_RX_CMD : Z := Z.shiftl 0x1 3.
Definition I2CD_M_TX_CMD : Z := Z.shiftl 0x1 1.
Definition I2CD_M_START_CMD : Z := 0x1.

Definition I2CD_DEV_ADDR_REG : Z := 0x18.
Definition I2CD_POOL_CTRL_REG : Z := 0x1c.
Definition I2CD_POOL_RX_SIZE (x : Z) : Z := Z.land (Z.shiftr x 16) 0xff + 1.
Definition I2CD_POOL_TX_COUNT (x : Z) : Z := Z.land (Z.shiftr x 8) 0xff + 1.
Definition I2CD_POOL_OFFSET (x : Z) : Z := Z.shiftl (Z.land x 0x3f) 2.
Definition I2CD_BYTE_BUF_REG : Z := 0x20.
Definition I2CD_BYTE_BUF_TX_SHIFT : Z := 0.
Definition I2CD_BYTE_BUF_TX_MASK : Z := 0xff.
Definition I2CD_BYTE_BUF_RX_SHIFT : Z := 8.
Definition I2CD_BYTE_BUF_RX_MASK : Z := 0xff.

(** Modelled from the spec: [ASPEED_I2C_MAX_POOL_SIZE], the length of
    [pool], is declared in [include/hw/i2c/aspeed_i2c.h], which is not
    among the sources; the spec gives the largest pool, 2 KiB (AST2400). *)
Definition ASPEED_I2C_MAX_POOL_SIZE : nat := Eval cbv in Z.to_nat 0x800.

Definition extract32 (value : Z) (start len : Z) : Z :=
  Z.land (Z.shiftr value start) (Z.ones len).

(** *** Collaborator: the I2C bus core ([hw/i2c/core.c]) *)

(** [i2c_start_transfer] and [i2c_send] return non-zero when nothing
    acknowledges. *)
Class I2CBusCore (B : Type) : Type := {
  i2c_start_transfer : B -> Z -> Z -> B * Z;
  i2c_send : B -> Z -> B * Z;
  i2c_recv : B -> B * Z;
  i2c_nack : B -> B;
  i2c_end_transfer : B -> B;
  i2c_bus_busy : B -> bool
}.

Inductive i2c_msg : Type :=
  | msg_bad_offset (offset : Z)
  | msg_slave_mode
  | msg_abnormal_stop.

(** The line [bus_get_irq] answers: the controller's or the bus's own. *)
Inductive irq_line : Type := controller_irq | bus_irq.

Section Device.
Context {B : Type} `{!I2CBusCore B}.

(** [AspeedI2CBus]; [irq] is the history of the levels driven on the
    line of the bus, most recent first. *)
Record AspeedI2CBus : Type := mkBus {
  id : nat;
  ctrl : Z;
  timing : Z * Z;
  intr_ctrl : Z;
  intr_status : Z;
  cmd : Z;
  buf : Z;
  pool_ctrl : Z;
  bus : B;
  irq : list bool
}.

Definition set_ctrl (v : Z) (b : AspeedI2CBus) : AspeedI2CBus :=
  mkBus (id b) v (timing b) (intr_ctrl b) (intr_status b) (cmd b) (buf b)
    (pool_ctrl b) (bus b) (irq b).
Definition set_timing (v : Z * Z) (b : AspeedI2CBus) : AspeedI2CBus :=
  mkBus (id b) (ctrl b) v (intr_ctrl b) (intr_status b) (cmd b) (buf b)
    (pool_ctrl b) (bus b) (irq b).
Definition set_intr_ctrl (v : Z) (b : AspeedI2CBus) : AspeedI2CBus :=
  mkBus (id b) (ctrl b) (timing b) v (intr_status b) (cmd b) (buf b)
    (pool_ctrl b) (bus b) (irq b).
Definition set_intr_status (v : Z) (b : AspeedI2CBus) : AspeedI2CBus :=
  mkBus (id b) (ctrl b) (timing b) (intr_ctrl b) v (cmd b) (buf b)
    (pool_ctrl b) (bus b) (irq b).
Definition set_cmd (v : Z) (b : AspeedI2CBus) : AspeedI2CBus :=
  mkBus (id b) (ctrl b) (timing b) (intr_ctrl b) (intr_status b) v (buf b)
    (pool_ctrl b) (bus b) (irq b).
Definition set_buf (v : Z) (b : AspeedI2CBus) : AspeedI2CBus :=
  mkBus (id b) (ctrl b) (timing b) (intr_ctrl b) (intr_status b) (cmd b) v
    (pool_ctrl b) (bus b) (irq b).
Definition set_pool_ctrl (v : Z) (b : AspeedI2CBus) : AspeedI2CBus :=
  mkBus (id b) (ctrl b) (timing b) (intr_ctrl b) (intr_status b) (cmd b)
    (buf b) v (bus b) (irq b).
Definition set_bus (v : B) (b : AspeedI2CBus) : AspeedI2CBus :=
  mkBus (id b) (ctrl b) (timing b) (intr_ctrl b) (intr_status b) (cmd b)
    (buf b) (pool_ctrl b) v (irq b).
Definition set_irq (v : list bool) (b : AspeedI2CBus) : AspeedI2CBus :=
  mkBus (id b) (ctrl b) (timing b) (intr_ctrl b) (intr_status b) (cmd b)
    (buf b) (pool_ctrl b) (bus b) v.

(** [AspeedI2CState] without its busses: what a bus reaches through its
    [controller] pointer.  A bus operation works on one bus and on this
    part; [AspeedI2CState] below puts them together. *)
Record Controller : Type := mkCtl {
  s_intr_status : Z;
  pool : list Z;
  s_irq : list bool;
  log : list (log_mask * i2c_msg)
}.

Record AspeedI2CState : Type := mkState {
  controller : Controller;
  busses : list AspeedI2CBus
}.

(** [AspeedI2CClass] *)
Record AspeedI2CClass : Type := mkClass {
  num_busses : nat;
  reg_size : Z;
  gap : Z;
  bus_get_irq : irq_line;
  pool_size : Z;
  pool_base : Z;
  bus_pool_base : AspeedI2CBus -> nat
}.

Definition aspeed_2400_i2c_bus_pool_base (b : AspeedI2CBus) : nat :=
  Z.to_nat (I2CD_POOL_PAGE_SEL (ctrl b) + I2CD_POOL_OFFSET (pool_ctrl b)).
Definition aspeed_2500_i2c_bus_pool_base (b : AspeedI2CBus) : nat :=
  (id b * 0x10)%nat.
Definition aspeed_2600_i2c_bus_pool_base (b : AspeedI2CBus) : nat :=
  (id b * 0x20)%nat.

Definition aspeed_2400_i2c : AspeedI2CClass :=
  mkClass 14 0x40 7 controller_irq 0x800 0x800 aspeed_2400_i2c_bus_pool_base.
Definition aspeed_2500_i2c : AspeedI2CClass :=
  mkClass 14 0x40 7 controller_irq 0x200 0x100 aspeed_2500_i2c_bus_pool_base.
(** [aic->gap = -1; /* no gap */]: the field is a [uint8_t]
    ([include/hw/i2c/aspeed_i2c.h], which is not among the sources), so
    it holds 255 and the test [i < aic->gap] of [aspeed_i2c_realize]
    holds for every bus. *)
Definition aspeed_2600_i2c : AspeedI2CClass :=
  mkClass 16 0x80 (u8 (-1)) bus_irq 0x200 0xC00 aspeed_2600_i2c_bus_pool_base.

Definition i2c_classes : list AspeedI2CClass :=
  [ aspeed_2400_i2c; aspeed_2500_i2c; aspeed_2600_i2c ].

Definition set_s_intr_status (v : Z) (c : Controller) : Controller :=
  mkCtl v (pool c) (s_irq c) (log c).
Definition set_pool (p : list Z) (c : Controller) : Controller :=
  mkCtl (s_intr_status c) p (s_irq c) (log c).
Definition set_s_irq (l : list bool) (c : Controller) : Controller :=
  mkCtl (s_intr_status c) (pool c) l (log c).
Definition qemu_log_mask (m : log_mask) (e : i2c_msg) (c : Controller)
    : Controller :=
  mkCtl (s_intr_status c) (pool c) (s_irq c) ((m, e) :: log c).

(** [qemu_set_irq(aic->bus_get_irq(bus), level)] *)
Definition drive_irq (aic : AspeedI2CClass) (level : bool)
    (c : Controller) (b : AspeedI2CBus) : Controller * AspeedI2CBus :=
  match bus_get_irq aic with
  | controller_irq => (set_s_irq (level :: s_irq c) c, b)
  | bus_irq => (c, set_irq (level :: irq b) b)
  end.

Definition aspeed_i2c_bus_is_master (b : AspeedI2CBus) : bool :=
  nonzero (Z.land (ctrl b) I2CD_MASTER_EN).

Definition aspeed_i2c_bus_is_enabled (b : AspeedI2CBus) : bool :=
  nonzero (Z.land (ctrl b) (Z.lor I2CD_MASTER_EN I2CD_SLAVE_EN)).

Definition aspeed_i2c_bus_raise_interrupt (aic : AspeedI2CClass)
    (c : Controller) (b : AspeedI2CBus) : Controller * AspeedI2CBus :=
  let b := set_intr_status (Z.land (intr_status b) (intr_ctrl b)) b in
  if nonzero (intr_status b) then
    let c := set_s_intr_status
               (u32 (Z.lor (s_intr_status c) (Z.shiftl 1 (Z.of_nat (id b)))))
               c in
    drive_irq aic true c b
  else (c, b).

(** The value read is a [uint64_t]; [-1] is all ones. *)
Definition aspeed_i2c_bus_read (c : Controller) (b : AspeedI2CBus)
    (offset : Z) : Controller * Z :=
  if offset =? I2CD_FUN_CTRL_REG then (c, ctrl b)
  else if offset =? I2CD_AC_TIMING_REG1 then (c, fst (timing b))
  else if offset =? I2CD_AC_TIMING_REG2 then (c, snd (timing b))
  else if offset =? I2CD_INTR_CTRL_REG then (c, intr_ctrl b)
  else if offset =? I2CD_INTR_STS_REG then (c, intr_status b)
  else if offset =? I2CD_POOL_CTRL_REG then (c, pool_ctrl b)
  else if offset =? I2CD_BYTE_BUF_REG then (c, buf b)
  else if offset =? I2CD_CMD_REG then
    (c, Z.lor (cmd b) (Z.shiftl (Z.b2z (i2c_bus_busy (bus b))) 16))
  else (qemu_log_mask LOG_GUEST_ERROR (msg_bad_offset offset) c, u64 (-1)).

Definition aspeed_i2c_set_state (b : AspeedI2CBus) (state : Z)
    : AspeedI2CBus :=
  let b := set_cmd
             (Z.land (cmd b)
                (not32 (Z.shiftl I2CD_TX_STATE_MASK I2CD_TX_STATE_SHIFT))) b in
  set_cmd
    (Z.lor (cmd b)
       (Z.shiftl (Z.land state I2CD_TX_STATE_MASK) I2CD_TX_STATE_SHIFT)) b.

Definition aspeed_i2c_get_state (b : AspeedI2CBus) : Z :=
  Z.land (Z.shiftr (cmd b) I2CD_TX_STATE_SHIFT) I2CD_TX_STATE_MASK.

(** [pool_base[i]] *)
Definition pool_at (aic : AspeedI2CClass) (c : Controller)
    (b : AspeedI2CBus) (i : nat) : Z :=
  pool c !!! (bus_pool_base aic b + i)%nat.

(** The loop of [aspeed_i2c_bus_send] over the pool: [n] bytes left, the
    next one at index [i]. *)
Fixpoint send_pool (aic : AspeedI2CClass) (c : Controller) (n i : nat)
    (ret : Z) (b : AspeedI2CBus) : AspeedI2CBus * Z :=
  match n with
  | O => (b, ret)
  | S n' =>
      let '(w, ret) := i2c_send (bus b) (pool_at aic c b i) in
      let b := set_bus w b in
      if nonzero ret then (b, ret)
      else send_pool aic c n' (S i) ret b
  end.

Definition aspeed_i2c_bus_send (aic : AspeedI2CClass) (c : Controller)
    (b : AspeedI2CBus) : AspeedI2CBus * Z :=
  let ret := -1 in
  if nonzero (Z.land (cmd b) I2CD_TX_BUFF_ENABLE) then
    let '(b, ret) :=
      send_pool aic c (Z.to_nat (I2CD_POOL_TX_COUNT (pool_ctrl b))) 0 ret b in
    (set_cmd (Z.land (cmd b) (not32 I2CD_TX_BUFF_ENABLE)) b, ret)
  else
    let '(w, ret) := i2c_send (bus b) (u8 (buf b)) in
    (set_bus w b, ret).

(** The loop of [aspeed_i2c_bus_recv] into the pool. *)
Fixpoint recv_pool (aic : AspeedI2CClass) (n i : nat) (c : Controller)
    (b : AspeedI2CBus) : Controller * AspeedI2CBus :=
  match n with
  | O => (c, b)
  | S n' =>
      let '(w, data) := i2c_recv (bus b) in
      let c := set_pool
                 (<[(bus_pool_base aic b + i)%nat := u8 data]> (pool c)) c in
      recv_pool aic n' (S i) c (set_bus w b)
  end.

Definition aspeed_i2c_bus_recv (aic : AspeedI2CClass) (c : Controller)
    (b : AspeedI2CBus) : Controller * AspeedI2CBus :=
  if nonzero (Z.land (cmd b) I2CD_RX_BUFF_ENABLE) then
    let i := I2CD_POOL_RX_SIZE (pool_ctrl b) in
    let '(c, b) := recv_pool aic (Z.to_nat i) 0 c b in
    (* Update RX count *)
    let b := set_pool_ctrl
               (Z.land (pool_ctrl b) (not32 (Z.shiftl 0xff 24))) b in
    let b := set_pool_ctrl
               (Z.lor (pool_ctrl b) (Z.shiftl (Z.land i 0xff) 24)) b in
    (c, set_cmd (Z.land (cmd b) (not32 I2CD_RX_BUFF_ENABLE)) b)
  else
    let '(w, data) := i2c_recv (bus b) in
    let data := u8 data in
    (c, set_buf (Z.shiftl (Z.land data I2CD_BYTE_BUF_RX_MASK)
                          I2CD_BYTE_BUF_RX_SHIFT)
          (set_bus w b)).

Definition aspeed_i2c_handle_rx_cmd (aic : AspeedI2CClass) (c : Controller)
    (b : AspeedI2CBus) : Controller * AspeedI2CBus :=
  let b := aspeed_i2c_set_state b I2CD_MRXD in
  let '(c, b) := aspeed_i2c_bus_recv aic c b in
  let b := set_intr_status (Z.lor (intr_status b) I2CD_INTR_RX_DONE) b in
  let b := if nonzero (Z.land (cmd b) I2CD_M_S_RX_CMD_LAST)
           then set_bus (i2c_nack (bus b)) b else b in
  let b := set_cmd
             (Z.land (cmd b)
                (not32 (Z.lor I2CD_M_RX_CMD I2CD_M_S_RX_CMD_LAST))) b in
  (c, aspeed_i2c_set_state b I2CD_MACTIVE).

(** The [I2CD_M_START_CMD] block of [aspeed_i2c_bus_handle_cmd]; the flag
    is [false] when the block returns from the function (no slave found). *)
Definition handle_cmd_start (aic : AspeedI2CClass) (c : Controller)
    (b : AspeedI2CBus) : AspeedI2CBus * bool :=
  if nonzero (Z.land (cmd b) I2CD_M_START_CMD) then
    let state := if nonzero (Z.land (aspeed_i2c_get_state b) I2CD_MACTIVE)
                 then I2CD_MSTARTR else I2CD_MSTART in
    let b := aspeed_i2c_set_state b state in
    let data := if nonzero (Z.land (cmd b) I2CD_TX_BUFF_ENABLE)
                then u8 (pool_at aic c b 0) else u8 (buf b) in
    let '(w, nak) :=
      i2c_start_transfer (bus b) (extract32 data 1 7) (extract32 data 0 1) in
    let b := set_bus w b in
    let b := if nonzero nak
             then set_intr_status (Z.lor (intr_status b) I2CD_INTR_TX_NAK) b
             else set_intr_status (Z.lor (intr_status b) I2CD_INTR_TX_ACK) b in
    (* START command is also a TX command *)
    let b := set_cmd
               (Z.land (cmd b)
                  (not32 (Z.lor I2CD_M_START_CMD I2CD_M_TX_CMD))) b in
    (* No slave found *)
    if negb (i2c_bus_busy (bus b)) then (b, false)
    else (aspeed_i2c_set_state b I2CD_MACTIVE, true)
  else (b, true).

Definition handle_cmd_tx (aic : AspeedI2CClass) (c : Controller)
    (b : AspeedI2CBus) : AspeedI2CBus :=
  if nonzero (Z.land (cmd b) I2CD_M_TX_CMD) then
    let b := aspeed_i2c_set_state b I2CD_MTXD in
    let '(b, ret) := aspeed_i2c_bus_send aic c b in
    let b := if nonzero ret then
               let b := set_intr_status
                          (Z.lor (intr_status b) I2CD_INTR_TX_NAK) b in
               set_bus (i2c_end_transfer (bus b)) b
             else set_intr_status (Z.lor (intr_status b) I2CD_INTR_TX_ACK) b in
    let b := set_cmd (Z.land (cmd b) (not32 I2CD_M_TX_CMD)) b in
    aspeed_i2c_set_state b I2CD_MACTIVE
  else b.

Definition handle_cmd_rx (aic : AspeedI2CClass) (c : Controller)
    (b : AspeedI2CBus) : Controller * AspeedI2CBus :=
  if nonzero (Z.land (cmd b) (Z.lor I2CD_M_RX_CMD I2CD_M_S_RX_CMD_LAST))
     && negb (nonzero (Z.land (intr_status b) I2CD_INTR_RX_DONE))
  then aspeed_i2c_handle_rx_cmd aic c b
  else (c, b).

Definition handle_cmd_stop (c : Controller) (b : AspeedI2CBus)
    : Controller * AspeedI2CBus :=
  if nonzero (Z.land (cmd b) I2CD_M_STOP_CMD) then
    let '(c, b) :=
      if negb (nonzero (Z.land (aspeed_i2c_get_state b) I2CD_MACTIVE)) then
        (qemu_log_mask LOG_GUEST_ERROR msg_abnormal_stop c,
         set_intr_status (Z.lor (intr_status b) I2CD_INTR_ABNORMAL) b)
      else
        let b := aspeed_i2c_set_state b I2CD_MSTOP in
        let b := set_bus (i2c_end_transfer (bus b)) b in
        (c, set_intr_status (Z.lor (intr_status b) I2CD_INTR_NORMAL_STOP) b) in
    let b := set_cmd (Z.land (cmd b) (not32 I2CD_M_STOP_CMD)) b in
    (c, aspeed_i2c_set_state b I2CD_IDLE)
  else (c, b).

Definition aspeed_i2c_bus_handle_cmd (aic : AspeedI2CClass) (c : Controller)
    (b : AspeedI2CBus) (value : Z) : Controller * AspeedI2CBus :=
  let b := set_cmd (Z.land (cmd b) (not32 0xFFFF)) b in
  let b := set_cmd (Z.lor (cmd b) (Z.land value 0xFFFF)) b in
  let '(b, go_on) := handle_cmd_start aic c b in
  if negb go_on then (c, b)
  else
    let b := handle_cmd_tx aic c b in
    let '(c, b) := handle_cmd_rx aic c b in
    handle_cmd_stop c b.

Definition aspeed_i2c_bus_write (aic : AspeedI2CClass) (c : Controller)
    (b : AspeedI2CBus) (offset value : Z) : Controller * AspeedI2CBus :=
  if offset =? I2CD_FUN_CTRL_REG then
    if nonzero (Z.land value I2CD_SLAVE_EN)
    then (qemu_log_mask LOG_UNIMP msg_slave_mode c, b)
    else (c, set_ctrl (Z.land value 0x0071C3FF) b)
  else if offset =? I2CD_AC_TIMING_REG1 then
    (c, set_timing (Z.land value 0xFFFFF0F, snd (timing b)) b)
  else if offset =? I2CD_AC_TIMING_REG2 then
    (c, set_timing (fst (timing b), Z.land value 0x7) b)
  else if offset =? I2CD_INTR_CTRL_REG then
    (c, set_intr_ctrl (Z.land value 0x7FFF) b)
  else if offset =? I2CD_INTR_STS_REG then
    let handle_rx := nonzero (Z.land (intr_status b) I2CD_INTR_RX_DONE)
                     && nonzero (Z.land value I2CD_INTR_RX_DONE) in
    let b := set_intr_status
               (Z.land (intr_status b) (not32 (Z.land value 0x7FFF))) b in
    let '(c, b) :=
      if negb (nonzero (intr_status b)) then
        let c := set_s_intr_status
                   (Z.land (s_intr_status c)
                      (not32 (Z.shiftl 1 (Z.of_nat (id b))))) c in
        drive_irq aic false c b
      else (c, b) in
    if handle_rx
       && nonzero (Z.land (cmd b) (Z.lor I2CD_M_RX_CMD I2CD_M_S_RX_CMD_LAST))
    then
      let '(c, b) := aspeed_i2c_handle_rx_cmd aic c b in
      aspeed_i2c_bus_raise_interrupt aic c b
    else (c, b)
  else if offset =? I2CD_DEV_ADDR_REG then
    (qemu_log_mask LOG_UNIMP msg_slave_mode c, b)
  else if offset =? I2CD_POOL_CTRL_REG then
    let b := set_pool_ctrl (Z.land (pool_ctrl b) (not32 0xffffff)) b in
    (c, set_pool_ctrl (Z.lor (pool_ctrl b) (Z.land value 0xffffff)) b)
  else if offset =? I2CD_BYTE_BUF_REG then
    (c, set_buf (Z.shiftl (Z.land value I2CD_BYTE_BUF_TX_MASK)
                          I2CD_BYTE_BUF_TX_SHIFT) b)
  else if offset =? I2CD_CMD_REG then
    if negb (aspeed_i2c_bus_is_enabled b) then (c, b)
    else if negb (aspeed_i2c_bus_is_master b)
    then (qemu_log_mask LOG_UNIMP msg_slave_mode c, b)
    else
      let '(c, b) := aspeed_i2c_bus_handle_cmd aic c b value in
      aspeed_i2c_bus_raise_interrupt aic c b
  else (qemu_log_mask LOG_GUEST_ERROR (msg_bad_offset offset) c, b).

Definition aspeed_i2c_ctrl_read (c : Controller) (offset : Z)
    : Controller * Z :=
  if offset =? I2C_CTRL_STATUS then (c, s_intr_status c)
  else (qemu_log_mask LOG_GUEST_ERROR (msg_bad_offset offset) c, u64 (-1)).

Definition aspeed_i2c_ctrl_write (c : Controller) (offset value : Z)
    : Controller :=
  qemu_log_mask LOG_GUEST_ERROR (msg_bad_offset offset) c.

Fixpoint aspeed_i2c_pool_read_loop (c : Controller) (offset : nat)
    (n : nat) (i : Z) (ret : Z) : Z :=
  match n with
  | O => ret
  | S n' =>
      aspeed_i2c_pool_read_loop c (S offset) n' (i + 1)
        (Z.lor ret (u64 (Z.shiftl (pool c !!! offset) (8 * i))))
  end.

Definition aspeed_i2c_pool_read (c : Controller) (offset : nat) (size : nat)
    : Z :=
  aspeed_i2c_pool_read_loop c offset size 0 0.

Fixpoint aspeed_i2c_pool_write_loop (offset : nat) (value : Z) (n : nat)
    (i : Z) (c : Controller) : Controller :=
  match n with
  | O => c
  | S n' =>
      aspeed_i2c_pool_write_loop (S offset) value n' (i + 1)
        (set_pool (<[offset := Z.land (Z.shiftr value (8 * i)) 0xFF]>
                     (pool c)) c)
  end.

Definition aspeed_i2c_pool_write (c : Controller) (offset : nat)
    (value : Z) (size : nat) : Controller :=
  aspeed_i2c_pool_write_loop offset value size 0 c.

(** *** Reset and realize *)

Definition reset_bus (b : AspeedI2CBus) : AspeedI2CBus :=
  let b := set_intr_ctrl 0 b in
  let b := set_intr_status 0 b in
  let b := set_cmd 0 b in
  let b := set_buf 0 b in
  set_bus (i2c_end_transfer (bus b)) b.

Definition aspeed_i2c_reset (aic : AspeedI2CClass) (s : AspeedI2CState)
    : AspeedI2CState :=
  let c := set_s_intr_status 0 (controller s) in
  mkState c
    (map reset_bus (take (num_busses aic) (busses s))
     ++ drop (num_busses aic) (busses s)).

(** The device after [aspeed_i2c_realize]: bus [i] gets [id = i] and the
    bus core [i2c_init_bus] made for it. *)
Definition aspeed_i2c_realize (aic : AspeedI2CClass) (cores : list B)
    : AspeedI2CState :=
  mkState (mkCtl 0 (replicate ASPEED_I2C_MAX_POOL_SIZE 0) [] [])
    (imap (fun i w => mkBus i 0 (0, 0) 0 0 0 0 0 w [])
          (take (num_busses aic) cores)).

(** Where [aspeed_i2c_realize] maps the registers of bus [i] in the
    window of the controller: [aic->reg_size * (i + offset)] with
    [offset = i < aic->gap ? 1 : 5]; the region has [aic->reg_size]
    bytes. *)
Definition bus_mmio_offset (aic : AspeedI2CClass) (i : nat) : Z :=
  let offset := if Z.of_nat i <? gap aic then 1 else 5 in
  reg_size aic * (Z.of_nat i + offset).

(** *** Guest-visible steps *)

(** The handlers act on [opaque = &s->busses[i]]. *)
Definition bus_write_at (aic : AspeedI2CClass) (s : AspeedI2CState)
    (i : nat) (offset value : Z) : AspeedI2CState :=
  match busses s !! i with
  | None => s
  | Some b =>
      let '(c, b) := aspeed_i2c_bus_write aic (controller s) b offset value in
      mkState c (<[i := b]> (busses s))
  end.

Definition bus_read_at (s : AspeedI2CState) (i : nat) (offset : Z)
    : AspeedI2CState * Z :=
  match busses s !! i with
  | None => (s, 0)
  | Some b =>
      let '(c, v) := aspeed_i2c_bus_read (controller s) b offset in
      (mkState c (busses s), v)
  end.

Inductive i2c_step (aic : AspeedI2CClass) (s : AspeedI2CState)
    : AspeedI2CState -> Prop :=
  | step_bus_write i offset value :
      (i < num_busses aic)%nat -> 0 <= offset < reg_size aic ->
      i2c_step aic s (bus_write_at aic s i offset value)
  | step_bus_read i offset :
      (i < num_busses aic)%nat -> 0 <= offset < reg_size aic ->
      i2c_step aic s (fst (bus_read_at s i offset))
  | step_ctrl_read offset :
      i2c_step aic s
        (mkState (fst (aspeed_i2c_ctrl_read (controller s) offset)) (busses s))
  | step_ctrl_write offset value :
      i2c_step aic s
        (mkState (aspeed_i2c_ctrl_write (controller s) offset value) (busses s))
  | step_pool_write offset value size :
      (1 <= size <= 4)%nat -> Z.of_nat (offset + size) <= pool_size aic ->
      i2c_step aic s
        (mkState (aspeed_i2c_pool_write (controller s) offset value size)
                 (busses s))
  | step_reset :
      i2c_step aic s (aspeed_i2c_reset aic s).

Inductive i2c_reachable (aic : AspeedI2CClass) : AspeedI2CState -> Prop :=
  | reach_init cores :
      length cores = num_busses aic ->
      i2c_reachable aic (aspeed_i2c_reset aic (aspeed_i2c_realize aic cores))
  | reach_step s s' :
      i2c_reachable aic s -> i2c_step aic s s' -> i2c_reachable aic s'.

End Device.

End I2C.

(** ** Concrete collaborators

    Small instances of the interfaces, on which the statements below are
    run. *)

Module Models.

(** An SPI bus that records the bytes shifted out, oldest first; the
    slave answers 0. *)
Record SpiTrace : Type := mkSpi { spi_sent : list Z }.

#[global] Instance SpiTrace_bus : SMC.SSIBus SpiTrace :=
  fun b out => (mkSpi (spi_sent b ++ [out]), 0).

(** An SPI bus whose slave answers the bytes of a script, then 0; the
    bytes shifted out are recorded, oldest first. *)
Record SpiReplay : Type := mkReplay {
  replay_answers : list Z;
  replay_sent : list Z
}.

#[global] Instance SpiReplay_bus : SMC.SSIBus SpiReplay :=
  fun b out =>
    match replay_answers b with
    | [] => (mkReplay [] (replay_sent b ++ [out]), 0)
    | x :: rest => (mkReplay rest (replay_sent b ++ [out]), x)
    end.

(** The number whose bytes, least significant first, are [bs]. *)
Fixpoint le_value (bs : list Z) : Z :=
  match bs with
  | [] => 0
  | b :: rest => b + 256 * le_value rest
  end.

(** A memory of 32-bit words: [mem_word a] is the word at address [a],
    if one is mapped there; a store succeeds where a word is mapped. *)
Record WordMem : Type := mkMem { mem_word : Z -> option Z }.

#[global] Instance WordMem_as : SMC.AddressSpace WordMem := {|
  SMC.address_space_ldl_le m a := mem_word m a;
  SMC.address_space_stl_le m a v :=
    match mem_word m a with
    | None => None
    | Some _ =>
        Some (mkMem (fun x => if x =? a then Some (u32 v) else mem_word m x))
    end
|}.

(** A flash window mapped everywhere, whose word at address [a] is [a / 4]. *)
Definition flash_ramp : WordMem := mkMem (fun a => Some (a / 4)).

(** A DRAM of zeroes. *)
Definition dram_zero : WordMem := mkMem (fun _ => Some 0).

(** An I2C bus with one slave at [slave_addr]: [to_read] are the bytes it
    will answer, [written] the bytes sent to it (oldest first), [current]
    whether a transfer to it is open. *)
Record I2cSlaveBus : Type := mkI2c {
  slave_addr : Z;
  to_read : list Z;
  written : list Z;
  current : bool
}.

#[global] Instance I2cSlaveBus_core : I2C.I2CBusCore I2cSlaveBus := {|
  I2C.i2c_start_transfer w address recv :=
    if address =? slave_addr w
    then (mkI2c (slave_addr w) (to_read w) (written w) true, 0)
    else (w, 1);
  I2C.i2c_send w data :=
    if current w
    then (mkI2c (slave_addr w) (to_read w) (written w ++ [data]) true, 0)
    else (w, -1);
  I2C.i2c_recv w :=
    if current w then
      match to_read w with
      | [] => (w, 0xff)
      | x :: rest => (mkI2c (slave_addr w) rest (written w) true, x)
      end
    else (w, 0xff);
  I2C.i2c_nack w := w;
  I2C.i2c_end_transfer w :=
    mkI2c (slave_addr w) (to_read w) (written w) false;
  I2C.i2c_bus_busy w := current w
|}.

End Models.

(** ** Scenarios

    Concrete devices and access sequences the statements are run on. *)

Module Scenarios.
Import SMC Models.

Abbreviation SmcState := (@AspeedSMCState SpiTrace WordMem).

Definition smc_blank : SmcState :=
  mkState smc_ast2400 (replicate ASPEED_SMC_R_MAX 0) 0 0 0 false 0 [] [] []
    (mkSpi []) flash_ramp dram_zero [].

(** The state an access sequence ends in. *)
Definition run (o : option SmcState) : SmcState := default smc_blank o.

Definition is_Some_b {T : Type} (o : option T) : bool :=
  match o with Some _ => true | None => false end.

(** An AST2500 FMC with two flashes, after realize and reset. *)
Definition fmc2500_reset : SmcState :=
  run (aspeed_smc_realize fmc_ast2500 2 false 0x80000000 (mkSpi [])
         flash_ramp dram_zero ≫= aspeed_smc_reset).

(** Programmed for a checksum of three words at 0x20000100, with the DMA
    interrupt enabled. *)
Definition c1_ready_1 : SmcState :=
  run (aspeed_smc_write 0 fmc2500_reset 0x84 0x100).
Definition c1_ready_2 : SmcState :=
  run (aspeed_smc_write 0 c1_ready_1 0x8C 12).
Definition c1_ready : SmcState :=
  run (aspeed_smc_write 0 c1_ready_2 0x08 0x8).
Definition c1_words : list Z :=
  [0x20000100 / 4; 0x20000104 / 4; 0x20000108 / 4].

(** A DMA of length 0 was started, its completion status was cleared by a
    write to INTR_CTRL, and a length of two words was programmed: the
    stored DMA_CTRL still has ENABLE set. *)
Definition c1_busy_1 : SmcState :=
  run (aspeed_smc_write 0 fmc2500_reset 0x80 0x1).
Definition c1_busy_2 : SmcState :=
  run (aspeed_smc_write 0 c1_busy_1 0x08 0x0).
Definition c1_busy_3 : SmcState :=
  run (aspeed_smc_write 0 c1_busy_2 0x84 0x0).
Definition c1_busy : SmcState :=
  run (aspeed_smc_write 0 c1_busy_3 0x8C 8).
Definition c1_busy_words : list Z := [0x20000000 / 4; 0x20000004 / 4].

(** CS1 of the AST2500 FMC was given the segment [0x28000000, 0x38000000),
    which starts inside the window [0x20000000, 0x30000000) and ends
    beyond it. *)
Definition c3_value : Z := 0x70500000.
Definition c3_state : SmcState :=
  run (aspeed_smc_write 0 fmc2500_reset 0x34 c3_value).

(** A value for SEG_ADDR0 whose start differs from the window base and
    whose end equals its start. *)
Definition c5_empty_value : Z := 0x41410000.
(** A value for SEG_ADDR0 that starts 8MB above the window base and ends
    at 0x24000000. *)
Definition c5_value : Z := 0x48410000.

(** The first AST2500 SPI controller with two flashes, after realize and
    reset; a value for its last segment register that describes the
    aligned segment [0x34000000, 0x36000000). *)
Definition spi1_2500_reset : SmcState :=
  run (aspeed_smc_realize spi1_ast2500 2 false 0x80000000 (mkSpi [])
         flash_ramp dram_zero ≫= aspeed_smc_reset).
Definition c6_value : Z := 0x6C680000.

(** The AST2500 FMC with DUMMY_DATA = 0x5A and CE0 in User Mode with its
    chip-select asserted; [c7_ready] also has the write enable of CE0 set
    in CONF, [c7_readonly] has not. *)
Definition c7_dummy : SmcState :=
  run (aspeed_smc_write 0 fmc2500_reset 0x54 0x5A).
Definition c7_readonly : SmcState :=
  run (aspeed_smc_write 0 c7_dummy 0x10 CTRL_USERMODE).
Definition c7_enabled : SmcState :=
  run (aspeed_smc_write 0 c7_dummy 0x00 0x10000).
Definition c7_ready : SmcState :=
  run (aspeed_smc_write 0 c7_enabled 0x10 CTRL_USERMODE).
Definition c7_command : list Z := [FAST_READ; 0x01; 0x02; 0x03].
Definition c7_after_address : SmcState :=
  flash_write_each c7_ready 0 0 c7_command.
Definition c7_after_next : SmcState :=
  flash_write_each c7_after_address 0 0 [0xEE].

(** Guest writes of one, four and two bytes, at different offsets. *)
Definition c7_rest : list FlashAccess :=
  [mkAccess 0 0x11 1; mkAccess 4 0x44332211 4; mkAccess 8 0x6655 2].

End Scenarios.

Module I2CScenarios.
Import I2C Models.

Abbreviation I2cState := (@AspeedI2CState I2cSlaveBus).
Abbreviation I2cBus := (@AspeedI2CBus I2cSlaveBus).

(** A slave at address 0x50 that answers 0xDE, then 0xAD. *)
Definition i2c_slave : I2cSlaveBus := mkI2c 0x50 [0xDE; 0xAD] [] false.

(** The AST2500 controller with that slave on each of its 14 busses,
    after realize and reset. *)
Definition i2c_2500_reset : I2cState :=
  aspeed_i2c_reset aspeed_2500_i2c
    (aspeed_i2c_realize aspeed_2500_i2c (replicate 14 i2c_slave)).

(** Guest writes [(offset, value)] to the registers of bus [i]. *)
Definition bus_writes (s : I2cState) (i : nat) (ws : list (Z * Z))
    : I2cState :=
  fold_left (fun s w => bus_write_at aspeed_2500_i2c s i (fst w) (snd w)) ws s.

Definition i2c_blank_bus : I2cBus :=
  mkBus 0 0 (0, 0) 0 0 0 0 0 (mkI2c 0 [] [] false) [].
Definition bus_at (s : I2cState) (i : nat) : I2cBus :=
  default i2c_blank_bus (busses s !! i).

(** Bus 3: master enabled, all interrupts enabled, the slave addressed
    for a write: INTR_TX_ACK is pending. *)
Definition i2c_addressed : I2cState :=
  bus_writes i2c_2500_reset 3
    [ (I2CD_FUN_CTRL_REG, 0x1); (I2CD_INTR_CTRL_REG, 0x7FFF);
      (I2CD_BYTE_BUF_REG, 0xA0);
      (I2CD_CMD_REG, Z.lor I2CD_M_START_CMD I2CD_M_TX_CMD) ].

(** Then the interrupt enables of bus 3 are cleared. *)
Definition c4_masked : I2cState :=
  bus_writes i2c_addressed 3 [ (I2CD_INTR_CTRL_REG, 0x0) ].





(** Bus 3 with its function control, timings and pool control
    programmed, and a byte written to the pool. *)
Definition c8_programmed : I2cState :=
  let s := bus_writes i2c_2500_reset 3
             [ (I2CD_FUN_CTRL_REG, 0x1); (I2CD_AC_TIMING_REG1, 0x707);
               (I2CD_AC_TIMING_REG2, 0x5); (I2CD_POOL_CTRL_REG, 0x10) ] in
  mkState (aspeed_i2c_pool_write (controller s) 0 0xAB 1) (busses s).

End I2CScenarios.

Module MoreScenarios.
Import SMC Models Scenarios.

(** The AST2500 FMC built with the inject-failure property, programmed
    for a checksum of three words at 0x20000100; the value for DMA_CTRL
    asks for a checksum at HCLK/1. *)
Definition fmc2500_inject : SmcState :=
  run (aspeed_smc_realize fmc_ast2500 2 true 0x80000000 (mkSpi [])
         flash_ramp dram_zero ≫= aspeed_smc_reset).
Definition inject_ready_1 : SmcState :=
  run (aspeed_smc_write 0 fmc2500_inject 0x84 0x100).
Definition inject_ready : SmcState :=
  run (aspeed_smc_write 0 inject_ready_1 0x8C 12).
Definition inject_ctrl : Z := 0xF5.

(** The AST2500 FMC with the write enable of CE0 set in CONF and CE0 in
    Write mode with the command PP, its chip-select released. *)
Definition write_mode_ready : SmcState :=
  run (aspeed_smc_write 0 c7_enabled 0x10 0x00020006).

(** The AST2500 FMC on a scripted SPI bus, CE0 in User mode: the flash
    will answer the four bytes of [replay_script], then 0xFF. *)
Abbreviation ReplayState := (@AspeedSMCState SpiReplay WordMem).
Definition replay_blank : ReplayState :=
  mkState smc_ast2400 (replicate ASPEED_SMC_R_MAX 0) 0 0 0 false 0 [] [] []
    (mkReplay [] []) flash_ramp dram_zero [].
Definition replay_script : list Z := [0x78; 0x56; 0x34; 0x12].
Definition replay_reset : ReplayState :=
  default replay_blank
    (aspeed_smc_realize fmc_ast2500 2 false 0x80000000
       (mkReplay (replay_script ++ [0xFF]) []) flash_ramp dram_zero
     ≫= aspeed_smc_reset).
Definition replay_user : ReplayState :=
  default replay_blank (aspeed_smc_write 0 replay_reset 0x10 CTRL_USERMODE).

(** The checksum scenario with a DRAM address programmed as well; the
    value for DMA_CTRL asks for a copy to the DRAM. *)
Definition copy_ready : SmcState :=
  run (aspeed_smc_write 0 c1_ready 0x88 0x1000).
Definition copy_ctrl : Z := 0x1.

End MoreScenarios.

Module MoreI2CScenarios.
Import I2C Models I2CScenarios.

(** Bus 3: master enabled, all interrupts enabled, and the address of a
    slave that does not exist (0x21, for a write) in BYTE_BUF; the
    command asks for START, TX and STOP. *)
Definition i2c_absent : I2cState :=
  bus_writes i2c_2500_reset 3
    [ (I2CD_FUN_CTRL_REG, 0x1); (I2CD_INTR_CTRL_REG, 0x7FFF);
      (I2CD_BYTE_BUF_REG, 0x42) ].
Definition absent_cmd : Z :=
  Z.lor I2CD_M_START_CMD (Z.lor I2CD_M_TX_CMD I2CD_M_STOP_CMD).

(** The slave of bus 3 of [i2c_addressed] after it took the byte 0xA0
    that BYTE_BUF still holds. *)
Definition tx_byte_bus : I2cSlaveBus :=
  mkI2c 0x50 [0xDE; 0xAD] [0xA0] true.

(** Bus 3 of [i2c_addressed] with a TX count of four bytes in POOL_CTRL
    and four bytes written to its pool page, at 0x30. *)
Definition tx_buffer_state : I2cState :=
  let s := bus_writes i2c_addressed 3 [ (I2CD_POOL_CTRL_REG, 0x300) ] in
  mkState (aspeed_i2c_pool_write (controller s) 0x30 0x44332211 4) (busses s).
Definition tx_buffer_cmd : Z := Z.lor I2CD_M_TX_CMD I2CD_TX_BUFF_ENABLE.

(** Bus 3 with the slave addressed for a read, the status cleared and an
    RX size of two bytes in POOL_CTRL. *)
Definition rx_buffer_state : I2cState :=
  bus_writes i2c_2500_reset 3
    [ (I2CD_FUN_CTRL_REG, 0x1); (I2CD_INTR_CTRL_REG, 0x7FFF);
      (I2CD_BYTE_BUF_REG, 0xA1);
      (I2CD_CMD_REG, Z.lor I2CD_M_START_CMD I2CD_M_TX_CMD);
      (I2CD_INTR_STS_REG, I2CD_INTR_TX_ACK);
      (I2CD_POOL_CTRL_REG, 0x10000) ].
Definition rx_buffer_cmd : Z := Z.lor I2CD_M_RX_CMD I2CD_RX_BUFF_ENABLE.

End MoreI2CScenarios.

(** ** Bit-level facts shared by both devices *)

Lemma u32_range x : 0 <= u32 x < 2 ^ 32.
Proof. unfold u32. apply Z.mod_pos_bound. lia. Qed.

Lemma u32_small x : 0 <= x < 2 ^ 32 -> u32 x = x.
Proof. intros. unfold u32. now apply Z.mod_small. Qed.

Lemma u64_small x : 0 <= x < 2 ^ 64 -> u64 x = x.
Proof. intros. unfold u64. now apply Z.mod_small. Qed.

Lemma land_byte x : Z.land x 0xFF = x mod 2 ^ 8.
Proof. change 0xFF with (Z.ones 8). apply Z.land_ones. lia. Qed.

Lemma lor_disjoint x y : Z.land x y = 0 -> Z.lor x y = x + y.
Proof. intros H. rewrite <- (Z.add_lor_land x y), H. lia. Qed.

Lemma land_nonneg_bound x m : 0 <= m -> 0 <= Z.land x m <= m.
Proof.
  intros Hm. split; [apply Z.land_nonneg; now right|].
  (* m is the disjoint union of its bits outside and inside [x] *)
  pose proof (Z.lor_ldiff_and m (Z.land x m)) as Hd.
  assert (Hsub : Z.land m (Z.land x m) = Z.land x m).
  { apply Z.bits_inj'. intros n Hn. rewrite !Z.land_spec.
    destruct (Z.testbit x n), (Z.testbit m n); reflexivity. }
  assert (Hdis : Z.land (Z.ldiff m (Z.land x m)) (Z.land x m) = 0).
  { apply Z.bits_inj'. intros n Hn.
    rewrite Z.land_spec, Z.ldiff_spec, Z.bits_0.
    destruct (Z.testbit m n), (Z.testbit (Z.land x m) n); reflexivity. }
  rewrite Hsub, lor_disjoint in Hd by exact Hdis.
  assert (0 <= Z.ldiff m (Z.land x m)) by (apply Z.ldiff_nonneg; now left).
  lia.
Qed.

Lemma testbit_above x n : 0 <= x < 2 ^ n -> 0 <= n -> Z.testbit x n = false.
Proof.
  intros [H0 H1] Hn.
  destruct (Z.eq_dec x 0) as [->|Hx]; [apply Z.bits_0|].
  apply Z.bits_above_log2; [lia|].
  apply Z.log2_lt_pow2; lia.
Qed.

Lemma land_shiftl_disjoint x y k :
  0 <= k -> 0 <= x < 2 ^ k -> Z.land x (Z.shiftl y k) = 0.
Proof.
  intros Hk Hx. apply Z.bits_inj'. intros n Hn.
  rewrite Z.land_spec, Z.bits_0.
  destruct (Z_lt_ge_dec n k) as [Hlt|Hge].
  - rewrite Z.shiftl_spec_low by lia. apply andb_false_r.
  - rewrite (testbit_above x n); [reflexivity| |lia].
    split; [lia|]. apply Z.lt_le_trans with (2 ^ k); [lia|].
    apply Z.pow_le_mono_r; lia.
Qed.

Lemma lor_shiftl_add x y k :
  0 <= k -> 0 <= x < 2 ^ k -> Z.lor x (Z.shiftl y k) = x + y * 2 ^ k.
Proof.
  intros Hk Hx. rewrite lor_disjoint by now apply land_shiftl_disjoint.
  now rewrite Z.shiftl_mul_pow2.
Qed.

(** [x & 0x0ff00000]: bits 27..20 of [x], in place. *)
Lemma land_mask_27_20 x :
  Z.land x 0x0ff00000 = (x / 2 ^ 20) mod 2 ^ 8 * 2 ^ 20.
Proof.
  change 0x0ff00000 with (Z.shiftl (Z.ones 8) 20).
  rewrite <- Z.shiftl_mul_pow2, <- Z.land_ones, <- Z.shiftr_div_pow2 by lia.
  apply Z.bits_inj'. intros n Hn.
  rewrite Z.land_spec.
  destruct (Z_lt_ge_dec n 20) as [Hlt|Hge].
  - rewrite !Z.shiftl_spec_low by lia. apply andb_false_r.
  - rewrite !Z.shiftl_spec by lia.
    rewrite Z.land_spec, Z.shiftr_spec by lia.
    now replace (n - 20 + 20) with n by lia.
Qed.

(** ** Properties of the SMC *)

Module SMCProps.
Import SMC.

(** *** Segment codecs *)

Ltac bits_to_arith :=
  rewrite ?Z.lor_0_l, ?land_byte, ?land_mask_27_20;
  rewrite ?Z.shiftr_div_pow2, ?Z.shiftl_mul_pow2 by lia.

(** The two fields of an AST2400/AST2500 register. *)
Lemma abs_reg_fields st en :
  0 <= st < 2 ^ 8 -> 0 <= en < 2 ^ 8 ->
  Z.lor (Z.shiftl st 16) (Z.shiftl en 24) = st * 2 ^ 16 + en * 2 ^ 24.
Proof.
  intros Hs He. rewrite (Z.shiftl_mul_pow2 st) by lia.
  apply lor_shiftl_add; lia.
Qed.

Lemma abs_encode_value fb a sz :
  aspeed_smc_segment_to_reg fb (mkSeg a sz)
  = (a / 2 ^ 23) mod 2 ^ 8 * 2 ^ 16
    + (u64 (a + sz) / 2 ^ 23) mod 2 ^ 8 * 2 ^ 24.
Proof.
  unfold aspeed_smc_segment_to_reg, SEG_START_MASK, SEG_END_MASK,
    SEG_START_SHIFT, SEG_END_SHIFT. cbn [seg_addr seg_size].
  rewrite Z.lor_0_l, !land_byte, !Z.shiftr_div_pow2 by lia.
  set (st := (a / 2 ^ 23) mod 2 ^ 8).
  set (en := (u64 (a + sz) / 2 ^ 23) mod 2 ^ 8).
  assert (Hs : 0 <= st < 2 ^ 8) by (apply Z.mod_pos_bound; lia).
  assert (He : 0 <= en < 2 ^ 8) by (apply Z.mod_pos_bound; lia).
  rewrite (u32_small (Z.shiftl st 16))
    by (rewrite Z.shiftl_mul_pow2 by lia; lia).
  rewrite abs_reg_fields by assumption.
  apply u32_small. lia.
Qed.

Lemma abs_decode_value fb st en :
  0 <= st < 2 ^ 8 -> 0 <= en < 2 ^ 8 ->
  aspeed_smc_reg_to_segment fb (st * 2 ^ 16 + en * 2 ^ 24)
  = mkSeg (st * 2 ^ 23) (u32 (en * 2 ^ 23 - st * 2 ^ 23)).
Proof.
  intros Hs He.
  unfold aspeed_smc_reg_to_segment, SEG_START_MASK, SEG_END_MASK,
    SEG_START_SHIFT, SEG_END_SHIFT.
  rewrite !land_byte, !Z.shiftr_div_pow2, !Z.shiftl_mul_pow2 by lia.
  assert (H1 : ((st * 2 ^ 16 + en * 2 ^ 24) / 2 ^ 16) mod 2 ^ 8 = st).
  { Z.div_mod_to_equations. lia. }
  assert (H2 : ((st * 2 ^ 16 + en * 2 ^ 24) / 2 ^ 24) mod 2 ^ 8 = en).
  { Z.div_mod_to_equations. lia. }
  now rewrite H1, H2.
Qed.

(** Round trip of the absolute encoding, on an 8MB-aligned segment that
    ends below 2 GiB. *)
Lemma abs_roundtrip fb a sz :
  0 <= a -> a mod (8 * MiB) = 0 -> sz mod (8 * MiB) = 0 -> 0 <= sz ->
  a + sz < 2 ^ 31 ->
  aspeed_smc_reg_to_segment fb (aspeed_smc_segment_to_reg fb (mkSeg a sz))
  = mkSeg a sz.
Proof.
  intros Ha Ham Hsm Hsz Hend. change (8 * MiB) with (2 ^ 23) in *.
  rewrite abs_encode_value, abs_decode_value
    by (apply Z.mod_pos_bound; lia).
  rewrite (u64_small (a + sz)) by lia.
  assert (E1 : (a / 2 ^ 23) mod 2 ^ 8 * 2 ^ 23 = a).
  { Z.div_mod_to_equations. lia. }
  assert (E2 : ((a + sz) / 2 ^ 23) mod 2 ^ 8 * 2 ^ 23 = a + sz).
  { Z.div_mod_to_equations. lia. }
  rewrite E1, E2. replace (a + sz - a) with sz by lia.
  f_equal. apply u32_small. lia.
Qed.

Lemma lor_mul_add x y k :
  0 <= k -> 0 <= x < 2 ^ k -> Z.lor x (y * 2 ^ k) = x + y * 2 ^ k.
Proof.
  intros Hk Hx. rewrite <- (Z.shiftl_mul_pow2 y k) by lia.
  rewrite lor_shiftl_add by lia. now rewrite Z.shiftl_mul_pow2 by lia.
Qed.

Lemma off_encode_value fb a sz :
  sz <> 0 ->
  aspeed_2600_smc_segment_to_reg fb (mkSeg a sz)
  = (a / 2 ^ 20) mod 2 ^ 8 * 2 ^ 4
    + (u64 (a + sz - 1) / 2 ^ 20) mod 2 ^ 8 * 2 ^ 20.
Proof.
  intros Hsz. unfold aspeed_2600_smc_segment_to_reg, AST2600_SEG_ADDR_MASK.
  cbn [seg_addr seg_size].
  destruct (Z.eqb_spec sz 0) as [?|_]; [contradiction|].
  rewrite Z.lor_0_l, !land_mask_27_20, Z.shiftr_div_pow2 by lia.
  set (st := (a / 2 ^ 20) mod 2 ^ 8).
  set (en := (u64 (a + sz - 1) / 2 ^ 20) mod 2 ^ 8).
  assert (Hs : 0 <= st < 2 ^ 8) by (apply Z.mod_pos_bound; lia).
  assert (He : 0 <= en < 2 ^ 8) by (apply Z.mod_pos_bound; lia).
  assert (E : st * 2 ^ 20 / 2 ^ 16 = st * 2 ^ 4).
  { Z.div_mod_to_equations. lia. }
  rewrite E, (u32_small (st * 2 ^ 4)) by lia.
  rewrite lor_mul_add by lia. apply u32_small. lia.
Qed.

Lemma off_decode_value fb st en :
  0 <= st < 2 ^ 8 -> 0 <= en < 2 ^ 8 ->
  aspeed_2600_smc_reg_to_segment fb (st * 2 ^ 4 + en * 2 ^ 20)
  = mkSeg (u64 (fb + st * 2 ^ 20))
          (u32 (en * 2 ^ 20 + MiB - st * 2 ^ 20)).
Proof.
  intros Hs He. unfold aspeed_2600_smc_reg_to_segment, AST2600_SEG_ADDR_MASK.
  rewrite !land_mask_27_20, Z.shiftl_mul_pow2 by lia.
  assert (H1 : (u32 ((st * 2 ^ 4 + en * 2 ^ 20) * 2 ^ 16) / 2 ^ 20)
               mod 2 ^ 8 = st).
  { unfold u32. Z.div_mod_to_equations. lia. }
  assert (H2 : ((st * 2 ^ 4 + en * 2 ^ 20) / 2 ^ 20) mod 2 ^ 8 = en).
  { Z.div_mod_to_equations. lia. }
  now rewrite H1, H2.
Qed.

(** Round trip of the offset encoding, for a window of 256MB at a base
    aligned on it, on a 1MB-aligned non-empty segment that ends inside
    the window. *)
Lemma off_roundtrip fb a sz :
  0 <= fb -> fb mod 2 ^ 28 = 0 -> fb + 2 ^ 28 <= 2 ^ 64 ->
  fb <= a -> a mod MiB = 0 -> sz mod MiB = 0 -> 0 < sz ->
  a + sz <= fb + 2 ^ 28 ->
  aspeed_2600_smc_reg_to_segment fb
    (aspeed_2600_smc_segment_to_reg fb (mkSeg a sz))
  = mkSeg a sz.
Proof.
  intros Hfb Hfbm Hfbe Ha Ham Hsm Hsz Hend. change MiB with (2 ^ 20) in *.
  rewrite off_encode_value by lia.
  rewrite off_decode_value by (apply Z.mod_pos_bound; lia).
  rewrite (u64_small (a + sz - 1)) by lia.
  assert (E1 : (a / 2 ^ 20) mod 2 ^ 8 * 2 ^ 20 = a - fb).
  { Z.div_mod_to_equations. lia. }
  assert (E2 : ((a + sz - 1) / 2 ^ 20) mod 2 ^ 8 * 2 ^ 20
               = a + sz - fb - 2 ^ 20).
  { Z.div_mod_to_equations. lia. }
  rewrite E1, E2. f_equal.
  - replace (fb + (a - fb)) with a by lia. apply u64_small. lia.
  - change MiB with (2 ^ 20).
    replace (a + sz - fb - 2 ^ 20 + 2 ^ 20 - (a - fb)) with sz by lia.
    apply u32_small. lia.
Qed.

Ltac unfold_bases :=
  unfold ASPEED_SOC_SMC_FLASH_BASE, ASPEED_SOC_FMC_FLASH_BASE,
    ASPEED_SOC_SPI_FLASH_BASE, ASPEED_SOC_SPI2_FLASH_BASE,
    ASPEED26_SOC_FMC_FLASH_BASE, ASPEED26_SOC_SPI_FLASH_BASE,
    ASPEED26_SOC_SPI2_FLASH_BASE in *.

(** A closed bound [lo <= c < hi] on constants. *)
Ltac const_bound := vm_compute; split; [discriminate|reflexivity].

(** Decide the first conditional whose test is closed. *)
Ltac step_if :=
  match goal with
  | |- context [if ?b then _ else _] =>
      let v := eval vm_compute in b in
      match v with
      | true => change b with true
      | false => change b with false
      end; cbv iota
  end.

(** Case analysis on the controller of a device state. *)
Ltac each_controller_of s H :=
  let c := fresh "c" in
  let E := fresh "Ec" in
  remember (ctrl s) as c eqn:E in *;
  unfold controllers in H; cbn [In] in H;
  repeat (destruct H as [<-|H]); [..|contradiction].

Ltac each_controller H :=
  unfold controllers in H; cbn [In] in H;
  repeat (destruct H as [<-|H]); [..|contradiction].

(** The codecs on an arbitrary register value: only the two fields
    matter. *)
Lemma abs_decode_fields fb v :
  aspeed_smc_reg_to_segment fb v
  = mkSeg ((v / 2 ^ 16) mod 2 ^ 8 * 2 ^ 23)
          (u32 ((v / 2 ^ 24) mod 2 ^ 8 * 2 ^ 23
                - (v / 2 ^ 16) mod 2 ^ 8 * 2 ^ 23)).
Proof.
  unfold aspeed_smc_reg_to_segment, SEG_START_MASK, SEG_END_MASK,
    SEG_START_SHIFT, SEG_END_SHIFT.
  now rewrite !land_byte, !Z.shiftr_div_pow2, !Z.shiftl_mul_pow2 by lia.
Qed.

Lemma off_decode_fields fb v :
  aspeed_2600_smc_reg_to_segment fb v
  = mkSeg (u64 (fb + (u32 (v * 2 ^ 16) / 2 ^ 20) mod 2 ^ 8 * 2 ^ 20))
          (u32 ((v / 2 ^ 20) mod 2 ^ 8 * 2 ^ 20 + MiB
                - (u32 (v * 2 ^ 16) / 2 ^ 20) mod 2 ^ 8 * 2 ^ 20)).
Proof.
  unfold aspeed_2600_smc_reg_to_segment, AST2600_SEG_ADDR_MASK.
  now rewrite !land_mask_27_20, Z.shiftl_mul_pow2 by lia.
Qed.

Lemma encode_range c seg : In c controllers -> 0 <= encode c seg < 2 ^ 32.
Proof.
  intros Hc. unfold encode.
  each_controller Hc; cbn [segment_to_reg smc_ast2400 fmc_ast2400
    spi1_ast2400 fmc_ast2500 spi1_ast2500 spi2_ast2500 fmc_ast2600
    spi1_ast2600 spi2_ast2600];
    unfold aspeed_smc_segment_to_reg, aspeed_2600_smc_segment_to_reg;
    try destruct (_ =? 0); try apply u32_range; lia.
Qed.

(** The register written back for CS0 after its start was put back on
    the window base decodes to a segment that starts at the base and still
    passes the window test. *)
Lemma cs0_reencode_ok c w :
  In c controllers ->
  let seg := mkSeg (flash_window_base c) (seg_size (decode c w)) in
  touches_window c seg ->
  seg_addr (decode c (encode c seg)) = flash_window_base c
  /\ touches_window c (decode c (encode c seg)).
Proof.
  intros Hc. unfold touches_window, seg_end, decode, encode.
  each_controller Hc;
    cbn [segment_to_reg reg_to_segment flash_window_base flash_window_size
         smc_ast2400 fmc_ast2400 spi1_ast2400 fmc_ast2500 spi1_ast2500
         spi2_ast2500 fmc_ast2600 spi1_ast2600 spi2_ast2600];
    unfold_bases.
  1-6: rewrite (abs_decode_fields _ w); cbn [seg_addr seg_size];
       set (S := (w / 2 ^ 16) mod 2 ^ 8); set (E := (w / 2 ^ 24) mod 2 ^ 8);
       assert (HS : 0 <= S < 2 ^ 8) by (apply Z.mod_pos_bound; lia);
       assert (HE : 0 <= E < 2 ^ 8) by (apply Z.mod_pos_bound; lia);
       rewrite abs_encode_value, abs_decode_value
         by (apply Z.mod_pos_bound; lia);
       cbn [seg_addr seg_size]; unfold u32, u64; clearbody S E;
       intros [H1 H2]; Z.div_mod_to_equations; lia.
  all: rewrite (off_decode_fields _ w); cbn [seg_addr seg_size];
       set (S := (u32 (w * 2 ^ 16) / 2 ^ 20) mod 2 ^ 8);
       set (E := (w / 2 ^ 20) mod 2 ^ 8);
       assert (HS : 0 <= S < 2 ^ 8) by (apply Z.mod_pos_bound; lia);
       assert (HE : 0 <= E < 2 ^ 8) by (apply Z.mod_pos_bound; lia);
       change MiB with (2 ^ 20);
       set (sz := u32 (E * 2 ^ 20 + 2 ^ 20 - S * 2 ^ 20));
       intros [H1 H2];
       assert (Hsz : sz <> 0)
         by (intros Z0; rewrite Z0, Z.add_0_r in H1; unfold u64 in H1;
             rewrite Z.mod_small in H1; lia);
       rewrite off_encode_value by exact Hsz;
       rewrite off_decode_value by (apply Z.mod_pos_bound; lia);
       cbn [seg_addr seg_size]; change MiB with (2 ^ 20);
       assert (Hr : 0 <= sz < 2 ^ 32) by apply u32_range;
       unfold u32, u64; clearbody sz S E;
       Z.div_mod_to_equations; lia.
Qed.

(** C2, as amended: for every controller variant, decoding the register
    produced by encoding a segment returns that same segment, for every
    segment whose base is aligned on the variant unit (8 MiB for the
    absolute encoding, 1 MiB for the offset encoding) and not below
    flash_window_base, whose size is a positive multiple of the unit, and
    whose end (base + size) does not exceed the end of the flash window. *)
Theorem C2_segment_roundtrip (c : AspeedSMCController) (seg : AspeedSegments) :
  In c controllers ->
  flash_window_base c <= seg_addr seg ->
  seg_addr seg mod segment_unit c = 0 ->
  0 < seg_size seg ->
  seg_size seg mod segment_unit c = 0 ->
  seg_addr seg + seg_size seg <= flash_window_base c + flash_window_size c ->
  decode c (encode c seg) = seg.
Proof.
  intros Hc Hlo Ham Hsz Hsm Hend. destruct seg as [a sz].
  each_controller Hc; unfold decode, encode, segment_unit in *;
    cbn in Hlo, Ham, Hsz, Hsm, Hend |- *; unfold_bases;
    first [ apply abs_roundtrip; first [assumption | lia]
          | apply off_roundtrip; first [assumption | reflexivity | lia] ].
Qed.

Lemma C2_segment_roundtrip_witness :
  decode fmc_ast2500 (encode fmc_ast2500 (mkSeg 0x28000000 (32 * MiB)))
  = mkSeg 0x28000000 (32 * MiB).
Proof.
  apply (C2_segment_roundtrip fmc_ast2500 (mkSeg 0x28000000 (32 * MiB))).
  - do 3 right; left; reflexivity.
  - vm_compute; discriminate.
  - reflexivity.
  - reflexivity.
  - reflexivity.
  - vm_compute; discriminate.
Defined.

(** C2 as stated fails: a base inside the window that is not aligned on
    the unit is rounded down by the encoder, and a segment that starts in
    the window but ends beyond it does not fit the end field. *)
Lemma C2_as_stated_fails :
  (In fmc_ast2400 controllers
   /\ flash_window_base fmc_ast2400 <= 0x20400000
      < flash_window_base fmc_ast2400 + flash_window_size fmc_ast2400
   /\ 0 < 8 * MiB /\ (8 * MiB) mod segment_unit fmc_ast2400 = 0
   /\ decode fmc_ast2400 (encode fmc_ast2400 (mkSeg 0x20400000 (8 * MiB)))
      <> mkSeg 0x20400000 (8 * MiB))
  /\ (In fmc_ast2600 controllers
      /\ flash_window_base fmc_ast2600 <= 0x2FF00000
         < flash_window_base fmc_ast2600 + flash_window_size fmc_ast2600
      /\ 0 < 2 * MiB /\ (2 * MiB) mod segment_unit fmc_ast2600 = 0
      /\ decode fmc_ast2600 (encode fmc_ast2600 (mkSeg 0x2FF00000 (2 * MiB)))
         <> mkSeg 0x2FF00000 (2 * MiB)).
Proof.
  split.
  - split; [right; left; reflexivity|].
    split; [vm_compute; split; [discriminate|reflexivity]|].
    split; [reflexivity|]. split; [reflexivity|].
    vm_compute. discriminate.
  - split; [do 6 right; left; reflexivity|].
    split; [vm_compute; split; [discriminate|reflexivity]|].
    split; [reflexivity|]. split; [reflexivity|].
    vm_compute. discriminate.
Qed.

(** *** The register file *)

Section Device.
Context {SPI AS : Type} `{!SSIBus SPI} `{!AddressSpace AS}.

Abbreviation State := (@AspeedSMCState SPI AS).

Lemma reg_set_reg_eq (s : State) i v :
  (i < length (regs s))%nat -> reg (set_reg i v s) i = v.
Proof.
  intros Hi. unfold reg, set_reg. cbn.
  now apply list_lookup_total_insert_eq.
Qed.

Lemma reg_set_reg_ne (s : State) i j v :
  i <> j -> reg (set_reg i v s) j = reg s j.
Proof.
  intros Hij. unfold reg, set_reg. cbn.
  now apply list_lookup_total_insert_ne.
Qed.

Lemma length_set_reg (s : State) i v :
  length (regs (set_reg i v s)) = length (regs s).
Proof. unfold set_reg. cbn. apply length_insert. Qed.

Lemma same_device_refl (s : State) : same_device s s.
Proof. now repeat split. Qed.

Lemma same_device_trans (s1 s2 s3 : State) :
  same_device s1 s2 -> same_device s2 s3 -> same_device s1 s3.
Proof.
  unfold same_device. intros (?&?&?&?&?) (?&?&?&?&?).
  repeat split; congruence.
Qed.

Lemma same_device_set_reg (s : State) i v : same_device s (set_reg i v s).
Proof. repeat split. apply length_set_reg. Qed.

(** *** Frames *)

Lemma modifies_refl M (s : State) : modifies M s s.
Proof. now repeat split. Qed.

Lemma modifies_trans M (s1 s2 s3 : State) :
  modifies M s1 s2 -> modifies M s2 s3 -> modifies M s1 s3.
Proof.
  intros (?&?&?&?&?&F1) (?&?&?&?&?&F2).
  repeat split; try congruence.
  intros j Hj. now rewrite F2, F1.
Qed.

Lemma modifies_weaken (M M' : nat -> Prop) (s s' : State) :
  (forall j, M j -> M' j) -> modifies M s s' -> modifies M' s s'.
Proof.
  intros HM (?&?&?&?&?&F). repeat split; auto.
Qed.

Lemma modifies_set_reg (M : nat -> Prop) (s s1 : State) i v :
  M i -> modifies M s s1 -> modifies M s (set_reg i v s1).
Proof.
  intros Hi Hs. eapply modifies_trans; [exact Hs|].
  repeat split; [apply length_set_reg|].
  intros j Hj. apply reg_set_reg_ne. intros ->. contradiction.
Qed.

(** Setters of fields other than [regs]. *)
Lemma modifies_other (M : nat -> Prop) (s s1 s2 : State) :
  ctrl s2 = ctrl s1 -> num_cs s2 = num_cs s1 ->
  inject_failure s2 = inject_failure s1 -> sdram_base s2 = sdram_base s1 ->
  regs s2 = regs s1 ->
  modifies M s s1 -> modifies M s s2.
Proof.
  intros E1 E2 E3 E4 E5 Hs. eapply modifies_trans; [exact Hs|].
  unfold modifies, reg. rewrite E1, E2, E3, E4, E5. now repeat split.
Qed.

Lemma modifies_spi_transfer M (s s1 : State) out :
  modifies M s s1 -> modifies M s (fst (spi_transfer out s1)).
Proof.
  intros Hs. unfold spi_transfer. destruct (ssi_transfer _ _).
  eapply modifies_other; [..|exact Hs]; reflexivity.
Qed.

Ltac by_other :=
  intros Hs; eapply modifies_other; [..|exact Hs]; reflexivity.

Lemma modifies_log M (s s1 : State) m e :
  modifies M s s1 -> modifies M s (qemu_log_mask m e s1).
Proof. by_other. Qed.
Lemma modifies_cs_line M (s s1 : State) cs l :
  modifies M s s1 -> modifies M s (set_cs_line cs l s1).
Proof. by_other. Qed.
Lemma modifies_snoop_index M (s s1 : State) v :
  modifies M s s1 -> modifies M s (SMC.set_snoop_index v s1).
Proof. by_other. Qed.
Lemma modifies_snoop_dummies M (s s1 : State) v :
  modifies M s s1 -> modifies M s (SMC.set_snoop_dummies v s1).
Proof. by_other. Qed.
Lemma modifies_flashes M (s s1 : State) v :
  modifies M s s1 -> modifies M s (SMC.set_flashes v s1).
Proof. by_other. Qed.
Lemma modifies_flash_as M (s s1 : State) v :
  modifies M s s1 -> modifies M s (SMC.set_flash_as v s1).
Proof. by_other. Qed.
Lemma modifies_dram_as M (s s1 : State) v :
  modifies M s s1 -> modifies M s (SMC.set_dram_as v s1).
Proof. by_other. Qed.
Lemma modifies_irq_raise M (s s1 : State) :
  modifies M s s1 -> modifies M s (qemu_irq_raise s1).
Proof. by_other. Qed.
Lemma modifies_irq_lower M (s s1 : State) :
  modifies M s s1 -> modifies M s (qemu_irq_lower s1).
Proof. by_other. Qed.

(** One layer of a state built by the setters. *)
Ltac frame_step :=
  match goal with
  | |- modifies _ ?s ?s => apply modifies_refl
  | |- modifies _ _ (set_reg _ _ _) => apply modifies_set_reg
  | |- modifies _ _ (fst (spi_transfer _ _)) => apply modifies_spi_transfer
  | |- modifies _ _ (qemu_log_mask _ _ _) => apply modifies_log
  | |- modifies _ _ (set_cs_line _ _ _) => apply modifies_cs_line
  | |- modifies _ _ (SMC.set_snoop_index _ _) => apply modifies_snoop_index
  | |- modifies _ _ (SMC.set_snoop_dummies _ _) => apply modifies_snoop_dummies
  | |- modifies _ _ (SMC.set_flashes _ _) => apply modifies_flashes
  | |- modifies _ _ (SMC.set_flash_as _ _) => apply modifies_flash_as
  | |- modifies _ _ (SMC.set_dram_as _ _) => apply modifies_dram_as
  | |- modifies _ _ (qemu_irq_raise _) => apply modifies_irq_raise
  | |- modifies _ _ (qemu_irq_lower _) => apply modifies_irq_lower
  end.

(** Frames through conditionals and pairs. *)
Ltac frame :=
  repeat first
    [ assumption
    | frame_step
    | match goal with
      | |- modifies _ _ (if ?b then _ else _) => destruct b
      | |- modifies _ _ (match ?x with _ => _ end) => destruct x eqn:?
      | |- modifies _ _ (fst (if ?b then _ else _)) => destruct b
      | |- modifies _ _ (fst (match ?x with _ => _ end)) => destruct x eqn:?
      | |- modifies _ _ (fst (_, _)) => cbn [fst]
      end ].

Lemma frame_spi_repeat M (s s1 : State) n out :
  modifies M s s1 -> modifies M s (spi_repeat n out s1).
Proof.
  revert s1. induction n as [|n IH]; intros s1 Hs; cbn [spi_repeat]; [easy|].
  apply IH. now apply modifies_spi_transfer.
Qed.

Lemma frame_flash_read_bytes M (s s1 : State) n i ret :
  modifies M s s1 -> modifies M s (fst (flash_read_bytes n i ret s1)).
Proof.
  revert s1 i ret. induction n as [|n IH]; intros s1 i ret Hs;
    cbn [flash_read_bytes]; [easy|].
  destruct (spi_transfer 0 s1) as [s2 r] eqn:E.
  apply IH. change s2 with (fst (s2, r)). rewrite <- E.
  now apply modifies_spi_transfer.
Qed.

Lemma frame_flash_write_bytes M (s s1 : State) n i data :
  modifies M s s1 -> modifies M s (flash_write_bytes n i data s1).
Proof.
  revert s1 i. induction n as [|n IH]; intros s1 i Hs;
    cbn [flash_write_bytes]; [easy|].
  apply IH. now apply modifies_spi_transfer.
Qed.

Lemma frame_flash_cmd M (s s1 : State) id :
  modifies M s s1 -> modifies M s (fst (aspeed_smc_flash_cmd s1 id)).
Proof. intros Hs. unfold aspeed_smc_flash_cmd. cbn [fst]. frame. Qed.

Lemma frame_check_segment_addr M (s s1 : State) id addr :
  modifies M s s1 ->
  modifies M s (fst (aspeed_smc_check_segment_addr s1 id addr)).
Proof. intros Hs. unfold aspeed_smc_check_segment_addr. frame. Qed.

Lemma frame_flash_select M (s s1 : State) id :
  M (r_ctrl0 (ctrl s) + id)%nat -> modifies M s s1 ->
  modifies M s (aspeed_smc_flash_select s1 id).
Proof.
  intros HM Hs. pose proof Hs as (Ec & _).
  unfold aspeed_smc_flash_select. frame. now rewrite Ec.
Qed.

Lemma frame_flash_unselect M (s s1 : State) id :
  M (r_ctrl0 (ctrl s) + id)%nat -> modifies M s s1 ->
  modifies M s (aspeed_smc_flash_unselect s1 id).
Proof.
  intros HM Hs. pose proof Hs as (Ec & _).
  unfold aspeed_smc_flash_unselect. frame. now rewrite Ec.
Qed.

Lemma frame_flash_setup M (s s1 : State) id addr :
  modifies M s s1 -> modifies M s (aspeed_smc_flash_setup s1 id addr).
Proof.
  intros Hs. unfold aspeed_smc_flash_setup.
  destruct (aspeed_smc_flash_cmd s1 id) as [s2 cmd] eqn:E2.
  assert (H2 : modifies M s s2).
  { change s2 with (fst (s2, cmd)). rewrite <- E2. now apply frame_flash_cmd. }
  destruct (aspeed_smc_check_segment_addr s2 id (u32 addr)) as [s3 a] eqn:E3.
  assert (H3 : modifies M s s3).
  { change s3 with (fst (s3, a)). rewrite <- E3.
    now apply frame_check_segment_addr. }
  match goal with
  | |- modifies _ _ (if _ then spi_repeat _ _ ?x else ?x) =>
      assert (H4 : modifies M s x) by frame
  end.
  destruct (_ =? _); [apply frame_spi_repeat|]; exact H4.
Qed.

Lemma frame_flash_read M (s : State) id addr size :
  M (r_ctrl0 (ctrl s) + id)%nat ->
  modifies M s (fst (aspeed_smc_flash_read s id addr size)).
Proof.
  intros HM. unfold aspeed_smc_flash_read.
  destruct (_ =? CTRL_USERMODE).
  { apply frame_flash_read_bytes, modifies_refl. }
  destruct (_ || _); [|cbn [fst]; frame].
  destruct (flash_read_bytes _ _ _ _) as [s2 ret] eqn:E. cbn [fst].
  apply frame_flash_unselect; [exact HM|].
  change s2 with (fst (s2, ret)). rewrite <- E.
  apply frame_flash_read_bytes, frame_flash_setup, frame_flash_select;
    [exact HM|apply modifies_refl].
Qed.

Lemma frame_snoop_dummy_loop M (s s1 : State) n :
  modifies M s s1 -> modifies M s (snoop_dummy_loop n s1).
Proof.
  revert s1. induction n as [|n IH]; intros s1 Hs;
    cbn [snoop_dummy_loop]; [easy|].
  destruct (_ =? 0); [easy|]. apply IH. frame.
Qed.

Lemma frame_do_snoop M (s s1 : State) id data size :
  modifies M s s1 -> modifies M s (fst (aspeed_smc_do_snoop s1 id data size)).
Proof.
  intros Hs. unfold aspeed_smc_do_snoop.
  destruct (_ =? SNOOP_OFF); [easy|].
  destruct (_ =? SNOOP_START).
  { destruct (_ <=? 0); cbn [fst]; frame. }
  destruct (_ <=? _); cbn [fst]; [|frame].
  assert (H2 : modifies M s
                 (snoop_dummy_loop (Z.to_nat (snoop_dummies s1)) s1))
    by now apply frame_snoop_dummy_loop.
  frame.
Qed.

Lemma frame_flash_write M (s : State) id addr data size :
  M (r_ctrl0 (ctrl s) + id)%nat ->
  modifies M s (aspeed_smc_flash_write s id addr data size).
Proof.
  intros HM. unfold aspeed_smc_flash_write.
  destruct (negb _); [frame|].
  destruct (_ =? CTRL_USERMODE).
  { destruct (aspeed_smc_do_snoop s id data size) as [s2 b] eqn:E.
    assert (H2 : modifies M s s2).
    { change s2 with (fst (s2, b)). rewrite <- E.
      apply frame_do_snoop, modifies_refl. }
    destruct b; [exact H2|]. now apply frame_flash_write_bytes. }
  destruct (_ =? CTRL_WRITEMODE); [|frame].
  apply frame_flash_unselect; [exact HM|].
  apply frame_flash_write_bytes, frame_flash_setup, frame_flash_select;
    [exact HM|apply modifies_refl].
Qed.

Lemma frame_flash_update_cs M (s s1 : State) id :
  modifies M s s1 -> modifies M s (aspeed_smc_flash_update_cs s1 id).
Proof. intros Hs. unfold aspeed_smc_flash_update_cs. frame. Qed.

Lemma frame_flash_overlap_loop M (s s1 : State) idx new cs :
  modifies M s s1 -> modifies M s (fst (flash_overlap_loop idx new cs s1)).
Proof.
  intros Hs. induction idx as [|i idx IH]; cbn [flash_overlap_loop fst];
    [easy|].
  destruct (_ =? _)%nat; [exact IH|].
  destruct (_ && _); [cbn [fst]; frame|exact IH].
Qed.

Lemma frame_flash_set_segment M (s : State) cs new :
  M (R_SEG_ADDR0 + cs)%nat ->
  modifies M s (aspeed_smc_flash_set_segment s cs new).
Proof.
  intros HM. unfold aspeed_smc_flash_set_segment.
  destruct (_ && negb (_ =? flash_window_base _));
    destruct (_ && negb (seg_end _ =? _));
    (destruct (segment_outside_window _ _); [frame|]);
    frame; unfold aspeed_smc_flash_overlap;
    apply frame_flash_overlap_loop; frame.
Qed.

Lemma frame_hclk_divisor M (s s1 : State) mask :
  modifies M s s1 -> modifies M s (fst (aspeed_smc_hclk_divisor s1 mask)).
Proof. intros Hs. unfold aspeed_smc_hclk_divisor. frame. Qed.

Lemma frame_dma_calibration M (s s1 : State) :
  M (r_timings (ctrl s)) -> M (r_ctrl0 (ctrl s) + 0)%nat ->
  modifies M s s1 -> modifies M s (aspeed_smc_dma_calibration s1).
Proof.
  intros HT HC Hs. unfold aspeed_smc_dma_calibration.
  destruct (aspeed_smc_hclk_divisor s1 _) as [s2 d] eqn:E.
  assert (H2 : modifies M s s2).
  { change s2 with (fst (s2, d)). rewrite <- E. now apply frame_hclk_divisor. }
  pose proof H2 as (Ec & _).
  destruct (_ && _); frame; cbn [ctrl set_reg set_regs]; now rewrite Ec.
Qed.

Lemma frame_dma_checksum_loop M (s : State) fuel :
  (forall j, dma_loop_regs j -> M j) ->
  forall s1 r, modifies M s s1 ->
    dma_checksum_loop fuel s1 = Some r -> modifies M s (fst r).
Proof.
  intros HM. induction fuel as [|fuel IH]; intros s1 r Hs;
    cbn [dma_checksum_loop].
  - destruct (_ =? 0); [|discriminate]. now intros [= <-].
  - destruct (_ =? 0); [now intros [= <-]|].
    destruct (address_space_ldl_le _ _) as [data|].
    + apply IH. frame; apply HM; unfold dma_loop_regs; auto.
    + intros [= <-]. cbn [fst]. frame.
Qed.

Lemma frame_dma_rw_word M (s s1 : State) :
  modifies M s s1 -> modifies M s (fst (dma_rw_word s1)).
Proof.
  intros Hs. unfold dma_rw_word. destruct (nonzero _);
    repeat (destruct (address_space_ldl_le _ _)
            || destruct (address_space_stl_le _ _ _));
    cbn [fst]; frame.
Qed.

Lemma frame_dma_rw M (s : State) fuel :
  (forall j, dma_loop_regs j -> M j) ->
  forall s1 s', modifies M s s1 ->
    aspeed_smc_dma_rw fuel s1 = Some s' -> modifies M s s'.
Proof.
  intros HM. induction fuel as [|fuel IH]; intros s1 s' Hs;
    cbn [aspeed_smc_dma_rw].
  - destruct (_ =? 0); [|discriminate]. now intros [= <-].
  - destruct (_ =? 0); [now intros [= <-]|].
    destruct (dma_rw_word s1) as [s2 [data|]] eqn:E.
    + apply IH.
      assert (H2 : modifies M s s2).
      { change s2 with (fst (s2, Some data)). rewrite <- E.
        now apply frame_dma_rw_word. }
      frame; apply HM; unfold dma_loop_regs; auto.
    + intros [= <-]. change s2 with (fst (s2, @None Z)). rewrite <- E.
      now apply frame_dma_rw_word.
Qed.

Lemma frame_dma_checksum (s s' : State) fuel :
  aspeed_smc_dma_checksum fuel s = Some s' ->
  modifies (dma_regs (ctrl s)) s s'.
Proof.
  unfold aspeed_smc_dma_checksum.
  destruct (nonzero (Z.land _ DMA_CTRL_WRITE)).
  { intros [= <-]. frame. }
  set (s1 := if nonzero _ then aspeed_smc_dma_calibration s else s).
  assert (H1 : modifies (dma_regs (ctrl s)) s s1).
  { unfold s1. destruct (nonzero _); [|apply modifies_refl].
    apply frame_dma_calibration; [| |apply modifies_refl];
      unfold dma_regs; auto. }
  destruct (dma_checksum_loop fuel s1) as [[s2 fl]|] eqn:E; [|discriminate].
  assert (H2 : modifies (dma_regs (ctrl s)) s s2).
  { change s2 with (fst (s2, fl)).
    eapply frame_dma_checksum_loop; [|exact H1|exact E].
    unfold dma_regs; auto. }
  destruct fl; [|now intros [= <-]].
  destruct (_ && _); intros [= <-]; [|exact H2].
  frame. unfold dma_regs, dma_loop_regs; auto.
Qed.

Lemma frame_dma_stop M (s s1 : State) :
  M R_INTR_CTRL -> M R_DMA_CHECKSUM ->
  modifies M s s1 -> modifies M s (aspeed_smc_dma_stop s1).
Proof. intros H1 H2 Hs. unfold aspeed_smc_dma_stop. frame. Qed.

Lemma frame_dma_done M (s s1 : State) :
  M R_INTR_CTRL -> modifies M s s1 -> modifies M s (aspeed_smc_dma_done s1).
Proof. intros H1 Hs. unfold aspeed_smc_dma_done. frame. Qed.

Lemma frame_dma_ctrl (s s' : State) fuel v :
  aspeed_smc_dma_ctrl fuel s v = Some s' ->
  modifies (dma_regs (ctrl s)) s s'.
Proof.
  unfold aspeed_smc_dma_ctrl. destruct (negb _).
  { intros [= <-]. apply frame_dma_stop; [| |frame];
      unfold dma_regs, dma_loop_regs; auto. }
  destruct (aspeed_smc_dma_in_progress s).
  { intros [= <-]. frame. }
  set (s1 := set_reg R_DMA_CTRL (u32 v) s).
  assert (H1 : modifies (dma_regs (ctrl s)) s s1).
  { unfold s1. frame. unfold dma_regs; auto. }
  destruct (nonzero _).
  - destruct (aspeed_smc_dma_checksum fuel s1) as [s2|] eqn:E; [|discriminate].
    intros [= <-]. apply frame_dma_done; [unfold dma_regs; auto|].
    eapply modifies_trans; [exact H1|]. now apply frame_dma_checksum in E.
  - destruct (aspeed_smc_dma_rw fuel s1) as [s2|] eqn:E; [|discriminate].
    intros [= <-]. apply frame_dma_done; [unfold dma_regs; auto|].
    eapply frame_dma_rw; [|exact H1|exact E]. unfold dma_regs; auto.
Qed.

Lemma frame_smc_write (s s' : State) fuel addr data :
  aspeed_smc_write fuel s addr data = Some s' ->
  modifies (write_regs (ctrl s) (Z.to_nat (Z.shiftr addr 2))) s s'.
Proof.
  unfold aspeed_smc_write. set (a := Z.to_nat (Z.shiftr addr 2)).
  assert (Ha : write_regs (ctrl s) a a) by now left.
  destruct (_ || _); [intros [= <-]; frame|].
  destruct (_ && _).
  { intros [= <-]. apply frame_flash_update_cs. frame. }
  destruct ((R_SEG_ADDR0 <=? a)%nat && _) eqn:Eseg.
  { destruct (negb _); intros [= <-]; [|frame].
    apply frame_flash_set_segment.
    apply andb_true_iff in Eseg as [E1 _]. apply Nat.leb_le in E1.
    now replace (R_SEG_ADDR0 + (a - R_SEG_ADDR0))%nat with a by lia. }
  destruct (a =? R_DUMMY_DATA)%nat; [intros [= <-]; frame|].
  destruct (a =? R_INTR_CTRL)%nat; [intros [= <-]; frame|].
  destruct (has_dma (ctrl s)) eqn:Edma; cbn [andb].
  2: { intros [= <-]. frame. }
  destruct (Nat.eqb_spec a R_DMA_CTRL) as [Ea|_].
  { intros E. apply frame_dma_ctrl in E.
    eapply modifies_weaken; [|exact E]. intros j Hj. right. auto. }
  repeat (destruct (_ =? _)%nat; [intros [= <-]; frame|]).
  intros [= <-]. frame.
Qed.

(** *** Layout of the controllers *)

Lemma ctrl_layout c :
  In c controllers ->
  r_conf c = 0%nat
  /\ (r_timings c = 37 \/ r_timings c = 5)%nat
  /\ (r_ce_ctrl c = 1 \/ r_ce_ctrl c = 255)%nat
  /\ (r_ctrl0 c = 4 \/ r_ctrl0 c = 1)%nat
  /\ (1 <= max_slaves c <= 5)%nat.
Proof.
  intros Hc. each_controller Hc; cbn; repeat split; auto; lia.
Qed.

(** No register but DMA_LEN itself aliases DMA_LEN. *)
Lemma dma_len_not_ctrl (s : State) id :
  smc_wf s -> (id < max_slaves (ctrl s))%nat ->
  R_DMA_LEN <> (r_ctrl0 (ctrl s) + id)%nat.
Proof.
  intros [_ Hc _] Hid.
  destruct (ctrl_layout _ Hc) as (_ & _ & _ & [E|E] & Hm);
    rewrite E; unfold R_DMA_LEN; lia.
Qed.

Lemma smc_wf_modifies M (s s' : State) :
  modifies M s s' -> smc_wf s -> smc_wf s'.
Proof.
  intros (Ec & En & _ & _ & El & _) [H1 H2 H3].
  split; rewrite ?Ec, ?En, ?El; assumption.
Qed.

Lemma dma_len_ok_modifies (M : nat -> Prop) (s s' : State) :
  modifies M s s' -> ~ M R_DMA_LEN -> dma_len_ok s -> dma_len_ok s'.
Proof.
  intros (_ & _ & _ & _ & _ & F) HM. unfold dma_len_ok.
  now rewrite (F _ HM).
Qed.

Lemma DMA_LENGTH_ok v :
  0 <= DMA_LENGTH v <= 0x01FFFFFC /\ DMA_LENGTH v mod 4 = 0.
Proof.
  unfold DMA_LENGTH. split; [apply land_nonneg_bound; lia|].
  change 4 with (2 ^ 2). rewrite <- Z.land_ones by lia.
  rewrite <- Z.land_assoc. apply Z.land_0_r.
Qed.

(** *** DMA checksum *)

Lemma flash_words_tail (s : State) a w F :
  flash_words s a (w :: F) -> flash_words s (u32 (a + 4)) F.
Proof.
  intros Hf i x Hx. specialize (Hf (S i) x Hx).
  rewrite <- Hf. f_equal. unfold u32.
  rewrite Zplus_mod_idemp_l. f_equal. lia.
Qed.

(** The checksum loop over [F]: it ends normally with the sum added to
    the checksum, the flash address advanced and the length at zero; only
    these three registers change. *)
Lemma dma_checksum_loop_words (F : list Z) :
  forall (fuel : nat) (s : State),
    (length F <= fuel)%nat ->
    (R_DMA_CHECKSUM < length (regs s))%nat ->
    reg s R_DMA_LEN = 4 * Z.of_nat (length F) ->
    4 * Z.of_nat (length F) < 2 ^ 32 ->
    0 <= reg s R_DMA_CHECKSUM < 2 ^ 32 ->
    0 <= reg s R_DMA_FLASH_ADDR < 2 ^ 32 ->
    flash_words s (reg s R_DMA_FLASH_ADDR) F ->
    exists s',
      dma_checksum_loop fuel s = Some (s', true)
      /\ reg s' R_DMA_CHECKSUM = u32 (reg s R_DMA_CHECKSUM + sumZ F)
      /\ reg s' R_DMA_FLASH_ADDR
         = u32 (reg s R_DMA_FLASH_ADDR + 4 * Z.of_nat (length F))
      /\ reg s' R_DMA_LEN = 0
      /\ (forall j, j <> R_DMA_CHECKSUM -> j <> R_DMA_FLASH_ADDR ->
                    j <> R_DMA_LEN -> reg s' j = reg s j)
      /\ same_device s s' /\ irq s' = irq s.
Proof.
  induction F as [|w F IH]; intros fuel s Hfuel Hlen HL Hbound Hck0 Hfa Hw.
  - exists s. cbn [length] in HL. change (4 * Z.of_nat 0) with 0 in HL.
    assert (E : dma_checksum_loop fuel s = Some (s, true)).
    { destruct fuel; cbn [dma_checksum_loop]; now rewrite HL. }
    cbn [length sumZ fold_right]. change (4 * Z.of_nat 0) with 0.
    rewrite !Z.add_0_r, !u32_small by assumption.
    split; [exact E|]. split; [reflexivity|]. split; [reflexivity|].
    split; [exact HL|]. split; [reflexivity|].
    split; [apply same_device_refl|reflexivity].
  - destruct fuel as [|fuel]; [cbn in Hfuel; lia|].
    cbn [length] in *.
    assert (Hne : (reg s R_DMA_LEN =? 0) = false) by (apply Z.eqb_neq; lia).
    assert (Hld : address_space_ldl_le (flash_as s) (reg s R_DMA_FLASH_ADDR)
                  = Some w).
    { specialize (Hw 0%nat w eq_refl). cbn in Hw.
      now rewrite Z.add_0_r, u32_small in Hw. }
    cbn [dma_checksum_loop]. rewrite Hne, Hld.
    set (s1 := set_reg R_DMA_CHECKSUM (u32 (reg s R_DMA_CHECKSUM + w)) s).
    set (s2 := set_reg R_DMA_FLASH_ADDR (u32 (reg s1 R_DMA_FLASH_ADDR + 4)) s1).
    set (s3 := set_reg R_DMA_LEN (u32 (reg s2 R_DMA_LEN - 4)) s2).
    assert (L1 : length (regs s1) = length (regs s)) by apply length_set_reg.
    assert (L2 : length (regs s2) = length (regs s))
      by (unfold s2; now rewrite length_set_reg).
    assert (L3 : length (regs s3) = length (regs s))
      by (unfold s3; now rewrite length_set_reg).
    assert (Hck : reg s3 R_DMA_CHECKSUM = u32 (reg s R_DMA_CHECKSUM + w)).
    { unfold s3, s2. rewrite !reg_set_reg_ne by discriminate.
      unfold s1. now apply reg_set_reg_eq. }
    assert (Hf3 : reg s3 R_DMA_FLASH_ADDR = u32 (reg s R_DMA_FLASH_ADDR + 4)).
    { unfold s3. rewrite reg_set_reg_ne by discriminate.
      unfold s2. rewrite reg_set_reg_eq
        by (rewrite L1; unfold R_DMA_FLASH_ADDR, R_DMA_CHECKSUM in *; lia).
      unfold s1. now rewrite reg_set_reg_ne by discriminate. }
    assert (Hl3 : reg s3 R_DMA_LEN = 4 * Z.of_nat (length F)).
    { unfold s3. rewrite reg_set_reg_eq
        by (rewrite L2; unfold R_DMA_LEN, R_DMA_CHECKSUM in *; lia).
      unfold s2, s1. rewrite !reg_set_reg_ne by discriminate.
      rewrite HL.
      replace (4 * Z.of_nat (S (length F)) - 4) with (4 * Z.of_nat (length F))
        by lia.
      apply u32_small. lia. }
    destruct (IH fuel s3) as (s' & E & Ck & Fa & Ln & Fr & Sd & Iq).
    + lia.
    + now rewrite L3.
    + exact Hl3.
    + lia.
    + rewrite Hck. apply u32_range.
    + rewrite Hf3. apply u32_range.
    + rewrite Hf3. eapply flash_words_tail. exact Hw.
    + exists s'. split; [exact E|].
      split.
      { rewrite Ck, Hck. cbn [sumZ fold_right]. unfold u32.
        rewrite Zplus_mod_idemp_l. f_equal. fold (sumZ F). lia. }
      split.
      { rewrite Fa, Hf3. unfold u32. rewrite Zplus_mod_idemp_l. f_equal. lia. }
      split; [exact Ln|]. split.
      { intros j J1 J2 J3. rewrite Fr by assumption.
        unfold s3, s2, s1. now rewrite !reg_set_reg_ne by congruence. }
      split.
      { eapply same_device_trans; [|exact Sd].
        unfold s3, s2, s1.
        repeat (eapply same_device_trans; [|apply same_device_set_reg]).
        apply same_device_refl. }
      rewrite Iq. reflexivity.
Qed.

Lemma land_u32_low x m : 0 <= m < 2 ^ 32 -> Z.land (u32 x) m = Z.land x m.
Proof.
  intros Hm. unfold u32. rewrite <- Z.land_ones by lia.
  rewrite <- Z.land_assoc. f_equal.
  rewrite Z.land_comm, Z.land_ones by lia. now apply Z.mod_small.
Qed.

Lemma land_lor_same x m : Z.land (Z.lor x m) m = m.
Proof.
  apply Z.bits_inj'. intros n _. rewrite Z.land_spec, Z.lor_spec.
  destruct (Z.testbit x n), (Z.testbit m n); reflexivity.
Qed.

Lemma land_lor_other x m k : Z.land m k = 0 ->
  Z.land (Z.lor x m) k = Z.land x k.
Proof.
  intros H. rewrite Z.land_lor_distr_l, H. apply Z.lor_0_r.
Qed.

(** A write at offset 0x80 of a controller with DMA reaches the DMA
    engine. *)
Lemma aspeed_smc_write_dma_ctrl (fuel : nat) (s : State) (addr data : Z) :
  smc_wf s -> has_dma (ctrl s) = true ->
  Z.to_nat (Z.shiftr addr 2) = R_DMA_CTRL ->
  aspeed_smc_write fuel s addr data = aspeed_smc_dma_ctrl fuel s (u32 data).
Proof.
  intros [Hr Hc Hn] Hdma Ha. unfold aspeed_smc_write.
  rewrite Ha. unfold R_DMA_CTRL.
  assert (E : (32 <? r_ctrl0 (ctrl s) + num_cs s)%nat = false).
  { apply Nat.ltb_ge. each_controller_of s Hc; cbn in Hn |- *; lia. }
  rewrite E, andb_false_r.
  each_controller_of s Hc; try discriminate Hdma; reflexivity.
Qed.

Lemma dma_checksum_loop_mono (fuel fuel' : nat) (s : State) r :
  (fuel <= fuel')%nat ->
  dma_checksum_loop fuel s = Some r -> dma_checksum_loop fuel' s = Some r.
Proof.
  revert fuel' s. induction fuel as [|fuel IH]; intros fuel' s Hle.
  - cbn [dma_checksum_loop]. destruct (reg s R_DMA_LEN =? 0) eqn:E0;
      [|discriminate].
    intros <-. destruct fuel'; cbn [dma_checksum_loop]; now rewrite E0.
  - destruct fuel' as [|fuel']; [lia|]. cbn [dma_checksum_loop].
    destruct (reg s R_DMA_LEN =? 0); [trivial|].
    destruct (address_space_ldl_le _ _); [|trivial].
    apply IH. lia.
Qed.

Lemma reg_dma_done_ne (s : State) j :
  j <> R_INTR_CTRL -> reg (aspeed_smc_dma_done s) j = reg s j.
Proof.
  intros Hj. unfold aspeed_smc_dma_done.
  destruct (nonzero _); cbn [reg regs qemu_irq_raise SMC.set_irq];
    now apply reg_set_reg_ne.
Qed.

Lemma reg_dma_done_intr (s : State) :
  (R_INTR_CTRL < length (regs s))%nat ->
  reg (aspeed_smc_dma_done s) R_INTR_CTRL
  = Z.lor (reg s R_INTR_CTRL) INTR_CTRL_DMA_STATUS.
Proof.
  intros Hl. unfold aspeed_smc_dma_done.
  destruct (nonzero _); cbn [reg regs qemu_irq_raise SMC.set_irq];
    now apply reg_set_reg_eq.
Qed.

Lemma irq_dma_done (s : State) :
  (R_INTR_CTRL < length (regs s))%nat ->
  irq (aspeed_smc_dma_done s)
  = if nonzero (Z.land (reg s R_INTR_CTRL) INTR_CTRL_DMA_EN)
    then true :: irq s else irq s.
Proof.
  intros Hl. unfold aspeed_smc_dma_done.
  rewrite reg_set_reg_eq by assumption.
  rewrite land_lor_other by reflexivity.
  now destruct (nonzero _).
Qed.

(** C1, as amended: for every SMC variant with DMA support, a write to
    DMA_CTRL with ENABLE and CKSUM set, WRITE and CALIB clear and
    inject_failure off, on a device where no DMA is in progress (the stored
    DMA_CTRL has ENABLE clear or INTR_CTRL has DMA_STATUS set), starting
    with DMA_CHECKSUM = 0 and DMA_LEN = 4n, where the n flash-window reads
    succeed and return the words F[0..n), returns (with any fuel of at
    least n) and leaves DMA_CHECKSUM = (sum of F[i]) mod 2^32,
    DMA_FLASH_ADDR = (start + 4n) mod 2^32, DMA_LEN = 0 and the DMA_STATUS
    bit of INTR_CTRL set; the operation raises the controller IRQ if the
    DMA_EN bit of INTR_CTRL is set and does not touch the line otherwise. *)
Theorem C1_dma_checksum (s : State) (dma_ctrl : Z) (F : list Z) :
  smc_wf s -> has_dma (ctrl s) = true ->
  Z.land dma_ctrl DMA_CTRL_ENABLE <> 0 ->
  Z.land dma_ctrl DMA_CTRL_CKSUM <> 0 ->
  Z.land dma_ctrl DMA_CTRL_WRITE = 0 ->
  Z.land dma_ctrl DMA_CTRL_CALIB = 0 ->
  inject_failure s = false ->
  aspeed_smc_dma_in_progress s = false ->
  reg s R_DMA_CHECKSUM = 0 ->
  reg s R_DMA_LEN = 4 * Z.of_nat (length F) ->
  4 * Z.of_nat (length F) < 2 ^ 32 ->
  0 <= reg s R_DMA_FLASH_ADDR < 2 ^ 32 ->
  flash_words s (reg s R_DMA_FLASH_ADDR) F ->
  exists s',
    (forall fuel, (length F <= fuel)%nat ->
       aspeed_smc_write fuel s 0x80 dma_ctrl = Some s')
    /\ reg s' R_DMA_CHECKSUM = u32 (sumZ F)
    /\ reg s' R_DMA_FLASH_ADDR
       = u32 (reg s R_DMA_FLASH_ADDR + 4 * Z.of_nat (length F))
    /\ reg s' R_DMA_LEN = 0
    /\ Z.land (reg s' R_INTR_CTRL) INTR_CTRL_DMA_STATUS = INTR_CTRL_DMA_STATUS
    /\ irq s' = if nonzero (Z.land (reg s R_INTR_CTRL) INTR_CTRL_DMA_EN)
                then true :: irq s else irq s.
Proof.
  intros Hwf Hdma Hen Hck Hwr Hcal Hinj Hidle Hsum0 Hlen Hbound Hfa Hwords.
  pose proof (wf_regs s Hwf) as Hregs.
  set (s1 := set_reg R_DMA_CTRL (u32 dma_ctrl) s).
  assert (Hctl : reg s1 R_DMA_CTRL = u32 dma_ctrl).
  { apply reg_set_reg_eq. rewrite Hregs. unfold R_DMA_CTRL, ASPEED_SMC_R_MAX. lia. }
  assert (Hother : forall j, j <> R_DMA_CTRL -> reg s1 j = reg s j).
  { intros j Hj. apply reg_set_reg_ne. congruence. }
  destruct (dma_checksum_loop_words F (length F) s1)
    as (s2 & E & Ck & Fa & Ln & Fr & Sd & Iq).
  { lia. }
  { unfold s1. rewrite length_set_reg, Hregs.
    unfold R_DMA_CHECKSUM, ASPEED_SMC_R_MAX. lia. }
  { now rewrite Hother by discriminate. }
  { exact Hbound. }
  { rewrite Hother, Hsum0 by discriminate. lia. }
  { now rewrite Hother by discriminate. }
  { rewrite Hother by discriminate. exact Hwords. }
  assert (L2 : length (regs s2) = ASPEED_SMC_R_MAX).
  { destruct Sd as (_ & _ & _ & _ & ->). unfold s1.
    now rewrite length_set_reg. }
  assert (Hintr : reg s2 R_INTR_CTRL = reg s R_INTR_CTRL).
  { rewrite Fr by discriminate. now apply Hother. }
  exists (aspeed_smc_dma_done s2). split.
  { intros fuel Hfuel.
    rewrite aspeed_smc_write_dma_ctrl by (assumption || reflexivity).
    unfold aspeed_smc_dma_ctrl.
    assert (B1 : nonzero (Z.land (u32 dma_ctrl) DMA_CTRL_ENABLE) = true).
    { rewrite land_u32_low by const_bound. unfold nonzero.
      now destruct (Z.eqb_spec (Z.land dma_ctrl DMA_CTRL_ENABLE) 0). }
    rewrite B1, Hidle. cbn [negb].
    rewrite (u32_small (u32 dma_ctrl)) by apply u32_range.
    fold s1. rewrite Hctl.
    assert (B2 : nonzero (Z.land (u32 dma_ctrl) DMA_CTRL_CKSUM) = true).
    { rewrite land_u32_low by const_bound. unfold nonzero.
      now destruct (Z.eqb_spec (Z.land dma_ctrl DMA_CTRL_CKSUM) 0). }
    rewrite B2. unfold aspeed_smc_dma_checksum. rewrite Hctl.
    rewrite !land_u32_low by const_bound. rewrite Hwr, Hcal. cbn [nonzero Z.eqb negb].
    rewrite (dma_checksum_loop_mono _ _ _ _ Hfuel E).
    destruct Sd as (_ & _ & -> & _). cbn [inject_failure s1 set_reg set_regs].
    now rewrite Hinj. }
  split.
  { rewrite reg_dma_done_ne by discriminate.
    rewrite Ck, Hother, Hsum0 by discriminate. reflexivity. }
  split.
  { rewrite reg_dma_done_ne by discriminate.
    rewrite Fa. now rewrite Hother by discriminate. }
  split.
  { now rewrite reg_dma_done_ne by discriminate. }
  split.
  { rewrite reg_dma_done_intr
      by (rewrite L2; unfold R_INTR_CTRL, ASPEED_SMC_R_MAX; lia).
    apply land_lor_same. }
  rewrite irq_dma_done
    by (rewrite L2; unfold R_INTR_CTRL, ASPEED_SMC_R_MAX; lia).
  rewrite Hintr, Iq. reflexivity.
Qed.

(** *** DMA length and termination *)

Lemma dma_len_step (s : State) :
  dma_len_ok s -> reg s R_DMA_LEN <> 0 ->
  u32 (reg s R_DMA_LEN - 4) = reg s R_DMA_LEN - 4
  /\ 0 <= reg s R_DMA_LEN - 4 <= 0x01FFFFFC
  /\ (reg s R_DMA_LEN - 4) mod 4 = 0
  /\ (reg s R_DMA_LEN - 4) / 4 = reg s R_DMA_LEN / 4 - 1.
Proof.
  intros [Hr Hm] Hne.
  assert (4 <= reg s R_DMA_LEN) by (Z.div_mod_to_equations; lia).
  split; [apply u32_small; lia|].
  split; [lia|]. split; Z.div_mod_to_equations; lia.
Qed.

Lemma dma_checksum_loop_len_ok (fuel : nat) :
  forall (s : State) r,
    (R_DMA_CHECKSUM < length (regs s))%nat -> dma_len_ok s ->
    dma_checksum_loop fuel s = Some r -> dma_len_ok (fst r).
Proof.
  induction fuel as [|fuel IH]; intros s r Hl Hok; cbn [dma_checksum_loop].
  - destruct (_ =? 0); [|discriminate]. now intros [= <-].
  - destruct (Z.eqb_spec (reg s R_DMA_LEN) 0) as [|Hne]; [now intros [= <-]|].
    destruct (address_space_ldl_le _ _) as [data|];
      [|intros [= <-]; exact Hok].
    destruct (dma_len_step s Hok Hne) as (E & Hr & Hm & _).
    apply IH.
    + now rewrite !length_set_reg.
    + unfold dma_len_ok. rewrite reg_set_reg_eq
        by (rewrite !length_set_reg; unfold R_DMA_LEN, R_DMA_CHECKSUM in *; lia).
      rewrite !reg_set_reg_ne by discriminate. now rewrite E.
Qed.

Lemma dma_rw_word_regs (s s2 : State) o j :
  dma_rw_word s = (s2, o) ->
  reg s2 j = reg s j /\ length (regs s2) = length (regs s).
Proof.
  unfold dma_rw_word. destruct (nonzero _);
    repeat (destruct (address_space_ldl_le _ _)
            || destruct (address_space_stl_le _ _ _));
    intros [= <- <-]; split; reflexivity.
Qed.

Lemma dma_rw_len_ok (fuel : nat) :
  forall (s s' : State),
    (R_DMA_CHECKSUM < length (regs s))%nat -> dma_len_ok s ->
    aspeed_smc_dma_rw fuel s = Some s' -> dma_len_ok s'.
Proof.
  induction fuel as [|fuel IH]; intros s s' Hl Hok; cbn [aspeed_smc_dma_rw].
  - destruct (_ =? 0); [|discriminate]. now intros [= <-].
  - destruct (Z.eqb_spec (reg s R_DMA_LEN) 0) as [|Hne]; [now intros [= <-]|].
    destruct (dma_rw_word s) as [s2 [data|]] eqn:E2.
    + destruct (dma_rw_word_regs _ _ _ R_DMA_LEN E2) as [E L].
      assert (Hok2 : dma_len_ok s2) by (unfold dma_len_ok; now rewrite E).
      assert (Hne2 : reg s2 R_DMA_LEN <> 0) by now rewrite E.
      destruct (dma_len_step s2 Hok2 Hne2) as (Eu & Hr & Hm & _).
      apply IH.
      * rewrite !length_set_reg. now rewrite L.
      * unfold dma_len_ok. rewrite reg_set_reg_ne by discriminate.
        rewrite reg_set_reg_eq
          by (rewrite !length_set_reg, L;
              unfold R_DMA_LEN, R_DMA_CHECKSUM in *; lia).
        rewrite !reg_set_reg_ne by discriminate. now rewrite Eu.
    + intros [= <-].
      destruct (dma_rw_word_regs _ _ _ R_DMA_LEN E2) as [E _].
      unfold dma_len_ok. now rewrite E.
Qed.

(** With DMA_LEN a multiple of 4 the loops end within DMA_LEN / 4
    iterations. *)
Lemma dma_checksum_loop_terminates (fuel : nat) :
  forall (s : State),
    (R_DMA_CHECKSUM < length (regs s))%nat -> dma_len_ok s ->
    (Z.to_nat (reg s R_DMA_LEN / 4) <= fuel)%nat ->
    is_Some (dma_checksum_loop fuel s).
Proof.
  induction fuel as [|fuel IH]; intros s Hl Hok Hf; cbn [dma_checksum_loop];
    destruct (Z.eqb_spec (reg s R_DMA_LEN) 0) as [|Hne]; try (now eexists).
  - exfalso. destruct Hok as [Hr Hm].
    assert (1 <= reg s R_DMA_LEN / 4) by (Z.div_mod_to_equations; lia). lia.
  - destruct (address_space_ldl_le _ _) as [data|]; [|now eexists].
    destruct (dma_len_step s Hok Hne) as (E & Hr & Hm & Hd).
    assert (Hlen : reg (set_reg R_DMA_LEN (u32 (reg s R_DMA_LEN - 4))
                     (set_reg R_DMA_FLASH_ADDR
                        (u32 (reg s R_DMA_FLASH_ADDR + 4))
                        (set_reg R_DMA_CHECKSUM
                           (u32 (reg s R_DMA_CHECKSUM + data)) s)))
                   R_DMA_LEN = reg s R_DMA_LEN - 4).
    { rewrite reg_set_reg_eq
        by (rewrite !length_set_reg; unfold R_DMA_LEN, R_DMA_CHECKSUM in *; lia).
      exact E. }
    rewrite !reg_set_reg_ne by discriminate.
    apply IH.
    + now rewrite !length_set_reg.
    + unfold dma_len_ok. now rewrite Hlen.
    + rewrite Hlen, Hd.
      assert (0 <= reg s R_DMA_LEN / 4) by (Z.div_mod_to_equations; lia). lia.
Qed.

Lemma dma_rw_terminates (fuel : nat) :
  forall (s : State),
    (R_DMA_CHECKSUM < length (regs s))%nat -> dma_len_ok s ->
    (Z.to_nat (reg s R_DMA_LEN / 4) <= fuel)%nat ->
    is_Some (aspeed_smc_dma_rw fuel s).
Proof.
  induction fuel as [|fuel IH]; intros s Hl Hok Hf; cbn [aspeed_smc_dma_rw];
    destruct (Z.eqb_spec (reg s R_DMA_LEN) 0) as [|Hne]; try (now eexists).
  - exfalso. destruct Hok as [Hr Hm].
    assert (1 <= reg s R_DMA_LEN / 4) by (Z.div_mod_to_equations; lia). lia.
  - destruct (dma_rw_word s) as [s2 [data|]] eqn:E2; [|now eexists].
    destruct (dma_rw_word_regs _ _ _ R_DMA_LEN E2) as [E L].
    assert (Hok2 : dma_len_ok s2) by (unfold dma_len_ok; now rewrite E).
    assert (Hne2 : reg s2 R_DMA_LEN <> 0) by now rewrite E.
    destruct (dma_len_step s2 Hok2 Hne2) as (Eu & Hr & Hm & Hd).
    assert (Hlen : forall a b c,
      reg (set_reg R_DMA_CHECKSUM c
             (set_reg R_DMA_LEN (u32 (reg s2 R_DMA_LEN - 4))
                (set_reg R_DMA_DRAM_ADDR b
                   (set_reg R_DMA_FLASH_ADDR a s2)))) R_DMA_LEN
      = reg s2 R_DMA_LEN - 4).
    { intros a b c. rewrite reg_set_reg_ne by discriminate.
      rewrite reg_set_reg_eq
        by (rewrite !length_set_reg, L;
            unfold R_DMA_LEN, R_DMA_CHECKSUM in *; lia).
      exact Eu. }
    rewrite !(reg_set_reg_ne _ _ R_DMA_LEN) by discriminate.
    apply IH.
    + rewrite !length_set_reg. now rewrite L.
    + unfold dma_len_ok. now rewrite Hlen.
    + rewrite Hlen, Hd, E.
      assert (0 <= reg s R_DMA_LEN / 4) by (Z.div_mod_to_equations; lia). lia.
Qed.

Lemma dma_calibration_keeps_len (s : State) :
  smc_wf s ->
  modifies (fun j => j <> R_DMA_LEN) s (aspeed_smc_dma_calibration s).
Proof.
  intros Hwf. pose proof (wf_ctrl s Hwf) as Hc.
  destruct (ctrl_layout _ Hc) as (_ & HT & _ & HC & _).
  apply frame_dma_calibration; [| |apply modifies_refl];
    unfold R_DMA_LEN; lia.
Qed.

Lemma not_not_len : ~ (R_DMA_LEN <> R_DMA_LEN).
Proof. intros H. now apply H. Qed.

Lemma dma_checksum_len_ok (s s' : State) fuel :
  smc_wf s -> dma_len_ok s ->
  aspeed_smc_dma_checksum fuel s = Some s' -> dma_len_ok s'.
Proof.
  intros Hwf Hok. unfold aspeed_smc_dma_checksum.
  destruct (nonzero (Z.land _ DMA_CTRL_WRITE)); [now intros [= <-]|].
  set (s1 := if nonzero _ then aspeed_smc_dma_calibration s else s).
  assert (H1 : modifies (fun j => j <> R_DMA_LEN) s s1).
  { unfold s1. destruct (nonzero _); [|apply modifies_refl].
    now apply dma_calibration_keeps_len. }
  assert (Hok1 : dma_len_ok s1)
    by (eapply dma_len_ok_modifies; [exact H1|apply not_not_len|exact Hok]).
  assert (Hwf1 : smc_wf s1) by (eapply smc_wf_modifies; eassumption).
  destruct (dma_checksum_loop fuel s1) as [[s2 fl]|] eqn:E; [|discriminate].
  assert (Hok2 : dma_len_ok s2).
  { change s2 with (fst (s2, fl)).
    eapply dma_checksum_loop_len_ok; [|exact Hok1|exact E].
    rewrite (wf_regs _ Hwf1). unfold R_DMA_CHECKSUM, ASPEED_SMC_R_MAX. lia. }
  destruct fl; [|now intros [= <-]].
  destruct (_ && _); intros [= <-]; [|exact Hok2].
  unfold dma_len_ok. now rewrite reg_set_reg_ne by discriminate.
Qed.

Lemma dma_checksum_terminates (s : State) fuel :
  smc_wf s -> dma_len_ok s ->
  (Z.to_nat (reg s R_DMA_LEN / 4) <= fuel)%nat ->
  is_Some (aspeed_smc_dma_checksum fuel s).
Proof.
  intros Hwf Hok Hf. unfold aspeed_smc_dma_checksum.
  destruct (nonzero (Z.land _ DMA_CTRL_WRITE)); [now eexists|].
  set (s1 := if nonzero _ then aspeed_smc_dma_calibration s else s).
  assert (H1 : modifies (fun j => j <> R_DMA_LEN) s s1).
  { unfold s1. destruct (nonzero _); [|apply modifies_refl].
    now apply dma_calibration_keeps_len. }
  assert (Hok1 : dma_len_ok s1)
    by (eapply dma_len_ok_modifies; [exact H1|apply not_not_len|exact Hok]).
  assert (Hwf1 : smc_wf s1) by (eapply smc_wf_modifies; eassumption).
  assert (E1 : reg s1 R_DMA_LEN = reg s R_DMA_LEN).
  { destruct H1 as (_ & _ & _ & _ & _ & F). apply F, not_not_len. }
  destruct (dma_checksum_loop_terminates fuel s1) as [[s2 fl] E].
  { rewrite (wf_regs _ Hwf1). unfold R_DMA_CHECKSUM, ASPEED_SMC_R_MAX. lia. }
  { exact Hok1. }
  { now rewrite E1. }
  rewrite E. destruct fl; [destruct (_ && _)|]; now eexists.
Qed.

(** [set_reg] away from DMA_LEN keeps both invariants. *)
Lemma set_reg_keeps (s : State) i v :
  i <> R_DMA_LEN -> smc_wf s -> dma_len_ok s ->
  smc_wf (set_reg i v s) /\ dma_len_ok (set_reg i v s)
  /\ reg (set_reg i v s) R_DMA_LEN = reg s R_DMA_LEN.
Proof.
  intros Hi [H1 H2 H3] Hok. split; [|split].
  - split; [now rewrite length_set_reg|exact H2|exact H3].
  - unfold dma_len_ok. now rewrite reg_set_reg_ne.
  - now apply reg_set_reg_ne.
Qed.

Lemma dma_ctrl_len_ok (s s' : State) fuel v :
  smc_wf s -> dma_len_ok s ->
  aspeed_smc_dma_ctrl fuel s v = Some s' -> dma_len_ok s'.
Proof.
  intros Hwf Hok. unfold aspeed_smc_dma_ctrl. destruct (negb _).
  { intros [= <-].
    eapply (dma_len_ok_modifies (fun j => j <> R_DMA_LEN));
      [|apply not_not_len|exact Hok].
    apply frame_dma_stop; [discriminate..|]. frame. discriminate. }
  destruct (aspeed_smc_dma_in_progress s); [now intros [= <-]|].
  destruct (set_reg_keeps s R_DMA_CTRL (u32 v)) as (Hwf1 & Hok1 & _);
    [discriminate|assumption..|].
  set (s1 := set_reg R_DMA_CTRL (u32 v) s) in *.
  assert (Hdone : forall s2 : State, dma_len_ok s2 ->
                    dma_len_ok (aspeed_smc_dma_done s2)).
  { intros s2 H2. unfold dma_len_ok.
    now rewrite reg_dma_done_ne by discriminate. }
  destruct (nonzero _).
  - destruct (aspeed_smc_dma_checksum fuel s1) as [s2|] eqn:E; [|discriminate].
    intros [= <-]. apply Hdone. eapply dma_checksum_len_ok; eassumption.
  - destruct (aspeed_smc_dma_rw fuel s1) as [s2|] eqn:E; [|discriminate].
    intros [= <-]. apply Hdone. eapply dma_rw_len_ok; [|exact Hok1|exact E].
    rewrite (wf_regs _ Hwf1). unfold R_DMA_CHECKSUM, ASPEED_SMC_R_MAX. lia.
Qed.

Lemma dma_ctrl_terminates (s : State) fuel v :
  smc_wf s -> dma_len_ok s ->
  (Z.to_nat (reg s R_DMA_LEN / 4) <= fuel)%nat ->
  is_Some (aspeed_smc_dma_ctrl fuel s v).
Proof.
  intros Hwf Hok Hf. unfold aspeed_smc_dma_ctrl.
  destruct (negb _); [now eexists|].
  destruct (aspeed_smc_dma_in_progress s); [now eexists|].
  destruct (set_reg_keeps s R_DMA_CTRL (u32 v)) as (Hwf1 & Hok1 & E1);
    [discriminate|assumption..|].
  set (s1 := set_reg R_DMA_CTRL (u32 v) s) in *.
  destruct (nonzero _).
  - destruct (dma_checksum_terminates s1 fuel) as [s2 E];
      [assumption..|now rewrite E1|].
    rewrite E. now eexists.
  - destruct (dma_rw_terminates fuel s1) as [s2 E];
      [|assumption|now rewrite E1|].
    { rewrite (wf_regs _ Hwf1). unfold R_DMA_CHECKSUM, ASPEED_SMC_R_MAX. lia. }
    rewrite E. now eexists.
Qed.

(** *** Invariants of the reachable states *)

Lemma smc_write_inv (s s' : State) fuel addr data :
  smc_wf s -> dma_len_ok s ->
  aspeed_smc_write fuel s addr data = Some s' ->
  smc_wf s' /\ dma_len_ok s'.
Proof.
  intros Hwf Hok E. pose proof (frame_smc_write _ _ _ _ _ E) as Hfr.
  split; [eapply smc_wf_modifies; eassumption|].
  set (a := Z.to_nat (Z.shiftr addr 2)) in *.
  destruct (Nat.eq_dec a R_DMA_LEN) as [Ea|Ha].
  - (* a write to DMA_LEN *)
    revert E. unfold aspeed_smc_write. fold a. rewrite Ea. clear Hfr.
    destruct Hwf as [Hr Hc Hn].
    assert (E0 : (R_DMA_LEN <? r_ctrl0 (ctrl s) + num_cs s)%nat = false).
    { apply Nat.ltb_ge. destruct (ctrl_layout _ Hc) as (_ & _ & _ & [?|?] & ?);
        unfold R_DMA_LEN; lia. }
    rewrite E0, andb_false_r.
    each_controller_of s Hc; repeat step_if; intros [= <-]; try exact Hok;
      unfold dma_len_ok;
      (rewrite reg_set_reg_eq by (rewrite Hr; unfold R_DMA_LEN,
                                   ASPEED_SMC_R_MAX; lia));
      apply DMA_LENGTH_ok.
  - destruct (has_dma (ctrl s)) eqn:Edma.
    + destruct (Nat.eq_dec a R_DMA_CTRL) as [Ec|Hc'].
      * rewrite aspeed_smc_write_dma_ctrl in E by assumption.
        eapply dma_ctrl_len_ok; eassumption.
      * eapply dma_len_ok_modifies; [exact Hfr| |exact Hok].
        intros [?|(_ & ? & _)]; congruence.
    + eapply dma_len_ok_modifies; [exact Hfr| |exact Hok].
      intros [?|(? & _)]; congruence.
Qed.

(** Every register write returns, with a fuel of DMA_LEN / 4. *)
Lemma smc_write_terminates (s : State) fuel addr data :
  smc_wf s -> dma_len_ok s ->
  (Z.to_nat (reg s R_DMA_LEN / 4) <= fuel)%nat ->
  is_Some (aspeed_smc_write fuel s addr data).
Proof.
  intros Hwf Hok Hf.
  destruct (has_dma (ctrl s)) eqn:Edma.
  - destruct (Nat.eq_dec (Z.to_nat (Z.shiftr addr 2)) R_DMA_CTRL) as [Ec|Hc].
    + rewrite aspeed_smc_write_dma_ctrl by assumption.
      now apply dma_ctrl_terminates.
    + unfold aspeed_smc_write.
      apply Nat.eqb_neq in Hc. rewrite Hc, andb_false_r.
      repeat (destruct (_ || _) || destruct (_ && _) || destruct (negb _)
              || destruct (_ =? _)%nat); now eexists.
  - unfold aspeed_smc_write. rewrite Edma. cbn [andb].
    repeat (destruct (_ || _) || destruct (_ && _) || destruct (negb _)
            || destruct (_ =? _)%nat); now eexists.
Qed.

Lemma frame_reset_unselect M (s : State) idx :
  (forall i, In i idx -> M (r_ctrl0 (ctrl s) + i)%nat) ->
  forall s1, modifies M s s1 -> modifies M s (reset_unselect idx s1).
Proof.
  induction idx as [|i idx IH]; intros HM s1 Hs; cbn [reset_unselect]; [easy|].
  pose proof Hs as (Ec & _).
  apply IH; [intros; apply HM; now right|].
  frame. rewrite Ec. apply HM. now left.
Qed.

Lemma frame_reset_segments M (s : State) idx :
  (forall i, In i idx -> M (R_SEG_ADDR0 + i)%nat) ->
  forall s1 s', modifies M s s1 -> reset_segments idx s1 = Some s' ->
    modifies M s s'.
Proof.
  induction idx as [|i idx IH]; intros HM s1 s' Hs; cbn [reset_segments].
  - now intros [= <-].
  - destruct (segments_at_opt _ _); [|discriminate].
    apply IH; [intros; apply HM; now right|].
    frame. apply HM. now left.
Qed.

Lemma frame_conf_strap M (s s1 : State) sh :
  M (r_conf (ctrl s)) -> modifies M s s1 -> modifies M s (conf_strap sh s1).
Proof.
  intros HM Hs. pose proof Hs as (Ec & _). unfold conf_strap. frame.
  now rewrite Ec.
Qed.

(** Reset: the register file is zeroed, then only the registers of
    [reset_regs] are set. *)
Lemma frame_smc_reset (s s' : State) :
  aspeed_smc_reset s = Some s' ->
  modifies (reset_regs (ctrl s) (num_cs s))
    (SMC.set_regs (replicate ASPEED_SMC_R_MAX 0) s) s'.
Proof.
  unfold aspeed_smc_reset.
  set (z := SMC.set_regs (replicate ASPEED_SMC_R_MAX 0) s).
  set (M := reset_regs (ctrl s) (num_cs s)).
  assert (H1 : modifies M z (reset_unselect (seq 0 (num_cs z)) z)).
  { apply frame_reset_unselect; [|apply modifies_refl].
    intros i Hi. apply in_seq in Hi. right; left.
    change (num_cs z) with (num_cs s) in Hi.
    change (ctrl z) with (ctrl s). lia. }
  destruct (reset_segments _ _) as [s2|] eqn:E; [|discriminate].
  assert (H2 : modifies M z s2).
  { eapply frame_reset_segments; [|exact H1|exact E].
    intros i Hi. apply in_seq in Hi. right; right.
    destruct H1 as (Ec & _). rewrite Ec in Hi.
    change (ctrl z) with (ctrl s) in Hi. lia. }
  intros [= <-].
  assert (HC : M (r_conf (ctrl z))) by now left.
  cbv zeta.
  repeat first
    [ exact H2
    | frame_step
    | apply frame_conf_strap; [exact HC|]
    | match goal with
      | |- modifies _ _ (if ?b then _ else _) => destruct b
      end ].
Qed.

Lemma smc_reset_inv (s s' : State) :
  smc_wf s -> aspeed_smc_reset s = Some s' ->
  smc_wf s' /\ dma_len_ok s'.
Proof.
  intros [Hr Hc Hn] E. apply frame_smc_reset in E.
  destruct E as (Ec & En & _ & _ & El & F). cbn in Ec, En, El.
  split.
  - split; [rewrite El; reflexivity|now rewrite Ec|now rewrite Ec, En].
  - unfold dma_len_ok. rewrite F.
    + replace (reg _ R_DMA_LEN) with 0 by reflexivity.
      split; [lia|reflexivity].
    + destruct (ctrl_layout _ Hc) as (E0 & _ & _ & [E4|E4] & Hm).
      all: unfold reset_regs; rewrite E0, E4; unfold R_DMA_LEN, R_SEG_ADDR0; lia.
Qed.

Lemma smc_realize_wf c n inj base (bus : SPI) (flash dram : AS) (s : State) :
  In c controllers ->
  aspeed_smc_realize c n inj base bus flash dram = Some s -> smc_wf s.
Proof.
  intros Hc. unfold aspeed_smc_realize.
  destruct (Nat.ltb_spec (max_slaves c) n);
    (destruct (realize_flashes _ _ _); [|discriminate]);
    intros [= <-]; split; cbn; auto; try apply length_replicate; lia.
Qed.

Lemma smc_reachable_inv (s : State) :
  smc_reachable s -> smc_wf s /\ dma_len_ok s.
Proof.
  induction 1 as [c n inj base bus flash dram s0 s Hc E0 E1
                 | s s' Hs [Hwf Hok] Hstep].
  - eapply smc_reset_inv; [|exact E1]. eapply smc_realize_wf; eassumption.
  - destruct Hstep as [fuel addr data s' Ha E | addr Ha
                      | id addr size Hid Hsz | id addr data size Hid Hsz
                      | s' E].
    + eapply smc_write_inv; eassumption.
    + assert (Hfr : modifies (fun _ => False) s (fst (aspeed_smc_read s addr))).
      { unfold aspeed_smc_read. destruct (smc_readable _ _); cbn [fst]; frame. }
      split; [eapply smc_wf_modifies; eassumption|].
      eapply dma_len_ok_modifies; [exact Hfr|tauto|exact Hok].
    + pose proof (frame_flash_read (fun j => j = r_ctrl0 (ctrl s) + id)%nat
                    s id addr size eq_refl) as Hfr.
      split; [eapply smc_wf_modifies; eassumption|].
      eapply dma_len_ok_modifies; [exact Hfr| |exact Hok].
      now apply dma_len_not_ctrl.
    + pose proof (frame_flash_write (fun j => j = r_ctrl0 (ctrl s) + id)%nat
                    s id addr data size eq_refl) as Hfr.
      split; [eapply smc_wf_modifies; eassumption|].
      eapply dma_len_ok_modifies; [exact Hfr| |exact Hok].
      now apply dma_len_not_ctrl.
    + eapply smc_reset_inv; eassumption.
Qed.

(** A write at offset 0x8C of a controller with DMA stores the masked
    value in DMA_LEN. *)
Lemma aspeed_smc_write_dma_len (fuel : nat) (s : State) (addr data : Z) :
  smc_wf s -> has_dma (ctrl s) = true ->
  Z.to_nat (Z.shiftr addr 2) = R_DMA_LEN ->
  aspeed_smc_write fuel s addr data
  = Some (set_reg R_DMA_LEN (DMA_LENGTH (u32 data)) s).
Proof.
  intros [Hr Hc Hn] Hdma Ha. unfold aspeed_smc_write. rewrite Ha.
  assert (E0 : (R_DMA_LEN <? r_ctrl0 (ctrl s) + num_cs s)%nat = false).
  { apply Nat.ltb_ge. destruct (ctrl_layout _ Hc) as (_ & _ & _ & [?|?] & ?);
      unfold R_DMA_LEN; lia. }
  rewrite E0, andb_false_r.
  each_controller_of s Hc; try discriminate Hdma; reflexivity.
Qed.

(** C10: in every reachable SMC state, regs[R_DMA_LEN] is a multiple of 4
    (a write to DMA_LEN stores value & 0x01FFFFFC and the DMA loops only
    subtract 4 from it); consequently the DMA checksum loop and the DMA
    copy loop return within DMA_LEN / 4 iterations from every reachable
    state, and so does every register write. *)
Theorem C10_dma_len_and_termination (s : State) :
  smc_reachable s ->
  reg s R_DMA_LEN mod 4 = 0
  /\ (has_dma (ctrl s) = true ->
      forall fuel data,
        aspeed_smc_write fuel s 0x8C data
        = Some (set_reg R_DMA_LEN (Z.land (u32 data) 0x01FFFFFC) s))
  /\ (forall fuel, (Z.to_nat (reg s R_DMA_LEN / 4) <= fuel)%nat ->
        is_Some (dma_checksum_loop fuel s)
        /\ is_Some (aspeed_smc_dma_rw fuel s)
        /\ forall addr data, is_Some (aspeed_smc_write fuel s addr data)).
Proof.
  intros Hs. destruct (smc_reachable_inv s Hs) as [Hwf Hok].
  assert (Hl : (R_DMA_CHECKSUM < length (regs s))%nat).
  { rewrite (wf_regs _ Hwf). unfold R_DMA_CHECKSUM, ASPEED_SMC_R_MAX. lia. }
  split; [apply Hok|]. split.
  - intros Hdma fuel data. now apply aspeed_smc_write_dma_len.
  - intros fuel Hf. split; [now apply dma_checksum_loop_terminates|].
    split; [now apply dma_rw_terminates|].
    intros addr data. now apply smc_write_terminates.
Qed.

(** *** Segment registers *)

Lemma flash_overlap_loop_only_logs (s : State) idx new cs :
  let s' := fst (flash_overlap_loop idx new cs s) in
  regs s' = regs s /\ flashes s' = flashes s
  /\ forall e, In e (log s) -> In e (log s').
Proof.
  induction idx as [|i idx IH]; cbn [flash_overlap_loop]; [now repeat split|].
  destruct (_ =? _)%nat; [exact IH|].
  destruct (_ && _); [|exact IH].
  cbn. repeat split; auto.
Qed.

Lemma segment_outside_window_spec c seg :
  segment_outside_window c seg = false <-> touches_window c seg.
Proof.
  unfold segment_outside_window, touches_window.
  rewrite orb_false_iff, Z.leb_gt, Z.ltb_ge. tauto.
Qed.

(** What [aspeed_smc_flash_set_segment] does to the registers and to the
    sub-regions, for a chip-select the register window can name. *)
Lemma set_segment_spec (s : State) cs v :
  cs <> max_slaves (ctrl s) ->
  let s' := aspeed_smc_flash_set_segment s cs v in
  let seg := fst (cs0_snap (ctrl s) cs v) in
  let new := snd (cs0_snap (ctrl s) cs v) in
  regs s' = (if segment_outside_window (ctrl s) seg then regs s
             else <[(R_SEG_ADDR0 + cs)%nat := u32 new]> (regs s))
  /\ flashes s' = (if segment_outside_window (ctrl s) seg then flashes s
                   else <[cs := segment_region (ctrl s) seg]> (flashes s))
  /\ (forall e, In e (log s) -> In e (log s'))
  /\ ((cs =? 0)%nat
      && negb (seg_addr (decode (ctrl s) (u32 v)) =? flash_window_base (ctrl s))
      = true ->
      In (LOG_GUEST_ERROR,
          msg_cs0_start_address (seg_addr (decode (ctrl s) (u32 v))))
         (log s')).
Proof.
  intros Hcs. apply Nat.eqb_neq in Hcs.
  unfold aspeed_smc_flash_set_segment, cs0_snap.
  destruct ((cs =? 0)%nat && negb (_ =? _)) eqn:E0; cbn [fst snd];
    cbn [ctrl qemu_log_mask SMC.set_log].
  all: rewrite Hcs, andb_false_r; cbn [andb].
  all: destruct (segment_outside_window _ _) eqn:Eo.
  all: try (cbn; repeat split; auto; discriminate).
  all: match goal with
       | |- context [aspeed_smc_flash_overlap ?x ?g ?k] =>
           let s1 := fresh "s1" in
           set (s1 := x);
           assert (H1 : regs s1 = regs s /\ flashes s1 = flashes s
                        /\ ctrl s1 = ctrl s
                        /\ forall e, In e (log x) -> In e (log s1))
             by (unfold s1; destruct (negb _ && negb _); cbn; auto);
           destruct H1 as (R1 & F1 & C1 & L1);
           unfold aspeed_smc_flash_overlap;
           destruct (flash_overlap_loop_only_logs s1
                       (seq 0 (max_slaves (ctrl s1))) g k) as (R & F & L)
       end.
  all: cbn [regs flashes log set_reg SMC.set_regs SMC.set_flashes].
  all: rewrite ?R, ?F, ?R1, ?F1.
  all: split; [reflexivity|]; split; [reflexivity|].
  all: split; [intros e He; apply L; unfold s1;
               destruct (negb _ && negb _); cbn; auto|].
  all: try discriminate.
  intros _. apply L. unfold s1. destruct (negb _ && negb _); cbn; auto.
Qed.

Lemma segments_ok_modifies (M : nat -> Prop) (s s' : State) :
  modifies M s s' ->
  (forall i, (i < max_slaves (ctrl s))%nat -> ~ M (R_SEG_ADDR0 + i)%nat) ->
  smc_wf s -> segments_ok s -> segments_ok s'.
Proof.
  intros (Ec & _ & _ & _ & _ & F) HM Hwf [H1 H2].
  pose proof (wf_ctrl _ Hwf) as Hc.
  destruct (ctrl_layout _ Hc) as (_ & _ & _ & _ & Hm).
  unfold segments_ok. rewrite Ec. split.
  - intros i Hi. rewrite F by now apply HM. now apply H1.
  - change R_SEG_ADDR0 with (R_SEG_ADDR0 + 0)%nat.
    rewrite F by (apply HM; lia). exact H2.
Qed.

(** A write in the range of the segment registers reaches
    [aspeed_smc_flash_set_segment]. *)
Lemma aspeed_smc_write_segment (fuel : nat) (s : State) (addr data : Z) :
  smc_wf s ->
  let a := Z.to_nat (Z.shiftr addr 2) in
  (R_SEG_ADDR0 <= a < R_SEG_ADDR0 + max_slaves (ctrl s))%nat ->
  aspeed_smc_write fuel s addr data
  = Some (if negb (u32 data =? reg s a)
          then aspeed_smc_flash_set_segment s (a - R_SEG_ADDR0) (u32 data)
          else s).
Proof.
  intros [Hr Hc Hn] a Ha. unfold aspeed_smc_write. fold a.
  destruct (ctrl_layout _ Hc) as (E0 & HT & HE & HC & Hm).
  unfold R_SEG_ADDR0 in *.
  assert (C1 : (a =? r_conf (ctrl s))%nat = false)
    by (apply Nat.eqb_neq; lia).
  assert (C2 : (a =? r_timings (ctrl s))%nat = false)
    by (apply Nat.eqb_neq; lia).
  assert (C3 : (a =? r_ce_ctrl (ctrl s))%nat = false)
    by (apply Nat.eqb_neq; lia).
  assert (C4 : (a <? r_ctrl0 (ctrl s) + num_cs s)%nat = false)
    by (apply Nat.ltb_ge; lia).
  assert (C5 : (12 <=? a)%nat = true) by (apply Nat.leb_le; lia).
  assert (C6 : (a <? 12 + max_slaves (ctrl s))%nat = true)
    by (apply Nat.ltb_lt; lia).
  rewrite C1, C2, C3, C4, C5, C6, andb_false_r. cbn [orb andb].
  replace (12 + (a - 12))%nat with a by lia.
  now destruct (negb _).
Qed.

Lemma set_segment_segments_ok (s : State) cs v :
  smc_wf s -> (cs < max_slaves (ctrl s))%nat -> segments_ok s ->
  segments_ok (aspeed_smc_flash_set_segment s cs v).
Proof.
  intros Hwf Hcs Hok. pose proof (wf_ctrl _ Hwf) as Hc.
  destruct (ctrl_layout _ Hc) as (_ & _ & _ & _ & Hm).
  pose proof (frame_flash_set_segment (fun j => j = R_SEG_ADDR0 + cs)%nat
                s cs v eq_refl) as Hfr.
  destruct (set_segment_spec s cs v) as (Hregs & _); [lia|].
  destruct (segment_outside_window _ _) eqn:Eo.
  { (* refused: the registers are unchanged *)
    destruct Hfr as (Ec & _). destruct Hok as [H1 H2].
    unfold segments_ok, reg. rewrite Ec, Hregs. now split. }
  apply segment_outside_window_spec in Eo.
  assert (Hl : (R_SEG_ADDR0 + cs < length (regs s))%nat).
  { rewrite (wf_regs _ Hwf). unfold R_SEG_ADDR0, ASPEED_SMC_R_MAX. lia. }
  (* the register of [cs] after the commit *)
  assert (Hnew : reg (aspeed_smc_flash_set_segment s cs v) (R_SEG_ADDR0 + cs)
                 = u32 (snd (cs0_snap (ctrl s) cs v))).
  { unfold reg. rewrite Hregs. now apply list_lookup_total_insert_eq. }
  assert (Hdec : let seg := decode (ctrl s) (u32 (snd (cs0_snap (ctrl s) cs v))) in
                 touches_window (ctrl s) seg
                 /\ (cs = 0%nat -> seg_addr seg = flash_window_base (ctrl s))).
  { revert Eo. unfold cs0_snap.
    destruct ((cs =? 0)%nat && negb (_ =? _)) eqn:E0; cbn [fst snd]; intros Eo.
    - rewrite (u32_small (encode _ _)) by now apply encode_range.
      destruct (cs0_reencode_ok (ctrl s) (u32 v) Hc Eo) as [A B]. now split.
    - split; [exact Eo|].
      intros ->. cbn [Nat.eqb andb] in E0.
      apply negb_false_iff in E0. now apply Z.eqb_eq in E0. }
  destruct Hdec as [Ht Ha]. destruct Hfr as (Ec & _ & _ & _ & _ & F).
  destruct Hok as [H1 H2]. unfold segments_ok. rewrite Ec. split.
  - intros i Hi. destruct (Nat.eq_dec i cs) as [->|Hne].
    + now rewrite Hnew.
    + rewrite F by lia. now apply H1.
  - change R_SEG_ADDR0 with (R_SEG_ADDR0 + 0)%nat.
    destruct (Nat.eq_dec cs 0%nat) as [->|Hne].
    + rewrite Hnew. now apply Ha.
    + rewrite F by lia. exact H2.
Qed.

Lemma smc_write_segments_ok (s s' : State) fuel addr data :
  smc_wf s -> segments_ok s ->
  aspeed_smc_write fuel s addr data = Some s' -> segments_ok s'.
Proof.
  intros Hwf Hok E. pose proof (wf_ctrl _ Hwf) as Hc.
  destruct (ctrl_layout _ Hc) as (E0 & HT & HE & HC & Hm).
  set (a := Z.to_nat (Z.shiftr addr 2)).
  destruct (le_lt_dec R_SEG_ADDR0 a) as [H1|H1];
    [destruct (le_lt_dec (R_SEG_ADDR0 + max_slaves (ctrl s)) a) as [H2|H2]|].
  2: { rewrite aspeed_smc_write_segment in E by (assumption || (fold a; lia)).
       injection E as <-. destruct (negb _); [|exact Hok].
       apply set_segment_segments_ok; try assumption. fold a. lia. }
  all: apply frame_smc_write in E; fold a in E.
  all: eapply segments_ok_modifies; [exact E| |exact Hwf|exact Hok].
  all: intros i Hi [Hj|(_ & _ & Hd)]; [lia|].
  all: unfold dma_regs, dma_loop_regs, R_SEG_ADDR0, R_DMA_CHECKSUM,
         R_DMA_FLASH_ADDR, R_DMA_DRAM_ADDR, R_DMA_LEN, R_DMA_CTRL,
         R_INTR_CTRL in *; lia.
Qed.

(** The registers loaded from the default table decode to segments that
    pass the window test, and the first one starts at the window base. *)
Lemma defaults_ok c seg :
  In c controllers -> In seg (segments_entries (segments c)) ->
  touches_window c (decode c (encode c seg)).
Proof.
  intros Hc. unfold touches_window.
  each_controller Hc; cbn [segments segments_entries In smc_ast2400
    fmc_ast2400 spi1_ast2400 fmc_ast2500 spi1_ast2500 spi2_ast2500
    fmc_ast2600 spi1_ast2600 spi2_ast2600];
    intros Hs; repeat (destruct Hs as [<-|Hs]); try contradiction;
    vm_compute; (split; [reflexivity|discriminate]).
Qed.

Lemma default_cs0_ok c seg :
  In c controllers -> segments_at_opt c 0 = Some seg ->
  seg_addr (decode c (encode c seg)) = flash_window_base c.
Proof.
  intros Hc. each_controller Hc; intros [= <-]; vm_compute; reflexivity.
Qed.

Lemma reset_segments_regs idx :
  NoDup idx ->
  forall (s1 s2 : State),
    (forall i, In i idx -> (R_SEG_ADDR0 + i < length (regs s1))%nat) ->
    reset_segments idx s1 = Some s2 ->
    forall i, In i idx ->
      exists seg, segments_at_opt (ctrl s1) i = Some seg
                  /\ reg s2 (R_SEG_ADDR0 + i) = encode (ctrl s1) seg.
Proof.
  induction 1 as [|k idx Hk Hnd IH]; intros s1 s2 Hl; cbn [reset_segments].
  - intros _ i [].
  - destruct (segments_at_opt (ctrl s1) k) as [seg|] eqn:Ek; [|discriminate].
    intros E i [<-|Hi].
    + exists seg. split; [exact Ek|].
      pose proof (frame_reset_segments
                    (fun j => exists i, In i idx /\ j = (R_SEG_ADDR0 + i)%nat)
                    (set_reg (R_SEG_ADDR0 + k) (encode (ctrl s1) seg) s1) idx)
        as Hfr.
      destruct (Hfr (fun i Hi => ex_intro _ i (conj Hi eq_refl)) _ _
                  (modifies_refl _ _) E) as (_ & _ & _ & _ & _ & F).
      rewrite F.
      * apply reg_set_reg_eq. apply Hl. now left.
      * intros (i & Hi & Heq). apply Hk.
        rewrite list_elem_of_In. now replace k with i by lia.
    + apply (IH _ _ (fun i Hi => eq_ind_r (fun n => (_ < n)%nat)
                                   (Hl i (or_intror Hi))
                                   (length_set_reg s1 _ _)) E i Hi).
Qed.

Lemma smc_reset_segments_ok (s s' : State) :
  smc_wf s -> aspeed_smc_reset s = Some s' -> segments_ok s'.
Proof.
  intros Hwf E. pose proof (wf_ctrl _ Hwf) as Hc.
  destruct (ctrl_layout _ Hc) as (E0 & _ & _ & HC & Hm).
  assert (Hc' : ctrl s' = ctrl s).
  { apply frame_smc_reset in E. now destruct E as (-> & _). }
  revert E. unfold aspeed_smc_reset.
  set (z := SMC.set_regs (replicate ASPEED_SMC_R_MAX 0) s).
  set (u := reset_unselect (seq 0 (num_cs z)) z).
  assert (Hu : modifies (fun _ => True) z u).
  { unfold u. apply frame_reset_unselect; [auto|apply modifies_refl]. }
  destruct (reset_segments _ u) as [s2|] eqn:E2; [|discriminate].
  intros [= E].
  assert (H2 : forall i, (i < max_slaves (ctrl s))%nat ->
             exists seg, segments_at_opt (ctrl s) i = Some seg
                         /\ reg s2 (R_SEG_ADDR0 + i) = encode (ctrl s) seg).
  { intros i Hi. destruct Hu as (Ec & _ & _ & _ & El & _).
    rewrite Ec in E2. change (ctrl z) with (ctrl s) in *.
    rewrite <- Ec.
    eapply reset_segments_regs; [apply NoDup_seq| |exact E2|].
    - intros k Hk. apply in_seq in Hk. rewrite El.
      change (length (regs z)) with (length (replicate ASPEED_SMC_R_MAX 0)).
      rewrite length_replicate. unfold R_SEG_ADDR0, ASPEED_SMC_R_MAX. lia.
    - apply in_seq. lia. }
  assert (H3 : modifies (fun j => j = r_conf (ctrl s)) s2 s').
  { rewrite <- E. cbv zeta.
    assert (HC2 : r_conf (ctrl s2) = r_conf (ctrl s)).
    { apply (frame_reset_segments (fun _ => True) z) in E2;
        [|auto|exact Hu]. now destruct E2 as (-> & _). }
    repeat first
      [ frame_step
      | apply frame_conf_strap; [exact HC2|]
      | match goal with
        | |- modifies _ _ (if ?b then _ else _) => destruct b
        end ]. }
  destruct H3 as (_ & _ & _ & _ & _ & F).
  assert (HF : forall i, reg s' (R_SEG_ADDR0 + i) = reg s2 (R_SEG_ADDR0 + i)).
  { intros i. apply F. rewrite E0. unfold R_SEG_ADDR0. lia. }
  unfold segments_ok. rewrite Hc'. split.
  - intros i Hi. destruct (H2 i Hi) as (seg & Es & Er).
    rewrite HF, Er. apply defaults_ok; [exact Hc|].
    apply list_elem_of_In. eapply list_elem_of_lookup_2. exact Es.
  - change R_SEG_ADDR0 with (R_SEG_ADDR0 + 0)%nat.
    destruct (H2 0%nat) as (seg & Es & Er); [lia|].
    rewrite HF, Er. now apply default_cs0_ok.
Qed.

Lemma smc_reachable_segments_ok (s : State) :
  smc_reachable s -> segments_ok s.
Proof.
  induction 1 as [c n inj base bus flash dram s0 s Hc E0 E1
                 | s s' Hs Hok Hstep].
  - eapply smc_reset_segments_ok; [|exact E1].
    eapply smc_realize_wf; eassumption.
  - destruct (smc_reachable_inv s Hs) as [Hwf _].
    pose proof (wf_ctrl _ Hwf) as Hc.
    destruct (ctrl_layout _ Hc) as (E0 & _ & _ & HC & Hm).
    destruct Hstep as [fuel addr data s' Ha E | addr Ha
                      | id addr size Hid Hsz | id addr data size Hid Hsz
                      | s' E].
    + eapply smc_write_segments_ok; eassumption.
    + assert (Hfr : modifies (fun _ => False) s (fst (aspeed_smc_read s addr))).
      { unfold aspeed_smc_read. destruct (smc_readable _ _); cbn [fst]; frame. }
      eapply segments_ok_modifies; [exact Hfr|tauto|exact Hwf|exact Hok].
    + pose proof (frame_flash_read (fun j => j = r_ctrl0 (ctrl s) + id)%nat
                    s id addr size eq_refl) as Hfr.
      eapply segments_ok_modifies; [exact Hfr| |exact Hwf|exact Hok].
      intros i Hi. unfold R_SEG_ADDR0. lia.
    + pose proof (frame_flash_write (fun j => j = r_ctrl0 (ctrl s) + id)%nat
                    s id addr data size eq_refl) as Hfr.
      eapply segments_ok_modifies; [exact Hfr| |exact Hwf|exact Hok].
      intros i Hi. unfold R_SEG_ADDR0. lia.
    + eapply smc_reset_segments_ok; eassumption.
Qed.

(** With the start on the window base, the window test refuses exactly
    the empty segment. *)
Lemma cs0_outside_iff_empty c sz :
  In c controllers -> 0 <= sz < 2 ^ 32 ->
  segment_outside_window c (mkSeg (flash_window_base c) sz) = (sz =? 0).
Proof.
  intros Hc Hsz. unfold segment_outside_window, seg_end. cbn [seg_addr seg_size].
  assert (Hb : 0 <= flash_window_base c < 2 ^ 32
               /\ 0 <= flash_window_size c < 2 ^ 32).
  { each_controller Hc; vm_compute; repeat split; discriminate || reflexivity. }
  rewrite !u64_small by lia.
  destruct (Z.eqb_spec sz 0) as [->|Hne].
  - rewrite Z.add_0_r, Z.leb_refl. reflexivity.
  - apply orb_false_iff. split; [apply Z.leb_gt|apply Z.ltb_ge]; lia.
Qed.

Lemma decode_size_range c v : In c controllers ->
  0 <= seg_size (decode c v) < 2 ^ 32.
Proof.
  intros Hc. unfold decode.
  each_controller Hc; cbn [reg_to_segment smc_ast2400 fmc_ast2400
    spi1_ast2400 fmc_ast2500 spi1_ast2500 spi2_ast2500 fmc_ast2600
    spi1_ast2600 spi2_ast2600]; apply u32_range.
Qed.

(** C3, as amended: on a controller whose table of default segments has
    an entry for each of its chip-selects (all of the nine but the legacy
    smc-ast2400, which has five chip-selects and a table of one entry, so
    that its reset reads the defaults of CS1 to CS4 past the table), in
    every state reachable from reset, every committed segment (the decode
    of regs[SEG_ADDR0+i] for each chip-select i) reaches into the flash
    window: its end is above flash_window_base and its base is not above
    flash_window_base + flash_window_size; a segment-register write whose
    candidate (after the start of CS0 is put back on the window base) ends
    at or below flash_window_base or starts above the end of the window is
    not committed: registers and sub-regions are unchanged. *)
Theorem C3_segments_reach_window (s : State) :
  (max_slaves (ctrl s) <= length (segments_entries (segments (ctrl s))))%nat ->
  smc_reachable s ->
  (forall i, (i < max_slaves (ctrl s))%nat ->
     touches_window (ctrl s) (decode (ctrl s) (reg s (R_SEG_ADDR0 + i))))
  /\ (forall fuel addr data,
        let a := Z.to_nat (Z.shiftr addr 2) in
        (R_SEG_ADDR0 <= a < R_SEG_ADDR0 + max_slaves (ctrl s))%nat ->
        segment_outside_window (ctrl s)
          (fst (cs0_snap (ctrl s) (a - R_SEG_ADDR0) (u32 data))) = true ->
        exists s', aspeed_smc_write fuel s addr data = Some s'
                   /\ regs s' = regs s /\ flashes s' = flashes s).
Proof.
  intros _ Hs. destruct (smc_reachable_inv s Hs) as [Hwf _].
  split; [apply (smc_reachable_segments_ok s Hs)|].
  intros fuel addr data a Ha Hout.
  rewrite aspeed_smc_write_segment by assumption. fold a.
  eexists. split; [reflexivity|].
  destruct (negb _); [|now split].
  destruct (set_segment_spec s (a - R_SEG_ADDR0) (u32 data)) as (R & F & _);
    [lia|].
  rewrite Hout in R, F. now split.
Qed.

(** C5, as amended: for every write to SEG_ADDR0, on a device reachable
    from reset, of a value whose decoded base address differs from
    flash_window_base, a guest error is logged and the committed segment's
    base remains flash_window_base; if the decoded size is zero the write
    is refused and the register and the sub-region are unchanged;
    otherwise only the size changes: the stored register is the
    re-encoding of the snapped segment and the CS0 sub-region is mapped at
    offset 0 of the window with the decoded size. *)
Theorem C5_cs0_start_readonly (s : State) (fuel : nat) (addr data : Z) :
  smc_reachable s ->
  Z.to_nat (Z.shiftr addr 2) = R_SEG_ADDR0 ->
  seg_addr (decode (ctrl s) (u32 data)) <> flash_window_base (ctrl s) ->
  let c := ctrl s in
  let size := seg_size (decode c (u32 data)) in
  let snapped := mkSeg (flash_window_base c) size in
  exists s',
    aspeed_smc_write fuel s addr data = Some s'
    /\ In (LOG_GUEST_ERROR,
           msg_cs0_start_address (seg_addr (decode c (u32 data)))) (log s')
    /\ seg_addr (decode c (reg s' R_SEG_ADDR0)) = flash_window_base c
    /\ (if size =? 0
        then reg s' R_SEG_ADDR0 = reg s R_SEG_ADDR0 /\ flashes s' = flashes s
        else reg s' R_SEG_ADDR0 = encode c snapped
             /\ flashes s' = <[0%nat := mkMR 0 size true]> (flashes s)).
Proof.
  intros Hs Ha Hne c size snapped.
  destruct (smc_reachable_inv s Hs) as [Hwf _].
  pose proof (smc_reachable_segments_ok s Hs) as [_ Hbase].
  pose proof (wf_ctrl _ Hwf) as Hc.
  destruct (ctrl_layout _ Hc) as (_ & _ & _ & _ & Hm).
  assert (Hv : (u32 data =? reg s R_SEG_ADDR0) = false).
  { apply Z.eqb_neq. intros Heq. apply Hne. now rewrite Heq. }
  rewrite aspeed_smc_write_segment by (assumption || (rewrite Ha; lia)).
  rewrite Ha, Hv. cbn [negb]. replace (R_SEG_ADDR0 - R_SEG_ADDR0)%nat with 0%nat by lia.
  eexists. split; [reflexivity|].
  assert (Hok' : segments_ok (aspeed_smc_flash_set_segment s 0 (u32 data))).
  { apply set_segment_segments_ok; [exact Hwf|lia|].
    exact (smc_reachable_segments_ok s Hs). }
  pose proof (frame_flash_set_segment (fun j => j = R_SEG_ADDR0 + 0)%nat
                s 0 (u32 data) eq_refl) as (Ec & _).
  destruct (set_segment_spec s 0 (u32 data)) as (R & F & _ & L); [lia|].
  assert (E0 : (0 =? 0)%nat
               && negb (seg_addr (decode (ctrl s) (u32 (u32 data)))
                        =? flash_window_base (ctrl s)) = true).
  { rewrite (u32_small (u32 data)) by apply u32_range. cbn [Nat.eqb andb].
    apply negb_true_iff. now apply Z.eqb_neq. }
  split.
  { specialize (L E0). now rewrite (u32_small (u32 data)) in L by apply u32_range. }
  split.
  { destruct Hok' as [_ H]. now rewrite Ec in H. }
  assert (Hout : segment_outside_window c snapped = (size =? 0)).
  { apply cs0_outside_iff_empty; [exact Hc|].
    apply decode_size_range; exact Hc. }
  revert R F. unfold cs0_snap. rewrite E0. cbn [fst snd].
  rewrite (u32_small (u32 data)) by apply u32_range. fold c size snapped.
  rewrite !Hout.
  destruct (size =? 0); intros R F.
  - unfold reg. rewrite R. now split.
  - split.
    + unfold reg. rewrite R. change (R_SEG_ADDR0 + 0)%nat with R_SEG_ADDR0.
      rewrite list_lookup_total_insert_eq
        by (rewrite (wf_regs _ Hwf); unfold R_SEG_ADDR0, ASPEED_SMC_R_MAX; lia).
      apply u32_small. now apply encode_range.
    + rewrite F. unfold segment_region. cbn [seg_addr seg_size].
      now rewrite Z.sub_diag.
Qed.

(** *** Reset *)

Lemma smc_step_ctrl (s s' : State) : smc_step s s' -> ctrl s' = ctrl s.
Proof.
  intros [fuel addr data s1 Ha E | addr Ha
         | id addr size Hid Hsz | id addr data size Hid Hsz | s1 E].
  - now apply frame_smc_write in E as (-> & _).
  - unfold aspeed_smc_read. destruct (smc_readable _ _); reflexivity.
  - now destruct (frame_flash_read (fun _ => True) s id addr size I) as (-> & _).
  - now destruct (frame_flash_write (fun _ => True) s id addr data size I)
      as (-> & _).
  - now apply frame_smc_reset in E as (-> & _).
Qed.

Lemma reset_segments_defaults idx (s1 s2 : State) :
  reset_segments idx s1 = Some s2 ->
  forall i, In i idx -> is_Some (segments_at_opt (ctrl s1) i).
Proof.
  revert s1. induction idx as [|k idx IH]; intros s1; cbn [reset_segments].
  - intros _ i [].
  - destruct (segments_at_opt (ctrl s1) k) as [seg|] eqn:Ek; [|discriminate].
    intros E i [<-|Hi]; [rewrite Ek; eauto|].
    exact (IH _ E i Hi).
Qed.

Lemma reset_segments_total idx (s1 : State) :
  (forall i, In i idx -> is_Some (segments_at_opt (ctrl s1) i)) ->
  is_Some (reset_segments idx s1).
Proof.
  revert s1. induction idx as [|k idx IH]; intros s1 H; cbn [reset_segments].
  - eauto.
  - destruct (H k) as [seg Ek]; [now left|]. rewrite Ek.
    apply IH. intros i Hi. apply H. now right.
Qed.

(** The default table of a device reachable from reset covers every
    chip-select of its controller. *)
Lemma smc_reachable_defaults (s : State) :
  smc_reachable s ->
  forall i, (i < max_slaves (ctrl s))%nat ->
    is_Some (segments_at_opt (ctrl s) i).
Proof.
  induction 1 as [c n inj base bus flash dram s0 s Hc E0 E1
                 | s s' Hs IH Hstep].
  - pose proof (frame_smc_reset _ _ E1) as (Ec & _). cbn in Ec.
    rewrite Ec. revert E1. unfold aspeed_smc_reset.
    destruct (reset_segments _ _) as [s2|] eqn:E2; [|discriminate].
    intros _ i Hi.
    apply reset_segments_defaults with (i := i) in E2.
    + destruct (frame_reset_unselect (fun _ => True) 
                  (SMC.set_regs (replicate ASPEED_SMC_R_MAX 0) s0)
                  (seq 0 (num_cs s0)) (fun _ _ => I) _ (modifies_refl _ _))
        as (Eu & _).
      cbn in Eu. cbn in E2. rewrite Eu in E2. exact E2.
    + apply in_seq. 
      destruct (frame_reset_unselect (fun _ => True) 
                  (SMC.set_regs (replicate ASPEED_SMC_R_MAX 0) s0)
                  (seq 0 (num_cs s0)) (fun _ _ => I) _ (modifies_refl _ _))
        as (Eu & _).
      cbn in Eu. cbn. rewrite Eu. lia.
  - rewrite (smc_step_ctrl _ _ Hstep). exact IH.
Qed.

Lemma reset_unselect_regs idx :
  NoDup idx ->
  forall (s1 : State),
    (forall i, In i idx -> (r_ctrl0 (ctrl s1) + i < length (regs s1))%nat) ->
    forall i, In i idx ->
      reg (reset_unselect idx s1) (r_ctrl0 (ctrl s1) + i)
      = Z.lor (reg s1 (r_ctrl0 (ctrl s1) + i)) CTRL_CE_STOP_ACTIVE.
Proof.
  induction 1 as [|k idx Hk Hnd IH]; intros s1 Hl; cbn [reset_unselect].
  - intros i [].
  - set (s2 := set_cs_line k true
                 (set_reg (r_ctrl0 (ctrl s1) + k)
                    (Z.lor (reg s1 (r_ctrl0 (ctrl s1) + k))
                           CTRL_CE_STOP_ACTIVE) s1)).
    assert (Hl2 : forall i, In i idx ->
              (r_ctrl0 (ctrl s2) + i < length (regs s2))%nat).
    { intros i Hi. unfold s2. cbn [ctrl regs set_cs_line SMC.set_cs_lines].
      rewrite length_set_reg. apply Hl. now right. }
    intros i [<-|Hi].
    + pose proof (frame_reset_unselect
                    (fun j => exists i, In i idx
                                        /\ j = (r_ctrl0 (ctrl s2) + i)%nat)
                    s2 idx (fun i Hi => ex_intro _ i (conj Hi eq_refl))
                    s2 (modifies_refl _ _)) as (_ & _ & _ & _ & _ & F).
      change (r_ctrl0 (ctrl s1) + k)%nat with (r_ctrl0 (ctrl s2) + k)%nat at 1.
      rewrite F.
      * apply reg_set_reg_eq. apply Hl. now left.
      * intros (i & Hi & Heq). apply Hk.
        rewrite list_elem_of_In. now replace k with i by lia.
    + change (r_ctrl0 (ctrl s1) + i)%nat with (r_ctrl0 (ctrl s2) + i)%nat at 1.
      rewrite (IH s2 Hl2 i Hi). f_equal.
      apply reg_set_reg_ne. intros Heq. apply Hk.
      rewrite list_elem_of_In. now replace k with i by lia.
Qed.

Lemma conf_strap_reg (s : State) sh :
  (r_conf (ctrl s) < length (regs s))%nat ->
  reg (conf_strap sh s) (r_conf (ctrl s))
  = Z.lor (reg s (r_conf (ctrl s))) (Z.shiftl CONF_FLASH_TYPE_SPI sh)
  /\ ctrl (conf_strap sh s) = ctrl s
  /\ length (regs (conf_strap sh s)) = length (regs s).
Proof.
  intros Hl. unfold conf_strap. split; [now apply reg_set_reg_eq|].
  split; [reflexivity|apply length_set_reg].
Qed.

(** The straps, as reset applies them to a CONF register that holds 0. *)
Lemma straps_conf (s2 : State) :
  (r_conf (ctrl s2) < length (regs s2))%nat ->
  reg s2 (r_conf (ctrl s2)) = 0 ->
  reg (let s3 :=
         if bool_decide (segments (ctrl s2) = aspeed_segments_ast2600_fmc)
         then conf_strap CONF_FLASH_TYPE2
                (conf_strap CONF_FLASH_TYPE1 (conf_strap CONF_FLASH_TYPE0 s2))
         else s2 in
       let s4 :=
         if bool_decide (segments (ctrl s3) = aspeed_segments_ast2500_fmc)
         then conf_strap CONF_FLASH_TYPE1 (conf_strap CONF_FLASH_TYPE0 s3)
         else s3 in
       if bool_decide (segments (ctrl s4) = aspeed_segments_fmc)
       then conf_strap CONF_FLASH_TYPE0 s4
       else s4) (r_conf (ctrl s2))
  = conf_straps (ctrl s2).
Proof.
  intros Hl H0. unfold conf_straps. cbv zeta.
  assert (Hs : forall sh (t : State),
             ctrl t = ctrl s2 -> length (regs t) = length (regs s2) ->
             reg (conf_strap sh t) (r_conf (ctrl s2))
             = Z.lor (reg t (r_conf (ctrl s2)))
                     (Z.shiftl CONF_FLASH_TYPE_SPI sh)).
  { intros sh t Et Elt. rewrite <- Et. apply conf_strap_reg.
    now rewrite Et, Elt. }
  assert (Hl' : forall sh (t : State),
             length (regs (conf_strap sh t)) = length (regs t)).
  { intros sh t. unfold conf_strap. apply length_set_reg. }
  assert (Hc : forall sh (t : State), ctrl (conf_strap sh t) = ctrl t)
    by reflexivity.
  destruct (bool_decide (segments (ctrl s2) = aspeed_segments_ast2600_fmc));
    rewrite ?Hc;
    destruct (bool_decide (segments (ctrl s2) = aspeed_segments_ast2500_fmc));
    rewrite ?Hc;
    destruct (bool_decide (segments (ctrl s2) = aspeed_segments_fmc));
    repeat (rewrite Hs; [|now rewrite ?Hc|now rewrite ?Hl']);
    rewrite H0; reflexivity.
Qed.

(** What reset leaves in the device: the register file is zero except for
    the default segment registers, the straps in CONF and CE_STOP_ACTIVE
    in the control register of each active chip-select; snooping is off. *)
Lemma smc_reset_spec (s : State) :
  smc_wf s ->
  (forall i, (i < max_slaves (ctrl s))%nat ->
     is_Some (segments_at_opt (ctrl s) i)) ->
  exists s',
    aspeed_smc_reset s = Some s'
    /\ (forall j, (j < ASPEED_SMC_R_MAX)%nat ->
          ~ reset_regs (ctrl s) (num_cs s) j -> reg s' j = 0)
    /\ (forall i, (i < max_slaves (ctrl s))%nat ->
          reg s' (R_SEG_ADDR0 + i)
          = encode (ctrl s) (segments_at (ctrl s) i))
    /\ (forall i, (i < num_cs s)%nat ->
          reg s' (r_ctrl0 (ctrl s) + i) = CTRL_CE_STOP_ACTIVE)
    /\ reg s' (r_conf (ctrl s)) = conf_straps (ctrl s)
    /\ snoop_index s' = SNOOP_OFF /\ snoop_dummies s' = 0.
Proof.
  intros Hwf Hdef. pose proof (wf_ctrl _ Hwf) as Hc.
  pose proof (wf_num_cs _ Hwf) as Hn.
  destruct (ctrl_layout _ Hc) as (E0 & _ & _ & HC & Hm).
  destruct (aspeed_smc_reset s) as [s'|] eqn:E.
  2:{ exfalso. revert E. unfold aspeed_smc_reset.
      destruct (reset_segments_total
                  (seq 0 (max_slaves
                     (ctrl (reset_unselect
                        (seq 0 (num_cs (SMC.set_regs
                                          (replicate ASPEED_SMC_R_MAX 0) s)))
                        (SMC.set_regs (replicate ASPEED_SMC_R_MAX 0) s)))))
                  (reset_unselect
                     (seq 0 (num_cs (SMC.set_regs
                                       (replicate ASPEED_SMC_R_MAX 0) s)))
                     (SMC.set_regs (replicate ASPEED_SMC_R_MAX 0) s)))
        as [s2 ->]; [|discriminate].
      destruct (frame_reset_unselect (fun _ => True)
                  (SMC.set_regs (replicate ASPEED_SMC_R_MAX 0) s)
                  (seq 0 (num_cs s)) (fun _ _ => I) _ (modifies_refl _ _))
        as (Eu & _).
      cbn [num_cs SMC.set_regs]. rewrite Eu. cbn [ctrl SMC.set_regs].
      intros i Hi. apply in_seq in Hi. apply Hdef. lia. }
  exists s'. split; [reflexivity|].
  pose proof (frame_smc_reset _ _ E) as (Ec & _ & _ & _ & El & F).
  cbn [ctrl regs SMC.set_regs] in Ec, El. rewrite length_replicate in El.
  assert (Z0 : forall j, (j < ASPEED_SMC_R_MAX)%nat ->
             reg (SMC.set_regs (replicate ASPEED_SMC_R_MAX 0) s) j = 0).
  { intros j Hj. unfold reg. cbn [regs SMC.set_regs].
    now apply lookup_total_replicate_2. }
  split; [intros j Hj Hnot; rewrite F by exact Hnot; now apply Z0|].
  revert E. unfold aspeed_smc_reset.
  set (z := SMC.set_regs (replicate ASPEED_SMC_R_MAX 0) s).
  set (u := reset_unselect (seq 0 (num_cs z)) z).
  assert (Hu : modifies (fun j => r_ctrl0 (ctrl s) <= j
                                  < r_ctrl0 (ctrl s) + num_cs s)%nat z u).
  { unfold u. apply frame_reset_unselect; [|apply modifies_refl].
    intros i Hi. apply in_seq in Hi.
    change (num_cs z) with (num_cs s) in Hi.
    change (ctrl z) with (ctrl s). lia. }
  assert (Hur : forall i, (i < num_cs s)%nat ->
              reg u (r_ctrl0 (ctrl s) + i) = CTRL_CE_STOP_ACTIVE).
  { intros i Hi. unfold u. change (ctrl s) with (ctrl z).
    rewrite reset_unselect_regs.
    - rewrite Z0; [reflexivity|].
      change (ctrl z) with (ctrl s). unfold ASPEED_SMC_R_MAX. lia.
    - apply NoDup_seq.
    - intros k Hk. apply in_seq in Hk. change (num_cs z) with (num_cs s) in Hk.
      change (length (regs z)) with (length (replicate ASPEED_SMC_R_MAX 0)).
      rewrite length_replicate. change (ctrl z) with (ctrl s).
      unfold ASPEED_SMC_R_MAX. lia.
    - apply in_seq. change (num_cs z) with (num_cs s). lia. }
  destruct Hu as (Ecu & _ & _ & _ & Elu & Fu).
  change (ctrl z) with (ctrl s) in Ecu.
  change (length (regs z)) with (length (replicate ASPEED_SMC_R_MAX 0)) in Elu.
  rewrite length_replicate in Elu.
  destruct (reset_segments _ u) as [s2|] eqn:E2; [|discriminate].
  rewrite Ecu in E2.
  assert (H2 : forall i, (i < max_slaves (ctrl s))%nat ->
             reg s2 (R_SEG_ADDR0 + i)
             = encode (ctrl s) (segments_at (ctrl s) i)).
  { intros i Hi.
    destruct (reset_segments_regs (seq 0 (max_slaves (ctrl s)))
                (NoDup_seq _ _) u s2) with (i := i)
      as (seg & Es & Er); [|exact E2|apply in_seq; lia|].
    - intros k Hk. apply in_seq in Hk. rewrite Elu.
      unfold R_SEG_ADDR0, ASPEED_SMC_R_MAX. lia.
    - rewrite Ecu in Es, Er. rewrite Er. f_equal. symmetry.
      unfold segments_at. apply list_lookup_total_correct. exact Es. }
  pose proof (frame_reset_segments
                (fun j => R_SEG_ADDR0 <= j < R_SEG_ADDR0 + max_slaves (ctrl s))%nat
                u (seq 0 (max_slaves (ctrl s)))) as Hfs.
  destruct (Hfs ltac:(intros i Hi; apply in_seq in Hi; cbv beta; lia) u s2
              (modifies_refl _ _) E2) as (Ec2 & _ & _ & _ & El2 & F2).
  rewrite Ecu in Ec2. rewrite Elu in El2.
  assert (Hconf2 : reg s2 (r_conf (ctrl s)) = 0).
  { rewrite F2 by (rewrite E0; unfold R_SEG_ADDR0; lia).
    rewrite Fu by (rewrite E0; lia).
    apply Z0. rewrite E0. unfold ASPEED_SMC_R_MAX. lia. }
  intros [= E].
  assert (H3 : modifies (fun j => j = r_conf (ctrl s)) s2 s').
  { rewrite <- E. cbv zeta.
    repeat first
      [ frame_step
      | apply frame_conf_strap; [now rewrite Ec2|]
      | match goal with
        | |- modifies _ _ (if ?b then _ else _) => destruct b
        end ]. }
  destruct H3 as (_ & _ & _ & _ & _ & F3).
  split.
  { intros i Hi. rewrite F3 by (rewrite E0; unfold R_SEG_ADDR0; lia).
    now apply H2. }
  split.
  { intros i Hi. rewrite F3 by (rewrite E0; lia).
    rewrite F2 by (unfold R_SEG_ADDR0; lia). now apply Hur. }
  split; [|rewrite <- E; split; reflexivity].
  rewrite <- E. cbv zeta.
  change (reg (SMC.set_snoop_dummies 0 (SMC.set_snoop_index SNOOP_OFF ?x)) ?j)
    with (reg x j).
  rewrite <- Ec2. apply straps_conf; rewrite Ec2; [|exact Hconf2].
  rewrite El2, E0. unfold ASPEED_SMC_R_MAX. lia.
Qed.

End Device.

(** *** The scenarios *)

Import Models Scenarios.

(** Closed goals on numbers and booleans, by evaluation. *)
Ltac by_eval :=
  vm_compute;
  first [ reflexivity | discriminate
        | split; [discriminate|reflexivity]
        | intros ?; discriminate ].

Lemma reach_run_init c n inj base bus flash dram :
  In c controllers ->
  is_Some_b (aspeed_smc_realize c n inj base bus flash dram
             ≫= aspeed_smc_reset) = true ->
  smc_reachable (run (aspeed_smc_realize c n inj base bus flash dram
                      ≫= aspeed_smc_reset)).
Proof.
  intros Hc. destruct (aspeed_smc_realize c n inj base bus flash dram)
    as [s0|] eqn:E0; [|discriminate].
  cbn [mbind option_bind].
  destruct (aspeed_smc_reset s0) as [s1|] eqn:E1; [|discriminate].
  intros _. cbn [run default]. eapply reach_init; eassumption.
Qed.

Lemma reach_run_write (s : SmcState) fuel addr data :
  smc_reachable s ->
  0 <= addr < 4 * Z.of_nat (nregs (ctrl s)) ->
  is_Some_b (aspeed_smc_write fuel s addr data) = true ->
  smc_reachable (run (aspeed_smc_write fuel s addr data)).
Proof.
  intros Hs Ha. destruct (aspeed_smc_write fuel s addr data) as [s'|] eqn:E;
    [|discriminate].
  intros _. cbn [run default]. eapply reach_step; [exact Hs|].
  eapply step_write; eassumption.
Qed.

Lemma fmc2500_reset_reachable : smc_reachable fmc2500_reset.
Proof.
  apply reach_run_init; [do 3 right; left; reflexivity|by_eval].
Qed.

Lemma c1_busy_reachable : smc_reachable c1_busy.
Proof.
  repeat (apply reach_run_write; [|by_eval|by_eval]).
  apply fmc2500_reset_reachable.
Qed.

Lemma c1_ready_wf : smc_wf c1_ready.
Proof.
  split.
  - by_eval.
  - do 3 right; left; reflexivity.
  - vm_compute. lia.
Qed.

Lemma C1_dma_checksum_witness :
  exists s',
    (forall fuel, (length c1_words <= fuel)%nat ->
       aspeed_smc_write fuel c1_ready 0x80 0x5 = Some s')
    /\ reg s' R_DMA_CHECKSUM = u32 (sumZ c1_words)
    /\ reg s' R_DMA_FLASH_ADDR
       = u32 (reg c1_ready R_DMA_FLASH_ADDR + 4 * Z.of_nat (length c1_words))
    /\ reg s' R_DMA_LEN = 0
    /\ Z.land (reg s' R_INTR_CTRL) INTR_CTRL_DMA_STATUS = INTR_CTRL_DMA_STATUS
    /\ irq s' = if nonzero (Z.land (reg c1_ready R_INTR_CTRL) INTR_CTRL_DMA_EN)
                then true :: irq c1_ready else irq c1_ready.
Proof.
  apply (C1_dma_checksum c1_ready 0x5 c1_words).
  - exact c1_ready_wf.
  - by_eval.
  - by_eval.
  - by_eval.
  - by_eval.
  - by_eval.
  - by_eval.
  - by_eval.
  - by_eval.
  - by_eval.
  - by_eval.
  - by_eval.
  - intros [|[|[|i]]] w Hw; vm_compute in Hw; inversion Hw; by_eval.
Defined.

(** C1 as stated fails on a reachable device of a variant with DMA: the
    stored DMA_CTRL has ENABLE set and the completion status was cleared,
    so the write is taken for a DMA in progress and ignored.  The checksum
    stays 0 (the two words sum to 0x10000001), DMA_FLASH_ADDR and DMA_LEN
    keep their values and DMA_STATUS stays clear. *)
Lemma C1_as_stated_fails :
  smc_reachable c1_busy
  /\ has_dma (ctrl c1_busy) = true
  /\ inject_failure c1_busy = false
  /\ reg c1_busy R_DMA_CHECKSUM = 0
  /\ reg c1_busy R_DMA_LEN = 4 * Z.of_nat (length c1_busy_words)
  /\ reg c1_busy R_DMA_FLASH_ADDR = 0x20000000
  /\ flash_words c1_busy (reg c1_busy R_DMA_FLASH_ADDR) c1_busy_words
  /\ u32 (sumZ c1_busy_words) = 0x10000001
  /\ option_map
       (fun s' => (reg s' R_DMA_CHECKSUM, reg s' R_DMA_FLASH_ADDR,
                   reg s' R_DMA_LEN,
                   Z.land (reg s' R_INTR_CTRL) INTR_CTRL_DMA_STATUS))
       (aspeed_smc_write 2 c1_busy 0x80
          (Z.lor DMA_CTRL_ENABLE DMA_CTRL_CKSUM))
     = Some (0, 0x20000000, 8, 0).
Proof.
  split; [exact c1_busy_reachable|].
  do 5 (split; [by_eval|]).
  split.
  { intros [|[|i]] w Hw; vm_compute in Hw; inversion Hw; by_eval. }
  split; by_eval.
Qed.

Lemma C10_dma_len_and_termination_witness :
  reg c1_busy R_DMA_LEN mod 4 = 0
  /\ (has_dma (ctrl c1_busy) = true ->
      forall fuel data,
        aspeed_smc_write fuel c1_busy 0x8C data
        = Some (set_reg R_DMA_LEN (Z.land (u32 data) 0x01FFFFFC) c1_busy))
  /\ (forall fuel, (Z.to_nat (reg c1_busy R_DMA_LEN / 4) <= fuel)%nat ->
        is_Some (dma_checksum_loop fuel c1_busy)
        /\ is_Some (aspeed_smc_dma_rw fuel c1_busy)
        /\ forall addr data, is_Some (aspeed_smc_write fuel c1_busy addr data)).
Proof.
  apply (C10_dma_len_and_termination c1_busy).
  repeat (apply reach_run_write; [|by_eval|by_eval]).
  apply reach_run_init; [do 3 right; left; reflexivity|by_eval].
Defined.

Lemma C3_segments_reach_window_witness :
  (forall i, (i < max_slaves (ctrl c3_state))%nat ->
     touches_window (ctrl c3_state)
       (decode (ctrl c3_state) (reg c3_state (R_SEG_ADDR0 + i))))
  /\ (forall fuel addr data,
        let a := Z.to_nat (Z.shiftr addr 2) in
        (R_SEG_ADDR0 <= a < R_SEG_ADDR0 + max_slaves (ctrl c3_state))%nat ->
        segment_outside_window (ctrl c3_state)
          (fst (cs0_snap (ctrl c3_state) (a - R_SEG_ADDR0) (u32 data))) = true ->
        exists s', aspeed_smc_write fuel c3_state addr data = Some s'
                   /\ regs s' = regs c3_state
                   /\ flashes s' = flashes c3_state).
Proof.
  apply (C3_segments_reach_window c3_state).
  - vm_compute. lia.
  - apply reach_run_write; [apply fmc2500_reset_reachable|by_eval|by_eval].
Defined.

(** C3 as stated fails on the AST2500 FMC, whose window is
    [0x20000000, 0x30000000): the write of 0x70500000 to SEG_ADDR1 is
    committed, register and sub-region, although the segment it decodes
    to, [0x28000000, 0x38000000), ends beyond the window. *)
Lemma C3_as_stated_fails :
  smc_reachable c3_state
  /\ flash_window_base (ctrl c3_state) = 0x20000000
  /\ flash_window_size (ctrl c3_state) = 0x10000000
  /\ reg fmc2500_reset (R_SEG_ADDR0 + 1) = 0x54500000
  /\ reg c3_state (R_SEG_ADDR0 + 1) = c3_value
  /\ flashes c3_state !! 1%nat = Some (mkMR 0x08000000 0x10000000 true)
  /\ (let seg := decode (ctrl c3_state) (reg c3_state (R_SEG_ADDR0 + 1)) in
      seg_addr seg = 0x28000000 /\ seg_size seg = 0x10000000
      /\ ~ (flash_window_base (ctrl c3_state) <= seg_addr seg
            /\ seg_addr seg + seg_size seg
               <= flash_window_base (ctrl c3_state)
                  + flash_window_size (ctrl c3_state))).
Proof.
  split.
  { apply reach_run_write; [apply fmc2500_reset_reachable|by_eval|by_eval]. }
  do 5 (split; [by_eval|]).
  cbv zeta. split; [by_eval|]. split; [by_eval|].
  vm_compute. intros [_ H]. apply H. reflexivity.
Qed.

Lemma C5_cs0_start_readonly_witness :
  let c := ctrl fmc2500_reset in
  let size := seg_size (decode c (u32 c5_value)) in
  let snapped := mkSeg (flash_window_base c) size in
  exists s',
    aspeed_smc_write 0 fmc2500_reset 0x30 c5_value = Some s'
    /\ In (LOG_GUEST_ERROR,
           msg_cs0_start_address (seg_addr (decode c (u32 c5_value)))) (log s')
    /\ seg_addr (decode c (reg s' R_SEG_ADDR0)) = flash_window_base c
    /\ (if size =? 0
        then reg s' R_SEG_ADDR0 = reg fmc2500_reset R_SEG_ADDR0
             /\ flashes s' = flashes fmc2500_reset
        else reg s' R_SEG_ADDR0 = encode c snapped
             /\ flashes s'
                = <[0%nat := mkMR 0 size true]> (flashes fmc2500_reset)).
Proof.
  apply (C5_cs0_start_readonly fmc2500_reset 0 0x30 c5_value).
  - exact fmc2500_reset_reachable.
  - by_eval.
  - by_eval.
Defined.

(** C5 as stated fails on the AST2500 FMC after reset: the value
    0x41410000 written to SEG_ADDR0 decodes to the empty segment at
    0x20800000, off the window base 0x20000000.  The snapped segment is
    empty, the window test refuses it, and the register keeps its reset
    value 0x50400000 instead of the re-encoding 0x40400000 of the snapped
    segment; the size of the CS0 region does not change either. *)
Lemma C5_as_stated_fails :
  smc_reachable fmc2500_reset
  /\ flash_window_base (ctrl fmc2500_reset) = 0x20000000
  /\ seg_addr (decode (ctrl fmc2500_reset) (u32 c5_empty_value)) = 0x20800000
  /\ seg_size (decode (ctrl fmc2500_reset) (u32 c5_empty_value)) = 0
  /\ encode (ctrl fmc2500_reset)
       (mkSeg (flash_window_base (ctrl fmc2500_reset))
              (seg_size (decode (ctrl fmc2500_reset) (u32 c5_empty_value))))
     = 0x40400000
  /\ reg fmc2500_reset R_SEG_ADDR0 = 0x50400000
  /\ option_map (fun s' => (reg s' R_SEG_ADDR0, flashes s' !! 0%nat))
       (aspeed_smc_write 0 fmc2500_reset 0x30 c5_empty_value)
     = Some (0x50400000, Some (mkMR 0 0x08000000 true)).
Proof.
  split; [exact fmc2500_reset_reachable|].
  repeat (split; [by_eval|]). by_eval.
Qed.

(** C6, evaluated on the code: on the first AST2500 SPI controller after
    reset the last chip-select is CS1 and its default segment ends at
    0x38000000.  The write of 0x6C680000 to SEG_ADDR1, which decodes to
    [0x34000000, 0x36000000), is committed as written: no guest error is
    logged, and the stored register and the sub-region end at 0x36000000.
    The test cs == max_slaves of the code holds for no chip-select, so
    the end is never put back. *)
Theorem C6_last_segment_end_moves :
  smc_reachable spi1_2500_reset
  /\ is_ast2500_spi (ctrl spi1_2500_reset) = true
  /\ max_slaves (ctrl spi1_2500_reset) = 2%nat
  /\ seg_end (segments_at (ctrl spi1_2500_reset) 1) = 0x38000000
  /\ seg_end (decode (ctrl spi1_2500_reset)
                (reg spi1_2500_reset (R_SEG_ADDR0 + 1))) = 0x38000000
  /\ seg_end (decode (ctrl spi1_2500_reset) c6_value) = 0x36000000
  /\ option_map
       (fun s' => (reg s' (R_SEG_ADDR0 + 1),
                   seg_end (decode (ctrl s') (reg s' (R_SEG_ADDR0 + 1))),
                   flashes s' !! 1%nat, length (log s')))
       (aspeed_smc_write 0 spi1_2500_reset 0x34 c6_value)
     = Some (c6_value, 0x36000000,
             Some (mkMR 0x04000000 0x02000000 true), 0%nat).
Proof.
  split.
  { apply reach_run_init; [do 4 right; left; reflexivity|by_eval]. }
  repeat (split; [by_eval|]). by_eval.
Qed.

(** *** User Mode writes on a recording SPI bus *)

Section Snoop.
Context {AS : Type} `{!AddressSpace AS}.
Local Abbreviation TState := (@AspeedSMCState SpiTrace AS).

Lemma user_write_frame (s : TState) id addr d size :
  aspeed_smc_flash_mode s id = CTRL_USERMODE ->
  modifies (fun _ => False) s (aspeed_smc_flash_write s id addr d size).
Proof.
  intros Hm. unfold aspeed_smc_flash_write.
  destruct (negb _); [apply modifies_log, modifies_refl|].
  rewrite Hm, Z.eqb_refl.
  destruct (aspeed_smc_do_snoop s id d size) as [s2 b] eqn:E.
  assert (H2 : modifies (fun _ => False) s s2).
  { change s2 with (fst (s2, b)). rewrite <- E.
    apply frame_do_snoop, modifies_refl. }
  destruct b; [exact H2|]. now apply frame_flash_write_bytes.
Qed.

(** What the User Mode path reads from the registers is kept by a step
    that modifies no register. *)
Lemma user_view_modifies (s s' : TState) id :
  modifies (fun _ => False) s s' ->
  aspeed_smc_is_writable s' id = aspeed_smc_is_writable s id
  /\ aspeed_smc_flash_mode s' id = aspeed_smc_flash_mode s id
  /\ aspeed_smc_flash_is_4byte s' id = aspeed_smc_flash_is_4byte s id
  /\ reg s' R_DUMMY_DATA = reg s R_DUMMY_DATA.
Proof.
  intros (Ec & _ & _ & _ & _ & Hr).
  unfold aspeed_smc_is_writable, aspeed_smc_flash_mode,
    aspeed_smc_flash_is_4byte.
  rewrite Ec, !Hr by tauto. auto.
Qed.

Lemma spi_transfer_trace (s : TState) out :
  fst (spi_transfer out s) = SMC.set_spi (mkSpi (spi_sent (spi s) ++ [out])) s.
Proof. reflexivity. Qed.

Lemma snoop_dummy_loop_trace (n k : nat) (s : TState) :
  snoop_dummies s = Z.of_nat k -> (k <= n)%nat -> (k < 256)%nat ->
  let s' := snoop_dummy_loop n s in
  spi_sent (spi s')
  = spi_sent (spi s) ++ repeat (Z.land (reg s R_DUMMY_DATA) 0xff) k
  /\ snoop_dummies s' = 0 /\ snoop_index s' = snoop_index s.
Proof.
  revert k s. induction n as [|n IH]; intros k s Hk Hn Hb; cbn zeta.
  - assert (k = 0%nat) as -> by lia. cbn [snoop_dummy_loop repeat].
    rewrite app_nil_r. auto.
  - cbn [snoop_dummy_loop]. destruct k as [|k].
    + rewrite Hk. cbn [Z.of_nat Z.eqb repeat]. rewrite app_nil_r. auto.
    + destruct (Z.eqb_spec (snoop_dummies s) 0) as [E|_]; [lia|].
      rewrite spi_transfer_trace.
      edestruct (IH k) as (H1 & H2 & H3); [| | |rewrite H1, H2, H3].
      * cbn [snoop_dummies SMC.set_snoop_dummies SMC.set_spi].
        rewrite Hk. unfold u8. rewrite Z.mod_small by lia. lia.
      * lia.
      * lia.
      * cbn [spi spi_sent snoop_index SMC.set_snoop_dummies SMC.set_spi
             repeat].
        rewrite <- app_assoc. auto.
Qed.

(** The conditions of a User Mode write to a writable flash with 3-byte
    addresses and the dummy byte [dummy]. *)
Local Abbreviation user_ready s id dummy :=
  (aspeed_smc_is_writable s id = true
   /\ aspeed_smc_flash_mode s id = CTRL_USERMODE
   /\ aspeed_smc_flash_is_4byte s id = false
   /\ reg s R_DUMMY_DATA = dummy).

Lemma user_ready_write (s : TState) id dummy addr d size :
  user_ready s id dummy ->
  user_ready (aspeed_smc_flash_write s id addr d size) id dummy.
Proof.
  intros (Hw & Hm & H4 & Hd).
  destruct (user_view_modifies s _ id (user_write_frame s id addr d size Hm))
    as (-> & -> & -> & ->).
  auto.
Qed.

Lemma user_write_byte (s : TState) id dummy addr d :
  user_ready s id dummy ->
  aspeed_smc_flash_write s id addr d 1
  = (let '(s2, snooped) := aspeed_smc_do_snoop s id d 1 in
     if snooped then s2
     else SMC.set_spi (mkSpi (spi_sent (spi s2) ++ [Z.land d 0xff])) s2).
Proof.
  intros (Hw & Hm & _). unfold aspeed_smc_flash_write.
  rewrite Hw, Hm. cbn [negb]. rewrite Z.eqb_refl.
  destruct (aspeed_smc_do_snoop s id d 1) as [s2 [|]]; [reflexivity|].
  cbn [flash_write_bytes]. rewrite spi_transfer_trace.
  change (8 * 0) with 0. now rewrite Z.shiftr_0_r.
Qed.

(** The opcode of a command with dummy cycles, written first after the
    chip-select was asserted. *)
Lemma user_write_opcode (s : TState) id dummy addr d :
  user_ready s id dummy ->
  snoop_index s = SNOOP_START ->
  0 < aspeed_smc_num_dummies (Z.land d 0xff) ->
  let s' := aspeed_smc_flash_write s id addr d 1 in
  spi_sent (spi s') = spi_sent (spi s) ++ [Z.land d 0xff]
  /\ snoop_index s' = 1
  /\ snoop_dummies s' = u8 (aspeed_smc_num_dummies (Z.land d 0xff) * 8).
Proof.
  intros Hu Hi Hn. cbn zeta. rewrite (user_write_byte s id dummy) by exact Hu.
  unfold aspeed_smc_do_snoop. rewrite Hi.
  change (SNOOP_START =? SNOOP_OFF) with false.
  change (SNOOP_START =? SNOOP_START) with true. cbv iota.
  destruct (Z.leb_spec (aspeed_smc_num_dummies (Z.land d 0xff)) 0) as [H|_];
    [lia|].
  cbn [spi spi_sent snoop_index snoop_dummies SMC.set_spi
       SMC.set_snoop_index SMC.set_snoop_dummies].
  rewrite Hi. auto.
Qed.

(** A byte written while the address is being sent. *)
Lemma user_write_address (s : TState) id dummy addr d :
  user_ready s id dummy ->
  1 <= snoop_index s < 4 ->
  let s' := aspeed_smc_flash_write s id addr d 1 in
  spi_sent (spi s') = spi_sent (spi s) ++ [Z.land d 0xff]
  /\ snoop_index s' = snoop_index s + 1
  /\ snoop_dummies s' = snoop_dummies s.
Proof.
  intros Hu Hi. cbn zeta. rewrite (user_write_byte s id dummy) by exact Hu.
  destruct Hu as (_ & _ & H4 & _).
  unfold aspeed_smc_do_snoop. rewrite H4.
  destruct (Z.eqb_spec (snoop_index s) SNOOP_OFF) as [E|_];
    [unfold SNOOP_OFF in E; lia|].
  destruct (Z.eqb_spec (snoop_index s) SNOOP_START) as [E|_];
    [unfold SNOOP_START in E; lia|].
  destruct (Z.leb_spec (3 + 1) (snoop_index s)) as [E|_]; [lia|].
  cbn [spi spi_sent snoop_index snoop_dummies SMC.set_spi
       SMC.set_snoop_index].
  unfold u8. change (Z.of_nat 1) with 1.
  rewrite Z.mod_small by lia. auto.
Qed.

(** The write that follows the address, whatever its size: the dummies
    are sent in its place. *)
Lemma user_write_dummies (s : TState) id dummy addr d size (k : nat) :
  user_ready s id dummy ->
  snoop_index s = 4 -> snoop_dummies s = Z.of_nat k -> (k < 256)%nat ->
  let s' := aspeed_smc_flash_write s id addr d size in
  spi_sent (spi s') = spi_sent (spi s) ++ repeat (Z.land dummy 0xff) k
  /\ snoop_index s' = SNOOP_OFF.
Proof.
  intros Hu Hi Hk Hb. cbn zeta.
  destruct Hu as (Hw & Hm & H4 & Hd).
  unfold aspeed_smc_flash_write. rewrite Hw, Hm. cbn [negb].
  rewrite Z.eqb_refl.
  unfold aspeed_smc_do_snoop. rewrite H4, Hi.
  change (4 =? SNOOP_OFF) with false. change (4 =? SNOOP_START) with false.
  change (3 + 1 <=? 4) with true. cbv iota.
  destruct (snoop_dummy_loop_trace k k s Hk (Nat.le_refl _) Hb)
    as (H1 & H2 & H3).
  rewrite Hk, Nat2Z.id, H2. cbn [Z.eqb].
  cbn [spi snoop_index SMC.set_snoop_index].
  rewrite H1, Hd. auto.
Qed.

(** The loop over the bytes of an access on the recording bus. *)
Lemma flash_write_bytes_trace (n : nat) (i data : Z) (s : TState) :
  let s' := flash_write_bytes n i data s in
  spi_sent (spi s')
  = spi_sent (spi s)
    ++ map (fun k => Z.land (Z.shiftr data (8 * (i + Z.of_nat k))) 0xff)
         (seq 0 n)
  /\ snoop_index s' = snoop_index s.
Proof.
  revert i s. induction n as [|n IH]; intros i s; cbn zeta;
    cbn [flash_write_bytes seq map].
  - rewrite app_nil_r. auto.
  - rewrite spi_transfer_trace.
    destruct (IH (i + 1)
                (SMC.set_spi
                   (mkSpi (spi_sent (spi s)
                           ++ [Z.land (Z.shiftr data (8 * i)) 0xff])) s))
      as (H1 & H2).
    rewrite H1, H2. cbn [spi spi_sent snoop_index SMC.set_spi].
    split; [|reflexivity].
    rewrite <- app_assoc. cbn [app]. rewrite Z.add_0_r.
    rewrite <- seq_shift, map_map. do 2 f_equal.
    apply map_ext. intros k. do 3 f_equal. lia.
Qed.

(** Once snooping is off, a write of any size reaches the bus as it is,
    least significant byte first. *)
Lemma user_write_plain (s : TState) id dummy addr d size :
  user_ready s id dummy ->
  snoop_index s = SNOOP_OFF ->
  let s' := aspeed_smc_flash_write s id addr d size in
  spi_sent (spi s') = spi_sent (spi s) ++ data_bytes d size
  /\ snoop_index s' = SNOOP_OFF.
Proof.
  intros (Hw & Hm & _) Hi. cbn zeta.
  unfold aspeed_smc_flash_write. rewrite Hw, Hm. cbn [negb].
  rewrite Z.eqb_refl.
  unfold aspeed_smc_do_snoop. rewrite Hi.
  change (SNOOP_OFF =? SNOOP_OFF) with true. cbv iota.
  destruct (flash_write_bytes_trace size 0 d s) as (H1 & H2).
  rewrite H1, H2. split; [|exact Hi].
  unfold data_bytes. f_equal.
Qed.

Lemma user_write_through (s : TState) id dummy (ws : list FlashAccess) :
  user_ready s id dummy ->
  snoop_index s = SNOOP_OFF ->
  let s' := flash_write_run s id ws in
  spi_sent (spi s')
  = spi_sent (spi s)
    ++ flat_map (fun w => data_bytes (acc_data w) (acc_size w)) ws
  /\ snoop_index s' = SNOOP_OFF.
Proof.
  revert s. induction ws as [|w ws IH]; intros s Hu Hi; cbn zeta.
  - cbn. rewrite app_nil_r. auto.
  - unfold flash_write_run. cbn [fold_left flat_map].
    set (s1 := aspeed_smc_flash_write s id (acc_addr w) (acc_data w)
                 (acc_size w)).
    fold (flash_write_run s1 id ws).
    destruct (user_write_plain s id dummy (acc_addr w) (acc_data w)
                (acc_size w) Hu Hi) as (H1 & H2). fold s1 in H1, H2.
    destruct (IH s1) as (H3 & H4);
      [now apply user_ready_write|exact H2|].
    rewrite H3, H4, H1, <- app_assoc. auto.
Qed.

(** C7, as amended: in User Mode on a flash whose write enable is set in
    CONF, with the chip-select just asserted (snoop tracker at
    SNOOP_START), DUMMY_DATA = 0x5A and 3-byte addressing: after
    single-byte guest writes of opcode 0x0B (FAST_READ) followed by 3
    address bytes, the model has transferred exactly the opcode and the 3
    address bytes on the SPI bus; the next guest write, of any size and
    at any offset of the window, causes exactly eight SPI transfers of
    0x5A (the eight dummy cycles of the one dummy byte) in place of the
    guest data, none of which is sent; after that every guest write, of
    any size and at any offset, is passed through to the SPI bus
    unchanged: its bytes are transferred, least significant first. *)
Theorem C7_snoop_dummy_injection (s : TState) (id : nat) (addr : Z)
    (a0 a1 a2 : Z) (next : FlashAccess) (rest : list FlashAccess) :
  aspeed_smc_is_writable s id = true ->
  aspeed_smc_flash_mode s id = CTRL_USERMODE ->
  aspeed_smc_flash_is_4byte s id = false ->
  snoop_index s = SNOOP_START ->
  reg s R_DUMMY_DATA = 0x5A ->
  0 <= a0 < 256 -> 0 <= a1 < 256 -> 0 <= a2 < 256 ->
  let s4 := flash_write_each s id addr [FAST_READ; a0; a1; a2] in
  let s5 := aspeed_smc_flash_write s4 id (acc_addr next) (acc_data next)
              (acc_size next) in
  let s6 := flash_write_run s5 id rest in
  spi_sent (spi s4) = spi_sent (spi s) ++ [FAST_READ; a0; a1; a2]
  /\ spi_sent (spi s5) = spi_sent (spi s4) ++ repeat 0x5A 8
  /\ spi_sent (spi s6)
     = spi_sent (spi s5)
       ++ flat_map (fun w => data_bytes (acc_data w) (acc_size w)) rest.
Proof.
  intros Hw Hm H4 Hi Hd B0 B1 B2.
  assert (Hb : forall a, 0 <= a < 256 -> Z.land a 0xff = a).
  { intros a Ha. rewrite land_byte. apply Z.mod_small. lia. }
  unfold flash_write_each. cbn [fold_left].
  assert (U0 : user_ready s id 0x5A) by auto.
  pose proof (user_write_opcode s id _ addr FAST_READ U0 Hi eq_refl)
    as (T1 & I1 & D1).
  pose proof (user_ready_write s id _ addr FAST_READ 1 U0) as U1.
  set (s1 := aspeed_smc_flash_write s id addr FAST_READ 1) in *.
  pose proof (user_write_address s1 id _ addr a0 U1 ltac:(lia))
    as (T2 & I2 & D2).
  pose proof (user_ready_write s1 id _ addr a0 1 U1) as U2.
  set (s2 := aspeed_smc_flash_write s1 id addr a0 1) in *.
  pose proof (user_write_address s2 id _ addr a1 U2 ltac:(lia))
    as (T3 & I3 & D3).
  pose proof (user_ready_write s2 id _ addr a1 1 U2) as U3.
  set (s3 := aspeed_smc_flash_write s2 id addr a1 1) in *.
  pose proof (user_write_address s3 id _ addr a2 U3 ltac:(lia))
    as (T4 & I4 & D4).
  pose proof (user_ready_write s3 id _ addr a2 1 U3) as U4.
  set (s4 := aspeed_smc_flash_write s3 id addr a2 1) in *.
  assert (K : snoop_dummies s4 = Z.of_nat 8).
  { rewrite D4, D3, D2, D1. reflexivity. }
  pose proof (user_write_dummies s4 id _ (acc_addr next) (acc_data next)
                (acc_size next) 8 U4 ltac:(lia) K ltac:(lia))
    as (T5 & I5).
  pose proof (user_ready_write s4 id _ (acc_addr next) (acc_data next)
                (acc_size next) U4) as U5.
  set (s5 := aspeed_smc_flash_write s4 id (acc_addr next) (acc_data next)
               (acc_size next)) in *.
  pose proof (user_write_through s5 id _ rest U5 I5) as (T6 & _).
  cbv zeta. split; [|split; [exact T5|exact T6]].
  rewrite T4, T3, T2, T1, (Hb a0), (Hb a1), (Hb a2) by assumption.
  rewrite <- !app_assoc. reflexivity.
Qed.

End Snoop.

Lemma c7_ready_reachable : smc_reachable c7_ready.
Proof.
  repeat (apply reach_run_write; [|by_eval|by_eval]).
  apply fmc2500_reset_reachable.
Qed.

Lemma C7_snoop_dummy_injection_witness :
  let s4 := flash_write_each c7_ready 0 0 [FAST_READ; 0x01; 0x02; 0x03] in
  let s5 := aspeed_smc_flash_write s4 0 0 0xEEDDCCBB 4 in
  let s6 := flash_write_run s5 0 c7_rest in
  spi_sent (spi s4) = spi_sent (spi c7_ready) ++ [FAST_READ; 0x01; 0x02; 0x03]
  /\ spi_sent (spi s5) = spi_sent (spi s4) ++ repeat 0x5A 8
  /\ spi_sent (spi s6)
     = spi_sent (spi s5)
       ++ flat_map (fun w => data_bytes (acc_data w) (acc_size w)) c7_rest.
Proof.
  apply (C7_snoop_dummy_injection c7_ready 0 0 0x01 0x02 0x03
           (mkAccess 0 0xEEDDCCBB 4) c7_rest); by_eval || lia.
Defined.

(** C7 as stated fails on a reachable AST2500 FMC in User Mode with CE0
    asserted, DUMMY_DATA = 0x5A and 3-byte addresses.  With the write
    enable of CE0 set, the opcode and the three address bytes are sent,
    and the next guest write sends 0x5A eight times, not once.  Without
    the write enable, the same four writes send nothing. *)
Lemma C7_as_stated_fails :
  smc_reachable c7_ready
  /\ aspeed_smc_flash_mode c7_ready 0 = CTRL_USERMODE
  /\ snoop_index c7_ready = SNOOP_START
  /\ reg c7_ready R_DUMMY_DATA = 0x5A
  /\ aspeed_smc_flash_is_4byte c7_ready 0 = false
  /\ spi_sent (spi c7_ready) = []
  /\ spi_sent (spi c7_after_address) = [0x0B; 0x01; 0x02; 0x03]
  /\ spi_sent (spi c7_after_next)
     = [0x0B; 0x01; 0x02; 0x03;
        0x5A; 0x5A; 0x5A; 0x5A; 0x5A; 0x5A; 0x5A; 0x5A]
  /\ spi_sent (spi c7_after_next) <> spi_sent (spi c7_after_address) ++ [0x5A]
  /\ aspeed_smc_flash_mode c7_readonly 0 = CTRL_USERMODE
  /\ snoop_index c7_readonly = SNOOP_START
  /\ reg c7_readonly R_DUMMY_DATA = 0x5A
  /\ spi_sent (spi (flash_write_each c7_readonly 0 0 c7_command)) = [].
Proof.
  split; [exact c7_ready_reachable|].
  repeat (split; [by_eval|]). by_eval.
Qed.

End SMCProps.

(** ** The I2C controller *)

Module I2CProps.
Import I2C.

(** *** Single bits *)


Lemma testbit_u32 x j : 0 <= j < 32 -> Z.testbit (u32 x) j = Z.testbit x j.
Proof. intros Hj. unfold u32. apply Z.mod_pow2_bits_low. lia. Qed.

Lemma testbit_set_bit x i j :
  0 <= i -> 0 <= j < 32 ->
  Z.testbit (u32 (Z.lor x (Z.shiftl 1 i))) j = Z.testbit x j || (j =? i).
Proof.
  intros Hi Hj. rewrite testbit_u32, Z.lor_spec, Z.shiftl_1_l by lia.
  f_equal. destruct (Z.eqb_spec j i) as [->|Hne].
  - now apply Z.pow2_bits_true.
  - apply Z.pow2_bits_false. lia.
Qed.

Lemma testbit_not32 m j :
  0 <= j < 32 -> Z.testbit (not32 m) j = negb (Z.testbit m j).
Proof.
  intros Hj. unfold not32. rewrite Z.lxor_spec.
  change 0xFFFFFFFF with (Z.ones 32). rewrite Z.ones_spec_low by lia.
  apply xorb_true_r.
Qed.

Lemma testbit_clear_bit x i j :
  0 <= i -> 0 <= j < 32 ->
  Z.testbit (Z.land x (not32 (Z.shiftl 1 i))) j
  = Z.testbit x j && negb (j =? i).
Proof.
  intros Hi Hj. rewrite Z.land_spec, testbit_not32, Z.shiftl_1_l by lia.
  f_equal. f_equal. destruct (Z.eqb_spec j i) as [->|Hne].
  - now apply Z.pow2_bits_true.
  - apply Z.pow2_bits_false. lia.
Qed.

Lemma land_nonzero_l x y : Z.land x y <> 0 -> x <> 0.
Proof. intros H ->. now rewrite Z.land_0_l in H. Qed.

Section Device.
Context {B : Type} `{!I2CBusCore B}.
Local Abbreviation Bus := (@AspeedI2CBus B).
Local Abbreviation State := (@AspeedI2CState B).
Local Abbreviation Class_ := (@AspeedI2CClass B).

(** *** What the command handlers leave alone: the aggregate status of
    the controller and the identity of the bus *)

Local Abbreviation keeps c b c1 b1 :=
  (s_intr_status c1 = s_intr_status c /\ id b1 = id b).

Lemma recv_pool_keeps (aic : Class_) n i c (b : Bus) :
  keeps c b (fst (recv_pool aic n i c b)) (snd (recv_pool aic n i c b)).
Proof.
  revert i c b. induction n as [|n IH]; intros i c b; cbn [recv_pool].
  - auto.
  - destruct (i2c_recv (bus b)) as [w data].
    destruct (IH (S i)
                (set_pool (<[(bus_pool_base aic b + i)%nat := u8 data]> (pool c)) c)
                (set_bus w b)) as [E1 E2].
    rewrite E1, E2. auto.
Qed.

Lemma send_pool_keeps (aic : Class_) c n i ret (b : Bus) :
  id (fst (send_pool aic c n i ret b)) = id b.
Proof.
  revert i ret b. induction n as [|n IH]; intros i ret b; cbn [send_pool].
  - reflexivity.
  - destruct (i2c_send (bus b) _) as [w r]. destruct (nonzero r); [reflexivity|].
    now rewrite IH.
Qed.

Lemma bus_recv_keeps (aic : Class_) c (b : Bus) :
  keeps c b (fst (aspeed_i2c_bus_recv aic c b))
    (snd (aspeed_i2c_bus_recv aic c b)).
Proof.
  unfold aspeed_i2c_bus_recv. destruct (nonzero _).
  - pose proof (recv_pool_keeps aic
                  (Z.to_nat (I2CD_POOL_RX_SIZE (pool_ctrl b))) 0 c b) as H.
    destruct (recv_pool _ _ _ _ _) as [c1 b1]. exact H.
  - destruct (i2c_recv (bus b)) as [w data]. auto.
Qed.

Lemma handle_rx_cmd_keeps (aic : Class_) c (b : Bus) :
  keeps c b (fst (aspeed_i2c_handle_rx_cmd aic c b))
    (snd (aspeed_i2c_handle_rx_cmd aic c b)).
Proof.
  unfold aspeed_i2c_handle_rx_cmd.
  pose proof (bus_recv_keeps aic c (aspeed_i2c_set_state b I2CD_MRXD)) as H.
  destruct (aspeed_i2c_bus_recv _ _ _) as [c1 b1]. cbn [fst snd] in *.
  destruct (nonzero (Z.land (cmd _) I2CD_M_S_RX_CMD_LAST)); exact H.
Qed.

Lemma handle_cmd_start_keeps (aic : Class_) c (b : Bus) :
  id (fst (handle_cmd_start aic c b)) = id b.
Proof.
  unfold handle_cmd_start. destruct (nonzero _); [|reflexivity].
  destruct (i2c_start_transfer _ _ _) as [w nak].
  destruct (nonzero nak); destruct (negb _); reflexivity.
Qed.

Lemma handle_cmd_tx_keeps (aic : Class_) c (b : Bus) :
  id (handle_cmd_tx aic c b) = id b.
Proof.
  unfold handle_cmd_tx. destruct (nonzero _); [|reflexivity].
  unfold aspeed_i2c_bus_send.
  destruct (nonzero (Z.land (cmd _) I2CD_TX_BUFF_ENABLE)).
  - pose proof (send_pool_keeps aic c
                  (Z.to_nat (I2CD_POOL_TX_COUNT
                     (pool_ctrl (aspeed_i2c_set_state b I2CD_MTXD)))) 0 (-1)
                  (aspeed_i2c_set_state b I2CD_MTXD)) as H.
    destruct (send_pool _ _ _ _ _ _) as [b1 ret]. cbn [fst] in H.
    destruct (nonzero ret); exact H.
  - destruct (i2c_send _ _) as [w ret]. destruct (nonzero ret); reflexivity.
Qed.

Lemma handle_cmd_stop_keeps c (b : Bus) :
  keeps c b (fst (handle_cmd_stop c b)) (snd (handle_cmd_stop c b)).
Proof.
  unfold handle_cmd_stop. destruct (nonzero _); [|auto].
  destruct (negb _); auto.
Qed.

Lemma handle_cmd_keeps (aic : Class_) c (b : Bus) value :
  keeps c b (fst (aspeed_i2c_bus_handle_cmd aic c b value))
    (snd (aspeed_i2c_bus_handle_cmd aic c b value)).
Proof.
  unfold aspeed_i2c_bus_handle_cmd.
  set (b0 := set_cmd _ (set_cmd _ b)).
  pose proof (handle_cmd_start_keeps aic c b0) as H1.
  destruct (handle_cmd_start aic c b0) as [b1 go]. cbn [fst] in H1.
  destruct go; cbn [negb]; [|auto].
  pose proof (handle_cmd_tx_keeps aic c b1) as H2.
  set (b2 := handle_cmd_tx aic c b1) in *.
  assert (H3 : keeps c b2 (fst (handle_cmd_rx aic c b2))
                 (snd (handle_cmd_rx aic c b2))).
  { unfold handle_cmd_rx. destruct (_ && _); [|auto].
    apply handle_rx_cmd_keeps. }
  destruct (handle_cmd_rx aic c b2) as [c3 b3]. cbn [fst snd] in H3.
  destruct (handle_cmd_stop_keeps c3 b3) as [E1 E2].
  destruct H3 as [E3 E4]. rewrite E1, E2, E3, E4, H2, H1. auto.
Qed.

(** *** The aggregate status *)

Lemma raise_interrupt_spec (aic : Class_) c (b : Bus) :
  let c' := fst (aspeed_i2c_bus_raise_interrupt aic c b) in
  let b' := snd (aspeed_i2c_bus_raise_interrupt aic c b) in
  id b' = id b
  /\ intr_ctrl b' = intr_ctrl b
  /\ intr_status b' = Z.land (intr_status b) (intr_ctrl b)
  /\ s_intr_status c'
     = (if nonzero (Z.land (intr_status b) (intr_ctrl b))
        then u32 (Z.lor (s_intr_status c) (Z.shiftl 1 (Z.of_nat (id b))))
        else s_intr_status c).
Proof.
  unfold aspeed_i2c_bus_raise_interrupt. cbn [intr_status set_intr_status].
  destruct (nonzero _); [|cbn; auto].
  unfold drive_irq. destruct (bus_get_irq aic); cbn; auto.
Qed.

(** After [aspeed_i2c_bus_raise_interrupt] a nonzero bus status has its
    bit in the aggregate status; the bits of the other busses are kept. *)
Lemma raise_interrupt_bits (aic : Class_) c (b : Bus) :
  (id b < 32)%nat ->
  let c' := fst (aspeed_i2c_bus_raise_interrupt aic c b) in
  let b' := snd (aspeed_i2c_bus_raise_interrupt aic c b) in
  id b' = id b
  /\ (forall j, 0 <= j < 32 -> j <> Z.of_nat (id b) ->
        Z.testbit (s_intr_status c') j = Z.testbit (s_intr_status c) j)
  /\ (intr_status b' <> 0 ->
      Z.testbit (s_intr_status c') (Z.of_nat (id b)) = true).
Proof.
  intros Hid. destruct (raise_interrupt_spec aic c b) as (E1 & _ & E3 & E4).
  cbv zeta. rewrite E1, E3, E4. split; [reflexivity|]. unfold nonzero.
  destruct (Z.eqb_spec (Z.land (intr_status b) (intr_ctrl b)) 0) as [E|E];
    cbn [negb].
  - split; [reflexivity|]. intros H. contradiction.
  - split.
    + intros j Hj Hne. rewrite testbit_set_bit by lia.
      destruct (Z.eqb_spec j (Z.of_nat (id b))); [contradiction|].
      apply orb_false_r.
    + intros _. rewrite testbit_set_bit by lia.
      rewrite Z.eqb_refl. apply orb_true_r.
Qed.

Lemma bus_write_bits (aic : Class_) c (b : Bus) offset value :
  (id b < 32)%nat ->
  let c' := fst (aspeed_i2c_bus_write aic c b offset value) in
  let b' := snd (aspeed_i2c_bus_write aic c b offset value) in
  id b' = id b
  /\ (forall j, 0 <= j < 32 -> j <> Z.of_nat (id b) ->
        Z.testbit (s_intr_status c') j = Z.testbit (s_intr_status c) j)
  /\ ((intr_status b <> 0 ->
       Z.testbit (s_intr_status c) (Z.of_nat (id b)) = true) ->
      intr_status b' <> 0 ->
      Z.testbit (s_intr_status c') (Z.of_nat (id b)) = true).
Proof.
  intros Hid. cbv zeta. unfold aspeed_i2c_bus_write.
  destruct (offset =? I2CD_FUN_CTRL_REG).
  { destruct (nonzero _); cbn; auto. }
  destruct (offset =? I2CD_AC_TIMING_REG1); [cbn; auto|].
  destruct (offset =? I2CD_AC_TIMING_REG2); [cbn; auto|].
  destruct (offset =? I2CD_INTR_CTRL_REG); [cbn; auto|].
  destruct (offset =? I2CD_INTR_STS_REG).
  { cbv zeta.
    set (b1 := set_intr_status _ b).
    (* the aggregate bit is cleared with the last status bit *)
    assert (H1 : let c2 := fst (if negb (nonzero (intr_status b1))
                                then drive_irq aic false
                                       (set_s_intr_status
                                          (Z.land (s_intr_status c)
                                             (not32 (Z.shiftl 1
                                                (Z.of_nat (id b1))))) c) b1
                                else (c, b1)) in
                 let b2 := snd (if negb (nonzero (intr_status b1))
                                then drive_irq aic false
                                       (set_s_intr_status
                                          (Z.land (s_intr_status c)
                                             (not32 (Z.shiftl 1
                                                (Z.of_nat (id b1))))) c) b1
                                else (c, b1)) in
                 id b2 = id b
                 /\ (forall j, 0 <= j < 32 -> j <> Z.of_nat (id b) ->
                       Z.testbit (s_intr_status c2) j
                       = Z.testbit (s_intr_status c) j)
                 /\ ((intr_status b <> 0 ->
                      Z.testbit (s_intr_status c) (Z.of_nat (id b)) = true) ->
                     intr_status b2 <> 0 ->
                     Z.testbit (s_intr_status c2) (Z.of_nat (id b)) = true)).
    { cbv zeta. unfold nonzero.
      destruct (Z.eqb_spec (intr_status b1) 0) as [E|E]; cbn [negb].
      - unfold drive_irq. destruct (bus_get_irq aic); cbn [fst snd].
        + split; [reflexivity|]. split.
          * intros j Hj Hne. cbn [s_intr_status set_s_intr_status set_s_irq].
            change (id b1) with (id b). rewrite testbit_clear_bit by lia.
            destruct (Z.eqb_spec j (Z.of_nat (id b))); [contradiction|].
            apply andb_true_r.
          * intros _ H. contradiction.
        + split; [reflexivity|]. split.
          * intros j Hj Hne. cbn [s_intr_status set_s_intr_status].
            change (id b1) with (id b). rewrite testbit_clear_bit by lia.
            destruct (Z.eqb_spec j (Z.of_nat (id b))); [contradiction|].
            apply andb_true_r.
          * intros _ H. cbn [intr_status set_irq] in H. contradiction.
      - cbn [fst snd]. split; [reflexivity|]. split; [reflexivity|].
        intros Hinv _. apply Hinv. intros H0. apply E.
        unfold b1. cbn [intr_status set_intr_status]. rewrite H0.
        apply Z.land_0_l. }
    destruct (if negb (nonzero (intr_status b1)) then _ else _)
      as [c2 b2]. cbn [fst snd] in H1. destruct H1 as (I2 & K2 & P2).
    destruct (_ && _); [|cbn [fst snd]; auto].
    destruct (handle_rx_cmd_keeps aic c2 b2) as [E3 I3].
    destruct (aspeed_i2c_handle_rx_cmd aic c2 b2) as [c3 b3].
    cbn [fst snd] in E3, I3.
    destruct (raise_interrupt_bits aic c3 b3) as (I4 & K4 & P4);
      [rewrite I3, I2; exact Hid|].
    rewrite I3, I2 in I4, K4, P4. rewrite E3 in K4.
    split; [exact I4|]. split.
    - intros j Hj Hne. rewrite K4 by assumption. now apply K2.
    - intros _. exact P4. }
  destruct (offset =? I2CD_DEV_ADDR_REG); [cbn; auto|].
  destruct (offset =? I2CD_POOL_CTRL_REG); [cbn; auto|].
  destruct (offset =? I2CD_BYTE_BUF_REG); [cbn; auto|].
  destruct (offset =? I2CD_CMD_REG); [|cbn; auto].
  destruct (negb (aspeed_i2c_bus_is_enabled b)); [cbn; auto|].
  destruct (negb (aspeed_i2c_bus_is_master b)); [cbn; auto|].
  destruct (handle_cmd_keeps aic c b value) as [E3 I3].
  destruct (aspeed_i2c_bus_handle_cmd aic c b value) as [c3 b3].
  cbn [fst snd] in E3, I3.
  destruct (raise_interrupt_bits aic c3 b3) as (I4 & K4 & P4);
    [rewrite I3; exact Hid|].
  rewrite I3 in I4, K4, P4. rewrite E3 in K4.
  split; [exact I4|]. split; [exact K4|]. intros _. exact P4.
Qed.

(** *** The receive after a write-1-to-clear of RX_DONE *)

Lemma testbit_nonzero x k : Z.testbit x k = true -> nonzero x = true.
Proof.
  intros H. unfold nonzero. apply negb_true_iff, Z.eqb_neq. intros ->.
  rewrite Z.bits_0 in H. discriminate.
Qed.

Lemma nonzero_land_lor x a b :
  nonzero (Z.land x (Z.lor a b)) = nonzero (Z.land x a) || nonzero (Z.land x b).
Proof.
  rewrite Z.land_lor_distr_r. unfold nonzero.
  destruct (Z.eqb_spec (Z.land x a) 0) as [Ea|Ea];
    destruct (Z.eqb_spec (Z.land x b) 0) as [Eb|Eb]; cbn [negb orb];
    [apply negb_false_iff, Z.eqb_eq; now rewrite Ea, Eb
    |apply negb_true_iff, Z.eqb_neq; rewrite Z.lor_eq_0_iff; tauto..].
Qed.

(** [aspeed_i2c_set_state] only writes the state field of [cmd], bits 19
    to 22. *)
Lemma set_state_cmd_bit (b : Bus) st k :
  0 <= k < 19 ->
  Z.testbit (cmd (aspeed_i2c_set_state b st)) k = Z.testbit (cmd b) k.
Proof.
  intros Hk. unfold aspeed_i2c_set_state. cbn [cmd set_cmd].
  rewrite Z.lor_spec, Z.land_spec, testbit_not32 by lia.
  unfold I2CD_TX_STATE_SHIFT.
  rewrite !Z.shiftl_spec_low by lia. cbn [negb].
  now rewrite andb_true_r, orb_false_r.
Qed.








(** *** Reset *)

Lemma reset_busses_lookup n (bs : list Bus) i :
  (map reset_bus (take n bs) ++ drop n bs) !! i
  = (fun b => if (i <? n)%nat then reset_bus b else b) <$> (bs !! i).
Proof.
  revert n i. induction bs as [|x bs IH]; intros [|n] [|i]; cbn;
    try reflexivity.
  - now destruct (bs !! i).
  - apply IH.
Qed.

Lemma reset_busses_length n (bs : list Bus) :
  length (map reset_bus (take n bs) ++ drop n bs) = length bs.
Proof.
  revert n. induction bs as [|x bs IH]; intros [|n]; cbn; try reflexivity.
  now rewrite IH.
Qed.

(** *** The invariant of the aggregate status *)

Lemma bus_read_keeps c (b : Bus) offset :
  s_intr_status (fst (aspeed_i2c_bus_read c b offset)) = s_intr_status c.
Proof.
  unfold aspeed_i2c_bus_read.
  repeat (destruct (offset =? _); [reflexivity|]). reflexivity.
Qed.

Lemma pool_write_loop_keeps offset value n i (c : Controller) :
  s_intr_status (aspeed_i2c_pool_write_loop offset value n i c)
  = s_intr_status c.
Proof.
  revert offset i c. induction n as [|n IH]; intros offset i c;
    cbn [aspeed_i2c_pool_write_loop]; [reflexivity|].
  now rewrite IH.
Qed.

Lemma i2c_reachable_inv (aic : Class_) (s : State) :
  (num_busses aic <= 32)%nat ->
  i2c_reachable aic s ->
  length (busses s) = num_busses aic
  /\ forall i b, busses s !! i = Some b ->
       id b = i
       /\ (intr_status b <> 0 ->
           Z.testbit (s_intr_status (controller s)) (Z.of_nat i) = true).
Proof.
  intros Hn. induction 1 as [cores Hl | s s' Hs [IHl IH] Hstep].
  - unfold aspeed_i2c_reset, aspeed_i2c_realize. cbn [busses controller].
    split.
    + rewrite reset_busses_length, length_imap, length_take. lia.
    + intros i b. rewrite reset_busses_lookup, list_lookup_imap.
      destruct (take (num_busses aic) cores !! i) as [w|] eqn:E;
        [|discriminate].
      apply lookup_lt_Some in E. rewrite length_take in E.
      destruct (Nat.ltb_spec i (num_busses aic)); [|lia].
      cbn. intros [= <-]. cbn. split; [reflexivity|]. intros H0. now elim H0.
  - destruct Hstep as [i offset value Hi Ho | i offset Hi Ho | offset
                      | offset value | offset value size Hsz Hp | ].
    + (* a write to a register of bus [i] *)
      unfold bus_write_at. destruct (busses s !! i) as [b|] eqn:Eb;
        [|split; assumption].
      destruct (IH i b Eb) as [Eid Hinv].
      pose proof (bus_write_bits aic (controller s) b offset value) as Hw.
      destruct (aspeed_i2c_bus_write aic (controller s) b offset value)
        as [c' b'].
      cbn [fst snd] in Hw. rewrite Eid in Hw.
      destruct Hw as (I' & K' & P'); [lia|].
      cbn [busses controller]. split; [now rewrite length_insert|].
      intros k bk. destruct (Nat.eq_dec i k) as [<-|Hne].
      * rewrite list_lookup_insert_eq by (rewrite IHl; exact Hi).
        intros [= <-]. split; [exact I'|]. now apply P'.
      * rewrite list_lookup_insert_ne by exact Hne. intros Ek.
        destruct (IH k bk Ek) as [Ekid Hk]. split; [exact Ekid|].
        intros H0. rewrite K'; [now apply Hk| |lia].
        apply lookup_lt_Some in Ek. lia.
    + (* a read of a register of bus [i] *)
      unfold bus_read_at. destruct (busses s !! i) as [b|] eqn:Eb;
        [|split; assumption].
      pose proof (bus_read_keeps (controller s) b offset) as Hr.
      destruct (aspeed_i2c_bus_read (controller s) b offset) as [c' v].
      cbn [fst snd busses controller] in *. rewrite Hr. now split.
    + cbn [busses controller]. split; [exact IHl|].
      unfold aspeed_i2c_ctrl_read.
      destruct (offset =? I2C_CTRL_STATUS); exact IH.
    + cbn [busses controller]. now split.
    + cbn [busses controller]. split; [exact IHl|].
      unfold aspeed_i2c_pool_write. now rewrite pool_write_loop_keeps.
    + unfold aspeed_i2c_reset. cbn [busses controller]. split.
      * now rewrite reset_busses_length.
      * intros i b. rewrite reset_busses_lookup.
        destruct (busses s !! i) as [b0|] eqn:E; [|discriminate].
        pose proof (lookup_lt_Some _ _ _ E) as Hi.
        destruct (Nat.ltb_spec i (num_busses aic)); [|lia].
        cbn. intros [= <-]. cbn. split; [now apply (IH i b0)|].
        intros H0. now elim H0.
Qed.

(** C4, as amended: in every state of the I2C controller reachable from
    reset by bus register writes and reads, controller register accesses,
    pool writes and resets, for every bus i: if bus[i].intr_status is
    nonzero, and so in particular if (bus[i].intr_status &
    bus[i].intr_ctrl) is nonzero, then bit i of the controller-level
    intr_status is 1.  The converse does not hold. *)
Theorem C4_aggregate_status (aic : Class_) (s : State) :
  In aic i2c_classes ->
  i2c_reachable aic s ->
  forall i b, busses s !! i = Some b ->
    (intr_status b <> 0 ->
     Z.testbit (s_intr_status (controller s)) (Z.of_nat i) = true)
    /\ (Z.land (intr_status b) (intr_ctrl b) <> 0 ->
        Z.testbit (s_intr_status (controller s)) (Z.of_nat i) = true).
Proof.
  intros Haic Hs i b Eb.
  assert (Hn : (num_busses aic <= 32)%nat).
  { destruct Haic as [<-|[<-|[<-|[]]]]; cbn; lia. }
  destruct (i2c_reachable_inv aic s Hn Hs) as [_ IH].
  destruct (IH i b Eb) as [_ H]. split; [exact H|].
  intros Hne. apply H. eapply land_nonzero_l. exact Hne.
Qed.

End Device.

(** *** The scenarios *)

Import Models I2CScenarios.

Ltac by_eval :=
  vm_compute;
  first [ reflexivity | discriminate
        | split; [discriminate|reflexivity]
        | intros ?; discriminate ].

Lemma i2c_2500_reset_reachable : i2c_reachable aspeed_2500_i2c i2c_2500_reset.
Proof. apply reach_init. reflexivity. Qed.

Lemma reach_bus_writes (s : I2cState) i ws :
  (i < 14)%nat -> Forall (fun w => 0 <= fst w < 0x40) ws ->
  i2c_reachable aspeed_2500_i2c s ->
  i2c_reachable aspeed_2500_i2c (bus_writes s i ws).
Proof.
  intros Hi Hws. revert s. induction Hws as [|w ws Hw _ IH]; intros s Hs.
  - exact Hs.
  - unfold bus_writes. cbn [fold_left]. apply IH.
    eapply reach_step; [exact Hs|]. now apply step_bus_write.
Qed.

Ltac offsets_ok :=
  repeat (apply List.Forall_cons;
          [vm_compute; split; [discriminate|reflexivity]|]);
  apply List.Forall_nil.

Lemma i2c_addressed_reachable : i2c_reachable aspeed_2500_i2c i2c_addressed.
Proof.
  apply reach_bus_writes; [lia|offsets_ok|apply i2c_2500_reset_reachable].
Qed.

Lemma C4_aggregate_status_witness :
  (intr_status (bus_at i2c_addressed 3) <> 0 ->
   Z.testbit (s_intr_status (controller i2c_addressed)) (Z.of_nat 3) = true)
  /\ (Z.land (intr_status (bus_at i2c_addressed 3))
             (intr_ctrl (bus_at i2c_addressed 3)) <> 0 ->
      Z.testbit (s_intr_status (controller i2c_addressed)) (Z.of_nat 3)
      = true).
Proof.
  apply (C4_aggregate_status aspeed_2500_i2c i2c_addressed).
  - right; left; reflexivity.
  - apply reach_bus_writes; [lia|offsets_ok|].
    apply reach_init. reflexivity.
  - by_eval.
Defined.

(** C4 as stated fails on the AST2500 controller: on bus 3, INTR_TX_ACK
    is pending and bit 3 of the controller status is set; after INTR_CTRL
    is written with 0, (intr_status & intr_ctrl) is 0 and bit 3 is still
    1. *)
Lemma C4_as_stated_fails :
  i2c_reachable aspeed_2500_i2c c4_masked
  /\ id (bus_at c4_masked 3) = 3%nat
  /\ intr_status (bus_at c4_masked 3) = I2CD_INTR_TX_ACK
  /\ intr_ctrl (bus_at c4_masked 3) = 0
  /\ Z.land (intr_status (bus_at c4_masked 3)) (intr_ctrl (bus_at c4_masked 3))
     = 0
  /\ Z.testbit (s_intr_status (controller c4_masked)) 3 = true.
Proof.
  split.
  { apply reach_bus_writes; [lia|offsets_ok|apply i2c_addressed_reachable]. }
  repeat (split; [by_eval|]). by_eval.
Qed.



End I2CProps.

(** ** Device reset, on both devices *)

Module ResetProps.

Section Reset.
Context {SPI AS : Type} `{!SMC.SSIBus SPI} `{!SMC.AddressSpace AS}.
Context {B : Type} `{!I2C.I2CBusCore B}.

(** C8, as amended: on a realized SMC whose controller has an entry in
    its table of default segments for each of its chip-selects (all of
    the nine but the legacy smc-ast2400, whose reset reads the defaults
    of CS1 to CS4 past its table of one entry), device reset zeroes the
    register file except for the segment registers (the encoding of the
    variant's default segments), the flash-type straps in CONF and the
    control register of each active chip-select, which holds
    CE_STOP_ACTIVE; it turns snooping off (snoop_index = SNOOP_OFF = 0xFF,
    snoop_dummies = 0).  On the I2C controller, reset zeroes the
    controller-level intr_status and, for every bus, intr_ctrl,
    intr_status, cmd and buf; ctrl, the timing words, pool_ctrl and the
    shared pool buffer keep their values. *)
Theorem C8_reset (s : @SMC.AspeedSMCState SPI AS)
    (aic : @I2C.AspeedI2CClass B) (t : @I2C.AspeedI2CState B) :
  SMC.smc_wf s ->
  (SMC.max_slaves (SMC.ctrl s)
   <= length (SMC.segments_entries (SMC.segments (SMC.ctrl s))))%nat ->
  (exists s',
     SMC.aspeed_smc_reset s = Some s'
     /\ (forall j, (j < SMC.ASPEED_SMC_R_MAX)%nat ->
           ~ SMC.reset_regs (SMC.ctrl s) (SMC.num_cs s) j -> SMC.reg s' j = 0)
     /\ (forall i, (i < SMC.max_slaves (SMC.ctrl s))%nat ->
           SMC.reg s' (SMC.R_SEG_ADDR0 + i)
           = SMC.encode (SMC.ctrl s) (SMC.segments_at (SMC.ctrl s) i))
     /\ (forall i, (i < SMC.num_cs s)%nat ->
           SMC.reg s' (SMC.r_ctrl0 (SMC.ctrl s) + i) = SMC.CTRL_CE_STOP_ACTIVE)
     /\ SMC.reg s' (SMC.r_conf (SMC.ctrl s)) = SMC.conf_straps (SMC.ctrl s)
     /\ SMC.snoop_index s' = SMC.SNOOP_OFF /\ SMC.snoop_dummies s' = 0)
  /\ (let t' := I2C.aspeed_i2c_reset aic t in
      I2C.s_intr_status (I2C.controller t') = 0
      /\ I2C.pool (I2C.controller t') = I2C.pool (I2C.controller t)
      /\ forall i b, I2C.busses t !! i = Some b ->
           (i < I2C.num_busses aic)%nat ->
           exists b', I2C.busses t' !! i = Some b'
             /\ I2C.intr_ctrl b' = 0 /\ I2C.intr_status b' = 0
             /\ I2C.cmd b' = 0 /\ I2C.buf b' = 0
             /\ I2C.ctrl b' = I2C.ctrl b /\ I2C.timing b' = I2C.timing b
             /\ I2C.pool_ctrl b' = I2C.pool_ctrl b).
Proof.
  intros Hwf Hcov. split.
  - apply SMCProps.smc_reset_spec; [exact Hwf|].
    intros i Hi. unfold SMC.segments_at_opt. apply lookup_lt_is_Some. lia.
  - cbv zeta. unfold I2C.aspeed_i2c_reset. cbn [I2C.controller I2C.busses].
    split; [reflexivity|]. split; [reflexivity|].
    intros i b Eb Hi. rewrite I2CProps.reset_busses_lookup, Eb.
    destruct (Nat.ltb_spec i (I2C.num_busses aic)); [|lia].
    eexists. split; [reflexivity|]. cbn. auto 10.
Qed.

End Reset.

Import Models Scenarios I2CScenarios.

Ltac by_eval :=
  vm_compute;
  first [ reflexivity | discriminate
        | split; [discriminate|reflexivity]
        | intros ?; discriminate ].

Lemma C8_reset_witness :
  (exists s',
     SMC.aspeed_smc_reset c7_ready = Some s'
     /\ (forall j, (j < SMC.ASPEED_SMC_R_MAX)%nat ->
           ~ SMC.reset_regs (SMC.ctrl c7_ready) (SMC.num_cs c7_ready) j ->
           SMC.reg s' j = 0)
     /\ (forall i, (i < SMC.max_slaves (SMC.ctrl c7_ready))%nat ->
           SMC.reg s' (SMC.R_SEG_ADDR0 + i)
           = SMC.encode (SMC.ctrl c7_ready)
               (SMC.segments_at (SMC.ctrl c7_ready) i))
     /\ (forall i, (i < SMC.num_cs c7_ready)%nat ->
           SMC.reg s' (SMC.r_ctrl0 (SMC.ctrl c7_ready) + i)
           = SMC.CTRL_CE_STOP_ACTIVE)
     /\ SMC.reg s' (SMC.r_conf (SMC.ctrl c7_ready))
        = SMC.conf_straps (SMC.ctrl c7_ready)
     /\ SMC.snoop_index s' = SMC.SNOOP_OFF /\ SMC.snoop_dummies s' = 0)
  /\ (let t' := I2C.aspeed_i2c_reset I2C.aspeed_2500_i2c c8_programmed in
      I2C.s_intr_status (I2C.controller t') = 0
      /\ I2C.pool (I2C.controller t') = I2C.pool (I2C.controller c8_programmed)
      /\ forall i b, I2C.busses c8_programmed !! i = Some b ->
           (i < I2C.num_busses (B := I2cSlaveBus) I2C.aspeed_2500_i2c)%nat ->
           exists b', I2C.busses t' !! i = Some b'
             /\ I2C.intr_ctrl b' = 0 /\ I2C.intr_status b' = 0
             /\ I2C.cmd b' = 0 /\ I2C.buf b' = 0
             /\ I2C.ctrl b' = I2C.ctrl b /\ I2C.timing b' = I2C.timing b
             /\ I2C.pool_ctrl b' = I2C.pool_ctrl b).
Proof.
  apply (C8_reset c7_ready I2C.aspeed_2500_i2c c8_programmed).
  - destruct (SMCProps.smc_reachable_inv c7_ready
                SMCProps.c7_ready_reachable) as [Hwf _].
    exact Hwf.
  - vm_compute. lia.
Defined.

(** C8 as stated fails on both devices.  On the AST2500 I2C controller,
    after the function control, the timings and the pool control of bus 3
    were programmed and a byte was written to the pool, reset leaves all
    four as they are.  On the AST2500 FMC with two flashes, reset leaves
    CE_STOP_ACTIVE in CE0_CTRL and CE1_CTRL and 0xFF in snoop_index. *)
Lemma C8_as_stated_fails :
  I2C.i2c_reachable I2C.aspeed_2500_i2c c8_programmed
  /\ (let t' := I2C.aspeed_i2c_reset I2C.aspeed_2500_i2c c8_programmed in
      I2C.ctrl (bus_at t' 3) = 0x1
      /\ I2C.timing (bus_at t' 3) = (0x707, 0x5)
      /\ I2C.pool_ctrl (bus_at t' 3) = 0x10
      /\ I2C.pool (I2C.controller t') !! 0%nat = Some 0xAB)
  /\ SMC.smc_reachable c7_ready
  /\ option_map
       (fun s' => (SMC.reg s' SMC.R_CTRL0, SMC.reg s' (SMC.R_CTRL0 + 1),
                   SMC.snoop_index s'))
       (SMC.aspeed_smc_reset c7_ready)
     = Some (0x4, 0x4, 0xFF).
Proof.
  split.
  { unfold c8_programmed. cbv zeta.
    eapply I2C.reach_step;
      [|apply (I2C.step_pool_write I2C.aspeed_2500_i2c _ 0%nat 0xAB 1%nat);
        [lia|by_eval]].
    apply I2CProps.reach_bus_writes;
      [lia| |apply I2CProps.i2c_2500_reset_reachable].
    repeat (apply List.Forall_cons;
            [vm_compute; split; [discriminate|reflexivity]|]).
    apply List.Forall_nil. }
  split; [cbv zeta; repeat (split; [by_eval|]); by_eval|].
  split; [exact SMCProps.c7_ready_reachable|by_eval].
Qed.

End ResetProps.

(** ** Further properties of the SMC *)

Module SMCMore.
Import SMC SMCProps.

(** The register map of the controllers: CONF is register 0, the control
    registers start at 4 (at 1 on the AST2400 SPI, which has one slave),
    and the register window has at most [ASPEED_SMC_R_MAX] words. *)
Lemma ctrl_map c :
  In c controllers ->
  r_conf c = 0%nat
  /\ (r_timings c = 37 \/ r_timings c = 5)%nat
  /\ (r_ce_ctrl c = 1 \/ r_ce_ctrl c = 255)%nat
  /\ ((r_ctrl0 c = 4 /\ r_timings c = 37 /\ r_ce_ctrl c = 1)
      \/ (r_ctrl0 c = 1 /\ max_slaves c = 1 /\ r_timings c = 5
          /\ r_ce_ctrl c = 255))%nat
  /\ (1 <= max_slaves c <= 5)%nat
  /\ (nregs c <= ASPEED_SMC_R_MAX)%nat.
Proof.
  intros Hc. each_controller Hc; vm_compute; repeat split; auto; lia.
Qed.

(** The table of [aspeed_smc_hclk_divisor] holds each 4-bit mask once. *)
Lemma hclk_table_inverse m :
  0 <= m < 16 ->
  existsb (Z.eqb m) hclk_divisors = true
  /\ 1 <= hclk_divisor_from 0 hclk_divisors m <= 16
  /\ nth (Z.to_nat (hclk_divisor_from 0 hclk_divisors m - 1)) hclk_divisors 0
     = m.
Proof.
  intros Hm.
  assert (H : m = 0 \/ m = 1 \/ m = 2 \/ m = 3 \/ m = 4 \/ m = 5 \/ m = 6
              \/ m = 7 \/ m = 8 \/ m = 9 \/ m = 10 \/ m = 11 \/ m = 12
              \/ m = 13 \/ m = 14 \/ m = 15) by lia.
  repeat (destruct H as [->|H]); try subst m; vm_compute;
    (split; [reflexivity|split; [split; discriminate|reflexivity]]).
Qed.

Lemma land_mask_aligned v m : Z.land m 3 = 0 -> Z.land v m mod 4 = 0.
Proof.
  intros Hm. change 4 with (2 ^ 2). rewrite <- Z.land_ones by lia.
  change (Z.ones 2) with 3. now rewrite <- Z.land_assoc, Hm, Z.land_0_r.
Qed.

Section Device.
Context {SPI AS : Type} `{!SSIBus SPI} `{!AddressSpace AS}.
Local Abbreviation State := (@AspeedSMCState SPI AS).

(** The word index of an access inside the register window. *)
Lemma word_index_bound (s : State) addr :
  smc_wf s -> 0 <= addr < 4 * Z.of_nat (nregs (ctrl s)) ->
  (Z.to_nat (Z.shiftr addr 2) < ASPEED_SMC_R_MAX)%nat
  /\ (Z.to_nat (Z.shiftr addr 2) < length (regs s))%nat.
Proof.
  intros Hwf Ha. destruct (ctrl_map _ (wf_ctrl _ Hwf)) as (_&_&_&_&_&Hn).
  rewrite (wf_regs _ Hwf). rewrite Z.shiftr_div_pow2 by lia.
  change (2 ^ 2) with 4.
  assert (addr / 4 < Z.of_nat (nregs (ctrl s)))
    by (apply Z.div_lt_upper_bound; lia).
  assert (0 <= addr / 4) by (apply Z.div_pos; lia).
  lia.
Qed.

(** The registers that are plain storage. *)
Lemma aspeed_smc_write_plain (fuel : nat) (s : State) (addr data : Z) :
  smc_wf s ->
  let a := Z.to_nat (Z.shiftr addr 2) in
  (a < ASPEED_SMC_R_MAX)%nat ->
  a = r_conf (ctrl s) \/ a = r_timings (ctrl s) \/ a = r_ce_ctrl (ctrl s)
  \/ a = R_INTR_CTRL \/ a = R_DUMMY_DATA ->
  aspeed_smc_write fuel s addr data
  = Some (set_reg a (if (a =? R_DUMMY_DATA)%nat
                     then Z.land (u32 data) 0xff else u32 data) s).
Proof.
  intros Hwf a Ha Hcase. pose proof (wf_num_cs _ Hwf) as Hn.
  destruct (ctrl_map _ (wf_ctrl _ Hwf)) as (E0 & _ & _ & HC & Hm & _).
  unfold aspeed_smc_write. fold a.
  unfold R_INTR_CTRL, R_DUMMY_DATA, R_SEG_ADDR0, ASPEED_SMC_R_MAX in *.
  destruct (Nat.eqb_spec a (r_conf (ctrl s))) as [E1|E1]; cbn [orb].
  { destruct (Nat.eqb_spec a 21); [lia|reflexivity]. }
  destruct (Nat.eqb_spec a (r_timings (ctrl s))) as [E2|E2]; cbn [orb].
  { destruct (Nat.eqb_spec a 21); [lia|reflexivity]. }
  destruct (Nat.eqb_spec a (r_ce_ctrl (ctrl s))) as [E3|E3]; cbn [orb].
  { destruct (Nat.eqb_spec a 21); [lia|reflexivity]. }
  assert (C4 : (r_ctrl0 (ctrl s) <=? a)%nat
               && (a <? r_ctrl0 (ctrl s) + num_cs s)%nat = false).
  { apply andb_false_iff.
    destruct (Nat.leb_spec (r_ctrl0 (ctrl s)) a); [right|now left].
    apply Nat.ltb_ge. lia. }
  rewrite C4.
  assert (C5 : (12 <=? a)%nat && (a <? 12 + max_slaves (ctrl s))%nat = false).
  { apply andb_false_iff.
    destruct (Nat.leb_spec 12 a); [right|now left]. apply Nat.ltb_ge. lia. }
  rewrite C5.
  destruct (Nat.eqb_spec a 21) as [E6|E6]; [reflexivity|].
  destruct (Nat.eqb_spec a 2) as [E7|E7]; [reflexivity|]. lia.
Qed.

(** X1: a plain register reads back what was stored: the 32-bit value
    written for CONF, the timings, CE_CTRL and INTR_CTRL, its low byte for
    DUMMY_DATA; the write changes no other register and the read changes
    nothing. *)
Theorem smc_plain_register_readback (fuel : nat) (s : State)
    (addr data : Z) :
  smc_wf s -> 0 <= addr < 4 * Z.of_nat (nregs (ctrl s)) ->
  let a := Z.to_nat (Z.shiftr addr 2) in
  a = r_conf (ctrl s) \/ a = r_timings (ctrl s) \/ a = r_ce_ctrl (ctrl s)
  \/ a = R_INTR_CTRL \/ a = R_DUMMY_DATA ->
  exists s',
    aspeed_smc_write fuel s addr data = Some s'
    /\ aspeed_smc_read s' addr
       = (s', if (a =? R_DUMMY_DATA)%nat
              then Z.land (u32 data) 0xff else u32 data)
    /\ (forall j, j <> a -> reg s' j = reg s j)
    /\ spi s' = spi s /\ cs_lines s' = cs_lines s /\ log s' = log s.
Proof.
  intros Hwf Haddr a Hcase.
  destruct (word_index_bound s addr Hwf Haddr) as [Ha Hl]. fold a in Ha, Hl.
  eexists. split; [now apply aspeed_smc_write_plain|].
  split; [|split; [intros j Hj; now apply reg_set_reg_ne|now repeat split]].
  unfold aspeed_smc_read. fold a.
  assert (R : smc_readable
                (set_reg a (if (a =? R_DUMMY_DATA)%nat
                            then Z.land (u32 data) 255 else u32 data) s) a
              = true).
  { unfold smc_readable. cbn [ctrl set_reg SMC.set_regs].
    destruct Hcase as [ -> | [ -> | [ -> | [ -> | -> ]]]];
      rewrite ?Nat.eqb_refl, ?orb_true_r; reflexivity. }
  rewrite R. now rewrite reg_set_reg_eq.
Qed.

(** The tests of [aspeed_smc_write] that a DMA register fails. *)
Lemma aspeed_smc_write_dma_reg (fuel : nat) (s : State) (addr data : Z) :
  smc_wf s ->
  let a := Z.to_nat (Z.shiftr addr 2) in
  (R_DMA_CTRL <= a <= R_DMA_CHECKSUM)%nat ->
  aspeed_smc_write fuel s addr data
  = (if has_dma (ctrl s) && (a =? R_DMA_CTRL)%nat
     then aspeed_smc_dma_ctrl fuel s (u32 data)
     else if has_dma (ctrl s) && (a =? R_DMA_DRAM_ADDR)%nat
     then Some (set_reg a (u32 (DMA_DRAM_ADDR s (u32 data))) s)
     else if has_dma (ctrl s) && (a =? R_DMA_FLASH_ADDR)%nat
     then Some (set_reg a (u32 (DMA_FLASH_ADDR s (u32 data))) s)
     else if has_dma (ctrl s) && (a =? R_DMA_LEN)%nat
     then Some (set_reg a (DMA_LENGTH (u32 data)) s)
     else Some (qemu_log_mask LOG_UNIMP
                  (msg_not_implemented (Z.of_nat a)) s)).
Proof.
  intros Hwf a Ha. pose proof (wf_num_cs _ Hwf) as Hn.
  destruct (ctrl_map _ (wf_ctrl _ Hwf)) as (E0 & _ & _ & HC & Hm & _).
  unfold aspeed_smc_write. fold a.
  unfold R_DMA_CTRL, R_DMA_CHECKSUM, R_INTR_CTRL, R_DUMMY_DATA, R_SEG_ADDR0
    in *.
  destruct (Nat.eqb_spec a (r_conf (ctrl s))); [lia|].
  destruct (Nat.eqb_spec a (r_timings (ctrl s))); [lia|].
  destruct (Nat.eqb_spec a (r_ce_ctrl (ctrl s))); [lia|]. cbn [orb].
  assert (C4 : (r_ctrl0 (ctrl s) <=? a)%nat
               && (a <? r_ctrl0 (ctrl s) + num_cs s)%nat = false).
  { apply andb_false_iff. right. apply Nat.ltb_ge. lia. }
  rewrite C4.
  assert (C5 : (12 <=? a)%nat && (a <? 12 + max_slaves (ctrl s))%nat = false).
  { apply andb_false_iff. right. apply Nat.ltb_ge. lia. }
  rewrite C5.
  destruct (Nat.eqb_spec a 21); [lia|].
  destruct (Nat.eqb_spec a 2); [lia|]. reflexivity.
Qed.

(** X2: on a controller without DMA the five DMA registers do not exist:
    a write to one of them is logged as not implemented and changes
    nothing else, and a read returns all ones. *)
Theorem smc_dma_registers_need_dma (fuel : nat) (s : State) (addr data : Z) :
  smc_wf s -> has_dma (ctrl s) = false ->
  let a := Z.to_nat (Z.shiftr addr 2) in
  (R_DMA_CTRL <= a <= R_DMA_CHECKSUM)%nat ->
  aspeed_smc_write fuel s addr data
  = Some (qemu_log_mask LOG_UNIMP (msg_not_implemented (Z.of_nat a)) s)
  /\ aspeed_smc_read s addr
     = (qemu_log_mask LOG_UNIMP (msg_not_implemented (Z.of_nat a)) s,
        0xFFFFFFFFFFFFFFFF).
Proof.
  intros Hwf Hdma a Ha. split.
  { rewrite aspeed_smc_write_dma_reg by assumption. fold a.
    now rewrite Hdma. }
  pose proof (wf_num_cs _ Hwf) as Hn.
  destruct (ctrl_map _ (wf_ctrl _ Hwf)) as (E0 & _ & _ & HC & Hm & _).
  unfold aspeed_smc_read, smc_readable. fold a. rewrite Hdma.
  unfold R_DMA_CTRL, R_DMA_CHECKSUM, R_INTR_CTRL, R_DUMMY_DATA, R_SEG_ADDR0
    in *.
  destruct (Nat.eqb_spec a (r_conf (ctrl s))); [lia|].
  destruct (Nat.eqb_spec a (r_timings (ctrl s))); [lia|].
  destruct (Nat.eqb_spec a (r_ce_ctrl (ctrl s))); [lia|].
  destruct (Nat.eqb_spec a 2); [lia|].
  destruct (Nat.eqb_spec a 21); [lia|]. cbn [orb andb].
  assert (C1 : (12 <=? a)%nat && (a <? 12 + max_slaves (ctrl s))%nat = false).
  { apply andb_false_iff. right. apply Nat.ltb_ge. lia. }
  assert (C2 : (r_ctrl0 (ctrl s) <=? a)%nat
               && (a <? r_ctrl0 (ctrl s) + max_slaves (ctrl s))%nat = false).
  { apply andb_false_iff. right. apply Nat.ltb_ge. lia. }
  rewrite C1, C2. reflexivity.
Qed.

(** X3: a write to the control register of an active chip-select stores
    the value, drives the chip-select line with its CE_STOP_ACTIVE bit and
    re-arms the snoop tracker when the chip-select is asserted (bit
    clear), turning it off otherwise; nothing is sent on the SPI bus and
    no other register changes. *)
Theorem smc_ctrl_write_drives_cs (fuel : nat) (s : State) (addr data : Z)
    (i : nat) :
  smc_wf s -> (i < num_cs s)%nat ->
  Z.to_nat (Z.shiftr addr 2) = (r_ctrl0 (ctrl s) + i)%nat ->
  let stop := nonzero (Z.land (u32 data) CTRL_CE_STOP_ACTIVE) in
  exists s',
    aspeed_smc_write fuel s addr data = Some s'
    /\ reg s' (r_ctrl0 (ctrl s) + i) = u32 data
    /\ cs_lines s' = <[i := stop]> (cs_lines s)
    /\ snoop_index s' = (if stop then SNOOP_OFF else SNOOP_START)
    /\ (forall j, j <> (r_ctrl0 (ctrl s) + i)%nat -> reg s' j = reg s j)
    /\ spi s' = spi s.
Proof.
  intros Hwf Hi Ha stop. pose proof (wf_num_cs _ Hwf) as Hn.
  destruct (ctrl_map _ (wf_ctrl _ Hwf)) as (E0 & _ & _ & HC & Hm & _).
  assert (Hl : (r_ctrl0 (ctrl s) + i < length (regs s))%nat).
  { rewrite (wf_regs _ Hwf). unfold ASPEED_SMC_R_MAX. lia. }
  unfold aspeed_smc_write. rewrite Ha.
  destruct (Nat.eqb_spec (r_ctrl0 (ctrl s) + i) (r_conf (ctrl s))); [lia|].
  destruct (Nat.eqb_spec (r_ctrl0 (ctrl s) + i) (r_timings (ctrl s))); [lia|].
  destruct (Nat.eqb_spec (r_ctrl0 (ctrl s) + i) (r_ce_ctrl (ctrl s))); [lia|].
  cbn [orb].
  assert (C4 : (r_ctrl0 (ctrl s) <=? r_ctrl0 (ctrl s) + i)%nat
               && (r_ctrl0 (ctrl s) + i <? r_ctrl0 (ctrl s) + num_cs s)%nat
               = true).
  { apply andb_true_iff. split; [apply Nat.leb_le|apply Nat.ltb_lt]; lia. }
  rewrite C4. replace (r_ctrl0 (ctrl s) + i - r_ctrl0 (ctrl s))%nat with i
    by lia.
  eexists. split; [reflexivity|].
  assert (Hstop : aspeed_smc_is_ce_stop_active
                    (set_reg (r_ctrl0 (ctrl s) + i) (u32 data) s) i = stop).
  { unfold aspeed_smc_is_ce_stop_active. cbn [ctrl set_reg SMC.set_regs].
    fold (set_reg (r_ctrl0 (ctrl s) + i) (u32 data) s).
    now rewrite reg_set_reg_eq. }
  unfold aspeed_smc_flash_update_cs.
  assert (Hstop' : aspeed_smc_is_ce_stop_active
                     (SMC.set_snoop_index
                        (if aspeed_smc_is_ce_stop_active
                              (set_reg (r_ctrl0 (ctrl s) + i) (u32 data) s) i
                         then SNOOP_OFF else SNOOP_START)
                        (set_reg (r_ctrl0 (ctrl s) + i) (u32 data) s)) i
                   = stop) by exact Hstop.
  rewrite Hstop', Hstop.
  split; [now apply reg_set_reg_eq|]. split; [reflexivity|].
  split; [reflexivity|].
  split; [intros j Hj; now apply reg_set_reg_ne|reflexivity].
Qed.

(** X4: a write to DMA_CTRL with ENABLE clear stops the engine whatever
    its state: the value is stored, DMA_STATUS is cleared in INTR_CTRL,
    DMA_CHECKSUM is zeroed and the interrupt line is lowered; no transfer
    is made, so the addresses and the length keep their values. *)
Theorem smc_dma_disable_stops (fuel : nat) (s : State) (addr data : Z) :
  smc_wf s -> has_dma (ctrl s) = true ->
  Z.to_nat (Z.shiftr addr 2) = R_DMA_CTRL ->
  nonzero (Z.land (u32 data) DMA_CTRL_ENABLE) = false ->
  exists s',
    aspeed_smc_write fuel s addr data = Some s'
    /\ reg s' R_DMA_CTRL = u32 data
    /\ reg s' R_INTR_CTRL
       = Z.land (reg s R_INTR_CTRL) (not32 INTR_CTRL_DMA_STATUS)
    /\ reg s' R_DMA_CHECKSUM = 0
    /\ irq s' = false :: irq s
    /\ reg s' R_DMA_LEN = reg s R_DMA_LEN
    /\ reg s' R_DMA_FLASH_ADDR = reg s R_DMA_FLASH_ADDR
    /\ reg s' R_DMA_DRAM_ADDR = reg s R_DMA_DRAM_ADDR
    /\ flash_as s' = flash_as s /\ dram_as s' = dram_as s.
Proof.
  intros Hwf Hdma Ha Hen. pose proof (wf_regs _ Hwf) as Hr.
  rewrite aspeed_smc_write_dma_ctrl by assumption.
  unfold aspeed_smc_dma_ctrl. rewrite Hen. cbn [negb].
  rewrite (u32_small (u32 data)) by apply u32_range.
  eexists. split; [reflexivity|].
  unfold aspeed_smc_dma_stop, qemu_irq_lower.
  set (s1 := set_reg R_DMA_CTRL (u32 data) s).
  set (s2 := set_reg R_INTR_CTRL
               (Z.land (reg s1 R_INTR_CTRL) (not32 INTR_CTRL_DMA_STATUS)) s1).
  change (irq (SMC.set_irq ?l ?x)) with l.
  change (flash_as (SMC.set_irq ?l ?x)) with (flash_as s).
  change (dram_as (SMC.set_irq ?l ?x)) with (dram_as s).
  repeat match goal with
         | |- context [reg (SMC.set_irq ?l ?x) ?j] =>
             change (reg (SMC.set_irq l x) j) with (reg x j)
         end.
  assert (L1 : length (regs s1) = ASPEED_SMC_R_MAX)
    by (unfold s1; now rewrite length_set_reg).
  assert (L2 : length (regs s2) = ASPEED_SMC_R_MAX)
    by (unfold s2; now rewrite length_set_reg).
  assert (N1 : forall j, j <> R_DMA_CTRL -> reg s1 j = reg s j)
    by (intros j Hj; apply reg_set_reg_ne; congruence).
  assert (N2 : forall j, j <> R_INTR_CTRL -> reg s2 j = reg s1 j)
    by (intros j Hj; apply reg_set_reg_ne; congruence).
  assert (N3 : forall j, j <> R_DMA_CHECKSUM ->
             reg (set_reg R_DMA_CHECKSUM 0 s2) j = reg s2 j)
    by (intros j Hj; apply reg_set_reg_ne; congruence).
  repeat split.
  - rewrite N3, N2 by discriminate. apply reg_set_reg_eq.
    rewrite Hr. unfold R_DMA_CTRL, ASPEED_SMC_R_MAX. lia.
  - rewrite N3 by discriminate. unfold s2.
    rewrite reg_set_reg_eq
      by (rewrite L1; unfold R_INTR_CTRL, ASPEED_SMC_R_MAX; lia).
    now rewrite N1 by discriminate.
  - apply reg_set_reg_eq. rewrite L2.
    unfold R_DMA_CHECKSUM, ASPEED_SMC_R_MAX. lia.
  - now rewrite N3, N2, N1 by discriminate.
  - now rewrite N3, N2, N1 by discriminate.
  - now rewrite N3, N2, N1 by discriminate.
Qed.

(** X5: the frequency field of DMA_CTRL always selects a divisor:
    [aspeed_smc_hclk_divisor] answers a value from 1 to 16, the position
    of the mask in its table, and logs nothing; the value 0 of its error
    path, for which [aspeed_smc_inject_read_failure] has no case, does
    not occur. *)
Theorem smc_hclk_divisor_total (s : State) :
  let m := dma_ctrl_hclk_mask s in
  let r := aspeed_smc_hclk_divisor s m in
  fst r = s
  /\ 1 <= snd r <= 16
  /\ nth (Z.to_nat (snd r - 1)) hclk_divisors 0 = m.
Proof.
  cbv zeta.
  assert (Hm : 0 <= dma_ctrl_hclk_mask s < 16).
  { unfold dma_ctrl_hclk_mask, DMA_CTRL_FREQ_MASK.
    pose proof (land_nonneg_bound
                  (Z.shiftr (reg s R_DMA_CTRL) DMA_CTRL_FREQ_SHIFT) 0xf) as H.
    unfold u8. rewrite Z.mod_small; lia. }
  destruct (hclk_table_inverse _ Hm) as (E & B & N).
  unfold aspeed_smc_hclk_divisor. rewrite E. cbn [fst snd]. auto.
Qed.

(** X6: on a controller with DMA, whatever is written to DMA_FLASH_ADDR,
    the register then holds a 4-byte aligned address inside the flash
    window; no other register changes. *)
Theorem smc_dma_flash_addr_in_window (fuel : nat) (s : State)
    (addr data : Z) :
  smc_wf s -> has_dma (ctrl s) = true ->
  Z.to_nat (Z.shiftr addr 2) = R_DMA_FLASH_ADDR ->
  exists s',
    aspeed_smc_write fuel s addr data = Some s'
    /\ reg s' R_DMA_FLASH_ADDR mod 4 = 0
    /\ flash_window_base (ctrl s) <= reg s' R_DMA_FLASH_ADDR
       < flash_window_base (ctrl s) + flash_window_size (ctrl s)
    /\ (forall j, j <> R_DMA_FLASH_ADDR -> reg s' j = reg s j).
Proof.
  intros Hwf Hdma Ha. pose proof (wf_regs _ Hwf) as Hr.
  pose proof (wf_ctrl _ Hwf) as Hc.
  rewrite aspeed_smc_write_dma_reg
    by (try assumption; rewrite Ha; unfold R_DMA_CTRL, R_DMA_FLASH_ADDR,
          R_DMA_CHECKSUM; lia).
  rewrite Ha, Hdma. cbn [andb Nat.eqb R_DMA_FLASH_ADDR R_DMA_CTRL
                        R_DMA_DRAM_ADDR].
  eexists. split; [reflexivity|].
  rewrite reg_set_reg_eq
    by (rewrite Hr; unfold R_DMA_FLASH_ADDR, ASPEED_SMC_R_MAX; lia).
  split; [|split; [|intros j Hj; apply reg_set_reg_ne; congruence]].
  all: unfold DMA_FLASH_ADDR.
  all: pose proof (land_nonneg_bound (u32 data) (dma_flash_mask (ctrl s))) as B.
  all: pose proof (land_mask_aligned (u32 data) (dma_flash_mask (ctrl s))) as A.
  all: assert (D : Z.land (flash_window_base (ctrl s))
                     (Z.land (u32 data) (dma_flash_mask (ctrl s))) = 0
                   /\ Z.land (dma_flash_mask (ctrl s)) 3 = 0
                   /\ 0 <= dma_flash_mask (ctrl s) < flash_window_size (ctrl s)
                   /\ flash_window_base (ctrl s) mod 4 = 0
                   /\ 0 <= flash_window_base (ctrl s)
                   /\ flash_window_base (ctrl s) + flash_window_size (ctrl s)
                      <= 2 ^ 32).
  1,3: each_controller_of s Hc; try discriminate Hdma;
       (split; [|vm_compute; intuition discriminate]);
       cbn [flash_window_base dma_flash_mask fmc_ast2400 fmc_ast2500
            fmc_ast2600]; rewrite ?Z.land_0_r; try reflexivity;
       rewrite (Z.land_comm (u32 data)), Z.land_assoc; reflexivity.
  all: destruct D as (D1 & D2 & D3 & D4 & D5 & D6).
  all: rewrite lor_disjoint by exact D1.
  all: specialize (A D2); specialize (B ltac:(lia)).
  all: rewrite u32_small by lia.
  - rewrite Z.add_mod, D4, A by lia. reflexivity.
  - lia.
Qed.

(** Calibration writes the timing register and the control register of
    CE0 only, and leaves the address spaces alone. *)
Lemma dma_calibration_keeps (s : State) :
  smc_wf s ->
  let s' := aspeed_smc_dma_calibration s in
  same_device s s'
  /\ flash_as s' = flash_as s /\ dram_as s' = dram_as s /\ irq s' = irq s
  /\ forall j, (j = R_INTR_CTRL \/ R_DMA_CTRL <= j <= R_DMA_CHECKSUM)%nat ->
       reg s' j = reg s j.
Proof.
  intros Hwf. cbv zeta.
  destruct (ctrl_map _ (wf_ctrl _ Hwf)) as (_ & _ & _ & HC & _).
  pose proof (frame_dma_calibration
                (fun j => j = r_timings (ctrl s)
                          \/ j = (r_ctrl0 (ctrl s) + 0)%nat) s s
                (or_introl eq_refl) (or_intror eq_refl) (modifies_refl _ s))
    as (E1 & E2 & E3 & E4 & E5 & F).
  split; [now repeat split|].
  split; [|split; [|split]].
  4:{ intros j Hj. apply F.
      unfold R_INTR_CTRL, R_DMA_CTRL, R_DMA_CHECKSUM in Hj. lia. }
  all: unfold aspeed_smc_dma_calibration, aspeed_smc_hclk_divisor.
  all: destruct (existsb _ _); cbn [fst snd];
       destruct (_ && _); reflexivity.
Qed.

(** X7: read-failure injection.  On a device with [inject-failure] set, a
    checksum DMA whose frequency field selects HCLK/1 (mask 15) and whose
    reads all succeed ends with 0xBADC0DE in DMA_CHECKSUM, whatever the
    flash holds; the length is consumed and DMA_STATUS is set as for any
    completed DMA. *)
Theorem smc_dma_checksum_failure_injected (s : State) (dma_ctrl : Z)
    (F : list Z) :
  smc_wf s -> has_dma (ctrl s) = true ->
  inject_failure s = true ->
  nonzero (Z.land (u32 dma_ctrl) DMA_CTRL_ENABLE) = true ->
  nonzero (Z.land (u32 dma_ctrl) DMA_CTRL_CKSUM) = true ->
  nonzero (Z.land (u32 dma_ctrl) DMA_CTRL_WRITE) = false ->
  Z.land (Z.shiftr (u32 dma_ctrl) DMA_CTRL_FREQ_SHIFT) DMA_CTRL_FREQ_MASK
  = 15 ->
  aspeed_smc_dma_in_progress s = false ->
  0 <= reg s R_DMA_CHECKSUM < 2 ^ 32 ->
  reg s R_DMA_LEN = 4 * Z.of_nat (length F) ->
  4 * Z.of_nat (length F) < 2 ^ 32 ->
  0 <= reg s R_DMA_FLASH_ADDR < 2 ^ 32 ->
  flash_words s (reg s R_DMA_FLASH_ADDR) F ->
  exists s',
    (forall fuel, (length F <= fuel)%nat ->
       aspeed_smc_write fuel s 0x80 dma_ctrl = Some s')
    /\ reg s' R_DMA_CHECKSUM = 0xBADC0DE
    /\ reg s' R_DMA_LEN = 0
    /\ Z.land (reg s' R_INTR_CTRL) INTR_CTRL_DMA_STATUS = INTR_CTRL_DMA_STATUS.
Proof.
  intros Hwf Hdma Hinj Hen Hck Hwr Hfreq Hidle Hck0 Hlen Hbound Hfa Hwords.
  pose proof (wf_regs s Hwf) as Hregs.
  set (s1 := set_reg R_DMA_CTRL (u32 dma_ctrl) s).
  assert (Hwf1 : smc_wf s1).
  { destruct Hwf as [A B C]. split; [|exact B|exact C].
    unfold s1. now rewrite length_set_reg. }
  assert (Hctl : reg s1 R_DMA_CTRL = u32 dma_ctrl).
  { apply reg_set_reg_eq. rewrite Hregs.
    unfold R_DMA_CTRL, ASPEED_SMC_R_MAX. lia. }
  assert (Hother : forall j, j <> R_DMA_CTRL -> reg s1 j = reg s j).
  { intros j Hj. apply reg_set_reg_ne. congruence. }
  (* the state the loop starts in *)
  set (s1' := if nonzero (Z.land (reg s1 R_DMA_CTRL) DMA_CTRL_CALIB)
              then aspeed_smc_dma_calibration s1 else s1).
  assert (K : same_device s1 s1' /\ flash_as s1' = flash_as s1
              /\ forall j, (j = R_INTR_CTRL
                            \/ R_DMA_CTRL <= j <= R_DMA_CHECKSUM)%nat ->
                   reg s1' j = reg s1 j).
  { unfold s1'.
    destruct (nonzero (Z.land (reg s1 R_DMA_CTRL) DMA_CTRL_CALIB)).
    - destruct (dma_calibration_keeps s1 Hwf1) as (A & B & _ & _ & C). auto.
    - split; [apply same_device_refl|auto]. }
  destruct K as (Ksd & Kfl & Kreg).
  assert (R : forall j, (R_DMA_CTRL < j <= R_DMA_CHECKSUM)%nat ->
            reg s1' j = reg s j).
  { intros j Hj. rewrite Kreg by lia. apply Hother. lia. }
  destruct (dma_checksum_loop_words F (length F) s1')
    as (s2 & E & Ck & Fa & Ln & Fr & Sd & Iq).
  { lia. }
  { destruct Ksd as (_ & _ & _ & _ & ->). unfold s1.
    rewrite length_set_reg, Hregs. unfold R_DMA_CHECKSUM, ASPEED_SMC_R_MAX.
    lia. }
  { rewrite R; [exact Hlen|]. unfold R_DMA_CTRL, R_DMA_LEN, R_DMA_CHECKSUM.
    lia. }
  { exact Hbound. }
  { rewrite R; [exact Hck0|]. unfold R_DMA_CTRL, R_DMA_CHECKSUM. lia. }
  { rewrite R; [exact Hfa|].
    unfold R_DMA_CTRL, R_DMA_FLASH_ADDR, R_DMA_CHECKSUM. lia. }
  { rewrite R by (unfold R_DMA_CTRL, R_DMA_FLASH_ADDR, R_DMA_CHECKSUM; lia).
    unfold flash_words. rewrite Kfl. exact Hwords. }
  assert (L2 : length (regs s2) = ASPEED_SMC_R_MAX).
  { destruct Sd as (_ & _ & _ & _ & ->).
    destruct Ksd as (_ & _ & _ & _ & ->). unfold s1.
    now rewrite length_set_reg. }
  assert (Hctl2 : reg s2 R_DMA_CTRL = u32 dma_ctrl).
  { rewrite Fr by discriminate. rewrite Kreg; [exact Hctl|].
    unfold R_DMA_CTRL, R_DMA_CHECKSUM. lia. }
  assert (Hfail : aspeed_smc_inject_read_failure s2 = true).
  { unfold aspeed_smc_inject_read_failure, aspeed_smc_hclk_divisor,
      dma_ctrl_hclk_mask. rewrite Hctl2, Hfreq. reflexivity. }
  assert (Hinj2 : inject_failure s2 = true).
  { destruct Sd as (_ & _ & -> & _). destruct Ksd as (_ & _ & -> & _).
    exact Hinj. }
  exists (aspeed_smc_dma_done (set_reg R_DMA_CHECKSUM 0xbadc0de s2)). split.
  { intros fuel Hfuel.
    rewrite aspeed_smc_write_dma_ctrl by (assumption || reflexivity).
    unfold aspeed_smc_dma_ctrl. rewrite Hen, Hidle. cbn [negb].
    rewrite (u32_small (u32 dma_ctrl)) by apply u32_range.
    fold s1. rewrite Hctl, Hck.
    unfold aspeed_smc_dma_checksum. rewrite Hctl, Hwr. fold s1'.
    rewrite <- Hctl at 1. fold s1'.
    rewrite (dma_checksum_loop_mono _ _ _ _ Hfuel E).
    now rewrite Hinj2, Hfail. }
  split.
  { rewrite reg_dma_done_ne by discriminate. apply reg_set_reg_eq.
    rewrite L2. unfold R_DMA_CHECKSUM, ASPEED_SMC_R_MAX. lia. }
  split.
  { rewrite reg_dma_done_ne by discriminate.
    rewrite reg_set_reg_ne by discriminate. exact Ln. }
  rewrite reg_dma_done_intr
    by (rewrite length_set_reg, L2; unfold R_INTR_CTRL, ASPEED_SMC_R_MAX; lia).
  apply land_lor_same.
Qed.

(** X8: a write to the segment register of a chip-select other than CS0
    whose segment passes the window test is committed as written, whether
    or not the segment is aligned on its size or overlaps another one
    (both are only reported): the register holds the value and the
    sub-region is enabled at the decoded offset with the decoded size.  A
    write of the value the register already holds does nothing. *)
Theorem smc_segment_write_commits (fuel : nat) (s : State) (addr data : Z)
    (cs : nat) :
  smc_wf s -> (1 <= cs < max_slaves (ctrl s))%nat ->
  Z.to_nat (Z.shiftr addr 2) = (R_SEG_ADDR0 + cs)%nat ->
  let seg := decode (ctrl s) (u32 data) in
  segment_outside_window (ctrl s) seg = false ->
  exists s',
    aspeed_smc_write fuel s addr data = Some s'
    /\ reg s' (R_SEG_ADDR0 + cs) = u32 data
    /\ (forall j, j <> (R_SEG_ADDR0 + cs)%nat -> reg s' j = reg s j)
    /\ (if u32 data =? reg s (R_SEG_ADDR0 + cs) then s' = s
        else flashes s'
             = <[cs := mkMR (u64 (seg_addr seg - flash_window_base (ctrl s)))
                            (seg_size seg) true]> (flashes s)).
Proof.
  intros Hwf Hcs Ha seg Hin.
  assert (Hl : (R_SEG_ADDR0 + cs < length (regs s))%nat).
  { destruct (ctrl_map _ (wf_ctrl _ Hwf)) as (_ & _ & _ & _ & Hm & _).
    rewrite (wf_regs _ Hwf). unfold R_SEG_ADDR0, ASPEED_SMC_R_MAX. lia. }
  rewrite aspeed_smc_write_segment by (try assumption; rewrite Ha; lia).
  rewrite Ha. replace (R_SEG_ADDR0 + cs - R_SEG_ADDR0)%nat with cs by lia.
  destruct (Z.eqb_spec (u32 data) (reg s (R_SEG_ADDR0 + cs))) as [E|E];
    cbn [negb].
  { exists s. repeat split; auto. }
  eexists. split; [reflexivity|].
  destruct (set_segment_spec s cs (u32 data)) as (R & F & _); [lia|].
  revert R F. unfold cs0_snap.
  destruct (Nat.eqb_spec cs 0) as [E0|_]; [lia|]. cbn [andb fst snd].
  rewrite (u32_small (u32 data)) by apply u32_range. fold seg.
  rewrite Hin. intros R F.
  split; [unfold reg; rewrite R; now apply list_lookup_total_insert_eq|].
  split; [intros j Hj; unfold reg; rewrite R;
          now apply list_lookup_total_insert_ne|].
  exact F.
Qed.

(** X9: what a register write can touch.  A write at word index [a]
    changes no register other than [a], except that a write to DMA_CTRL
    of a controller with DMA may also change the DMA registers,
    INTR_CTRL, the timing register and the control registers of the
    chip-selects (the calibration writes that of CE0; in the device the
    flash-window reads of a transfer clear and then set CE_STOP_ACTIVE in
    that of the chip-select they address); it never changes the
    controller, the
    number of chip-selects, the properties of the device or the size of
    the register file. *)
Theorem smc_write_frame (fuel : nat) (s s' : State) (addr data : Z) :
  aspeed_smc_write fuel s addr data = Some s' ->
  let a := Z.to_nat (Z.shiftr addr 2) in
  ctrl s' = ctrl s /\ num_cs s' = num_cs s
  /\ inject_failure s' = inject_failure s /\ sdram_base s' = sdram_base s
  /\ length (regs s') = length (regs s)
  /\ forall j, j <> a ->
       ~ (has_dma (ctrl s) = true /\ a = R_DMA_CTRL
          /\ (dma_regs (ctrl s) j
              \/ (r_ctrl0 (ctrl s) <= j
                  < r_ctrl0 (ctrl s) + max_slaves (ctrl s))%nat)) ->
       reg s' j = reg s j.
Proof.
  intros E a. destruct (frame_smc_write _ _ _ _ _ E) as (A & B & C & D & L & F).
  repeat split; try assumption.
  intros j Hj Hn. apply F. unfold write_regs. fold a. tauto.
Qed.

End Device.

(** *** Realize *)

Lemma realize_flashes_defaults c :
  In c controllers ->
  (max_slaves c <= length (segments_entries (segments c)))%nat ->
  exists fl,
    realize_flashes c (seq 0 (max_slaves c)) 0 = Some fl
    /\ length fl = max_slaves c
    /\ forall i, (i < max_slaves c)%nat ->
         fl !! i
         = Some (mkMR (sumZ (map seg_size (take i (segments_entries (segments c)))))
                   (seg_size (segments_at c i)) true).
Proof.
  intros Hc Hlen.
  each_controller Hc; try (exfalso; cbn in Hlen; lia); eexists;
    (split; [vm_compute; reflexivity|]); (split; [reflexivity|]);
    intros i Hi;
    repeat (destruct i as [|i]; [vm_compute; reflexivity|]);
    exfalso; cbn in Hi; lia.
Qed.

Section Realize.
Context {SPI AS : Type} `{!SSIBus SPI} `{!AddressSpace AS}.

(** X27: realize.  For a controller whose table of default segments has
    an entry for each of its slaves (all but the legacy SMC of the
    AST2400, which has five slaves and a table of one entry), the device
    is created with all registers at zero, [num-cs] cut down to the
    number of slaves of the controller (with a guest error logged when it
    was larger), one chip-select line per active slave, and one enabled
    sub-region per slave of the controller: the sub-regions have the
    sizes of the default segments and follow each other from offset 0 of
    the flash window. *)
Theorem smc_realize_layout (c : AspeedSMCController) (n : nat) (inj : bool)
    (base : Z) (bus : SPI) (flash dram : AS) :
  In c controllers ->
  (max_slaves c <= length (segments_entries (segments c)))%nat ->
  exists s,
    aspeed_smc_realize c n inj base bus flash dram = Some s
    /\ ctrl s = c
    /\ num_cs s = Nat.min n (max_slaves c)
    /\ log s = (if (max_slaves c <? n)%nat
                then [(LOG_GUEST_ERROR, msg_num_cs (max_slaves c))] else [])
    /\ regs s = replicate ASPEED_SMC_R_MAX 0
    /\ cs_lines s = replicate (num_cs s) false
    /\ length (flashes s) = max_slaves c
    /\ (forall i, (i < max_slaves c)%nat ->
          flashes s !! i
          = Some (mkMR (sumZ (map seg_size (take i (segments_entries (segments c)))))
                    (seg_size (segments_at c i)) true))
    /\ inject_failure s = inj /\ sdram_base s = base.
Proof.
  intros Hc Hlen.
  destruct (realize_flashes_defaults c Hc Hlen) as (fl & E & L & P).
  unfold aspeed_smc_realize. rewrite E.
  destruct (Nat.ltb_spec (max_slaves c) n); eexists;
    (split; [reflexivity|]); cbn [ctrl num_cs log regs cs_lines flashes
                                  inject_failure sdram_base];
    repeat split; try assumption; lia.
Qed.

End Realize.

(** *** Flash window accesses on a recording SPI bus *)

(** A mask that fits 32 bits and avoids CE_STOP_ACTIVE reads the same
    from a control register with that bit cleared. *)
Lemma land_clear_stop r m :
  0 <= m < 2 ^ 32 -> Z.land m CTRL_CE_STOP_ACTIVE = 0 ->
  Z.land (Z.land r (not32 CTRL_CE_STOP_ACTIVE)) m = Z.land r m.
Proof.
  intros Hm Hd. apply Z.bits_inj'. intros n Hn. rewrite !Z.land_spec.
  destruct (Z.testbit m n) eqn:Em; [|now rewrite !andb_false_r].
  rewrite !andb_true_r.
  destruct (Z_lt_le_dec n 32) as [Hlt|Hge].
  - rewrite I2CProps.testbit_not32 by lia.
    assert (Hb : Z.testbit CTRL_CE_STOP_ACTIVE n = false).
    { assert (H : Z.testbit (Z.land m CTRL_CE_STOP_ACTIVE) n = false)
        by (rewrite Hd; apply Z.bits_0).
      rewrite Z.land_spec, Em in H. exact H. }
    rewrite Hb. apply andb_true_r.
  - exfalso. assert (Z.testbit m n = false); [|congruence].
    destruct (Z.eq_dec m 0) as [->|Hne]; [apply Z.bits_0|].
    apply Z.bits_above_log2; [lia|].
    assert (Z.log2 m < 32) by (apply Z.log2_lt_pow2; lia). lia.
Qed.

Lemma shiftr_land_mask r sh mk :
  0 <= sh ->
  Z.land (Z.shiftr r sh) mk = Z.shiftr (Z.land r (Z.shiftl mk sh)) sh.
Proof.
  intros Hsh. rewrite Z.shiftr_land. f_equal.
  rewrite Z.shiftr_shiftl_l by lia. now rewrite Z.sub_diag, Z.shiftl_0_r.
Qed.

(** Only the AST2400 SPI controller, with its single slave, keeps the
    address width in its control register. *)
Lemma spi_segments_layout c :
  In c controllers ->
  if bool_decide (segments c = aspeed_segments_spi)
  then max_slaves c = 1%nat
  else r_ce_ctrl c = 1%nat /\ r_ctrl0 c = 4%nat.
Proof. intros Hc. each_controller Hc; vm_compute; auto. Qed.

Section Trace.
Context {AS : Type} `{!AddressSpace AS}.
Local Abbreviation TState := (@AspeedSMCState Models.SpiTrace AS).

Lemma spi_transfer_on (b : Models.SpiTrace) (s0 : TState) out :
  spi_transfer out (SMC.set_spi b s0)
  = (SMC.set_spi (Models.mkSpi (Models.spi_sent b ++ [out])) s0, 0).
Proof. reflexivity. Qed.

Lemma spi_repeat_on n out (b : Models.SpiTrace) (s0 : TState) :
  spi_repeat n out (SMC.set_spi b s0)
  = SMC.set_spi (Models.mkSpi (Models.spi_sent b ++ repeat out n)) s0.
Proof.
  revert b. induction n as [|n IH]; intros b; cbn [spi_repeat repeat].
  - destruct b. cbn. now rewrite app_nil_r.
  - rewrite spi_transfer_on. cbn [fst]. rewrite IH. cbn [Models.spi_sent].
    now rewrite <- app_assoc.
Qed.

Lemma flash_read_bytes_on n i ret (b : Models.SpiTrace) (s0 : TState) :
  flash_read_bytes n i ret (SMC.set_spi b s0)
  = (SMC.set_spi (Models.mkSpi (Models.spi_sent b ++ repeat 0 n)) s0, ret).
Proof.
  revert i ret b. induction n as [|n IH]; intros i ret b;
    cbn [flash_read_bytes repeat].
  - destruct b. cbn. now rewrite app_nil_r.
  - rewrite spi_transfer_on.
    replace (Z.lor ret (u32 (Z.shiftl (u32 0) (8 * i)))) with ret.
    + rewrite IH. cbn [Models.spi_sent]. now rewrite <- app_assoc.
    + change (u32 0) with 0. rewrite Z.shiftl_0_l. change (u32 0) with 0.
      now rewrite Z.lor_0_r.
Qed.

Lemma flash_write_bytes_on n i data (b : Models.SpiTrace) (s0 : TState) :
  flash_write_bytes n i data (SMC.set_spi b s0)
  = SMC.set_spi
      (Models.mkSpi
         (Models.spi_sent b
          ++ map (fun k => Z.land (Z.shiftr data (8 * (i + Z.of_nat k))) 0xff)
               (seq 0 n))) s0.
Proof.
  revert i b. induction n as [|n IH]; intros i b;
    cbn [flash_write_bytes seq map].
  - destruct b. cbn. now rewrite app_nil_r.
  - rewrite spi_transfer_on. cbn [fst]. rewrite IH. cbn [Models.spi_sent].
    rewrite <- app_assoc. cbn [app]. rewrite Z.add_0_r.
    rewrite <- seq_shift, map_map. do 4 f_equal.
    apply map_ext. intros k. do 3 f_equal. lia.
Qed.

Lemma flash_cmd_ok (s : TState) id :
  snd (aspeed_smc_flash_cmd s id) <> 0 ->
  aspeed_smc_flash_cmd s id = (s, snd (aspeed_smc_flash_cmd s id)).
Proof.
  unfold aspeed_smc_flash_cmd. cbn [snd]. intros H.
  destruct (Z.eqb_spec
              (if aspeed_smc_flash_mode s id =? CTRL_READMODE
               then SPI_OP_READ
               else Z.land (Z.shiftr (reg s (r_ctrl0 (ctrl s) + id))
                              CTRL_CMD_SHIFT) CTRL_CMD_MASK) 0);
    [contradiction|reflexivity].
Qed.

(** The setup sequence of a Read or Fast-Read access: the command, the
    address, most significant byte first, on 3 or 4 bytes, and in
    Fast-Read mode the dummies. *)
Lemma flash_setup_on (b : Models.SpiTrace) (s0 : TState) id addr :
  In (ctrl s0) controllers ->
  snd (aspeed_smc_flash_cmd s0 id) <> 0 ->
  0 <= addr < seg_size (decode (ctrl s0) (reg s0 (R_SEG_ADDR0 + id))) ->
  aspeed_smc_flash_setup (SMC.set_spi b s0) id addr
  = SMC.set_spi
      (Models.mkSpi
         (Models.spi_sent b
          ++ [u8 (snd (aspeed_smc_flash_cmd s0 id))]
          ++ (if aspeed_smc_flash_is_4byte s0 id
              then [Z.land (Z.shiftr addr 24) 0xff] else [])
          ++ [Z.land (Z.shiftr addr 16) 0xff; Z.land (Z.shiftr addr 8) 0xff;
              Z.land addr 0xff]
          ++ repeat (Z.land (reg s0 R_DUMMY_DATA) 0xff)
               (if aspeed_smc_flash_mode s0 id =? CTRL_FREADMODE
                then Z.to_nat (aspeed_smc_flash_dummies s0 id) else 0%nat)))
      s0.
Proof.
  intros Hc Hcmd Haddr. unfold aspeed_smc_flash_setup.
  rewrite (flash_cmd_ok (SMC.set_spi b s0) id) by exact Hcmd.
  change (snd (aspeed_smc_flash_cmd (SMC.set_spi b s0) id))
    with (snd (aspeed_smc_flash_cmd s0 id)).
  assert (Hsz : 0 <= seg_size (decode (ctrl s0) (reg s0 (R_SEG_ADDR0 + id)))
                < 2 ^ 32).
  { now apply decode_size_range. }
  assert (Eck : aspeed_smc_check_segment_addr (SMC.set_spi b s0) id (u32 addr)
                = (SMC.set_spi b s0, addr)).
  { unfold aspeed_smc_check_segment_addr.
    change (ctrl (SMC.set_spi b s0)) with (ctrl s0).
    change (reg (SMC.set_spi b s0) (R_SEG_ADDR0 + id))
      with (reg s0 (R_SEG_ADDR0 + id)).
    rewrite u32_small by lia. rewrite Z.mod_small by lia.
    now rewrite Z.eqb_refl. }
  rewrite Eck. rewrite spi_transfer_on. cbn [fst].
  change (aspeed_smc_flash_is_4byte (SMC.set_spi ?x s0) id)
    with (aspeed_smc_flash_is_4byte s0 id).
  destruct (aspeed_smc_flash_is_4byte s0 id).
  - repeat (rewrite spi_transfer_on; cbn [fst Models.spi_sent]).
    change (aspeed_smc_flash_mode (SMC.set_spi ?x s0) id)
      with (aspeed_smc_flash_mode s0 id).
    destruct (aspeed_smc_flash_mode s0 id =? CTRL_FREADMODE).
    + rewrite spi_repeat_on. cbn [Models.spi_sent].
      rewrite <- !app_assoc. reflexivity.
    + cbn [repeat]. rewrite <- !app_assoc. reflexivity.
  - repeat (rewrite spi_transfer_on; cbn [fst Models.spi_sent]).
    change (aspeed_smc_flash_mode (SMC.set_spi ?x s0) id)
      with (aspeed_smc_flash_mode s0 id).
    destruct (aspeed_smc_flash_mode s0 id =? CTRL_FREADMODE).
    + rewrite spi_repeat_on. cbn [Models.spi_sent].
      rewrite <- !app_assoc. reflexivity.
    + cbn [repeat]. rewrite <- !app_assoc. reflexivity.
Qed.

Lemma land_not32_self r m : 0 <= m < 2 ^ 32 -> Z.land (Z.land r (not32 m)) m = 0.
Proof.
  intros Hm. apply Z.bits_inj'. intros n Hn.
  rewrite !Z.land_spec, Z.bits_0.
  destruct (Z.testbit m n) eqn:Em; [|apply andb_false_r].
  destruct (Z_lt_le_dec n 32) as [Hlt|Hge].
  - rewrite I2CProps.testbit_not32, Em by lia. cbn [negb].
    now rewrite andb_false_r.
  - exfalso. assert (Z.testbit m n = false); [|congruence].
    destruct (Z.eq_dec m 0) as [->|Hne]; [apply Z.bits_0|].
    apply Z.bits_above_log2; [lia|].
    assert (Z.log2 m < 32) by (apply Z.log2_lt_pow2; lia). lia.
Qed.

(** Selecting a flash clears CE_STOP_ACTIVE and drives its line low;
    unselecting sets the bit and drives the line high. *)
Lemma flash_select_state (s : TState) id :
  (r_ctrl0 (ctrl s) + id < length (regs s))%nat ->
  aspeed_smc_flash_select s id
  = set_cs_line id false
      (set_reg (r_ctrl0 (ctrl s) + id)
         (Z.land (reg s (r_ctrl0 (ctrl s) + id)) (not32 CTRL_CE_STOP_ACTIVE))
         s).
Proof.
  intros Hl. unfold aspeed_smc_flash_select. cbv zeta. f_equal.
  unfold aspeed_smc_is_ce_stop_active.
  change (ctrl (set_reg ?a ?v s)) with (ctrl s).
  rewrite reg_set_reg_eq by exact Hl.
  rewrite land_not32_self by (vm_compute; split; [discriminate|reflexivity]).
  reflexivity.
Qed.

Lemma flash_unselect_state (s : TState) id :
  (r_ctrl0 (ctrl s) + id < length (regs s))%nat ->
  aspeed_smc_flash_unselect s id
  = set_cs_line id true
      (set_reg (r_ctrl0 (ctrl s) + id)
         (Z.lor (reg s (r_ctrl0 (ctrl s) + id)) CTRL_CE_STOP_ACTIVE) s).
Proof.
  intros Hl. unfold aspeed_smc_flash_unselect. cbv zeta. f_equal.
  unfold aspeed_smc_is_ce_stop_active.
  change (ctrl (set_reg ?a ?v s)) with (ctrl s).
  rewrite reg_set_reg_eq by exact Hl.
  now rewrite land_lor_same.
Qed.

(** What a flash access reads from the registers does not depend on
    CE_STOP_ACTIVE of the control register of the flash. *)
Lemma access_view_select (s s1 : TState) id :
  In (ctrl s) controllers -> (id < max_slaves (ctrl s))%nat ->
  ctrl s1 = ctrl s ->
  reg s1 (r_ctrl0 (ctrl s) + id)
  = Z.land (reg s (r_ctrl0 (ctrl s) + id)) (not32 CTRL_CE_STOP_ACTIVE) ->
  (forall j, j <> (r_ctrl0 (ctrl s) + id)%nat -> reg s1 j = reg s j) ->
  aspeed_smc_flash_mode s1 id = aspeed_smc_flash_mode s id
  /\ snd (aspeed_smc_flash_cmd s1 id) = snd (aspeed_smc_flash_cmd s id)
  /\ aspeed_smc_flash_is_4byte s1 id = aspeed_smc_flash_is_4byte s id
  /\ aspeed_smc_flash_dummies s1 id = aspeed_smc_flash_dummies s id
  /\ reg s1 R_DUMMY_DATA = reg s R_DUMMY_DATA
  /\ reg s1 (R_SEG_ADDR0 + id) = reg s (R_SEG_ADDR0 + id).
Proof.
  intros Hc Hid Ec Er Eo.
  destruct (ctrl_map _ Hc) as (E0 & _ & _ & HC & Hm & _).
  assert (Hmode : aspeed_smc_flash_mode s1 id = aspeed_smc_flash_mode s id).
  { unfold aspeed_smc_flash_mode. rewrite Ec, Er.
    apply land_clear_stop; [vm_compute; split; [discriminate|reflexivity]
                           |reflexivity]. }
  assert (Hfield : forall sh mk, 0 <= sh -> 0 <= Z.shiftl mk sh < 2 ^ 32 ->
            Z.land (Z.shiftl mk sh) CTRL_CE_STOP_ACTIVE = 0 ->
            Z.land (Z.shiftr (reg s1 (r_ctrl0 (ctrl s) + id)) sh) mk
            = Z.land (Z.shiftr (reg s (r_ctrl0 (ctrl s) + id)) sh) mk).
  { intros sh mk Hsh Hb Hd. rewrite !shiftr_land_mask by exact Hsh.
    rewrite Er. now rewrite land_clear_stop. }
  split; [exact Hmode|]. split.
  { unfold aspeed_smc_flash_cmd. cbn [snd]. rewrite Hmode, Ec.
    rewrite Hfield; [reflexivity|unfold CTRL_CMD_SHIFT; lia
                    |vm_compute; split; [discriminate|reflexivity]
                    |reflexivity]. }
  split.
  { unfold aspeed_smc_flash_is_4byte. rewrite Ec.
    pose proof (spi_segments_layout _ Hc) as Hlay.
    destruct (bool_decide (segments (ctrl s) = aspeed_segments_spi)) eqn:Es.
    - assert (Hs : (r_ctrl0 (ctrl s) = r_ctrl0 (ctrl s) + id)%nat) by lia.
      assert (E1 : reg s1 (r_ctrl0 (ctrl s))
                   = Z.land (reg s (r_ctrl0 (ctrl s)))
                            (not32 CTRL_CE_STOP_ACTIVE)).
      { rewrite Hs at 1 2. exact Er. }
      rewrite E1. f_equal.
      apply land_clear_stop; [vm_compute; split; [discriminate|reflexivity]
                             |reflexivity].
    - assert (Hs : (r_ce_ctrl (ctrl s) <> r_ctrl0 (ctrl s) + id)%nat) by lia.
      now rewrite Eo by exact Hs. }
  split.
  { unfold aspeed_smc_flash_dummies. rewrite Ec. cbv zeta.
    rewrite (Hfield CTRL_DUMMY_HIGH_SHIFT 1), (Hfield CTRL_DUMMY_LOW_SHIFT 3)
      by (vm_compute; first [reflexivity|discriminate
                            |split; [discriminate|reflexivity]]).
    rewrite Er.
    rewrite (land_clear_stop _ CTRL_IO_DUAL_ADDR_DATA);
      [reflexivity|vm_compute; split; [discriminate|reflexivity]|reflexivity]. }
  split; apply Eo; unfold R_DUMMY_DATA, R_SEG_ADDR0; lia.
Qed.

(** A state as an update of its own bus. *)
Lemma set_spi_self (s : TState) : SMC.set_spi (spi s) s = s.
Proof. now destruct s. Qed.

(** X11: a read of the flash window of an active chip-select (one that
    has a line: [id < num_cs]) in Read or Fast-Read mode.  The
    controller asserts the chip-select, sends the command, the address
    (most significant byte first, 3 or 4 bytes), in Fast-Read mode the
    dummy bytes, then one zero byte per byte read, and releases the
    chip-select: CE_STOP_ACTIVE ends up set, the other registers are
    unchanged and nothing is logged.  (The recording bus answers 0, so
    the value read is 0.) *)
Theorem smc_flash_read_protocol (s : TState) (id : nat) (addr : Z)
    (size : nat) :
  smc_wf s -> (id < num_cs s)%nat ->
  aspeed_smc_flash_mode s id = CTRL_READMODE
  \/ aspeed_smc_flash_mode s id = CTRL_FREADMODE ->
  snd (aspeed_smc_flash_cmd s id) <> 0 ->
  0 <= addr < seg_size (decode (ctrl s) (reg s (R_SEG_ADDR0 + id))) ->
  let rc := (r_ctrl0 (ctrl s) + id)%nat in
  let r := aspeed_smc_flash_read s id addr size in
  Models.spi_sent (spi (fst r))
  = Models.spi_sent (spi s)
    ++ [u8 (snd (aspeed_smc_flash_cmd s id))]
    ++ (if aspeed_smc_flash_is_4byte s id
        then [Z.land (Z.shiftr addr 24) 0xff] else [])
    ++ [Z.land (Z.shiftr addr 16) 0xff; Z.land (Z.shiftr addr 8) 0xff;
        Z.land addr 0xff]
    ++ repeat (Z.land (reg s R_DUMMY_DATA) 0xff)
         (if aspeed_smc_flash_mode s id =? CTRL_FREADMODE
          then Z.to_nat (aspeed_smc_flash_dummies s id) else 0%nat)
    ++ repeat 0 size
  /\ snd r = 0
  /\ reg (fst r) rc
     = Z.lor (Z.land (reg s rc) (not32 CTRL_CE_STOP_ACTIVE))
             CTRL_CE_STOP_ACTIVE
  /\ (forall j, j <> rc -> reg (fst r) j = reg s j)
  /\ cs_lines (fst r) = <[id := true]> (<[id := false]> (cs_lines s))
  /\ log (fst r) = log s.
Proof.
  intros Hwf Hcs Hmode Hcmd Haddr rc r. pose proof (wf_ctrl _ Hwf) as Hc.
  assert (Hid : (id < max_slaves (ctrl s))%nat)
    by (pose proof (wf_num_cs _ Hwf); lia).
  destruct (ctrl_map _ Hc) as (_ & _ & _ & HC & Hm & _).
  assert (Hl : (rc < length (regs s))%nat).
  { rewrite (wf_regs _ Hwf). unfold rc, ASPEED_SMC_R_MAX. lia. }
  set (s1 := set_cs_line id false
               (set_reg rc (Z.land (reg s rc) (not32 CTRL_CE_STOP_ACTIVE)) s)).
  destruct (access_view_select s s1 id Hc Hid eq_refl) as
    (V1 & V2 & V3 & V4 & V5 & V6).
  { unfold s1. now apply reg_set_reg_eq. }
  { intros j Hj. unfold s1. apply reg_set_reg_ne. unfold rc. congruence. }
  assert (Er : r = (set_cs_line id true
                      (set_reg rc
                         (Z.lor (Z.land (reg s rc) (not32 CTRL_CE_STOP_ACTIVE))
                                CTRL_CE_STOP_ACTIVE)
                         (SMC.set_spi
                            (Models.mkSpi
                               ((Models.spi_sent (spi s)
                                ++ [u8 (snd (aspeed_smc_flash_cmd s id))]
                                    ++ (if aspeed_smc_flash_is_4byte s id
                                        then [Z.land (Z.shiftr addr 24) 0xff]
                                        else [])
                                    ++ [Z.land (Z.shiftr addr 16) 0xff;
                                        Z.land (Z.shiftr addr 8) 0xff;
                                        Z.land addr 0xff]
                                    ++ repeat (Z.land (reg s R_DUMMY_DATA) 0xff)
                                         (if aspeed_smc_flash_mode s id
                                             =? CTRL_FREADMODE
                                          then Z.to_nat
                                                 (aspeed_smc_flash_dummies s id)
                                          else 0%nat))
                                ++ repeat 0 size)) s1)), 0)).
  { unfold r, aspeed_smc_flash_read.
    assert (M1 : (aspeed_smc_flash_mode s id =? CTRL_USERMODE) = false)
      by (destruct Hmode as [-> | ->]; reflexivity).
    assert (M2 : (aspeed_smc_flash_mode s id =? CTRL_READMODE)
                 || (aspeed_smc_flash_mode s id =? CTRL_FREADMODE) = true)
      by (destruct Hmode as [-> | ->]; reflexivity).
    rewrite M1, M2. rewrite flash_select_state by exact Hl. fold rc s1.
    change (aspeed_smc_flash_setup s1 id addr)
      with (aspeed_smc_flash_setup (SMC.set_spi (spi s) s1) id addr).
    rewrite flash_setup_on; [|exact Hc|now rewrite V2|now rewrite V6].
    rewrite flash_read_bytes_on. cbn [Models.spi_sent].
    rewrite flash_unselect_state
      by (change (ctrl (SMC.set_spi ?b s1)) with (ctrl s);
          change (regs (SMC.set_spi ?b s1)) with (regs s1);
          unfold s1; cbn [regs set_cs_line SMC.set_cs_lines];
          now rewrite length_set_reg).
    change (ctrl (SMC.set_spi ?b s1)) with (ctrl s). fold rc.
    change (reg (SMC.set_spi ?b s1) rc) with (reg s1 rc).
    replace (reg s1 rc)
      with (Z.land (reg s rc) (not32 CTRL_CE_STOP_ACTIVE))
      by (unfold s1; symmetry; now apply reg_set_reg_eq).
    rewrite V1, V2, V3, V4, V5. reflexivity. }
  rewrite Er. cbn [fst snd].
  split.
  { cbn [spi Models.spi_sent set_cs_line SMC.set_cs_lines set_reg
         SMC.set_regs SMC.set_spi].
    rewrite <- !app_assoc. reflexivity. }
  split; [reflexivity|].
  split.
  { change (reg (set_cs_line id true ?x) rc) with (reg x rc).
    apply reg_set_reg_eq.
    change (regs (SMC.set_spi ?b s1)) with (regs s1). unfold s1.
    cbn [regs set_cs_line SMC.set_cs_lines]. now rewrite length_set_reg. }
  split.
  { intros j Hj. change (reg (set_cs_line id true ?x) j) with (reg x j).
    rewrite reg_set_reg_ne by (intros E; apply Hj; symmetry; exact E).
    change (reg (SMC.set_spi ?b s1) j) with (reg s1 j).
    unfold s1. apply reg_set_reg_ne. intros E; apply Hj; symmetry; exact E. }
  split; reflexivity.
Qed.

(** X12: a write to the flash window in Write mode, on an active
    chip-select (one that has a line: [id < num_cs]) whose write enable
    is set in CONF.  The controller asserts the chip-select,
    sends the command and the address (most significant byte first, 3 or
    4 bytes), then the [size] bytes of the data, least significant first,
    and releases the chip-select; no dummy byte is sent, the other
    registers are unchanged and nothing is logged. *)
Theorem smc_flash_write_protocol (s : TState) (id : nat) (addr data : Z)
    (size : nat) :
  smc_wf s -> (id < num_cs s)%nat ->
  aspeed_smc_is_writable s id = true ->
  aspeed_smc_flash_mode s id = CTRL_WRITEMODE ->
  snd (aspeed_smc_flash_cmd s id) <> 0 ->
  0 <= addr < seg_size (decode (ctrl s) (reg s (R_SEG_ADDR0 + id))) ->
  let rc := (r_ctrl0 (ctrl s) + id)%nat in
  let s' := aspeed_smc_flash_write s id addr data size in
  Models.spi_sent (spi s')
  = Models.spi_sent (spi s)
    ++ [u8 (snd (aspeed_smc_flash_cmd s id))]
    ++ (if aspeed_smc_flash_is_4byte s id
        then [Z.land (Z.shiftr addr 24) 0xff] else [])
    ++ [Z.land (Z.shiftr addr 16) 0xff; Z.land (Z.shiftr addr 8) 0xff;
        Z.land addr 0xff]
    ++ map (fun k => Z.land (Z.shiftr data (8 * Z.of_nat k)) 0xff)
         (seq 0 size)
  /\ reg s' rc
     = Z.lor (Z.land (reg s rc) (not32 CTRL_CE_STOP_ACTIVE))
             CTRL_CE_STOP_ACTIVE
  /\ (forall j, j <> rc -> reg s' j = reg s j)
  /\ cs_lines s' = <[id := true]> (<[id := false]> (cs_lines s))
  /\ log s' = log s.
Proof.
  intros Hwf Hcs Hw Hmode Hcmd Haddr rc s'. pose proof (wf_ctrl _ Hwf) as Hc.
  assert (Hid : (id < max_slaves (ctrl s))%nat)
    by (pose proof (wf_num_cs _ Hwf); lia).
  destruct (ctrl_map _ Hc) as (_ & _ & _ & HC & Hm & _).
  assert (Hl : (rc < length (regs s))%nat).
  { rewrite (wf_regs _ Hwf). unfold rc, ASPEED_SMC_R_MAX. lia. }
  set (s1 := set_cs_line id false
               (set_reg rc (Z.land (reg s rc) (not32 CTRL_CE_STOP_ACTIVE)) s)).
  destruct (access_view_select s s1 id Hc Hid eq_refl) as
    (V1 & V2 & V3 & V4 & V5 & V6).
  { unfold s1. now apply reg_set_reg_eq. }
  { intros j Hj. unfold s1. apply reg_set_reg_ne.
    intros E; apply Hj; symmetry; exact E. }
  assert (Es : s' = set_cs_line id true
                      (set_reg rc
                         (Z.lor (Z.land (reg s rc) (not32 CTRL_CE_STOP_ACTIVE))
                                CTRL_CE_STOP_ACTIVE)
                         (SMC.set_spi
                            (Models.mkSpi
                               ((Models.spi_sent (spi s)
                                 ++ [u8 (snd (aspeed_smc_flash_cmd s id))]
                                    ++ (if aspeed_smc_flash_is_4byte s id
                                        then [Z.land (Z.shiftr addr 24) 0xff]
                                        else [])
                                    ++ [Z.land (Z.shiftr addr 16) 0xff;
                                        Z.land (Z.shiftr addr 8) 0xff;
                                        Z.land addr 0xff]
                                    ++ repeat (Z.land (reg s R_DUMMY_DATA) 0xff)
                                         0)
                                ++ map (fun k =>
                                          Z.land
                                            (Z.shiftr data
                                               (8 * (0 + Z.of_nat k))) 0xff)
                                     (seq 0 size))) s1))).
  { unfold s', aspeed_smc_flash_write. rewrite Hw, Hmode. cbn [negb].
    change (CTRL_WRITEMODE =? CTRL_USERMODE) with false.
    change (CTRL_WRITEMODE =? CTRL_WRITEMODE) with true. cbv iota.
    rewrite flash_select_state by exact Hl. fold rc s1.
    change (aspeed_smc_flash_setup s1 id addr)
      with (aspeed_smc_flash_setup (SMC.set_spi (spi s) s1) id addr).
    rewrite flash_setup_on; [|exact Hc|now rewrite V2|now rewrite V6].
    rewrite flash_write_bytes_on. cbn [Models.spi_sent].
    rewrite flash_unselect_state
      by (change (ctrl (SMC.set_spi ?b s1)) with (ctrl s);
          change (regs (SMC.set_spi ?b s1)) with (regs s1);
          unfold s1; cbn [regs set_cs_line SMC.set_cs_lines];
          now rewrite length_set_reg).
    change (ctrl (SMC.set_spi ?b s1)) with (ctrl s). fold rc.
    change (reg (SMC.set_spi ?b s1) rc) with (reg s1 rc).
    replace (reg s1 rc)
      with (Z.land (reg s rc) (not32 CTRL_CE_STOP_ACTIVE))
      by (unfold s1; symmetry; now apply reg_set_reg_eq).
    rewrite V1, V2, V3, V5, Hmode.
    change (CTRL_WRITEMODE =? CTRL_FREADMODE) with false. reflexivity. }
  rewrite Es.
  split.
  { cbn [spi Models.spi_sent set_cs_line SMC.set_cs_lines set_reg
         SMC.set_regs SMC.set_spi repeat].
    rewrite <- !app_assoc. cbn [app]. reflexivity. }
  split.
  { change (reg (set_cs_line id true ?x) rc) with (reg x rc).
    apply reg_set_reg_eq.
    change (regs (SMC.set_spi ?b s1)) with (regs s1). unfold s1.
    cbn [regs set_cs_line SMC.set_cs_lines]. now rewrite length_set_reg. }
  split.
  { intros j Hj. change (reg (set_cs_line id true ?x) j) with (reg x j).
    rewrite reg_set_reg_ne by (intros E; apply Hj; symmetry; exact E).
    change (reg (SMC.set_spi ?b s1) j) with (reg s1 j).
    unfold s1. apply reg_set_reg_ne. intros E; apply Hj; symmetry; exact E. }
  split; reflexivity.
Qed.

End Trace.

(** *** User Mode reads on a scripted SPI bus *)

Lemma le_value_range bs :
  Forall (fun b => 0 <= b < 256) bs ->
  0 <= Models.le_value bs < 2 ^ (8 * Z.of_nat (length bs)).
Proof.
  induction 1 as [|b bs Hb _ IH]; [cbn; lia|].
  cbn [Models.le_value length].
  replace (8 * Z.of_nat (S (length bs))) with (8 + 8 * Z.of_nat (length bs))
    by lia.
  rewrite Z.pow_add_r by lia. change (2 ^ 8) with 256. nia.
Qed.

Lemma le_value_byte bs k :
  Forall (fun b => 0 <= b < 256) bs ->
  Z.land (Z.shiftr (Models.le_value bs) (8 * Z.of_nat k)) 0xff = nth k bs 0.
Proof.
  intros H. revert k. induction H as [|b bs Hb Hbs IH]; intros k.
  - cbn [Models.le_value]. rewrite Z.shiftr_0_l. now destruct k.
  - change 255 with (Z.ones 8). rewrite Z.land_ones by lia.
    rewrite Z.shiftr_div_pow2 by lia. cbn [Models.le_value].
    destruct k as [|k]; cbn [nth].
    + change (2 ^ (8 * Z.of_nat 0)) with 1. rewrite Z.div_1_r.
      change (2 ^ 8) with 256.
      replace (b + 256 * Models.le_value bs)
        with (b + Models.le_value bs * 256) by lia.
      rewrite Z.mod_add by lia. now apply Z.mod_small.
    + replace (8 * Z.of_nat (S k)) with (8 + 8 * Z.of_nat k) by lia.
      rewrite Z.pow_add_r by lia. change (2 ^ 8) with 256.
      rewrite <- Z.div_div by lia.
      replace ((b + 256 * Models.le_value bs) / 256)
        with (Models.le_value bs).
      * rewrite <- Z.shiftr_div_pow2 by lia.
        rewrite <- (Z.land_ones _ 8) by lia. apply IH.
      * replace (b + 256 * Models.le_value bs)
          with (b + Models.le_value bs * 256) by lia.
        rewrite Z.div_add by lia. rewrite (Z.div_small b) by lia. lia.
Qed.

Section Replay.
Context {AS : Type} `{!AddressSpace AS}.
Local Abbreviation RState := (@AspeedSMCState Models.SpiReplay AS).

(** The read loop on scripted answers: byte [i + k] of the result is the
    [k]-th answer. *)
Lemma flash_read_bytes_replay bs rest sent i ret (s0 : RState) :
  Forall (fun b => 0 <= b < 256) bs ->
  0 <= i -> i + Z.of_nat (length bs) <= 4 -> 0 <= ret < 2 ^ (8 * i) ->
  flash_read_bytes (length bs) i ret
    (SMC.set_spi (Models.mkReplay (bs ++ rest) sent) s0)
  = (SMC.set_spi
       (Models.mkReplay rest (sent ++ repeat 0 (length bs))) s0,
     ret + 2 ^ (8 * i) * Models.le_value bs).
Proof.
  intros H. revert sent i ret.
  induction H as [|b bs Hb Hbs IH]; intros sent i ret Hi Hn Hret.
  - cbn [length flash_read_bytes repeat app Models.le_value].
    rewrite app_nil_r. f_equal. lia.
  - cbn [length flash_read_bytes repeat app Models.le_value].
    change (spi_transfer 0 (SMC.set_spi (Models.mkReplay (b :: bs ++ rest)
                                           sent) s0))
      with (SMC.set_spi (Models.mkReplay (bs ++ rest) (sent ++ [0])) s0, b).
    cbn iota beta. cbn [length] in Hn.
    assert (P : 0 < 2 ^ (8 * i)) by (apply Z.pow_pos_nonneg; lia).
    assert (Q : 2 ^ (8 * i + 8) <= 2 ^ 32)
      by (apply Z.pow_le_mono_r; lia).
    assert (E8 : 2 ^ (8 * i + 8) = 2 ^ (8 * i) * 256)
      by (rewrite Z.pow_add_r by lia; reflexivity).
    assert (Eb : u32 (Z.shiftl (u32 b) (8 * i)) = b * 2 ^ (8 * i)).
    { rewrite (u32_small b) by lia. rewrite Z.shiftl_mul_pow2 by lia.
      apply u32_small. nia. }
    rewrite Eb.
    assert (El : Z.lor ret (b * 2 ^ (8 * i)) = ret + b * 2 ^ (8 * i)).
    { apply lor_disjoint. rewrite <- Z.shiftl_mul_pow2 by lia.
      apply Z.bits_inj'. intros n Hn0.
      rewrite Z.land_spec, Z.bits_0.
      destruct (Z_lt_le_dec n (8 * i)) as [Hlt|Hge].
      - rewrite Z.shiftl_spec_low by lia. apply andb_false_r.
      - destruct (Z.eq_dec ret 0) as [->|Hne]; [now rewrite Z.bits_0|].
        rewrite Z.bits_above_log2; [reflexivity|lia|].
        assert (Z.log2 ret < 8 * i) by (apply Z.log2_lt_pow2; lia). lia. }
    rewrite El.
    rewrite IH by (try lia; replace (8 * (i + 1)) with (8 * i + 8) by lia;
                   nia).
    rewrite <- app_assoc. cbn [app]. f_equal.
    replace (8 * (i + 1)) with (8 * i + 8) by lia. rewrite E8. lia.
Qed.

(** X13: a read of the flash window in User mode assembles the bytes the
    flash answers in little-endian order: for an access of 1 to 4 bytes
    answered by the bytes [bs], byte [k] of the value read is the [k]-th
    answer.  One zero byte is shifted out per byte read; the registers,
    the chip-select lines and the log are untouched, and no command or
    address is sent. *)
Theorem smc_user_read_little_endian (s : RState) (id : nat) (addr : Z)
    (bs rest : list Z) :
  aspeed_smc_flash_mode s id = CTRL_USERMODE ->
  Forall (fun b => 0 <= b < 256) bs -> (length bs <= 4)%nat ->
  Models.replay_answers (spi s) = bs ++ rest ->
  let r := aspeed_smc_flash_read s id addr (length bs) in
  0 <= snd r < 2 ^ (8 * Z.of_nat (length bs))
  /\ (forall k, (k < length bs)%nat ->
        Z.land (Z.shiftr (snd r) (8 * Z.of_nat k)) 0xff = nth k bs 0)
  /\ Models.replay_answers (spi (fst r)) = rest
  /\ Models.replay_sent (spi (fst r))
     = Models.replay_sent (spi s) ++ repeat 0 (length bs)
  /\ regs (fst r) = regs s /\ cs_lines (fst r) = cs_lines s
  /\ log (fst r) = log s.
Proof.
  intros Hmode Hbs Hlen Hans r.
  assert (Er : r = (SMC.set_spi
                      (Models.mkReplay rest
                         (Models.replay_sent (spi s) ++ repeat 0 (length bs)))
                      s, Models.le_value bs)).
  { unfold r, aspeed_smc_flash_read. rewrite Hmode.
    change (CTRL_USERMODE =? CTRL_USERMODE) with true. cbv iota.
    assert (Es : s = SMC.set_spi
                       (Models.mkReplay (bs ++ rest)
                          (Models.replay_sent (spi s))) s).
    { destruct s as [? ? ? ? ? ? ? ? ? ? [a b] ? ? ?]. cbn in *.
      now subst a. }
    rewrite Es at 1.
    rewrite flash_read_bytes_replay by (try assumption; cbn; lia).
    f_equal. change (2 ^ (8 * 0)) with 1. lia. }
  rewrite Er. cbn [fst snd].
  split; [now apply le_value_range|].
  split; [intros k _; now apply le_value_byte|].
  repeat split.
Qed.

End Replay.

(** *** DMA between the flash window and the DRAM, on word memories *)

Section Copy.
Context {SPI : Type} `{!SSIBus SPI}.
Local Abbreviation MState := (@AspeedSMCState SPI Models.WordMem).

Lemma u32_le x : 0 <= x -> u32 x <= x.
Proof. intros Hx. unfold u32. apply Z.mod_le; lia. Qed.

(** The copy loop from the flash window to the DRAM over the words [F]. *)
Lemma dma_rw_copy (F : list Z) :
  forall (fuel : nat) (s : MState),
    (length F <= fuel)%nat ->
    (R_DMA_CHECKSUM < length (regs s))%nat ->
    nonzero (Z.land (reg s R_DMA_CTRL) DMA_CTRL_WRITE) = false ->
    reg s R_DMA_LEN = 4 * Z.of_nat (length F) ->
    0 <= reg s R_DMA_CHECKSUM < 2 ^ 32 ->
    0 <= reg s R_DMA_FLASH_ADDR < 2 ^ 32 ->
    reg s R_DMA_FLASH_ADDR + 4 * Z.of_nat (length F) <= 2 ^ 32 ->
    0 <= reg s R_DMA_DRAM_ADDR < 2 ^ 32 ->
    reg s R_DMA_DRAM_ADDR + 4 * Z.of_nat (length F) <= 2 ^ 32 ->
    (forall k w, F !! k = Some w ->
       Models.mem_word (flash_as s) (reg s R_DMA_FLASH_ADDR + 4 * Z.of_nat k)
       = Some w) ->
    (forall k, (k < length F)%nat ->
       is_Some (Models.mem_word (dram_as s)
                  (reg s R_DMA_DRAM_ADDR + 4 * Z.of_nat k))) ->
    exists s',
      aspeed_smc_dma_rw fuel s = Some s'
      /\ (forall k w, F !! k = Some w ->
            Models.mem_word (dram_as s')
              (reg s R_DMA_DRAM_ADDR + 4 * Z.of_nat k) = Some (u32 w))
      /\ (forall x, (forall k, (k < length F)%nat ->
                       x <> reg s R_DMA_DRAM_ADDR + 4 * Z.of_nat k) ->
            Models.mem_word (dram_as s') x = Models.mem_word (dram_as s) x)
      /\ flash_as s' = flash_as s
      /\ reg s' R_DMA_LEN = 0
      /\ reg s' R_DMA_CHECKSUM = u32 (reg s R_DMA_CHECKSUM + sumZ F)
      /\ (forall j, j <> R_DMA_CHECKSUM -> j <> R_DMA_FLASH_ADDR ->
            j <> R_DMA_DRAM_ADDR -> j <> R_DMA_LEN -> reg s' j = reg s j)
      /\ length (regs s') = length (regs s)
      /\ log s' = log s /\ irq s' = irq s.
Proof.
  induction F as [|w F IH];
    intros fuel s Hfuel Hlen Hwr HL Hck Hfa Hfb Hda Hdb Hfl Hdr.
  - exists s. cbn [length] in HL. change (4 * Z.of_nat 0) with 0 in HL.
    assert (E : aspeed_smc_dma_rw fuel s = Some s).
    { destruct fuel; cbn [aspeed_smc_dma_rw]; now rewrite HL. }
    split; [exact E|]. split; [intros k x Hx; discriminate Hx|].
    split; [reflexivity|]. split; [reflexivity|]. split; [exact HL|].
    split; [cbn [sumZ fold_right]; rewrite Z.add_0_r;
            now rewrite u32_small|].
    repeat split; reflexivity.
  - destruct fuel as [|fuel]; [cbn in Hfuel; lia|].
    cbn [length] in *.
    set (fa := reg s R_DMA_FLASH_ADDR) in *.
    set (da := reg s R_DMA_DRAM_ADDR) in *.
    assert (Hne : (reg s R_DMA_LEN =? 0) = false) by (apply Z.eqb_neq; lia).
    assert (Hld : Models.mem_word (flash_as s) fa = Some w).
    { specialize (Hfl 0%nat w eq_refl). now rewrite Z.add_0_r in Hfl. }
    destruct (Hdr 0%nat ltac:(lia)) as [v0 Hv0]. rewrite Z.add_0_r in Hv0.
    set (d1 := Models.mkMem
                 (fun x => if x =? da then Some (u32 w)
                           else Models.mem_word (dram_as s) x)).
    assert (Ew : dma_rw_word s = (SMC.set_dram_as d1 s, Some w)).
    { unfold dma_rw_word. rewrite Hwr. fold fa da.
      unfold address_space_ldl_le, address_space_stl_le, Models.WordMem_as.
      now rewrite Hld, Hv0. }
    cbn [aspeed_smc_dma_rw]. rewrite Hne, Ew. cbv beta iota zeta.
    set (s0 := SMC.set_dram_as d1 s).
    set (s1 := set_reg R_DMA_FLASH_ADDR (u32 (reg s0 R_DMA_FLASH_ADDR + 4)) s0).
    set (s2 := set_reg R_DMA_DRAM_ADDR (u32 (reg s1 R_DMA_DRAM_ADDR + 4)) s1).
    set (s3 := set_reg R_DMA_LEN (u32 (reg s2 R_DMA_LEN - 4)) s2).
    set (s4 := set_reg R_DMA_CHECKSUM (u32 (reg s3 R_DMA_CHECKSUM + w)) s3).
    assert (L1 : length (regs s1) = length (regs s))
      by (unfold s1; rewrite length_set_reg; reflexivity).
    assert (L2 : length (regs s2) = length (regs s))
      by (unfold s2; now rewrite length_set_reg).
    assert (L3 : length (regs s3) = length (regs s))
      by (unfold s3; now rewrite length_set_reg).
    assert (L4 : length (regs s4) = length (regs s))
      by (unfold s4; now rewrite length_set_reg).
    assert (R0 : forall j, reg s0 j = reg s j) by reflexivity.
    assert (R1 : reg s1 R_DMA_FLASH_ADDR = u32 (fa + 4)).
    { unfold s1. rewrite R0. fold fa. apply reg_set_reg_eq.
      change (length (regs s0)) with (length (regs s)).
      unfold R_DMA_FLASH_ADDR, R_DMA_CHECKSUM in *. lia. }
    assert (N1 : forall j, j <> R_DMA_FLASH_ADDR -> reg s1 j = reg s j).
    { intros j Hj. unfold s1. rewrite reg_set_reg_ne by congruence.
      apply R0. }
    assert (R2 : reg s2 R_DMA_DRAM_ADDR = u32 (da + 4)).
    { unfold s2. rewrite N1 by discriminate. fold da. apply reg_set_reg_eq.
      rewrite L1. unfold R_DMA_DRAM_ADDR, R_DMA_CHECKSUM in *. lia. }
    assert (N2 : forall j, j <> R_DMA_DRAM_ADDR -> reg s2 j = reg s1 j).
    { intros j Hj. unfold s2. now rewrite reg_set_reg_ne by congruence. }
    assert (R3 : reg s3 R_DMA_LEN = 4 * Z.of_nat (length F)).
    { unfold s3. rewrite N2, N1 by discriminate. rewrite HL.
      rewrite reg_set_reg_eq
        by (rewrite L2; unfold R_DMA_LEN, R_DMA_CHECKSUM in *; lia).
      replace (4 * Z.of_nat (S (length F)) - 4) with (4 * Z.of_nat (length F))
        by lia.
      apply u32_small. lia. }
    assert (N3 : forall j, j <> R_DMA_LEN -> reg s3 j = reg s2 j).
    { intros j Hj. unfold s3. now rewrite reg_set_reg_ne by congruence. }
    assert (R4 : reg s4 R_DMA_CHECKSUM = u32 (reg s R_DMA_CHECKSUM + w)).
    { unfold s4. rewrite N3, N2, N1 by discriminate.
      apply reg_set_reg_eq. now rewrite L3. }
    assert (N4 : forall j, j <> R_DMA_CHECKSUM -> reg s4 j = reg s3 j).
    { intros j Hj. unfold s4. now rewrite reg_set_reg_ne by congruence. }
    assert (F4 : reg s4 R_DMA_FLASH_ADDR = u32 (fa + 4))
      by (rewrite N4, N3, N2 by discriminate; exact R1).
    assert (D4 : reg s4 R_DMA_DRAM_ADDR = u32 (da + 4))
      by (rewrite N4, N3 by discriminate; exact R2).
    assert (Ln4 : reg s4 R_DMA_LEN = 4 * Z.of_nat (length F))
      by (rewrite N4 by discriminate; exact R3).
    assert (Tl : forall k, (k < length F)%nat ->
              u32 (fa + 4) = fa + 4 /\ u32 (da + 4) = da + 4).
    { intros k Hk. split; apply u32_small; lia. }
    destruct (IH fuel s4) as (s' & E & Dw & Do & Fl & Ln & Ck & Fr & Le & Lg & Iq).
    + lia.
    + now rewrite L4.
    + rewrite N4, N3, N2, N1 by discriminate. exact Hwr.
    + exact Ln4.
    + rewrite R4. apply u32_range.
    + rewrite F4. apply u32_range.
    + rewrite F4. pose proof (u32_le (fa + 4) ltac:(lia)). lia.
    + rewrite D4. apply u32_range.
    + rewrite D4. pose proof (u32_le (da + 4) ltac:(lia)). lia.
    + intros k x Hx. rewrite F4.
      destruct (Tl k) as [-> _]; [now apply lookup_lt_Some in Hx|].
      change (flash_as s4) with (flash_as s).
      replace (fa + 4 + 4 * Z.of_nat k) with (fa + 4 * Z.of_nat (S k)) by lia.
      now apply Hfl.
    + intros k Hk. rewrite D4. destruct (Tl k Hk) as [_ ->].
      change (dram_as s4) with d1. unfold d1. cbn [Models.mem_word].
      destruct (Z.eqb_spec (da + 4 + 4 * Z.of_nat k) da) as [Eq|_]; [lia|].
      replace (da + 4 + 4 * Z.of_nat k) with (da + 4 * Z.of_nat (S k)) by lia.
      apply Hdr. lia.
    + exists s'. split; [exact E|].
      split.
      { intros [|k] x Hx.
        - cbn in Hx. injection Hx as <-. rewrite Z.add_0_r.
          rewrite Do.
          + change (dram_as s4) with d1. unfold d1. cbn [Models.mem_word].
            now rewrite Z.eqb_refl.
          + intros k Hk. rewrite D4. destruct (Tl k Hk) as [_ ->]. lia.
        - cbn [lookup list_lookup] in Hx.
          specialize (Dw k x Hx). rewrite D4 in Dw.
          destruct (Tl k) as [_ Eq]; [now apply lookup_lt_Some in Hx|].
          rewrite Eq in Dw. rewrite <- Dw. f_equal. lia. }
      split.
      { intros x Hx. rewrite Do.
        - change (dram_as s4) with d1. unfold d1. cbn [Models.mem_word].
          destruct (Z.eqb_spec x da) as [Eq|_]; [|reflexivity].
          exfalso. apply (Hx 0%nat); lia.
        - intros k Hk. rewrite D4. destruct (Tl k Hk) as [_ ->].
          specialize (Hx (S k) ltac:(lia)). lia. }
      split; [now rewrite Fl|]. split; [exact Ln|].
      split.
      { rewrite Ck, R4. cbn [sumZ fold_right]. unfold u32.
        rewrite Zplus_mod_idemp_l. f_equal. fold (sumZ F). lia. }
      split.
      { intros j J1 J2 J3 J4. rewrite Fr by assumption.
        now rewrite N4, N3, N2, N1 by assumption. }
      split; [now rewrite Le, L4|]. split; [now rewrite Lg|now rewrite Iq].
Qed.

Lemma dma_rw_mono (fuel fuel' : nat) (s r : MState) :
  (fuel <= fuel')%nat ->
  aspeed_smc_dma_rw fuel s = Some r -> aspeed_smc_dma_rw fuel' s = Some r.
Proof.
  revert fuel' s. induction fuel as [|fuel IH]; intros fuel' s Hle E.
  - cbn [aspeed_smc_dma_rw] in E.
    destruct (reg s R_DMA_LEN =? 0) eqn:Z0; [|discriminate].
    destruct fuel'; cbn [aspeed_smc_dma_rw]; now rewrite Z0.
  - destruct fuel' as [|fuel']; [lia|]. cbn [aspeed_smc_dma_rw] in *.
    destruct (reg s R_DMA_LEN =? 0); [exact E|].
    destruct (dma_rw_word s) as [s0 [d|]]; [|exact E].
    apply IH; [lia|exact E].
Qed.

Lemma dma_done_spaces (s : MState) :
  flash_as (aspeed_smc_dma_done s) = flash_as s
  /\ dram_as (aspeed_smc_dma_done s) = dram_as s.
Proof.
  unfold aspeed_smc_dma_done. cbv zeta.
  destruct (nonzero _); split; reflexivity.
Qed.

(** X14: a DMA from the flash window to the DRAM.  On a controller with
    DMA whose engine is idle, a write to DMA_CTRL with ENABLE set and
    CKSUM and WRITE clear copies the DMA_LEN / 4 words at DMA_FLASH_ADDR
    to DMA_DRAM_ADDR, in order (neither range wraps around 2^32, and the
    DRAM is mapped there): afterwards the DRAM holds the words of the
    flash, the rest of the DRAM and the flash are unchanged, DMA_LEN is 0,
    the sum of the words has been added to DMA_CHECKSUM and DMA_STATUS is
    set. *)
Theorem smc_dma_copy_to_dram (s : MState) (dma_ctrl : Z) (F : list Z) :
  smc_wf s -> has_dma (ctrl s) = true ->
  nonzero (Z.land (u32 dma_ctrl) DMA_CTRL_ENABLE) = true ->
  nonzero (Z.land (u32 dma_ctrl) DMA_CTRL_CKSUM) = false ->
  nonzero (Z.land (u32 dma_ctrl) DMA_CTRL_WRITE) = false ->
  aspeed_smc_dma_in_progress s = false ->
  reg s R_DMA_LEN = 4 * Z.of_nat (length F) ->
  0 <= reg s R_DMA_CHECKSUM < 2 ^ 32 ->
  0 <= reg s R_DMA_FLASH_ADDR < 2 ^ 32 ->
  reg s R_DMA_FLASH_ADDR + 4 * Z.of_nat (length F) <= 2 ^ 32 ->
  0 <= reg s R_DMA_DRAM_ADDR < 2 ^ 32 ->
  reg s R_DMA_DRAM_ADDR + 4 * Z.of_nat (length F) <= 2 ^ 32 ->
  (forall k w, F !! k = Some w ->
     Models.mem_word (flash_as s) (reg s R_DMA_FLASH_ADDR + 4 * Z.of_nat k)
     = Some w) ->
  (forall k, (k < length F)%nat ->
     is_Some (Models.mem_word (dram_as s)
                (reg s R_DMA_DRAM_ADDR + 4 * Z.of_nat k))) ->
  exists s',
    (forall fuel, (length F <= fuel)%nat ->
       aspeed_smc_write fuel s 0x80 dma_ctrl = Some s')
    /\ (forall k w, F !! k = Some w ->
          Models.mem_word (dram_as s')
            (reg s R_DMA_DRAM_ADDR + 4 * Z.of_nat k) = Some (u32 w))
    /\ (forall x, (forall k, (k < length F)%nat ->
                     x <> reg s R_DMA_DRAM_ADDR + 4 * Z.of_nat k) ->
          Models.mem_word (dram_as s') x = Models.mem_word (dram_as s) x)
    /\ flash_as s' = flash_as s
    /\ reg s' R_DMA_LEN = 0
    /\ reg s' R_DMA_CHECKSUM = u32 (reg s R_DMA_CHECKSUM + sumZ F)
    /\ Z.land (reg s' R_INTR_CTRL) INTR_CTRL_DMA_STATUS = INTR_CTRL_DMA_STATUS.
Proof.
  intros Hwf Hdma Hen Hck Hwr Hidle HL Hc0 Hfa Hfb Hda Hdb Hfl Hdr.
  pose proof (wf_regs s Hwf) as Hregs.
  set (s1 := set_reg R_DMA_CTRL (u32 dma_ctrl) s).
  assert (Hctl : reg s1 R_DMA_CTRL = u32 dma_ctrl).
  { apply reg_set_reg_eq. rewrite Hregs.
    unfold R_DMA_CTRL, ASPEED_SMC_R_MAX. lia. }
  assert (Hother : forall j, j <> R_DMA_CTRL -> reg s1 j = reg s j).
  { intros j Hj. apply reg_set_reg_ne. congruence. }
  assert (O1 : reg s1 R_DMA_LEN = reg s R_DMA_LEN) by now apply Hother.
  assert (O2 : reg s1 R_DMA_CHECKSUM = reg s R_DMA_CHECKSUM)
    by now apply Hother.
  assert (O3 : reg s1 R_DMA_FLASH_ADDR = reg s R_DMA_FLASH_ADDR)
    by now apply Hother.
  assert (O4 : reg s1 R_DMA_DRAM_ADDR = reg s R_DMA_DRAM_ADDR)
    by now apply Hother.
  destruct (dma_rw_copy F (length F) s1)
    as (s2 & E & Dw & Do & Fl & Ln & Ck & Fr & Le & _).
  { lia. }
  { unfold s1. rewrite length_set_reg, Hregs.
    unfold R_DMA_CHECKSUM, ASPEED_SMC_R_MAX. lia. }
  { now rewrite Hctl. }
  { now rewrite O1. }
  { now rewrite O2. }
  { now rewrite O3. }
  { now rewrite O3. }
  { now rewrite O4. }
  { now rewrite O4. }
  { rewrite O3. exact Hfl. }
  { rewrite O4. exact Hdr. }
  rewrite O4 in Dw, Do. rewrite O2 in Ck.
  assert (L2 : length (regs s2) = ASPEED_SMC_R_MAX).
  { rewrite Le. unfold s1. now rewrite length_set_reg. }
  destruct (dma_done_spaces s2) as [G1 G2].
  exists (aspeed_smc_dma_done s2). split.
  { intros fuel Hfuel.
    rewrite aspeed_smc_write_dma_ctrl by (assumption || reflexivity).
    unfold aspeed_smc_dma_ctrl. rewrite Hen, Hidle. cbn [negb].
    rewrite (u32_small (u32 dma_ctrl)) by apply u32_range.
    fold s1. rewrite Hctl, Hck.
    now rewrite (dma_rw_mono _ _ _ _ Hfuel E). }
  split; [intros k w Hk; rewrite G2; now apply Dw|].
  split; [intros x Hx; rewrite G2; now apply Do|].
  split; [now rewrite G1, Fl|].
  split; [now rewrite reg_dma_done_ne by discriminate|].
  split; [now rewrite reg_dma_done_ne by discriminate|].
  rewrite reg_dma_done_intr
    by (rewrite L2; unfold R_INTR_CTRL, ASPEED_SMC_R_MAX; lia).
  apply land_lor_same.
Qed.

End Copy.

(** *** The scenarios *)

Import Models Scenarios MoreScenarios.

Lemma run_Some (o : option SmcState) :
  is_Some_b o = true -> o = Some (run o).
Proof. destruct o; [reflexivity|discriminate]. Qed.

Lemma reachable_wf (s : SmcState) : smc_reachable s -> smc_wf s.
Proof. intros Hs. now destruct (smc_reachable_inv s Hs). Qed.

Lemma spi1_2500_reset_reachable : smc_reachable spi1_2500_reset.
Proof.
  apply reach_run_init; [do 4 right; left; reflexivity|by_eval].
Qed.

Lemma inject_ready_reachable : smc_reachable inject_ready.
Proof.
  repeat (apply reach_run_write; [|by_eval|by_eval]).
  apply reach_run_init; [do 3 right; left; reflexivity|by_eval].
Qed.

Lemma smc_plain_register_readback_witness :
  let a := Z.to_nat (Z.shiftr 0x54 2) in
  exists s',
    aspeed_smc_write 0 fmc2500_reset 0x54 0x1234 = Some s'
    /\ aspeed_smc_read s' 0x54
       = (s', if (a =? R_DUMMY_DATA)%nat
              then Z.land (u32 0x1234) 0xff else u32 0x1234)
    /\ (forall j, j <> a -> reg s' j = reg fmc2500_reset j)
    /\ spi s' = spi fmc2500_reset
    /\ cs_lines s' = cs_lines fmc2500_reset
    /\ log s' = log fmc2500_reset.
Proof.
  apply (smc_plain_register_readback 0 fmc2500_reset 0x54 0x1234).
  - exact (reachable_wf _ fmc2500_reset_reachable).
  - by_eval.
  - do 4 right. reflexivity.
Defined.

Lemma smc_dma_registers_need_dma_witness :
  let a := Z.to_nat (Z.shiftr 0x84 2) in
  aspeed_smc_write 0 spi1_2500_reset 0x84 0x100
  = Some (qemu_log_mask LOG_UNIMP (msg_not_implemented (Z.of_nat a))
            spi1_2500_reset)
  /\ aspeed_smc_read spi1_2500_reset 0x84
     = (qemu_log_mask LOG_UNIMP (msg_not_implemented (Z.of_nat a))
          spi1_2500_reset,
        0xFFFFFFFFFFFFFFFF).
Proof.
  apply (smc_dma_registers_need_dma 0 spi1_2500_reset 0x84 0x100).
  - exact (reachable_wf _ spi1_2500_reset_reachable).
  - by_eval.
  - vm_compute. lia.
Defined.

Lemma smc_ctrl_write_drives_cs_witness :
  let stop := nonzero (Z.land (u32 CTRL_USERMODE) CTRL_CE_STOP_ACTIVE) in
  exists s',
    aspeed_smc_write 0 fmc2500_reset 0x14 CTRL_USERMODE = Some s'
    /\ reg s' (r_ctrl0 (ctrl fmc2500_reset) + 1) = u32 CTRL_USERMODE
    /\ cs_lines s' = <[1%nat := stop]> (cs_lines fmc2500_reset)
    /\ snoop_index s' = (if stop then SNOOP_OFF else SNOOP_START)
    /\ (forall j, j <> (r_ctrl0 (ctrl fmc2500_reset) + 1)%nat ->
          reg s' j = reg fmc2500_reset j)
    /\ spi s' = spi fmc2500_reset.
Proof.
  apply (smc_ctrl_write_drives_cs 0 fmc2500_reset 0x14 CTRL_USERMODE 1).
  - exact (reachable_wf _ fmc2500_reset_reachable).
  - vm_compute. lia.
  - by_eval.
Defined.

Lemma smc_dma_disable_stops_witness :
  exists s',
    aspeed_smc_write 0 c1_busy 0x80 0 = Some s'
    /\ reg s' R_DMA_CTRL = u32 0
    /\ reg s' R_INTR_CTRL
       = Z.land (reg c1_busy R_INTR_CTRL) (not32 INTR_CTRL_DMA_STATUS)
    /\ reg s' R_DMA_CHECKSUM = 0
    /\ irq s' = false :: irq c1_busy
    /\ reg s' R_DMA_LEN = reg c1_busy R_DMA_LEN
    /\ reg s' R_DMA_FLASH_ADDR = reg c1_busy R_DMA_FLASH_ADDR
    /\ reg s' R_DMA_DRAM_ADDR = reg c1_busy R_DMA_DRAM_ADDR
    /\ flash_as s' = flash_as c1_busy /\ dram_as s' = dram_as c1_busy.
Proof.
  apply (smc_dma_disable_stops 0 c1_busy 0x80 0).
  - exact (reachable_wf _ c1_busy_reachable).
  - by_eval.
  - by_eval.
  - by_eval.
Defined.

Lemma smc_dma_flash_addr_in_window_witness :
  exists s',
    aspeed_smc_write 0 fmc2500_reset 0x84 0xFFFFFFFF = Some s'
    /\ reg s' R_DMA_FLASH_ADDR mod 4 = 0
    /\ flash_window_base (ctrl fmc2500_reset) <= reg s' R_DMA_FLASH_ADDR
       < flash_window_base (ctrl fmc2500_reset)
         + flash_window_size (ctrl fmc2500_reset)
    /\ (forall j, j <> R_DMA_FLASH_ADDR -> reg s' j = reg fmc2500_reset j).
Proof.
  apply (smc_dma_flash_addr_in_window 0 fmc2500_reset 0x84 0xFFFFFFFF).
  - exact (reachable_wf _ fmc2500_reset_reachable).
  - by_eval.
  - by_eval.
Defined.

Lemma smc_dma_checksum_failure_injected_witness :
  exists s',
    (forall fuel, (length c1_words <= fuel)%nat ->
       aspeed_smc_write fuel inject_ready 0x80 inject_ctrl = Some s')
    /\ reg s' R_DMA_CHECKSUM = 0xBADC0DE
    /\ reg s' R_DMA_LEN = 0
    /\ Z.land (reg s' R_INTR_CTRL) INTR_CTRL_DMA_STATUS = INTR_CTRL_DMA_STATUS.
Proof.
  apply (smc_dma_checksum_failure_injected inject_ready inject_ctrl c1_words).
  - exact (reachable_wf _ inject_ready_reachable).
  - by_eval.
  - by_eval.
  - by_eval.
  - by_eval.
  - by_eval.
  - by_eval.
  - by_eval.
  - by_eval.
  - by_eval.
  - by_eval.
  - by_eval.
  - intros [|[|[|i]]] w Hw; vm_compute in Hw; inversion Hw; by_eval.
Defined.

Lemma smc_segment_write_commits_witness :
  let seg := decode (ctrl fmc2500_reset) (u32 c3_value) in
  exists s',
    aspeed_smc_write 0 fmc2500_reset 0x34 c3_value = Some s'
    /\ reg s' (R_SEG_ADDR0 + 1) = u32 c3_value
    /\ (forall j, j <> (R_SEG_ADDR0 + 1)%nat -> reg s' j = reg fmc2500_reset j)
    /\ (if u32 c3_value =? reg fmc2500_reset (R_SEG_ADDR0 + 1)
        then s' = fmc2500_reset
        else flashes s'
             = <[1%nat := mkMR (u64 (seg_addr seg
                                     - flash_window_base (ctrl fmc2500_reset)))
                              (seg_size seg) true]> (flashes fmc2500_reset)).
Proof.
  apply (smc_segment_write_commits 0 fmc2500_reset 0x34 c3_value 1).
  - exact (reachable_wf _ fmc2500_reset_reachable).
  - vm_compute. lia.
  - by_eval.
  - by_eval.
Defined.

Lemma smc_write_frame_witness :
  let a := Z.to_nat (Z.shiftr 0x34 2) in
  ctrl c3_state = ctrl fmc2500_reset
  /\ num_cs c3_state = num_cs fmc2500_reset
  /\ inject_failure c3_state = inject_failure fmc2500_reset
  /\ sdram_base c3_state = sdram_base fmc2500_reset
  /\ length (regs c3_state) = length (regs fmc2500_reset)
  /\ forall j, j <> a ->
       ~ (has_dma (ctrl fmc2500_reset) = true /\ a = R_DMA_CTRL
          /\ (dma_regs (ctrl fmc2500_reset) j
              \/ (r_ctrl0 (ctrl fmc2500_reset) <= j
                  < r_ctrl0 (ctrl fmc2500_reset)
                    + max_slaves (ctrl fmc2500_reset))%nat)) ->
       reg c3_state j = reg fmc2500_reset j.
Proof.
  apply (smc_write_frame 0 fmc2500_reset c3_state 0x34 c3_value).
  apply run_Some. by_eval.
Defined.

Lemma smc_flash_read_protocol_witness :
  let s := fmc2500_reset in
  let rc := (r_ctrl0 (ctrl s) + 0)%nat in
  let r := aspeed_smc_flash_read s 0 0x123456 4 in
  Models.spi_sent (spi (fst r))
  = Models.spi_sent (spi s)
    ++ [u8 (snd (aspeed_smc_flash_cmd s 0))]
    ++ (if aspeed_smc_flash_is_4byte s 0
        then [Z.land (Z.shiftr 0x123456 24) 0xff] else [])
    ++ [Z.land (Z.shiftr 0x123456 16) 0xff; Z.land (Z.shiftr 0x123456 8) 0xff;
        Z.land 0x123456 0xff]
    ++ repeat (Z.land (reg s R_DUMMY_DATA) 0xff)
         (if aspeed_smc_flash_mode s 0 =? CTRL_FREADMODE
          then Z.to_nat (aspeed_smc_flash_dummies s 0) else 0%nat)
    ++ repeat 0 4
  /\ snd r = 0
  /\ reg (fst r) rc
     = Z.lor (Z.land (reg s rc) (not32 CTRL_CE_STOP_ACTIVE))
             CTRL_CE_STOP_ACTIVE
  /\ (forall j, j <> rc -> reg (fst r) j = reg s j)
  /\ cs_lines (fst r) = <[0%nat := true]> (<[0%nat := false]> (cs_lines s))
  /\ log (fst r) = log s.
Proof.
  apply (smc_flash_read_protocol fmc2500_reset 0 0x123456 4).
  - exact (reachable_wf _ fmc2500_reset_reachable).
  - vm_compute. lia.
  - left. by_eval.
  - by_eval.
  - vm_compute. split; [discriminate|reflexivity].
Defined.

Lemma c7_enabled_reachable : smc_reachable c7_enabled.
Proof.
  repeat (apply reach_run_write; [|by_eval|by_eval]).
  apply fmc2500_reset_reachable.
Qed.

Lemma smc_flash_write_protocol_witness :
  let s := write_mode_ready in
  let rc := (r_ctrl0 (ctrl s) + 0)%nat in
  let s' := aspeed_smc_flash_write s 0 0x123456 0xDDCCBBAA 4 in
  Models.spi_sent (spi s')
  = Models.spi_sent (spi s)
    ++ [u8 (snd (aspeed_smc_flash_cmd s 0))]
    ++ (if aspeed_smc_flash_is_4byte s 0
        then [Z.land (Z.shiftr 0x123456 24) 0xff] else [])
    ++ [Z.land (Z.shiftr 0x123456 16) 0xff; Z.land (Z.shiftr 0x123456 8) 0xff;
        Z.land 0x123456 0xff]
    ++ map (fun k => Z.land (Z.shiftr 0xDDCCBBAA (8 * Z.of_nat k)) 0xff)
         (seq 0 4)
  /\ reg s' rc
     = Z.lor (Z.land (reg s rc) (not32 CTRL_CE_STOP_ACTIVE))
             CTRL_CE_STOP_ACTIVE
  /\ (forall j, j <> rc -> reg s' j = reg s j)
  /\ cs_lines s' = <[0%nat := true]> (<[0%nat := false]> (cs_lines s))
  /\ log s' = log s.
Proof.
  apply (smc_flash_write_protocol write_mode_ready 0 0x123456 0xDDCCBBAA 4).
  - apply reachable_wf.
    apply reach_run_write; [exact c7_enabled_reachable|by_eval|by_eval].
  - vm_compute. lia.
  - by_eval.
  - by_eval.
  - by_eval.
  - vm_compute. split; [discriminate|reflexivity].
Defined.

Lemma smc_user_read_little_endian_witness :
  let r := aspeed_smc_flash_read replay_user 0 0 (length replay_script) in
  0 <= snd r < 2 ^ (8 * Z.of_nat (length replay_script))
  /\ (forall k, (k < length replay_script)%nat ->
        Z.land (Z.shiftr (snd r) (8 * Z.of_nat k)) 0xff
        = nth k replay_script 0)
  /\ Models.replay_answers (spi (fst r)) = [0xFF]
  /\ Models.replay_sent (spi (fst r))
     = Models.replay_sent (spi replay_user)
       ++ repeat 0 (length replay_script)
  /\ regs (fst r) = regs replay_user
  /\ cs_lines (fst r) = cs_lines replay_user
  /\ log (fst r) = log replay_user.
Proof.
  apply (smc_user_read_little_endian replay_user 0 0 replay_script [0xFF]).
  - by_eval.
  - repeat constructor; discriminate.
  - vm_compute. lia.
  - by_eval.
Defined.

Lemma smc_dma_copy_to_dram_witness :
  exists s',
    (forall fuel, (length c1_words <= fuel)%nat ->
       aspeed_smc_write fuel copy_ready 0x80 copy_ctrl = Some s')
    /\ (forall k w, c1_words !! k = Some w ->
          Models.mem_word (dram_as s')
            (reg copy_ready R_DMA_DRAM_ADDR + 4 * Z.of_nat k) = Some (u32 w))
    /\ (forall x, (forall k, (k < length c1_words)%nat ->
                     x <> reg copy_ready R_DMA_DRAM_ADDR + 4 * Z.of_nat k) ->
          Models.mem_word (dram_as s') x
          = Models.mem_word (dram_as copy_ready) x)
    /\ flash_as s' = flash_as copy_ready
    /\ reg s' R_DMA_LEN = 0
    /\ reg s' R_DMA_CHECKSUM
       = u32 (reg copy_ready R_DMA_CHECKSUM + sumZ c1_words)
    /\ Z.land (reg s' R_INTR_CTRL) INTR_CTRL_DMA_STATUS = INTR_CTRL_DMA_STATUS.
Proof.
  apply (smc_dma_copy_to_dram copy_ready copy_ctrl c1_words).
  - apply reachable_wf.
    repeat (apply reach_run_write; [|by_eval|by_eval]).
    apply fmc2500_reset_reachable.
  - by_eval.
  - by_eval.
  - by_eval.
  - by_eval.
  - by_eval.
  - by_eval.
  - by_eval.
  - by_eval.
  - by_eval.
  - by_eval.
  - by_eval.
  - intros [|[|[|k]]] w Hw; vm_compute in Hw; inversion Hw; by_eval.
  - intros [|[|[|k]]] Hk; [eexists; by_eval..|vm_compute in Hk; lia].
Defined.

Lemma smc_realize_layout_witness :
  let c := fmc_ast2500 in
  exists s : SmcState,
    aspeed_smc_realize c 7 false 0x80000000 (mkSpi []) flash_ramp dram_zero
    = Some s
    /\ ctrl s = c
    /\ num_cs s = Nat.min 7 (max_slaves c)
    /\ log s = (if (max_slaves c <? 7)%nat
                then [(LOG_GUEST_ERROR, msg_num_cs (max_slaves c))] else [])
    /\ regs s = replicate ASPEED_SMC_R_MAX 0
    /\ cs_lines s = replicate (num_cs s) false
    /\ length (flashes s) = max_slaves c
    /\ (forall i, (i < max_slaves c)%nat ->
          flashes s !! i
          = Some (mkMR (sumZ (map seg_size
                                (take i (segments_entries (segments c)))))
                    (seg_size (segments_at c i)) true))
    /\ inject_failure s = false /\ sdram_base s = 0x80000000.
Proof.
  apply (smc_realize_layout fmc_ast2500 7 false 0x80000000 (mkSpi [])
           flash_ramp dram_zero).
  - do 3 right; left; reflexivity.
  - cbn. lia.
Defined.

End SMCMore.

(** ** Further properties of the I2C controller *)

Module I2CMore.
Import I2C I2CProps.

(** *** Masks on the command register *)

Lemma testbit_small m k n : 0 <= m < 2 ^ k -> k <= n -> Z.testbit m n = false.
Proof.
  intros Hm Hn. destruct (Z.eq_dec m 0) as [->|Hne]; [apply Z.bits_0|].
  apply Z.bits_above_log2; [lia|].
  assert (0 <= k) by (destruct (Z_lt_le_dec k 0) as [Hk|Hk]; [|exact Hk];
                      rewrite Z.pow_neg_r in Hm by exact Hk; lia).
  assert (Z.log2 m < k) by (apply Z.log2_lt_pow2; lia). lia.
Qed.

Lemma testbit_land_not32 x m n :
  0 <= m < 2 ^ 32 -> 0 <= n ->
  Z.testbit (Z.land x (not32 m)) n
  = Z.testbit x n && negb (Z.testbit m n) && (n <? 32).
Proof.
  intros Hm Hn. rewrite Z.land_spec.
  destruct (Z.ltb_spec n 32) as [Hlt|Hge].
  - rewrite testbit_not32 by lia. now rewrite andb_true_r.
  - unfold not32. rewrite Z.lxor_spec. change 0xFFFFFFFF with (Z.ones 32).
    rewrite Z.ones_spec_high by lia.
    rewrite (testbit_small m 32 n) by lia. cbn. now rewrite !andb_false_r.
Qed.

(** Clearing the bits of [k] is not seen through a mask disjoint from
    [k]. *)
Lemma land_clear_mask x k m :
  0 <= k < 2 ^ 32 -> 0 <= m < 2 ^ 32 -> Z.land m k = 0 ->
  Z.land (Z.land x (not32 k)) m = Z.land x m.
Proof.
  intros Hk Hm Hd. apply Z.bits_inj'. intros n Hn.
  rewrite !Z.land_spec, <- Z.land_spec, testbit_land_not32 by lia.
  assert (Hb : Z.testbit m n && Z.testbit k n = false).
  { rewrite <- Z.land_spec, Hd. apply Z.bits_0. }
  destruct (Z.ltb_spec n 32) as [Hlt|Hge].
  - destruct (Z.testbit x n), (Z.testbit m n), (Z.testbit k n);
      try reflexivity; discriminate Hb.
  - rewrite (testbit_small m 32 n) by lia. now rewrite !andb_false_r.
Qed.

(** The low 16 bits of the command register after a command was loaded
    are those of the value written; the bits above are kept. *)
Lemma cmd_load_low x value m :
  0 <= m < 2 ^ 16 ->
  Z.land (Z.lor (Z.land x (not32 0xFFFF)) (Z.land value 0xFFFF)) m
  = Z.land value m.
Proof.
  intros Hm. apply Z.bits_inj'. intros n Hn.
  rewrite !Z.land_spec, Z.lor_spec, testbit_land_not32, Z.land_spec by lia.
  change 0xFFFF with (Z.ones 16).
  destruct (Z_lt_le_dec n 16) as [Hlt|Hge].
  - rewrite Z.ones_spec_low by lia. cbn [negb].
    now rewrite andb_false_r, andb_true_r.
  - rewrite (testbit_small m 16 n) by lia. now rewrite !andb_false_r.
Qed.

Lemma cmd_load_high x value m :
  0 <= m < 2 ^ 32 -> Z.land m 0xFFFF = 0 ->
  Z.land (Z.lor (Z.land x (not32 0xFFFF)) (Z.land value 0xFFFF)) m
  = Z.land x m.
Proof.
  intros Hm Hd. rewrite Z.land_lor_distr_l.
  rewrite land_clear_mask by (assumption || lia).
  rewrite <- Z.land_assoc, (Z.land_comm 0xFFFF), Hd, Z.land_0_r.
  apply Z.lor_0_r.
Qed.

Lemma land_swap a b c : Z.land (Z.land a b) c = Z.land (Z.land a c) b.
Proof. now rewrite <- !Z.land_assoc, (Z.land_comm b c). Qed.

Section Device.
Context {B : Type} `{!I2CBusCore B}.
Local Abbreviation Bus := (@AspeedI2CBus B).
Local Abbreviation State := (@AspeedI2CState B).
Local Abbreviation Class_ := (@AspeedI2CClass B).

(** *** The configuration of a bus is out of reach of the commands *)

Local Abbreviation same_config b b1 :=
  (ctrl b1 = ctrl b /\ intr_ctrl b1 = intr_ctrl b /\ timing b1 = timing b).

Lemma send_pool_config (aic : Class_) c n i ret (b : Bus) :
  same_config b (fst (send_pool aic c n i ret b)).
Proof.
  revert i ret b. induction n as [|n IH]; intros i ret b; cbn [send_pool].
  - auto.
  - destruct (i2c_send (bus b) _) as [w r]. destruct (nonzero r); [cbn; auto|].
    destruct (IH (S i) r (set_bus w b)) as (E1 & E2 & E3).
    rewrite E1, E2, E3. auto.
Qed.

Lemma recv_pool_config (aic : Class_) n i c (b : Bus) :
  same_config b (snd (recv_pool aic n i c b)).
Proof.
  revert i c b. induction n as [|n IH]; intros i c b; cbn [recv_pool].
  - auto.
  - destruct (i2c_recv (bus b)) as [w data].
    destruct (IH (S i)
                (set_pool (<[(bus_pool_base aic b + i)%nat := u8 data]> (pool c)) c)
                (set_bus w b)) as (E1 & E2 & E3).
    rewrite E1, E2, E3. auto.
Qed.

Lemma handle_rx_cmd_config (aic : Class_) c (b : Bus) :
  same_config b (snd (aspeed_i2c_handle_rx_cmd aic c b)).
Proof.
  unfold aspeed_i2c_handle_rx_cmd, aspeed_i2c_bus_recv.
  set (b0 := aspeed_i2c_set_state b I2CD_MRXD).
  destruct (nonzero (Z.land (cmd b0) I2CD_RX_BUFF_ENABLE)).
  - pose proof (recv_pool_config aic
                  (Z.to_nat (I2CD_POOL_RX_SIZE (pool_ctrl b0))) 0 c b0) as H.
    destruct (recv_pool _ _ _ _ _) as [c1 b1]. cbn [fst snd] in *.
    destruct (nonzero (Z.land (cmd _) I2CD_M_S_RX_CMD_LAST)); exact H.
  - destruct (i2c_recv (bus b0)) as [w data]. cbn [fst snd].
    destruct (nonzero (Z.land (cmd _) I2CD_M_S_RX_CMD_LAST)); cbn; auto.
Qed.

Lemma handle_cmd_start_config (aic : Class_) c (b : Bus) :
  same_config b (fst (handle_cmd_start aic c b)).
Proof.
  unfold handle_cmd_start. destruct (nonzero _); [|cbn; auto].
  destruct (i2c_start_transfer _ _ _) as [w nak].
  destruct (nonzero nak); destruct (negb _); cbn; auto.
Qed.

Lemma handle_cmd_tx_config (aic : Class_) c (b : Bus) :
  same_config b (handle_cmd_tx aic c b).
Proof.
  unfold handle_cmd_tx. destruct (nonzero _); [|auto].
  unfold aspeed_i2c_bus_send.
  destruct (nonzero (Z.land (cmd _) I2CD_TX_BUFF_ENABLE)).
  - pose proof (send_pool_config aic c
                  (Z.to_nat (I2CD_POOL_TX_COUNT
                     (pool_ctrl (aspeed_i2c_set_state b I2CD_MTXD)))) 0 (-1)
                  (aspeed_i2c_set_state b I2CD_MTXD)) as H.
    destruct (send_pool _ _ _ _ _ _) as [b1 ret]. cbn [fst] in H.
    destruct (nonzero ret); exact H.
  - destruct (i2c_send _ _) as [w ret]. destruct (nonzero ret); cbn; auto.
Qed.

Lemma handle_cmd_stop_config c (b : Bus) :
  same_config b (snd (handle_cmd_stop c b)).
Proof.
  unfold handle_cmd_stop. destruct (nonzero _); [|cbn; auto].
  destruct (negb _); cbn; auto.
Qed.

Lemma handle_cmd_config (aic : Class_) c (b : Bus) value :
  same_config b (snd (aspeed_i2c_bus_handle_cmd aic c b value)).
Proof.
  unfold aspeed_i2c_bus_handle_cmd.
  set (b0 := set_cmd _ (set_cmd _ b)).
  pose proof (handle_cmd_start_config aic c b0) as (A1 & A2 & A3).
  destruct (handle_cmd_start aic c b0) as [b1 go]. cbn [fst] in A1, A2, A3.
  destruct go; cbn [negb snd]; [|auto].
  pose proof (handle_cmd_tx_config aic c b1) as (B1 & B2 & B3).
  set (b2 := handle_cmd_tx aic c b1) in *.
  assert (H3 : same_config b2 (snd (handle_cmd_rx aic c b2))).
  { unfold handle_cmd_rx. destruct (_ && _); [|cbn; auto].
    apply handle_rx_cmd_config. }
  destruct (handle_cmd_rx aic c b2) as [c3 b3]. cbn [fst snd] in H3.
  destruct (handle_cmd_stop_config c3 b3) as (D1 & D2 & D3).
  destruct H3 as (C1 & C2 & C3).
  rewrite D1, D2, D3, C1, C2, C3, B1, B2, B3, A1, A2, A3. auto.
Qed.

Lemma raise_interrupt_config (aic : Class_) c (b : Bus) :
  same_config b (snd (aspeed_i2c_bus_raise_interrupt aic c b)).
Proof.
  unfold aspeed_i2c_bus_raise_interrupt. cbn [intr_status set_intr_status].
  destruct (nonzero _); [|cbn; auto].
  unfold drive_irq. destruct (bus_get_irq aic); cbn; auto.
Qed.

(** A register write leaves [ctrl] alone, except a write to FUN_CTRL
    without SLAVE_EN, which stores its bits under 0x0071C3FF. *)
Lemma bus_write_ctrl (aic : Class_) c (b : Bus) offset value :
  let b' := snd (aspeed_i2c_bus_write aic c b offset value) in
  ctrl b' = ctrl b
  \/ (offset = I2CD_FUN_CTRL_REG
      /\ nonzero (Z.land value I2CD_SLAVE_EN) = false
      /\ ctrl b' = Z.land value 0x0071C3FF).
Proof.
  cbv zeta. unfold aspeed_i2c_bus_write.
  destruct (Z.eqb_spec offset I2CD_FUN_CTRL_REG) as [E|_].
  { destruct (nonzero _) eqn:Es; cbn; auto. }
  destruct (offset =? I2CD_AC_TIMING_REG1); [cbn; auto|].
  destruct (offset =? I2CD_AC_TIMING_REG2); [cbn; auto|].
  destruct (offset =? I2CD_INTR_CTRL_REG); [cbn; auto|].
  destruct (offset =? I2CD_INTR_STS_REG).
  { cbv zeta. set (b1 := set_intr_status _ b).
    assert (H1 : ctrl (snd (if negb (nonzero (intr_status b1))
                            then drive_irq aic false
                                   (set_s_intr_status
                                      (Z.land (s_intr_status c)
                                         (not32 (Z.shiftl 1
                                            (Z.of_nat (id b1))))) c) b1
                            else (c, b1))) = ctrl b).
    { destruct (negb _); [|reflexivity].
      unfold drive_irq. destruct (bus_get_irq aic); reflexivity. }
    destruct (if negb (nonzero (intr_status b1)) then _ else _) as [c2 b2].
    cbn [snd] in H1.
    destruct (_ && _); [|cbn [snd]; auto].
    destruct (handle_rx_cmd_config aic c2 b2) as (E3 & _).
    destruct (aspeed_i2c_handle_rx_cmd aic c2 b2) as [c3 b3].
    destruct (raise_interrupt_config aic c3 b3) as (E4 & _).
    cbn [snd] in *. left. now rewrite E4, E3. }
  destruct (offset =? I2CD_DEV_ADDR_REG); [cbn; auto|].
  destruct (offset =? I2CD_POOL_CTRL_REG); [cbn; auto|].
  destruct (offset =? I2CD_BYTE_BUF_REG); [cbn; auto|].
  destruct (offset =? I2CD_CMD_REG); [|cbn; auto].
  destruct (negb (aspeed_i2c_bus_is_enabled b)); [cbn; auto|].
  destruct (negb (aspeed_i2c_bus_is_master b)); [cbn; auto|].
  destruct (handle_cmd_config aic c b value) as (E3 & _).
  destruct (aspeed_i2c_bus_handle_cmd aic c b value) as [c3 b3].
  destruct (raise_interrupt_config aic c3 b3) as (E4 & _).
  cbn [snd] in *. left. now rewrite E4, E3.
Qed.

(** The values [ctrl] takes: no SLAVE_EN, nothing outside 0x0071C3FF. *)
Local Abbreviation ctrl_ok v :=
  (Z.land v I2CD_SLAVE_EN = 0 /\ Z.land v 0x0071C3FF = v)%Z.

Lemma ctrl_ok_masked value :
  nonzero (Z.land value I2CD_SLAVE_EN) = false ->
  ctrl_ok (Z.land value 0x0071C3FF).
Proof.
  intros H. apply negb_false_iff, Z.eqb_eq in H. split.
  - rewrite <- Z.land_assoc, (Z.land_comm 0x0071C3FF), Z.land_assoc, H.
    apply Z.land_0_l.
  - rewrite <- Z.land_assoc. reflexivity.
Qed.

Lemma i2c_ctrl_inv (aic : Class_) (s : State) :
  i2c_reachable aic s ->
  forall i b, busses s !! i = Some b -> ctrl_ok (ctrl b).
Proof.
  induction 1 as [cores Hl | s s' Hs IH Hstep].
  - unfold aspeed_i2c_reset, aspeed_i2c_realize. cbn [busses controller].
    intros i b. rewrite reset_busses_lookup, list_lookup_imap.
    destruct (take (num_busses aic) cores !! i) as [w|]; [|discriminate].
    destruct (i <? num_busses aic)%nat; cbn; intros [= <-]; cbn; auto.
  - destruct Hstep as [i offset value Hi Ho | i offset Hi Ho | offset
                      | offset value | offset value size Hsz Hp | ].
    + unfold bus_write_at. destruct (busses s !! i) as [b|] eqn:Eb;
        [|exact IH].
      pose proof (bus_write_ctrl aic (controller s) b offset value) as Hw.
      destruct (aspeed_i2c_bus_write aic (controller s) b offset value)
        as [c' b'].
      cbn [snd] in Hw. cbn [busses].
      intros k bk. destruct (Nat.eq_dec i k) as [<-|Hne].
      * rewrite list_lookup_insert_eq by (now apply lookup_lt_Some in Eb).
        intros [= <-]. destruct Hw as [-> | (_ & Hs' & ->)].
        -- now apply (IH i b).
        -- now apply ctrl_ok_masked.
      * rewrite list_lookup_insert_ne by exact Hne. apply IH.
    + unfold bus_read_at. destruct (busses s !! i) as [b|]; [|exact IH].
      destruct (aspeed_i2c_bus_read (controller s) b offset) as [c' v].
      exact IH.
    + exact IH.
    + exact IH.
    + exact IH.
    + unfold aspeed_i2c_reset. cbn [busses]. intros i b.
      rewrite reset_busses_lookup.
      destruct (busses s !! i) as [b0|] eqn:E; [|discriminate].
      destruct (i <? num_busses aic)%nat; cbn; intros [= <-];
        now apply (IH i b0).
Qed.

(** X15: slave mode is never enabled.  In every state reachable from
    realize and reset, no bus has SLAVE_EN or a bit outside 0x0071C3FF in
    its function control register, so a bus is enabled exactly when it is
    a master, and a command written to a bus whose MASTER_EN is clear is
    ignored: the device does not change at all. *)
Theorem i2c_slave_mode_never_enabled (aic : Class_) (s : State) (i : nat)
    (b : Bus) :
  i2c_reachable aic s -> busses s !! i = Some b ->
  Z.land (ctrl b) I2CD_SLAVE_EN = 0
  /\ Z.land (ctrl b) 0x0071C3FF = ctrl b
  /\ aspeed_i2c_bus_is_enabled b = aspeed_i2c_bus_is_master b
  /\ (aspeed_i2c_bus_is_master b = false ->
      forall value, bus_write_at aic s i I2CD_CMD_REG value = s).
Proof.
  intros Hs Eb. destruct (i2c_ctrl_inv aic s Hs i b Eb) as [H1 H2].
  assert (He : aspeed_i2c_bus_is_enabled b = aspeed_i2c_bus_is_master b).
  { unfold aspeed_i2c_bus_is_enabled, aspeed_i2c_bus_is_master.
    now rewrite Z.land_lor_distr_r, H1, Z.lor_0_r. }
  repeat split; try assumption.
  intros Hm value. unfold bus_write_at. rewrite Eb.
  unfold aspeed_i2c_bus_write.
  change (I2CD_CMD_REG =? I2CD_FUN_CTRL_REG) with false.
  change (I2CD_CMD_REG =? I2CD_AC_TIMING_REG1) with false.
  change (I2CD_CMD_REG =? I2CD_AC_TIMING_REG2) with false.
  change (I2CD_CMD_REG =? I2CD_INTR_CTRL_REG) with false.
  change (I2CD_CMD_REG =? I2CD_INTR_STS_REG) with false.
  change (I2CD_CMD_REG =? I2CD_DEV_ADDR_REG) with false.
  change (I2CD_CMD_REG =? I2CD_POOL_CTRL_REG) with false.
  change (I2CD_CMD_REG =? I2CD_BYTE_BUF_REG) with false.
  change (I2CD_CMD_REG =? I2CD_CMD_REG) with true. cbv iota.
  rewrite He, Hm. cbn [negb]. cbv beta iota.
  rewrite list_insert_id by exact Eb.
  now destruct s.
Qed.

(** X16: the plain registers of a bus read back what was stored: FUN_CTRL
    keeps the bits under 0x0071C3FF (a value with SLAVE_EN is refused:
    logged as not implemented, nothing stored), the timing registers the
    bits under 0xFFFFF0F and 0x7, INTR_CTRL the low 15 bits, BYTE_BUF the
    low byte, and POOL_CTRL takes its low 24 bits from the value and keeps
    its high byte. *)
Theorem i2c_register_readback (aic : Class_) (c : Controller) (b : Bus)
    (value : Z) :
  let wr offset := aspeed_i2c_bus_write aic c b offset value in
  let rd offset :=
    snd (aspeed_i2c_bus_read (fst (wr offset)) (snd (wr offset)) offset) in
  (if nonzero (Z.land value I2CD_SLAVE_EN)
   then wr I2CD_FUN_CTRL_REG = (qemu_log_mask LOG_UNIMP msg_slave_mode c, b)
   else rd I2CD_FUN_CTRL_REG = Z.land value 0x0071C3FF)
  /\ rd I2CD_AC_TIMING_REG1 = Z.land value 0xFFFFF0F
  /\ rd I2CD_AC_TIMING_REG2 = Z.land value 0x7
  /\ rd I2CD_INTR_CTRL_REG = Z.land value 0x7FFF
  /\ rd I2CD_BYTE_BUF_REG = Z.land value 0xff
  /\ rd I2CD_POOL_CTRL_REG
     = Z.lor (Z.land (pool_ctrl b) (not32 0xffffff)) (Z.land value 0xffffff).
Proof.
  cbv zeta. split.
  { unfold aspeed_i2c_bus_write.
    change (I2CD_FUN_CTRL_REG =? I2CD_FUN_CTRL_REG) with true. cbv iota.
    destruct (nonzero (Z.land value I2CD_SLAVE_EN)); reflexivity. }
  split; [reflexivity|]. split; [reflexivity|]. split; [reflexivity|].
  split; [|reflexivity].
  unfold aspeed_i2c_bus_write, aspeed_i2c_bus_read.
  cbn [Z.eqb I2CD_BYTE_BUF_REG I2CD_FUN_CTRL_REG I2CD_AC_TIMING_REG1
       I2CD_AC_TIMING_REG2 I2CD_INTR_CTRL_REG I2CD_INTR_STS_REG
       I2CD_DEV_ADDR_REG I2CD_POOL_CTRL_REG Pos.eqb fst snd buf set_buf].
  unfold I2CD_BYTE_BUF_TX_SHIFT, I2CD_BYTE_BUF_TX_MASK.
  apply Z.shiftl_0_r.
Qed.

(** X17: events whose interrupt is not enabled are dropped.  After a
    command written to a master-enabled bus, the interrupt status of the
    bus has no bit outside INTR_CTRL, whatever the command did; INTR_CTRL
    and the other configuration registers are unchanged. *)
Theorem i2c_status_within_enables (aic : Class_) (c : Controller) (b : Bus)
    (value : Z) :
  aspeed_i2c_bus_is_master b = true ->
  let b' := snd (aspeed_i2c_bus_write aic c b I2CD_CMD_REG value) in
  Z.land (intr_status b') (intr_ctrl b') = intr_status b'
  /\ intr_ctrl b' = intr_ctrl b /\ ctrl b' = ctrl b /\ timing b' = timing b.
Proof.
  intros Hm. cbv zeta.
  assert (He : aspeed_i2c_bus_is_enabled b = true).
  { unfold aspeed_i2c_bus_is_enabled. rewrite nonzero_land_lor.
    unfold aspeed_i2c_bus_is_master in Hm. now rewrite Hm. }
  unfold aspeed_i2c_bus_write.
  change (I2CD_CMD_REG =? I2CD_FUN_CTRL_REG) with false.
  change (I2CD_CMD_REG =? I2CD_AC_TIMING_REG1) with false.
  change (I2CD_CMD_REG =? I2CD_AC_TIMING_REG2) with false.
  change (I2CD_CMD_REG =? I2CD_INTR_CTRL_REG) with false.
  change (I2CD_CMD_REG =? I2CD_INTR_STS_REG) with false.
  change (I2CD_CMD_REG =? I2CD_DEV_ADDR_REG) with false.
  change (I2CD_CMD_REG =? I2CD_POOL_CTRL_REG) with false.
  change (I2CD_CMD_REG =? I2CD_BYTE_BUF_REG) with false.
  change (I2CD_CMD_REG =? I2CD_CMD_REG) with true. cbv iota.
  rewrite He, Hm. cbn [negb].
  destruct (handle_cmd_config aic c b value) as (E1 & E2 & E3).
  destruct (aspeed_i2c_bus_handle_cmd aic c b value) as [c3 b3].
  cbn [snd] in E1, E2, E3.
  destruct (raise_interrupt_spec aic c3 b3) as (_ & R2 & R3 & _).
  destruct (raise_interrupt_config aic c3 b3) as (R1 & _ & R4).
  rewrite R3, R2, R1, R4, E1, E2, E3.
  split; [|auto]. rewrite <- Z.land_assoc. now rewrite Z.land_diag.
Qed.

(** *** The state field of the command register *)

Lemma get_state_mask (b : Bus) :
  aspeed_i2c_get_state b
  = Z.shiftr (Z.land (cmd b)
                (Z.shiftl I2CD_TX_STATE_MASK I2CD_TX_STATE_SHIFT))
      I2CD_TX_STATE_SHIFT.
Proof.
  unfold aspeed_i2c_get_state. apply SMCMore.shiftr_land_mask.
  unfold I2CD_TX_STATE_SHIFT. lia.
Qed.

Lemma get_state_same (b b1 : Bus) :
  Z.land (cmd b1) 0x780000 = Z.land (cmd b) 0x780000 ->
  aspeed_i2c_get_state b1 = aspeed_i2c_get_state b.
Proof.
  intros H. rewrite !get_state_mask.
  change (Z.shiftl I2CD_TX_STATE_MASK I2CD_TX_STATE_SHIFT) with 0x780000.
  now rewrite H.
Qed.

Lemma get_set_state (b : Bus) st :
  aspeed_i2c_get_state (aspeed_i2c_set_state b st)
  = Z.land st I2CD_TX_STATE_MASK.
Proof.
  unfold aspeed_i2c_get_state, aspeed_i2c_set_state. cbn [cmd set_cmd].
  unfold I2CD_TX_STATE_SHIFT, I2CD_TX_STATE_MASK.
  apply Z.bits_inj'. intros n Hn.
  rewrite !Z.land_spec, Z.shiftr_spec, Z.lor_spec by lia.
  rewrite testbit_land_not32
    by first [lia | vm_compute; split; [discriminate|reflexivity]].
  rewrite !Z.shiftl_spec by lia.
  replace (n + 19 - 19) with n by lia. rewrite Z.land_spec.
  destruct (Z.testbit 15 n); [|now rewrite !andb_false_r].
  cbn [negb]. now rewrite andb_false_r, andb_true_r.
Qed.

Lemma set_state_mask (b : Bus) st m :
  0 <= m < 2 ^ 19 ->
  Z.land (cmd (aspeed_i2c_set_state b st)) m = Z.land (cmd b) m.
Proof.
  intros Hm. apply Z.bits_inj'. intros n Hn. rewrite !Z.land_spec.
  destruct (Z_lt_le_dec n 19) as [Hlt|Hge].
  - now rewrite set_state_cmd_bit by lia.
  - rewrite (testbit_small m 19 n) by lia. now rewrite !andb_false_r.
Qed.

(** X18: the state field of the command register.  [aspeed_i2c_set_state]
    followed by [aspeed_i2c_get_state] gives the low four bits of the
    state, and setting the state changes none of the command bits below
    the field. *)
Theorem i2c_state_roundtrip (b : Bus) (st : Z) :
  let b' := aspeed_i2c_set_state b st in
  aspeed_i2c_get_state b' = Z.land st 0xf
  /\ Z.land (cmd b') 0x7FFFF = Z.land (cmd b) 0x7FFFF
  /\ ctrl b' = ctrl b /\ intr_status b' = intr_status b /\ bus b' = bus b
  /\ buf b' = buf b.
Proof.
  cbv zeta. split; [apply get_set_state|].
  split; [apply set_state_mask; lia|]. now repeat split.
Qed.

(** The command register after [value] was loaded into its low half. *)
Local Abbreviation load_cmd b value :=
  (set_cmd (Z.lor (cmd (set_cmd (Z.land (cmd b) (not32 0xFFFF)) b))
                  (Z.land value 0xFFFF))
     (set_cmd (Z.land (cmd b) (not32 0xFFFF)) b)).

Lemma load_cmd_low (b : Bus) value m :
  0 <= m < 2 ^ 16 -> Z.land (cmd (load_cmd b value)) m = Z.land value m.
Proof. intros Hm. cbn [cmd set_cmd]. now apply cmd_load_low. Qed.

Lemma load_cmd_state (b : Bus) value :
  aspeed_i2c_get_state (load_cmd b value) = aspeed_i2c_get_state b.
Proof.
  apply get_state_same. cbn [cmd set_cmd].
  apply cmd_load_high; [lia|reflexivity].
Qed.

Lemma land_low16 m : 0 <= m < 2 ^ 16 -> Z.land 0xFFFF m = m.
Proof.
  intros Hm. rewrite Z.land_comm. change 0xFFFF with (Z.ones 16).
  rewrite Z.land_ones by lia. apply Z.mod_small. lia.
Qed.

(** X19: a STOP command on its own.  If the bus is in an active master
    state the transfer is ended on the bus and NORMAL_STOP is raised;
    otherwise nothing is done on the bus, a guest error is logged and
    ABNORMAL is raised.  In both cases the state goes back to IDLE and
    the command bits are consumed. *)
Theorem i2c_stop_command (aic : Class_) (c : Controller) (b : Bus)
    (value : Z) :
  Z.land value 0xFFFF = I2CD_M_STOP_CMD ->
  let r := aspeed_i2c_bus_handle_cmd aic c b value in
  let active := nonzero (Z.land (aspeed_i2c_get_state b) I2CD_MACTIVE) in
  aspeed_i2c_get_state (snd r) = I2CD_IDLE
  /\ Z.land (cmd (snd r)) 0xFFFF = 0
  /\ bus (snd r) = (if active then i2c_end_transfer (bus b) else bus b)
  /\ intr_status (snd r)
     = Z.lor (intr_status b)
         (if active then I2CD_INTR_NORMAL_STOP else I2CD_INTR_ABNORMAL)
  /\ log (fst r)
     = (if active then log c
        else (LOG_GUEST_ERROR, msg_abnormal_stop) :: log c)
  /\ pool (fst r) = pool c /\ buf (snd r) = buf b.
Proof.
  intros Hv. cbv zeta. unfold aspeed_i2c_bus_handle_cmd.
  set (b0 := load_cmd b value).
  assert (Hlow : forall m, 0 <= m < 2 ^ 16 ->
            Z.land (cmd b0) m = Z.land I2CD_M_STOP_CMD m).
  { intros m Hm. unfold b0. rewrite load_cmd_low by exact Hm.
    rewrite <- Hv, <- Z.land_assoc. now rewrite land_low16. }
  assert (S1 : nonzero (Z.land (cmd b0) I2CD_M_START_CMD) = false)
    by (rewrite Hlow by (vm_compute; split; [discriminate|reflexivity]);
        reflexivity).
  assert (S2 : nonzero (Z.land (cmd b0) I2CD_M_TX_CMD) = false)
    by (rewrite Hlow by (vm_compute; split; [discriminate|reflexivity]);
        reflexivity).
  assert (S3 : nonzero (Z.land (cmd b0)
                          (Z.lor I2CD_M_RX_CMD I2CD_M_S_RX_CMD_LAST)) = false)
    by (rewrite Hlow by (vm_compute; split; [discriminate|reflexivity]);
        reflexivity).
  assert (S4 : nonzero (Z.land (cmd b0) I2CD_M_STOP_CMD) = true)
    by (rewrite Hlow by (vm_compute; split; [discriminate|reflexivity]);
        reflexivity).
  assert (S5 : aspeed_i2c_get_state b0 = aspeed_i2c_get_state b)
    by apply load_cmd_state.
  unfold handle_cmd_start. rewrite S1. cbv iota beta. cbn [negb].
  unfold handle_cmd_tx. rewrite S2.
  unfold handle_cmd_rx. rewrite S3. cbn [andb]. cbv iota beta.
  unfold handle_cmd_stop. rewrite S4, S5.
  destruct (nonzero (Z.land (aspeed_i2c_get_state b) I2CD_MACTIVE));
    cbn [negb]; cbv iota beta zeta; cbn [fst snd].
  - split; [rewrite get_set_state; reflexivity|].
    split; [|repeat split; reflexivity].
    rewrite set_state_mask by lia.
    cbn [cmd set_cmd set_intr_status set_bus]. rewrite land_swap.
    rewrite set_state_mask by lia. rewrite Hlow by lia. reflexivity.
  - split; [rewrite get_set_state; reflexivity|].
    split; [|repeat split; reflexivity].
    rewrite set_state_mask by lia.
    cbn [cmd set_cmd set_intr_status set_bus]. rewrite land_swap.
    rewrite Hlow by lia. reflexivity.
Qed.

(** X20: a START that nobody answers.  When the address byte of BYTE_BUF
    opens no transfer (the bus is not busy after [i2c_start_transfer]),
    the command stops there: TX_NAK or TX_ACK is recorded as the bus
    answered, START and TX are consumed, the state stays at MSTART (or
    MSTARTR), and the RX and STOP bits of the same command are not
    executed; they stay in the command register. *)
Theorem i2c_start_without_slave (aic : Class_) (c : Controller) (b : Bus)
    (value : Z) (w : B) (nak : Z) :
  nonzero (Z.land value I2CD_M_START_CMD) = true ->
  nonzero (Z.land value I2CD_TX_BUFF_ENABLE) = false ->
  i2c_start_transfer (bus b) (extract32 (u8 (buf b)) 1 7)
    (extract32 (u8 (buf b)) 0 1) = (w, nak) ->
  i2c_bus_busy w = false ->
  let r := aspeed_i2c_bus_handle_cmd aic c b value in
  fst r = c /\ bus (snd r) = w
  /\ intr_status (snd r)
     = Z.lor (intr_status b)
         (if nonzero nak then I2CD_INTR_TX_NAK else I2CD_INTR_TX_ACK)
  /\ Z.land (cmd (snd r)) 0xFFFF
     = Z.land (Z.land value 0xFFFF)
         (not32 (Z.lor I2CD_M_START_CMD I2CD_M_TX_CMD))
  /\ aspeed_i2c_get_state (snd r)
     = (if nonzero (Z.land (aspeed_i2c_get_state b) I2CD_MACTIVE)
        then I2CD_MSTARTR else I2CD_MSTART)
  /\ buf (snd r) = buf b.
Proof.
  intros Hst Hbuf Htr Hbusy. cbv zeta. unfold aspeed_i2c_bus_handle_cmd.
  set (b0 := load_cmd b value).
  assert (Hlow : forall m, 0 <= m < 2 ^ 16 ->
            Z.land (cmd b0) m = Z.land value m)
    by (intros m Hm; now apply load_cmd_low).
  assert (S5 : aspeed_i2c_get_state b0 = aspeed_i2c_get_state b)
    by apply load_cmd_state.
  unfold handle_cmd_start.
  rewrite Hlow by (vm_compute; split; [discriminate|reflexivity]).
  rewrite Hst, S5. cbv zeta.
  set (state := if nonzero (Z.land (aspeed_i2c_get_state b) I2CD_MACTIVE)
                then I2CD_MSTARTR else I2CD_MSTART).
  set (b1 := aspeed_i2c_set_state b0 state).
  assert (T1 : nonzero (Z.land (cmd b1) I2CD_TX_BUFF_ENABLE) = false).
  { unfold b1.
    rewrite set_state_mask by (vm_compute; split; [discriminate|reflexivity]).
    rewrite Hlow by (vm_compute; split; [discriminate|reflexivity]).
    exact Hbuf. }
  rewrite T1.
  change (buf b1) with (buf b). change (bus b1) with (bus b).
  rewrite Htr. cbv iota beta.
  assert (G : aspeed_i2c_get_state b1 = state).
  { unfold b1. rewrite get_set_state. unfold state.
    destruct (nonzero (Z.land (aspeed_i2c_get_state b) I2CD_MACTIVE));
      reflexivity. }
  assert (K : forall x : Bus,
            cmd x = Z.land (cmd b1)
                      (not32 (Z.lor I2CD_M_START_CMD I2CD_M_TX_CMD)) ->
            Z.land (cmd x) 0xFFFF
            = Z.land (Z.land value 0xFFFF)
                (not32 (Z.lor I2CD_M_START_CMD I2CD_M_TX_CMD))
            /\ aspeed_i2c_get_state x = state).
  { intros x Hx. split.
    - rewrite Hx, land_swap. unfold b1. rewrite set_state_mask by lia.
      now rewrite Hlow by lia.
    - rewrite <- G. apply get_state_same. rewrite Hx.
      apply land_clear_mask; [vm_compute; split; [discriminate|reflexivity]
                             |lia|reflexivity]. }
  destruct (nonzero nak); cbn [bus set_cmd set_intr_status set_bus];
    rewrite Hbusy; cbn [negb fst snd].
  - destruct (K (set_cmd
                   (Z.land (cmd b1)
                      (not32 (Z.lor I2CD_M_START_CMD I2CD_M_TX_CMD)))
                   (set_intr_status
                      (Z.lor (intr_status b) I2CD_INTR_TX_NAK)
                      (set_bus w b1))) eq_refl) as [K1 K2].
    repeat split; assumption || reflexivity.
  - destruct (K (set_cmd
                   (Z.land (cmd b1)
                      (not32 (Z.lor I2CD_M_START_CMD I2CD_M_TX_CMD)))
                   (set_intr_status
                      (Z.lor (intr_status b) I2CD_INTR_TX_ACK)
                      (set_bus w b1))) eq_refl) as [K1 K2].
    repeat split; assumption || reflexivity.
Qed.

(** X21: a TX command on its own, in byte mode.  The low byte of BYTE_BUF
    is sent on the bus.  If it is acknowledged TX_ACK is raised; if not,
    TX_NAK is raised and the transfer is ended.  The state ends at
    MACTIVE and the command bits are consumed. *)
Theorem i2c_tx_byte (aic : Class_) (c : Controller) (b : Bus) (value : Z)
    (w : B) (ret : Z) :
  Z.land value 0xFFFF = I2CD_M_TX_CMD ->
  i2c_send (bus b) (u8 (buf b)) = (w, ret) ->
  let r := aspeed_i2c_bus_handle_cmd aic c b value in
  fst r = c
  /\ bus (snd r) = (if nonzero ret then i2c_end_transfer w else w)
  /\ intr_status (snd r)
     = Z.lor (intr_status b)
         (if nonzero ret then I2CD_INTR_TX_NAK else I2CD_INTR_TX_ACK)
  /\ aspeed_i2c_get_state (snd r) = I2CD_MACTIVE
  /\ Z.land (cmd (snd r)) 0xFFFF = 0
  /\ buf (snd r) = buf b.
Proof.
  intros Hv Hsend. cbv zeta. unfold aspeed_i2c_bus_handle_cmd.
  set (b0 := load_cmd b value).
  assert (Hlow : forall m, 0 <= m < 2 ^ 16 ->
            Z.land (cmd b0) m = Z.land I2CD_M_TX_CMD m).
  { intros m Hm. unfold b0. rewrite load_cmd_low by exact Hm.
    rewrite <- Hv, <- Z.land_assoc. now rewrite land_low16. }
  assert (S1 : nonzero (Z.land (cmd b0) I2CD_M_START_CMD) = false)
    by (rewrite Hlow by (vm_compute; split; [discriminate|reflexivity]);
        reflexivity).
  assert (S2 : nonzero (Z.land (cmd b0) I2CD_M_TX_CMD) = true)
    by (rewrite Hlow by (vm_compute; split; [discriminate|reflexivity]);
        reflexivity).
  set (b1 := aspeed_i2c_set_state b0 I2CD_MTXD).
  assert (E : aspeed_i2c_bus_send aic c b1 = (set_bus w b1, ret)).
  { unfold aspeed_i2c_bus_send.
    assert (T : nonzero (Z.land (cmd b1) I2CD_TX_BUFF_ENABLE) = false).
    { unfold b1.
      rewrite set_state_mask by (vm_compute; split; [discriminate|reflexivity]).
      rewrite Hlow by (vm_compute; split; [discriminate|reflexivity]).
      reflexivity. }
    rewrite T. change (bus b1) with (bus b). change (buf b1) with (buf b).
    now rewrite Hsend. }
  assert (K : forall (b2 : Bus) m, cmd b2 = cmd b1 -> 0 <= m < 2 ^ 16 ->
            Z.land (cmd (aspeed_i2c_set_state
                           (set_cmd (Z.land (cmd b2) (not32 I2CD_M_TX_CMD)) b2)
                           I2CD_MACTIVE)) m = 0).
  { intros b2 m H2 Hm. rewrite set_state_mask by lia. cbn [cmd set_cmd].
    rewrite H2, land_swap. unfold b1. rewrite set_state_mask by lia.
    rewrite Hlow by lia. rewrite land_swap.
    change (Z.land I2CD_M_TX_CMD (not32 I2CD_M_TX_CMD)) with 0.
    apply Z.land_0_l. }
  unfold handle_cmd_start. rewrite S1. cbv iota beta. cbn [negb].
  unfold handle_cmd_tx. rewrite S2. fold b1. rewrite E. cbv iota beta zeta.
  unfold handle_cmd_rx, handle_cmd_stop.
  destruct (nonzero ret);
    do 2 (rewrite !K by first [reflexivity
                              | vm_compute; split; [discriminate|reflexivity]];
          cbn [nonzero Z.eqb negb andb fst snd]);
    (split; [reflexivity|]); (split; [reflexivity|]);
    (split; [reflexivity|]);
    (split; [rewrite get_set_state; reflexivity|]);
    (split; [apply K; [reflexivity|lia]|reflexivity]).
Qed.

(** X22: write-1-to-clear of the interrupt status, when no receive is
    re-triggered.  The 15 status bits set in the value are cleared.  If
    no status bit is left, the bit of the bus is cleared in the aggregate
    status of the controller and the interrupt line is lowered; if some
    bit is left, the aggregate status and the line are not touched.  The
    command register and the bus are unchanged. *)
Theorem i2c_status_w1c (aic : Class_) (c : Controller) (b : Bus)
    (value : Z) :
  nonzero (Z.land (intr_status b) I2CD_INTR_RX_DONE)
  && nonzero (Z.land value I2CD_INTR_RX_DONE)
  && nonzero (Z.land (cmd b) (Z.lor I2CD_M_RX_CMD I2CD_M_S_RX_CMD_LAST))
  = false ->
  let r := aspeed_i2c_bus_write aic c b I2CD_INTR_STS_REG value in
  let st := Z.land (intr_status b) (not32 (Z.land value 0x7FFF)) in
  intr_status (snd r) = st
  /\ (if st =? 0
      then s_intr_status (fst r)
           = Z.land (s_intr_status c)
               (not32 (Z.shiftl 1 (Z.of_nat (id b))))
           /\ head (match bus_get_irq aic with
                    | controller_irq => s_irq (fst r)
                    | bus_irq => irq (snd r)
                    end) = Some false
      else fst r = c /\ irq (snd r) = irq b)
  /\ cmd (snd r) = cmd b /\ bus (snd r) = bus b /\ log (fst r) = log c.
Proof.
  intros H. cbv zeta. unfold aspeed_i2c_bus_write.
  change (I2CD_INTR_STS_REG =? I2CD_FUN_CTRL_REG) with false.
  change (I2CD_INTR_STS_REG =? I2CD_AC_TIMING_REG1) with false.
  change (I2CD_INTR_STS_REG =? I2CD_AC_TIMING_REG2) with false.
  change (I2CD_INTR_STS_REG =? I2CD_INTR_CTRL_REG) with false.
  change (I2CD_INTR_STS_REG =? I2CD_INTR_STS_REG) with true.
  cbv iota beta zeta. cbn [intr_status set_intr_status id].
  set (st := Z.land (intr_status b) (not32 (Z.land value 0x7FFF))).
  replace (nonzero st) with (negb (st =? 0)) by reflexivity.
  destruct (st =? 0); cbn [negb].
  - unfold drive_irq. destruct (bus_get_irq aic); cbv iota beta;
      cbn [cmd set_intr_status set_irq]; rewrite H;
      cbn [fst snd]; repeat split; reflexivity.
  - cbv iota beta. cbn [cmd set_intr_status]. rewrite H. cbn [fst snd].
    repeat split; reflexivity.
Qed.

(** *** The pool *)

Lemma pool_write_loop_spec offset value n i (c : Controller) :
  let c' := aspeed_i2c_pool_write_loop offset value n i c in
  length (pool c') = length (pool c)
  /\ (forall k, (k < n)%nat -> (offset + k < length (pool c))%nat ->
        pool c' !!! (offset + k)%nat
        = Z.land (Z.shiftr value (8 * (i + Z.of_nat k))) 0xFF)
  /\ (forall j, (j < offset \/ offset + n <= j)%nat ->
        pool c' !!! j = pool c !!! j)
  /\ s_intr_status c' = s_intr_status c /\ s_irq c' = s_irq c
  /\ log c' = log c.
Proof.
  revert offset i c. induction n as [|n IH]; intros offset i c;
    cbn [aspeed_i2c_pool_write_loop].
  - cbv zeta. repeat split; try reflexivity. intros k Hk. lia.
  - set (c1 := set_pool _ c).
    destruct (IH (S offset) (i + 1) c1) as (L & W & O & E1 & E2 & E3).
    cbv zeta. unfold c1 in L, O, W. cbn [pool set_pool] in L, O, W.
    rewrite length_insert in L, W.
    split; [exact L|]. split.
    { intros [|k] Hk Ho.
      - rewrite Nat.add_0_r, Z.add_0_r. rewrite O by lia.
        apply list_lookup_total_insert_eq. lia.
      - replace (offset + S k)%nat with (S offset + k)%nat by lia.
        rewrite W by lia. do 3 f_equal. lia. }
    split.
    { intros j Hj. rewrite O by lia.
      apply list_lookup_total_insert_ne. lia. }
    now repeat split.
Qed.

Lemma lor_above ret x i :
  0 <= i -> 0 <= ret < 2 ^ (8 * i) -> 0 <= x ->
  Z.lor ret (Z.shiftl x (8 * i)) = ret + x * 2 ^ (8 * i).
Proof.
  intros Hi Hret Hx. rewrite <- Z.shiftl_mul_pow2 by lia.
  apply lor_disjoint. apply Z.bits_inj'. intros n Hn.
  rewrite Z.land_spec, Z.bits_0.
  destruct (Z_lt_le_dec n (8 * i)) as [Hlt|Hge].
  - rewrite Z.shiftl_spec_low by lia. apply andb_false_r.
  - destruct (Z.eq_dec ret 0) as [->|Hne]; [now rewrite Z.bits_0|].
    rewrite Z.bits_above_log2; [reflexivity|lia|].
    assert (Z.log2 ret < 8 * i) by (apply Z.log2_lt_pow2; lia). lia.
Qed.

(** The read loop assembles the bytes of the pool, least significant
    first. *)
Lemma pool_read_loop_spec (c : Controller) n offset i ret :
  (forall k, (k < n)%nat -> 0 <= pool c !!! (offset + k)%nat < 256) ->
  0 <= i -> i + Z.of_nat n <= 8 -> 0 <= ret < 2 ^ (8 * i) ->
  aspeed_i2c_pool_read_loop c offset n i ret
  = ret + 2 ^ (8 * i)
          * Models.le_value
              (map (fun k => pool c !!! (offset + k)%nat) (seq 0 n)).
Proof.
  revert offset i ret. induction n as [|n IH]; intros offset i ret Hb Hi Hn Hr;
    cbn [aspeed_i2c_pool_read_loop seq map Models.le_value]; [lia|].
  pose proof (Hb 0%nat ltac:(lia)) as H0. rewrite Nat.add_0_r in *.
  assert (P : 0 < 2 ^ (8 * i)) by (apply Z.pow_pos_nonneg; lia).
  assert (Q : 2 ^ (8 * i + 8) <= 2 ^ 64) by (apply Z.pow_le_mono_r; lia).
  assert (E8 : 2 ^ (8 * i + 8) = 2 ^ (8 * i) * 256)
    by (rewrite Z.pow_add_r by lia; reflexivity).
  assert (Eb : u64 (Z.shiftl (pool c !!! offset) (8 * i))
               = Z.shiftl (pool c !!! offset) (8 * i)).
  { apply u64_small. rewrite Z.shiftl_mul_pow2 by lia. nia. }
  rewrite Eb, lor_above by lia.
  rewrite IH.
  - rewrite <- seq_shift, map_map.
    replace (8 * (i + 1)) with (8 * i + 8) by lia. rewrite E8.
    rewrite (map_ext (fun x => pool c !!! (S offset + x)%nat)
                     (fun x => pool c !!! (offset + S x)%nat))
      by (intros x; f_equal; lia).
    lia.
  - intros k Hk. replace (S offset + k)%nat with (offset + S k)%nat by lia.
    apply Hb. lia.
  - lia.
  - lia.
  - replace (8 * (i + 1)) with (8 * i + 8) by lia. nia.
Qed.

(** The bytes of a number, least significant first, give it back. *)
Lemma le_value_bytes value n i :
  0 <= i ->
  Models.le_value
    (map (fun k => Z.land (Z.shiftr value (8 * (i + Z.of_nat k))) 0xFF)
       (seq 0 n))
  = Z.shiftr value (8 * i) mod 2 ^ (8 * Z.of_nat n).
Proof.
  revert i. induction n as [|n IH]; intros i Hi;
    cbn [seq map Models.le_value].
  - change (2 ^ (8 * Z.of_nat 0)) with 1. now rewrite Z.mod_1_r.
  - rewrite <- seq_shift, map_map.
    rewrite (map_ext
               (fun x => Z.land (Z.shiftr value (8 * (i + Z.of_nat (S x)))) 255)
               (fun x => Z.land (Z.shiftr value (8 * (i + 1 + Z.of_nat x))) 255))
      by (intros x; do 3 f_equal; lia).
    rewrite IH by lia. rewrite Z.add_0_r.
    change 255 with (Z.ones 8). rewrite Z.land_ones by lia.
    change (2 ^ 8) with 256.
    replace (8 * Z.of_nat (S n)) with (8 + 8 * Z.of_nat n) by lia.
    rewrite Z.pow_add_r by lia. change (2 ^ 8) with 256.
    rewrite Z.rem_mul_r by lia.
    replace (8 * (i + 1)) with (8 * i + 8) by lia.
    rewrite <- Z.shiftr_shiftr by lia.
    rewrite (Z.shiftr_div_pow2 _ 8) by lia. reflexivity.
Qed.

(** X23: the pool reads back what was written: after a write of [size]
    bytes (at most 8; the window accepts 1 to 4) at [offset] inside the
    pool, a read of the same size there returns the low [size] bytes of
    the value; the bytes of the pool outside the range, the aggregate
    status and the log are unchanged. *)
Theorem i2c_pool_roundtrip (c : Controller) (offset size : nat) (value : Z) :
  (size <= 8)%nat -> (offset + size <= length (pool c))%nat ->
  let c' := aspeed_i2c_pool_write c offset value size in
  aspeed_i2c_pool_read c' offset size = value mod 2 ^ (8 * Z.of_nat size)
  /\ (forall j, (j < offset \/ offset + size <= j)%nat ->
        pool c' !!! j = pool c !!! j)
  /\ length (pool c') = length (pool c)
  /\ s_intr_status c' = s_intr_status c /\ log c' = log c.
Proof.
  intros Hs Ho. cbv zeta. unfold aspeed_i2c_pool_write, aspeed_i2c_pool_read.
  destruct (pool_write_loop_spec offset value size 0 c)
    as (L & W & O & E1 & _ & E3).
  split; [|now repeat split].
  rewrite pool_read_loop_spec.
  - rewrite (map_ext_in _
               (fun k => Z.land (Z.shiftr value (8 * (0 + Z.of_nat k))) 0xFF)).
    + rewrite le_value_bytes by lia. change (8 * 0) with 0.
      rewrite Z.shiftr_0_r. change (2 ^ 0) with 1. lia.
    + intros k Hk. apply in_seq in Hk. apply W; lia.
  - intros k Hk. rewrite W by lia.
    change 255 with (Z.ones 8). rewrite Z.land_ones by lia.
    apply Z.mod_pos_bound. lia.
  - lia.
  - lia.
  - change (2 ^ (8 * 0)) with 1. lia.
Qed.

(** *** The register windows *)

(** The bus windows follow each other whatever the gap. *)
Lemma bus_windows_ordered (aic : Class_) (i j : nat) :
  0 < reg_size aic -> (i < j)%nat ->
  reg_size aic <= bus_mmio_offset aic i
  /\ bus_mmio_offset aic i + reg_size aic <= bus_mmio_offset aic j.
Proof.
  intros Hr Hij. unfold bus_mmio_offset.
  destruct (Z.ltb_spec (Z.of_nat i) (gap aic));
    destruct (Z.ltb_spec (Z.of_nat j) (gap aic)); nia.
Qed.

(** X24: the register windows [aspeed_i2c_realize] maps.  On each of the
    three controllers the windows of the busses lie one after the other,
    after the first [reg_size] bytes of the controller and inside its
    0x1000 bytes, and the pool window lies inside these 0x1000 bytes too.
    The pool window comes after the window of the last bus, except on
    the AST2500, whose pool window starts at 0x100, where the window of
    bus 3 starts.  The window of bus [k] is at [reg_size * (k + 1)],
    except that on the AST2400 and the AST2500, whose gap is 7, the
    windows of the busses from 7 on are at [reg_size * (k + 5)]; on the
    AST2600 the gap, -1 stored in a [uint8_t], is 255 and no bus is
    moved. *)
Theorem i2c_bus_windows_layout (aic : Class_) (i j : nat) :
  In aic i2c_classes -> (i < j < num_busses aic)%nat ->
  reg_size aic <= bus_mmio_offset aic i
  /\ bus_mmio_offset aic i + reg_size aic <= bus_mmio_offset aic j
  /\ bus_mmio_offset aic j + reg_size aic <= 0x1000
  /\ pool_base aic + pool_size aic <= 0x1000
  /\ (if pool_base aic =? 0x100
      then bus_mmio_offset aic 3 = pool_base aic
      else bus_mmio_offset aic j + reg_size aic <= pool_base aic)
  /\ (forall k, (k < num_busses aic)%nat ->
        bus_mmio_offset aic k
        = reg_size aic
          * (Z.of_nat k
             + (if (gap aic =? 7) && (7 <=? Z.of_nat k) then 5 else 1))).
Proof.
  intros Haic Hij.
  assert (Hr : 0 < reg_size aic)
    by (destruct Haic as [<-|[<-|[<-|[]]]]; reflexivity).
  assert (Hoff : forall k, (k < num_busses aic)%nat ->
            bus_mmio_offset aic k
            = reg_size aic
              * (Z.of_nat k
                 + (if (gap aic =? 7) && (7 <=? Z.of_nat k) then 5 else 1))).
  { intros k Hk. unfold bus_mmio_offset.
    assert (Hg : gap aic = 7 \/ gap aic = 255 /\ (num_busses aic = 16)%nat)
      by (destruct Haic as [<-|[<-|[<-|[]]]]; vm_compute; auto).
    destruct Hg as [->|[-> Hn]].
    - change (7 =? 7) with true. cbn [andb].
      destruct (Z.ltb_spec (Z.of_nat k) 7), (Z.leb_spec 7 (Z.of_nat k));
        first [reflexivity | lia].
    - change (255 =? 7) with false. cbn [andb].
      destruct (Z.ltb_spec (Z.of_nat k) 255); [reflexivity|lia]. }
  destruct (bus_windows_ordered aic i j Hr ltac:(lia)) as [H1 H2].
  split; [exact H1|]. split; [exact H2|].
  clear H1 H2.
  assert (Hrest : bus_mmio_offset aic j + reg_size aic <= 0x1000
                  /\ pool_base aic + pool_size aic <= 0x1000
                  /\ (if pool_base aic =? 0x100
                      then bus_mmio_offset aic 3 = pool_base aic
                      else bus_mmio_offset aic j + reg_size aic
                           <= pool_base aic)); [|tauto].
  clear Hoff. unfold bus_mmio_offset at 1 3.
  destruct (Z.ltb_spec (Z.of_nat j) (gap aic)) as [G|G];
    destruct Haic as [<-|[<-|[<-|[]]]];
    cbn [reg_size gap pool_base pool_size num_busses aspeed_2400_i2c
         aspeed_2500_i2c aspeed_2600_i2c] in *;
    try change (u8 (-1)) with 255 in *;
    (split; [lia|]); (split; [lia|]);
    first [ exact eq_refl | cbv beta iota delta [Z.eqb Pos.eqb]; lia ].
Qed.

(** The pool page of a bus does not depend on its bus core. *)
Lemma pool_base_set_bus (aic : Class_) (b : Bus) w :
  In aic i2c_classes ->
  bus_pool_base aic (set_bus w b) = bus_pool_base aic b.
Proof. intros [<-|[<-|[<-|[]]]]; reflexivity. Qed.

End Device.

(** *** Buffer mode, on a bus with one slave *)

Section Buffer.
Local Abbreviation SBus := (@AspeedI2CBus Models.I2cSlaveBus).
Local Abbreviation SClass := (@AspeedI2CClass Models.I2cSlaveBus).
Local Abbreviation load_cmd b value :=
  (set_cmd (Z.lor (cmd (set_cmd (Z.land (cmd b) (not32 0xFFFF)) b))
                  (Z.land value 0xFFFF))
     (set_cmd (Z.land (cmd b) (not32 0xFFFF)) b)).

(** With a transfer open, the send loop hands the [n] bytes of the pool
    page to the slave, in order, and all are acknowledged. *)
Lemma send_pool_open (aic : SClass) c n i ret (b : SBus) :
  In aic i2c_classes -> Models.current (bus b) = true ->
  let r := send_pool aic c n i ret b in
  Models.written (bus (fst r))
  = Models.written (bus b)
    ++ map (fun k => pool_at aic c b (i + k)) (seq 0 n)
  /\ Models.current (bus (fst r)) = true
  /\ Models.to_read (bus (fst r)) = Models.to_read (bus b)
  /\ Models.slave_addr (bus (fst r)) = Models.slave_addr (bus b)
  /\ fst r = set_bus (bus (fst r)) b
  /\ snd r = match n with O => ret | S _ => 0 end.
Proof.
  intros Haic. revert i ret b.
  induction n as [|n IH]; intros i ret b Hcur; cbn [send_pool].
  - cbv zeta. cbn [fst snd seq map]. rewrite app_nil_r.
    repeat split; try assumption. now destruct b.
  - assert (Es : i2c_send (bus b) (pool_at aic c b i)
                 = (Models.mkI2c (Models.slave_addr (bus b))
                      (Models.to_read (bus b))
                      (Models.written (bus b) ++ [pool_at aic c b i]) true,
                    0)).
    { unfold i2c_send, Models.I2cSlaveBus_core. now rewrite Hcur. }
    rewrite Es. change (nonzero 0) with false. cbv iota.
    set (w := Models.mkI2c _ _ _ true).
    destruct (IH (S i) 0 (set_bus w b) eq_refl)
      as (W & C & T & A & F & R).
    cbv zeta. split.
    { rewrite W. cbn [bus set_bus w Models.written seq map].
      rewrite <- app_assoc. cbn [app]. rewrite Nat.add_0_r.
      do 2 f_equal. rewrite <- seq_shift, map_map. apply map_ext.
      intros k. unfold pool_at. rewrite pool_base_set_bus by exact Haic.
      f_equal. lia. }
    split; [exact C|]. split; [exact T|]. split; [exact A|].
    split; [rewrite F at 1; reflexivity|].
    rewrite R. now destruct n.
Qed.

(** X25: a TX command in buffer mode, with a transfer open to the slave.
    The [POOL_TX_COUNT] bytes of the pool page of the bus are sent to the
    slave in order; TX_ACK is raised, TX_BUFF_ENABLE and the command bits
    are consumed and the state ends at MACTIVE. *)
Theorem i2c_tx_buffer (aic : SClass) (c : Controller) (b : SBus)
    (value : Z) :
  In aic i2c_classes -> Models.current (bus b) = true ->
  Z.land value 0xFFFF = Z.lor I2CD_M_TX_CMD I2CD_TX_BUFF_ENABLE ->
  let n := Z.to_nat (I2CD_POOL_TX_COUNT (pool_ctrl b)) in
  let r := aspeed_i2c_bus_handle_cmd aic c b value in
  fst r = c
  /\ Models.written (bus (snd r))
     = Models.written (bus b)
       ++ map (fun k => pool c !!! (bus_pool_base aic b + k)%nat) (seq 0 n)
  /\ Models.current (bus (snd r)) = true
  /\ intr_status (snd r) = Z.lor (intr_status b) I2CD_INTR_TX_ACK
  /\ aspeed_i2c_get_state (snd r) = I2CD_MACTIVE
  /\ Z.land (cmd (snd r)) 0xFFFF = 0.
Proof.
  intros Haic Hcur Hv. cbv zeta. unfold aspeed_i2c_bus_handle_cmd.
  set (b0 := load_cmd b value).
  assert (Hlow : forall m, 0 <= m < 2 ^ 16 ->
            Z.land (cmd b0) m
            = Z.land (Z.lor I2CD_M_TX_CMD I2CD_TX_BUFF_ENABLE) m).
  { intros m Hm. unfold b0. rewrite load_cmd_low by exact Hm.
    rewrite <- Hv, <- Z.land_assoc. now rewrite land_low16. }
  assert (S1 : nonzero (Z.land (cmd b0) I2CD_M_START_CMD) = false)
    by (rewrite Hlow by (vm_compute; split; [discriminate|reflexivity]);
        reflexivity).
  assert (S2 : nonzero (Z.land (cmd b0) I2CD_M_TX_CMD) = true)
    by (rewrite Hlow by (vm_compute; split; [discriminate|reflexivity]);
        reflexivity).
  set (b1 := aspeed_i2c_set_state b0 I2CD_MTXD).
  set (n := Z.to_nat (I2CD_POOL_TX_COUNT (pool_ctrl b))).
  destruct (send_pool_open aic c n 0 (-1) b1 Haic Hcur)
    as (W & C & _ & _ & F & R).
  assert (Hn : n <> 0%nat).
  { unfold n, I2CD_POOL_TX_COUNT.
    pose proof (land_nonneg_bound (Z.shiftr (pool_ctrl b) 8) 0xff). lia. }
  assert (R0 : snd (send_pool aic c n 0 (-1) b1) = 0)
    by (rewrite R; destruct n; [contradiction|reflexivity]).
  assert (E : aspeed_i2c_bus_send aic c b1
              = (set_cmd (Z.land (cmd b1) (not32 I2CD_TX_BUFF_ENABLE))
                   (set_bus (bus (fst (send_pool aic c n 0 (-1) b1))) b1),
                 0)).
  { unfold aspeed_i2c_bus_send.
    assert (T : nonzero (Z.land (cmd b1) I2CD_TX_BUFF_ENABLE) = true).
    { unfold b1.
      rewrite set_state_mask by (vm_compute; split; [discriminate|reflexivity]).
      rewrite Hlow by (vm_compute; split; [discriminate|reflexivity]).
      reflexivity. }
    rewrite T. change (pool_ctrl b1) with (pool_ctrl b). fold n.
    destruct (send_pool aic c n 0 (-1) b1) as [bs rs].
    cbn [fst snd] in F, R0. rewrite R0, F. reflexivity. }
  assert (K : forall (b2 : SBus) m,
            cmd b2 = Z.land (cmd b1) (not32 I2CD_TX_BUFF_ENABLE) ->
            0 <= m < 2 ^ 16 ->
            Z.land (cmd (aspeed_i2c_set_state
                           (set_cmd (Z.land (cmd b2) (not32 I2CD_M_TX_CMD)) b2)
                           I2CD_MACTIVE)) m = 0).
  { intros b2 m H2 Hm. rewrite set_state_mask by lia. cbn [cmd set_cmd].
    rewrite H2. rewrite land_swap, (land_swap (cmd b1)).
    unfold b1. rewrite set_state_mask by lia. rewrite Hlow by lia.
    rewrite (land_swap _ m), (land_swap _ m).
    change (Z.land (Z.land (Z.lor I2CD_M_TX_CMD I2CD_TX_BUFF_ENABLE)
                      (not32 I2CD_TX_BUFF_ENABLE)) (not32 I2CD_M_TX_CMD))
      with 0.
    apply Z.land_0_l. }
  unfold handle_cmd_start. rewrite S1. cbv iota beta. cbn [negb].
  unfold handle_cmd_tx. rewrite S2. fold b1. rewrite E. cbv iota beta zeta.
  change (nonzero 0) with false. cbv iota.
  unfold handle_cmd_rx, handle_cmd_stop.
  do 2 (rewrite !K by first [reflexivity
                            | vm_compute; split; [discriminate|reflexivity]];
        cbn [nonzero Z.eqb negb andb fst snd]).
  split; [reflexivity|].
  split.
  { change (bus (aspeed_i2c_set_state ?x ?st)) with (bus x).
    cbn [bus set_cmd set_intr_status set_bus]. rewrite W.
    change (bus b1) with (bus b). f_equal. apply map_ext. intros k.
    unfold pool_at. cbn [Nat.add]. f_equal. f_equal.
    destruct Haic as [<-|[<-|[<-|[]]]]; reflexivity. }
  split; [exact C|]. split; [reflexivity|].
  split; [rewrite get_set_state; reflexivity|].
  apply K; [reflexivity|lia].
Qed.

(** With a transfer open, the receive loop stores the next [n] bytes of
    the slave in the pool page, in order. *)
Lemma recv_pool_open (aic : SClass) (bs rest : list Z) :
  In aic i2c_classes ->
  forall i c (b : SBus),
    Models.current (bus b) = true ->
    Models.to_read (bus b) = bs ++ rest ->
    let base := bus_pool_base aic b in
    let r := recv_pool aic (length bs) i c b in
    Models.to_read (bus (snd r)) = rest
    /\ Models.current (bus (snd r)) = true
    /\ Models.written (bus (snd r)) = Models.written (bus b)
    /\ snd r = set_bus (bus (snd r)) b
    /\ length (pool (fst r)) = length (pool c)
    /\ (forall k, (k < length bs)%nat ->
          (base + i + k < length (pool c))%nat ->
          pool (fst r) !!! (base + i + k)%nat = u8 (nth k bs 0))
    /\ (forall j, (j < base + i \/ base + i + length bs <= j)%nat ->
          pool (fst r) !!! j = pool c !!! j)
    /\ s_intr_status (fst r) = s_intr_status c
    /\ s_irq (fst r) = s_irq c /\ log (fst r) = log c.
Proof.
  intros Haic. induction bs as [|x bs IH]; intros i c b Hcur Hrd;
    cbn [length recv_pool].
  - cbv zeta. cbn [fst snd]. cbn [app] in Hrd.
    repeat split; try assumption; try reflexivity.
    + now destruct b.
    + intros k Hk. lia.
  - assert (Er : i2c_recv (bus b)
                 = (Models.mkI2c (Models.slave_addr (bus b)) (bs ++ rest)
                      (Models.written (bus b)) true, x)).
    { unfold i2c_recv, Models.I2cSlaveBus_core. now rewrite Hcur, Hrd. }
    rewrite Er. cbv iota.
    set (w := Models.mkI2c _ _ _ true).
    set (c1 := set_pool _ c).
    destruct (IH (S i) c1 (set_bus w b) eq_refl eq_refl)
      as (T & C & W & F & L & P & O & E1 & E2 & E3).
    rewrite pool_base_set_bus in P, O by exact Haic.
    unfold c1 in L, P, O. cbn [pool set_pool] in L, P, O.
    rewrite length_insert in L, P.
    cbv zeta. split; [exact T|]. split; [exact C|]. split; [exact W|].
    split; [rewrite F at 1; reflexivity|]. split; [exact L|].
    split.
    { intros [|k] Hk Hb.
      - rewrite Nat.add_0_r in *. rewrite O by lia. cbn [nth].
        apply list_lookup_total_insert_eq. lia.
      - replace (bus_pool_base aic b + i + S k)%nat
          with (bus_pool_base aic b + S i + k)%nat by lia.
        cbn [nth]. apply P; lia. }
    split.
    { intros j Hj. rewrite O by lia.
      apply list_lookup_total_insert_ne. lia. }
    now repeat split.
Qed.

(** X26: an RX command in buffer mode, with a transfer open to the slave
    and no RX_DONE pending.  The next [POOL_RX_SIZE] bytes of the slave
    are stored in the pool page of the bus, in order; the rest of the
    pool is unchanged.  RX_DONE is raised, the size is recorded in the top
    byte of POOL_CTRL, RX_BUFF_ENABLE and the command bits are consumed
    and the state ends at MACTIVE. *)
Theorem i2c_rx_buffer (aic : SClass) (c : Controller) (b : SBus)
    (value : Z) (bs rest : list Z) :
  In aic i2c_classes -> Models.current (bus b) = true ->
  Z.land value 0xFFFF = Z.lor I2CD_M_RX_CMD I2CD_RX_BUFF_ENABLE ->
  nonzero (Z.land (intr_status b) I2CD_INTR_RX_DONE) = false ->
  Models.to_read (bus b) = bs ++ rest ->
  length bs = Z.to_nat (I2CD_POOL_RX_SIZE (pool_ctrl b)) ->
  (bus_pool_base aic b + length bs <= length (pool c))%nat ->
  let base := bus_pool_base aic b in
  let r := aspeed_i2c_bus_handle_cmd aic c b value in
  (forall k, (k < length bs)%nat ->
     pool (fst r) !!! (base + k)%nat = u8 (nth k bs 0))
  /\ (forall j, (j < base \/ base + length bs <= j)%nat ->
        pool (fst r) !!! j = pool c !!! j)
  /\ Models.to_read (bus (snd r)) = rest
  /\ intr_status (snd r) = Z.lor (intr_status b) I2CD_INTR_RX_DONE
  /\ pool_ctrl (snd r)
     = Z.lor (Z.land (pool_ctrl b) (not32 (Z.shiftl 0xff 24)))
         (Z.shiftl (Z.land (I2CD_POOL_RX_SIZE (pool_ctrl b)) 0xff) 24)
  /\ aspeed_i2c_get_state (snd r) = I2CD_MACTIVE
  /\ Z.land (cmd (snd r)) 0xFFFF = 0
  /\ log (fst r) = log c.
Proof.
  intros Haic Hcur Hv Hnp Hrd Hlen Hfit. cbv zeta.
  unfold aspeed_i2c_bus_handle_cmd.
  set (b0 := load_cmd b value).
  assert (Hlow : forall m, 0 <= m < 2 ^ 16 ->
            Z.land (cmd b0) m
            = Z.land (Z.lor I2CD_M_RX_CMD I2CD_RX_BUFF_ENABLE) m).
  { intros m Hm. unfold b0. rewrite load_cmd_low by exact Hm.
    rewrite <- Hv, <- Z.land_assoc. now rewrite land_low16. }
  assert (S1 : nonzero (Z.land (cmd b0) I2CD_M_START_CMD) = false)
    by (rewrite Hlow by (vm_compute; split; [discriminate|reflexivity]);
        reflexivity).
  assert (S2 : nonzero (Z.land (cmd b0) I2CD_M_TX_CMD) = false)
    by (rewrite Hlow by (vm_compute; split; [discriminate|reflexivity]);
        reflexivity).
  assert (S3 : nonzero (Z.land (cmd b0)
                          (Z.lor I2CD_M_RX_CMD I2CD_M_S_RX_CMD_LAST)) = true)
    by (rewrite Hlow by (vm_compute; split; [discriminate|reflexivity]);
        reflexivity).
  set (b1 := aspeed_i2c_set_state b0 I2CD_MRXD).
  assert (T : nonzero (Z.land (cmd b1) I2CD_RX_BUFF_ENABLE) = true).
  { unfold b1.
    rewrite set_state_mask by (vm_compute; split; [discriminate|reflexivity]).
    rewrite Hlow by (vm_compute; split; [discriminate|reflexivity]).
    reflexivity. }
  assert (K : forall (b2 : SBus) m,
            cmd b2 = Z.land (cmd b1) (not32 I2CD_RX_BUFF_ENABLE) ->
            0 <= m < 2 ^ 16 ->
            Z.land (cmd (aspeed_i2c_set_state
                           (set_cmd
                              (Z.land (cmd b2)
                                 (not32 (Z.lor I2CD_M_RX_CMD
                                           I2CD_M_S_RX_CMD_LAST))) b2)
                           I2CD_MACTIVE)) m = 0).
  { intros b2 m H2 Hm. rewrite set_state_mask by lia. cbn [cmd set_cmd].
    rewrite H2. rewrite land_swap, (land_swap (cmd b1)).
    unfold b1. rewrite set_state_mask by lia. rewrite Hlow by lia.
    rewrite (land_swap _ m), (land_swap _ m).
    change (Z.land (Z.land (Z.lor I2CD_M_RX_CMD I2CD_RX_BUFF_ENABLE)
                      (not32 I2CD_RX_BUFF_ENABLE))
              (not32 (Z.lor I2CD_M_RX_CMD I2CD_M_S_RX_CMD_LAST)))
      with 0.
    apply Z.land_0_l. }
  destruct (recv_pool_open aic bs rest Haic 0 c b1 Hcur Hrd)
    as (Rd & _ & _ & F & _ & P & O & _ & _ & Lg).
  assert (Hb : bus_pool_base aic b1 = bus_pool_base aic b)
    by (destruct Haic as [<-|[<-|[<-|[]]]]; reflexivity).
  rewrite Hb in P, O.
  unfold handle_cmd_start. rewrite S1. cbv iota beta. cbn [negb].
  unfold handle_cmd_tx. rewrite S2.
  unfold handle_cmd_rx. rewrite S3.
  change (intr_status b0) with (intr_status b). rewrite Hnp.
  cbn [negb andb]. cbv iota.
  unfold aspeed_i2c_handle_rx_cmd. fold b1.
  unfold aspeed_i2c_bus_recv. rewrite T. cbv zeta.
  change (pool_ctrl b1) with (pool_ctrl b). rewrite <- Hlen.
  destruct (recv_pool aic (length bs) 0 c b1) as [c1 p].
  cbn [fst snd] in Rd, F, P, O, Lg. rewrite F. cbv iota beta.
  set (x2 := set_intr_status _ _).
  assert (X : cmd x2 = Z.land (cmd b1) (not32 I2CD_RX_BUFF_ENABLE)
              /\ Models.to_read (bus x2) = rest
              /\ intr_status x2 = Z.lor (intr_status b) I2CD_INTR_RX_DONE
              /\ pool_ctrl x2
                 = Z.lor (Z.land (pool_ctrl b) (not32 (Z.shiftl 0xff 24)))
                     (Z.shiftl
                        (Z.land (I2CD_POOL_RX_SIZE (pool_ctrl b)) 0xff) 24))
    by (repeat split; [exact Rd]).
  destruct X as (X1 & X2 & X3 & X4).
  set (y := if nonzero (Z.land (cmd x2) I2CD_M_S_RX_CMD_LAST)
            then set_bus (i2c_nack (bus x2)) x2 else x2).
  assert (Y : cmd y = Z.land (cmd b1) (not32 I2CD_RX_BUFF_ENABLE)
              /\ Models.to_read (bus y) = rest
              /\ intr_status y = Z.lor (intr_status b) I2CD_INTR_RX_DONE
              /\ pool_ctrl y
                 = Z.lor (Z.land (pool_ctrl b) (not32 (Z.shiftl 0xff 24)))
                     (Z.shiftl
                        (Z.land (I2CD_POOL_RX_SIZE (pool_ctrl b)) 0xff) 24)).
  { unfold y. destruct (nonzero (Z.land (cmd x2) I2CD_M_S_RX_CMD_LAST));
      repeat split; assumption. }
  destruct Y as (Y1 & Y2 & Y3 & Y4). clearbody y.
  unfold handle_cmd_stop.
  rewrite K by first [exact Y1
                     | vm_compute; split; [discriminate|reflexivity]].
  cbn [nonzero Z.eqb negb fst snd].
  split; [intros k Hk; specialize (P k Hk); rewrite Nat.add_0_r in P;
          apply P; lia|].
  split; [intros j Hj; apply O; lia|].
  split; [exact Y2|]. split; [exact Y3|]. split; [exact Y4|].
  split; [rewrite get_set_state; reflexivity|].
  split; [apply K; [exact Y1|lia]|exact Lg].
Qed.

End Buffer.

(** *** The scenarios *)

Import Models I2CScenarios MoreI2CScenarios.

Lemma i2c_slave_mode_never_enabled_witness :
  let b := bus_at i2c_addressed 5 in
  Z.land (ctrl b) I2CD_SLAVE_EN = 0
  /\ Z.land (ctrl b) 0x0071C3FF = ctrl b
  /\ aspeed_i2c_bus_is_enabled b = aspeed_i2c_bus_is_master b
  /\ (aspeed_i2c_bus_is_master b = false ->
      forall value,
        bus_write_at aspeed_2500_i2c i2c_addressed 5 I2CD_CMD_REG value
        = i2c_addressed).
Proof.
  apply (i2c_slave_mode_never_enabled aspeed_2500_i2c i2c_addressed 5
           (bus_at i2c_addressed 5)).
  - exact i2c_addressed_reachable.
  - by_eval.
Defined.

Lemma i2c_status_within_enables_witness :
  let b' := snd (aspeed_i2c_bus_write aspeed_2500_i2c
                   (controller i2c_addressed) (bus_at i2c_addressed 3)
                   I2CD_CMD_REG I2CD_M_TX_CMD) in
  Z.land (intr_status b') (intr_ctrl b') = intr_status b'
  /\ intr_ctrl b' = intr_ctrl (bus_at i2c_addressed 3)
  /\ ctrl b' = ctrl (bus_at i2c_addressed 3)
  /\ timing b' = timing (bus_at i2c_addressed 3).
Proof.
  apply (i2c_status_within_enables aspeed_2500_i2c
           (controller i2c_addressed) (bus_at i2c_addressed 3)
           I2CD_M_TX_CMD).
  by_eval.
Defined.

Lemma i2c_stop_command_witness :
  let b := bus_at i2c_addressed 3 in
  let r := aspeed_i2c_bus_handle_cmd aspeed_2500_i2c
             (controller i2c_addressed) b I2CD_M_STOP_CMD in
  let active := nonzero (Z.land (aspeed_i2c_get_state b) I2CD_MACTIVE) in
  aspeed_i2c_get_state (snd r) = I2CD_IDLE
  /\ Z.land (cmd (snd r)) 0xFFFF = 0
  /\ bus (snd r) = (if active then i2c_end_transfer (bus b) else bus b)
  /\ intr_status (snd r)
     = Z.lor (intr_status b)
         (if active then I2CD_INTR_NORMAL_STOP else I2CD_INTR_ABNORMAL)
  /\ log (fst r)
     = (if active then log (controller i2c_addressed)
        else (LOG_GUEST_ERROR, msg_abnormal_stop)
             :: log (controller i2c_addressed))
  /\ pool (fst r) = pool (controller i2c_addressed)
  /\ buf (snd r) = buf b.
Proof.
  apply (i2c_stop_command aspeed_2500_i2c (controller i2c_addressed)
           (bus_at i2c_addressed 3) I2CD_M_STOP_CMD).
  reflexivity.
Defined.

Lemma i2c_start_without_slave_witness :
  let c := controller i2c_absent in
  let b := bus_at i2c_absent 3 in
  let r := aspeed_i2c_bus_handle_cmd aspeed_2500_i2c c b absent_cmd in
  fst r = c /\ bus (snd r) = bus b
  /\ intr_status (snd r)
     = Z.lor (intr_status b)
         (if nonzero 1 then I2CD_INTR_TX_NAK else I2CD_INTR_TX_ACK)
  /\ Z.land (cmd (snd r)) 0xFFFF
     = Z.land (Z.land absent_cmd 0xFFFF)
         (not32 (Z.lor I2CD_M_START_CMD I2CD_M_TX_CMD))
  /\ aspeed_i2c_get_state (snd r)
     = (if nonzero (Z.land (aspeed_i2c_get_state b) I2CD_MACTIVE)
        then I2CD_MSTARTR else I2CD_MSTART)
  /\ buf (snd r) = buf b.
Proof.
  apply (i2c_start_without_slave aspeed_2500_i2c (controller i2c_absent)
           (bus_at i2c_absent 3) absent_cmd (bus (bus_at i2c_absent 3)) 1).
  - by_eval.
  - by_eval.
  - by_eval.
  - by_eval.
Defined.

Lemma i2c_tx_byte_witness :
  let c := controller i2c_addressed in
  let b := bus_at i2c_addressed 3 in
  let r := aspeed_i2c_bus_handle_cmd aspeed_2500_i2c c b I2CD_M_TX_CMD in
  fst r = c
  /\ bus (snd r)
     = (if nonzero 0 then i2c_end_transfer tx_byte_bus else tx_byte_bus)
  /\ intr_status (snd r)
     = Z.lor (intr_status b)
         (if nonzero 0 then I2CD_INTR_TX_NAK else I2CD_INTR_TX_ACK)
  /\ aspeed_i2c_get_state (snd r) = I2CD_MACTIVE
  /\ Z.land (cmd (snd r)) 0xFFFF = 0
  /\ buf (snd r) = buf b.
Proof.
  apply (i2c_tx_byte aspeed_2500_i2c (controller i2c_addressed)
           (bus_at i2c_addressed 3) I2CD_M_TX_CMD tx_byte_bus 0).
  - reflexivity.
  - by_eval.
Defined.

Lemma i2c_status_w1c_witness :
  let c := controller i2c_addressed in
  let b := bus_at i2c_addressed 3 in
  let r := aspeed_i2c_bus_write aspeed_2500_i2c c b I2CD_INTR_STS_REG
             I2CD_INTR_TX_ACK in
  let st := Z.land (intr_status b) (not32 (Z.land I2CD_INTR_TX_ACK 0x7FFF)) in
  intr_status (snd r) = st
  /\ (if st =? 0
      then s_intr_status (fst r)
           = Z.land (s_intr_status c)
               (not32 (Z.shiftl 1 (Z.of_nat (id b))))
           /\ head (match bus_get_irq (B := I2cSlaveBus) aspeed_2500_i2c with
                    | controller_irq => s_irq (fst r)
                    | bus_irq => irq (snd r)
                    end) = Some false
      else fst r = c /\ irq (snd r) = irq b)
  /\ cmd (snd r) = cmd b /\ bus (snd r) = bus b /\ log (fst r) = log c.
Proof.
  apply (i2c_status_w1c aspeed_2500_i2c (controller i2c_addressed)
           (bus_at i2c_addressed 3) I2CD_INTR_TX_ACK).
  by_eval.
Defined.

Lemma i2c_pool_roundtrip_witness :
  let c := controller i2c_2500_reset in
  let c' := aspeed_i2c_pool_write c 0x10 0xAABBCCDD 4 in
  aspeed_i2c_pool_read c' 0x10 4 = 0xAABBCCDD mod 2 ^ (8 * Z.of_nat 4)
  /\ (forall j, (j < 0x10 \/ 0x10 + 4 <= j)%nat ->
        pool c' !!! j = pool c !!! j)
  /\ length (pool c') = length (pool c)
  /\ s_intr_status c' = s_intr_status c /\ log c' = log c.
Proof.
  apply (i2c_pool_roundtrip (controller i2c_2500_reset) 0x10 4 0xAABBCCDD).
  - lia.
  - vm_compute. lia.
Defined.

Lemma i2c_bus_windows_layout_witness :
  let aic := aspeed_2600_i2c (B := I2cSlaveBus) in
  reg_size aic <= bus_mmio_offset aic 6
  /\ bus_mmio_offset aic 6 + reg_size aic <= bus_mmio_offset aic 7
  /\ bus_mmio_offset aic 7 + reg_size aic <= 0x1000
  /\ pool_base aic + pool_size aic <= 0x1000
  /\ (if pool_base aic =? 0x100
      then bus_mmio_offset aic 3 = pool_base aic
      else bus_mmio_offset aic 7 + reg_size aic <= pool_base aic)
  /\ (forall k, (k < num_busses aic)%nat ->
        bus_mmio_offset aic k
        = reg_size aic
          * (Z.of_nat k
             + (if (gap aic =? 7) && (7 <=? Z.of_nat k) then 5 else 1))).
Proof.
  apply (i2c_bus_windows_layout (aspeed_2600_i2c (B := I2cSlaveBus)) 6 7).
  - do 2 right; left; reflexivity.
  - cbn. lia.
Defined.

Lemma i2c_tx_buffer_witness :
  let aic := aspeed_2500_i2c in
  let c := controller tx_buffer_state in
  let b := bus_at tx_buffer_state 3 in
  let n := Z.to_nat (I2CD_POOL_TX_COUNT (pool_ctrl b)) in
  let r := aspeed_i2c_bus_handle_cmd aic c b tx_buffer_cmd in
  fst r = c
  /\ Models.written (bus (snd r))
     = Models.written (bus b)
       ++ map (fun k => pool c !!! (bus_pool_base aic b + k)%nat) (seq 0 n)
  /\ Models.current (bus (snd r)) = true
  /\ intr_status (snd r) = Z.lor (intr_status b) I2CD_INTR_TX_ACK
  /\ aspeed_i2c_get_state (snd r) = I2CD_MACTIVE
  /\ Z.land (cmd (snd r)) 0xFFFF = 0.
Proof.
  apply (i2c_tx_buffer aspeed_2500_i2c (controller tx_buffer_state)
           (bus_at tx_buffer_state 3) tx_buffer_cmd).
  - right; left; reflexivity.
  - by_eval.
  - reflexivity.
Defined.

Lemma i2c_rx_buffer_witness :
  let aic := aspeed_2500_i2c in
  let c := controller rx_buffer_state in
  let b := bus_at rx_buffer_state 3 in
  let base := bus_pool_base aic b in
  let r := aspeed_i2c_bus_handle_cmd aic c b rx_buffer_cmd in
  (forall k, (k < length [0xDE; 0xAD])%nat ->
     pool (fst r) !!! (base + k)%nat = u8 (nth k [0xDE; 0xAD] 0))
  /\ (forall j, (j < base \/ base + length [0xDE; 0xAD] <= j)%nat ->
        pool (fst r) !!! j = pool c !!! j)
  /\ Models.to_read (bus (snd r)) = []
  /\ intr_status (snd r) = Z.lor (intr_status b) I2CD_INTR_RX_DONE
  /\ pool_ctrl (snd r)
     = Z.lor (Z.land (pool_ctrl b) (not32 (Z.shiftl 0xff 24)))
         (Z.shiftl (Z.land (I2CD_POOL_RX_SIZE (pool_ctrl b)) 0xff) 24)
  /\ aspeed_i2c_get_state (snd r) = I2CD_MACTIVE
  /\ Z.land (cmd (snd r)) 0xFFFF = 0
  /\ log (fst r) = log c.
Proof.
  apply (i2c_rx_buffer aspeed_2500_i2c (controller rx_buffer_state)
           (bus_at rx_buffer_state 3) rx_buffer_cmd [0xDE; 0xAD] []).
  - right; left; reflexivity.
  - by_eval.
  - reflexivity.
  - by_eval.
  - by_eval.
  - by_eval.
  - vm_compute. lia.
Defined.

End I2CMore.
